(** * Order-hierarchy execution and fill propagation (TimelordUK/sql-cli)

    A shallow embedding of the VWAP generators and trading simulators
    under [data/] and [scripts/], and the properties of the order
    hierarchy (client order, algo parent, slice, route) stated about them.

    Conventions of the embedding.
    - Python [int] is [Z]; [//] and [%] are [Z.div] and [Z.modulo], which
      round like Python's for either sign of the divisor.
    - Python [float] is the kernel's binary64 type [float]; sums, products,
      quotients and comparisons are the primitive IEEE-754 operations.
      Where a property ranges over all quantities or all draws
      ([int(total * pct)], [random.random() < p]) the operation is
      written out on dyadic numbers and compared with the primitive on
      examples.
    - An int that meets a float ([z * x], [x / z], [a / b]) is converted
      by [Py.float_of_int].  Python converts exactly up to [2^53]
      ([Py.exact_int]), rounds beyond, and raises [OverflowError] from
      [2^1024]; a property of a run that converts a quantity is stated
      for quantities that convert exactly.
    - An order is a Python [dict]; the keys the generators read or write
      are the fields of the record [order].  A dict that is mutated in
      place is threaded through the functions explicitly, and every
      snapshot stores the copy that [order.copy()] / [copy.deepcopy]
      takes at that moment.
    - Calls to [random] are the fields of an injected random source, so
      every function below is a pure function of its draws.
    - Timestamps, printing and file export are left out: no property
      stated here reads them. *)

From Stdlib Require Import ZArith Floats Lia Bool.
From stdpp Require Import gmap strings list pretty.

#[local] Set Warnings "-inexact-float".
#[local] Open Scope Z_scope.

(** ** Python numbers *)

Module Py.

(** The ints that binary64 holds exactly: all those of at most 53 bits.
    On them [float(z)] is [z] itself, and so is the conversion that
    [z * x], [x / z] and [a / b] make before they compute.  CPython
    rounds a larger int to the nearest float and raises [OverflowError]
    for one that rounds to [2^1024]; and [a / b] on two ints is then the
    quotient rounded once, not the quotient of the two rounded ints.
    The functions below are written for this range: a property of a run
    that converts a quantity is stated for quantities [exact_int]. *)
Definition exact_int (z : Z) : Prop := Z.abs z <= 2 ^ 53.

(** [float(z)] for [exact_int z]: the integer as a binary64 number.
    (Past the range it is the nearest binary64 number, and an infinity
    from [2^1024 - 2^970] on, where CPython raises [OverflowError].) *)
Definition float_of_int (z : Z) : float :=
  SF2Prim (binary_normalize prec emax z 0 false).

(** [a / b] on two ints (true division), for [exact_int a] and
    [exact_int b]. *)
Definition truediv (a b : Z) : float :=
  (float_of_int a / float_of_int b)%float.

(** [n / d] rounded to the nearest integer, ties to the even one
    ([d > 0]). *)
Definition round_half_even (n d : Z) : Z :=
  let q := n / d in
  let r := n mod d in
  if 2 * r <? d then q
  else if d <? 2 * r then q + 1
  else if Z.even q then q else q + 1.

(** A finite binary64 number as the dyadic [mant * 2 ^ expo]. *)
Record dyadic := Dyadic { mant : Z; expo : Z }.

Definition dyadic_of_float (x : float) : option dyadic :=
  match Prim2SF x with
  | S754_zero _ => Some (Dyadic 0 0)
  | S754_finite s m e => Some (Dyadic (if s then Z.neg m else Z.pos m) e)
  | _ => None
  end.

(** Rounding of a dyadic to 53 significant bits, nearest-even: what
    every binary64 operation does to its exact result (the exponent
    range is not bounded here). *)
Definition round53 (d : dyadic) : dyadic :=
  let a := Z.abs (mant d) in
  let s := Z.log2 a - 52 in
  if s <=? 0 then d
  else Dyadic (Z.sgn (mant d) * round_half_even a (2 ^ s)) (expo d + s).

Definition dyadic_of_int (z : Z) : dyadic := round53 (Dyadic z 0).

Definition dyadic_mul (x y : dyadic) : dyadic :=
  round53 (Dyadic (mant x * mant y) (expo x + expo y)).

(** [int(x)]: truncation toward zero. *)
Definition int_of_dyadic (d : dyadic) : Z :=
  if 0 <=? expo d then mant d * 2 ^ expo d
  else Z.quot (mant d) (2 ^ (- expo d)).

(** [int(z * x)] for an int [z] and a float [x]: [z] is converted,
    the product is rounded, the result is truncated.  The exponent is
    not bounded, so this is CPython's value as long as [z] converts:
    for [exact_int z], and on to [2^1024 - 2^970], from where CPython
    raises [OverflowError]. *)
Definition int_mul (z : Z) (x : float) : Z :=
  match dyadic_of_float x with
  | Some d => int_of_dyadic (dyadic_mul (dyadic_of_int z) d)
  | None => 0
  end.

(** The same value computed by the primitive multiplication. *)
Definition int_mul_prim (z : Z) (x : float) : Z :=
  match dyadic_of_float (float_of_int z * x)%float with
  | Some d => int_of_dyadic d
  | None => 0
  end.

(** [round(x, 4)]: the decimal with four places nearest to [x] (ties
    to even), as the nearest binary64 number. *)
Definition round4 (x : float) : float :=
  match dyadic_of_float x with
  | Some d =>
      let n :=
        if 0 <=? expo d then mant d * 2 ^ expo d * 10000
        else Z.sgn (mant d)
             * round_half_even (Z.abs (mant d) * 10000) (2 ^ (- expo d)) in
      truediv n 10000
  | None => x
  end.

(** The built-in [sum] over floats, started at [0]. *)
Definition fsum (l : list float) : float :=
  fold_left (fun acc x => (acc + x)%float) l 0%float.

Definition zsum (l : list Z) : Z := fold_left Z.add l 0.

(** [random.random()] returns [k / 2^53] for an integer [0 <= k < 2^53].
    A draw is carried as its numerator [k]; [draw_lt k x] is the
    comparison [k / 2^53 < x] with a finite float [x], which binary64
    decides exactly. *)
Definition is_draw (k : Z) : Prop := 0 <= k < 2 ^ 53.

Definition draw_lt (k : Z) (x : float) : bool :=
  match dyadic_of_float x with
  | Some d =>
      if 0 <=? expo d then k <? mant d * 2 ^ expo d * 2 ^ 53
      else k * 2 ^ (- expo d) <? mant d * 2 ^ 53
  | None => false
  end.

(** The draw as the float the generator sees, and the primitive
    comparison. *)
Definition float_of_draw (k : Z) : float :=
  (float_of_int k / float_of_int (2 ^ 53))%float.

Definition draw_lt_prim (k : Z) (x : float) : bool :=
  (float_of_draw k <? x)%float.

(** [f'{n:0{w}d}'] for [n >= 0]. *)
Fixpoint zeros (n : nat) : string :=
  match n with O => "" | S n' => "0" +:+ zeros n' end.

Definition zfill (w : nat) (n : Z) : string :=
  zeros (w - String.length (pretty n)) +:+ pretty n.

End Py.

(** ** Orders and snapshots *)

(** [Urgency] (an [Enum] with string values, the same in every generator
    that has it). *)
Inductive Urgency := PASSIVE | NORMAL | URGENT | CRITICAL.

Definition Urgency_value (u : Urgency) : string :=
  match u with
  | PASSIVE => "PASSIVE" | NORMAL => "NORMAL"
  | URGENT => "URGENT" | CRITICAL => "CRITICAL"
  end.

(** [VenueResult] (an [Enum] with string values). *)
Inductive VenueResult := FILLED | PARTIAL | FADE | REJECT | NO_CONN.

Definition VenueResult_value (r : VenueResult) : string :=
  match r with
  | FILLED => "FILLED" | PARTIAL => "PARTIAL" | FADE => "FADE"
  | REJECT => "REJECT" | NO_CONN => "NO_CONNECTION"
  end.

(** The draws of one run of a generator, indexed by the loop counters of
    the call site ([hour], slice within the hour, [route_num]). *)
Record random_source := RandomSource {
  randint : Z -> Z -> Z -> Z -> Z;
    (* hour, slice, a, b: random.randint(a, b) for the slice size *)
  market_move : Z -> Z -> float;
    (* hour, slice: random.uniform(-0.1, 0.1) *)
  outcome_rand : Z -> Z -> Z -> Z;
    (* hour, slice, route: numerator of outcome_rand = random.random() *)
  reject_rand : Z -> Z -> Z -> Z;
    (* hour, slice, route: numerator of the draw that splits the 2% *)
  uniform : Z -> Z -> Z -> float -> float -> float
    (* hour, slice, route, a, b: random.uniform(a, b) for the fill price *)
}.

(** What [random] guarantees about the draws. *)
Definition well_formed (rs : random_source) : Prop :=
  (forall h s a b, a <= b -> a <= randint rs h s a b <= b)
  /\ (forall h s r, Py.is_draw (outcome_rand rs h s r))
  /\ (forall h s r, Py.is_draw (reject_rand rs h s r)).

(** The counters both VWAP generators keep in [stats]. *)
Record stats := Stats {
  total_slices : Z;
  total_routes : Z;
  fade_count : Z;
  partial_count : Z;
  reject_count : Z
}.

Definition bump_outcome (r : VenueResult) (st : stats) : stats :=
  match r with
  | FADE => Stats (total_slices st) (total_routes st) (fade_count st + 1)
                  (partial_count st) (reject_count st)
  | PARTIAL => Stats (total_slices st) (total_routes st) (fade_count st)
                     (partial_count st + 1) (reject_count st)
  | REJECT | NO_CONN =>
      Stats (total_slices st) (total_routes st) (fade_count st)
            (partial_count st) (reject_count st + 1)
  | FILLED => st
  end.

Definition bump_routes (st : stats) : stats :=
  Stats (total_slices st) (total_routes st + 1) (fade_count st)
        (partial_count st) (reject_count st).

Definition bump_slices (st : stats) : stats :=
  Stats (total_slices st + 1) (total_routes st) (fade_count st)
        (partial_count st) (reject_count st).

Definition venues : list string := ["NYSE"; "NASDAQ"; "ARCA"; "BATS"; "DARK"].

(** The order dict.  [order_level] is 0 for the client order, 1 for the
    algo parent, 2 for a slice and 3 for a route.  Keys that are written
    once and never read again (ticker, client name, desk, ...) are not
    carried. *)
Record order := Order {
  order_id : string;
  parent_order_id : option string;
  order_level : Z;
  side : string;
  quantity : Z;
  filled_quantity : Z;
  remaining_quantity : Z;
  average_price : float;
  state : string;
  urgency : option string;
  venue : option string
}.

Definition set_filled_quantity (v : Z) (o : order) : order :=
  Order (order_id o) (parent_order_id o) (order_level o) (side o) (quantity o)
        v (remaining_quantity o) (average_price o) (state o) (urgency o)
        (venue o).

Definition set_remaining_quantity (v : Z) (o : order) : order :=
  Order (order_id o) (parent_order_id o) (order_level o) (side o) (quantity o)
        (filled_quantity o) v (average_price o) (state o) (urgency o)
        (venue o).

Definition set_average_price (v : float) (o : order) : order :=
  Order (order_id o) (parent_order_id o) (order_level o) (side o) (quantity o)
        (filled_quantity o) (remaining_quantity o) v (state o) (urgency o)
        (venue o).

Definition set_state (v : string) (o : order) : order :=
  Order (order_id o) (parent_order_id o) (order_level o) (side o) (quantity o)
        (filled_quantity o) (remaining_quantity o) (average_price o) v
        (urgency o) (venue o).

Definition set_urgency (v : option string) (o : order) : order :=
  Order (order_id o) (parent_order_id o) (order_level o) (side o) (quantity o)
        (filled_quantity o) (remaining_quantity o) (average_price o) (state o)
        v (venue o).

(** A fresh order dict as every generator builds it: nothing filled,
    everything remaining, average price [0.0]. *)
Definition new_order (id : string) (parent : option string) (level : Z)
    (qty : Z) (st : string) (urg venue : option string) : order :=
  Order id parent level "Buy" qty 0 qty 0%float st urg venue.

(** One row of the tick database: the copy of the order taken when the
    row was appended, and the keys added to the copy. *)
Record snapshot := Snapshot {
  snap_order : order;
  event_type : string;
  record_id : option Z;
  market_price : option float
}.

(** The accounting invariant of an order. *)
Definition conserved (o : order) : Prop :=
  filled_quantity o + remaining_quantity o = quantity o.

(** The four keys a client order takes over from its algo parent. *)
Definition mirrors (client parent : order) : Prop :=
  filled_quantity client = filled_quantity parent
  /\ remaining_quantity client = remaining_quantity parent
  /\ average_price client = average_price parent
  /\ state client = state parent.

(** The [filled_quantity] column of the rows with [order_level = 0]. *)
Definition client_fills (log : list snapshot) : list Z :=
  map (fun s => filled_quantity (snap_order s))
      (filter (fun s => order_level (snap_order s) = 0) log).

(** A sequence that never decreases. *)
Fixpoint nondecreasing (l : list Z) : Prop :=
  match l with
  | [] => True
  | x :: l' => match l' with [] => True | y :: _ => x <= y end
               /\ nondecreasing l'
  end.

(** ** Loops with [break] *)

Inductive loop_step (S : Type) := Next (s : S) | Break (s : S).
Arguments Next {S} s.
Arguments Break {S} s.

(** [for i in idxs: body], where the body either falls through to the
    next iteration ([Next], also the result of [continue]) or leaves the
    loop ([Break]). *)
Fixpoint for_each {I S : Type} (body : I -> S -> loop_step S)
    (idxs : list I) (s : S) : S :=
  match idxs with
  | [] => s
  | i :: rest =>
      match body i s with
      | Next s' => for_each body rest s'
      | Break s' => s'
      end
  end.

(** The state a loop body leaves behind. *)
Definition after {S : Type} (r : loop_step S) : S :=
  match r with Next s | Break s => s end.

(** [range(n)]; empty when [n <= 0]. *)
Definition range (n : Z) : list Z := map Z.of_nat (seq 0 (Z.to_nat n)).

(** [enumerate(l, start)] *)
Fixpoint enumerate_from {A} (start : Z) (l : list A) : list (Z * A) :=
  match l with
  | [] => []
  | x :: l' => (start, x) :: enumerate_from (start + 1) l'
  end.

Definition enumerate {A} (l : list A) : list (Z * A) := enumerate_from 0 l.

(** ** data/generate_production_vwap.py *)

Module ProductionVWAP.

(** The intraday volume curve of [calculate_vwap_schedule]. *)
Definition participation : list float :=
  [0.15; 0.10; 0.08; 0.07; 0.08; 0.10; 0.12; 0.30]%float.

(** The same curve in thousandths, as the decimal literals read. *)
Definition participation_permille : list Z :=
  [150; 100; 80; 70; 80; 100; 120; 300].

(** [l[:n]] *)
Definition slice_to {A} (n : Z) (l : list A) : list A :=
  if 0 <=? n then take (Z.to_nat n) l
  else take (length l - Z.to_nat (- n)) l.

(** [calculate_vwap_schedule(total_quantity, hours)]; [None] is the
    [IndexError] of [schedule[-1]] on an empty schedule. *)
Definition calculate_vwap_schedule (total_quantity hours : Z)
    : option (list Z) :=
  let schedule :=
    map (fun pct => Py.int_mul total_quantity pct)
        (slice_to hours participation) in
  match schedule with
  | [] => None
  | _ :: _ =>
      Some (removelast schedule
              ++ [total_quantity - Py.zsum (removelast schedule)])
  end.

(** The state of a [ProductionVWAPSimulator]. *)
Record simulator := Simulator {
  sim_quantity : Z;
  schedule : list Z;
  snapshots : list snapshot;
  sim_record_id : Z;
  total_filled : Z;
  total_value : float;
  sim_market_price : float
}.

(** [add_snapshot(order, event_type, timestamp, urgency)] *)
Definition add_snapshot (o : order) (ev : string) (u : option Urgency)
    (s : simulator) : simulator :=
  let copy :=
    match u with
    | Some u => set_urgency (Some (Urgency_value u)) o
    | None => o
    end in
  Simulator (sim_quantity s) (schedule s)
    (snapshots s ++ [Snapshot copy ev (Some (sim_record_id s))
                     (Some (sim_market_price s))])
    (sim_record_id s + 1) (total_filled s) (total_value s)
    (sim_market_price s).

(** The expected cumulative quantity [sum(self.schedule[:hour+1])]. *)
Definition expected_cumulative (sched : list Z) (hour : Z) : Z :=
  Py.zsum (slice_to (hour + 1) sched).

(** [calculate_urgency(hour, filled)]: the urgency and the shortfall. *)
Definition calculate_urgency (s : simulator) (hour filled : Z)
    : Urgency * Z :=
  let expected := expected_cumulative (schedule s) hour in
  let participation_rate :=
    if 0 <? expected then (Py.truediv filled expected * 100)%float
    else 100%float in
  let urgency :=
    if (95 <=? participation_rate)%float then PASSIVE
    else if (85 <=? participation_rate)%float then NORMAL
    else if (70 <=? participation_rate)%float then URGENT
    else CRITICAL in
  (urgency, expected - filled).

(** [update_parent_orders(algo_parent, client_order, timestamp,
    urgency)]: the two dicts are updated in place and returned here
    next to the simulator. *)
Definition update_parent_orders (algo_parent client_order : order)
    (u : Urgency) (s : simulator) : simulator * order * order :=
  let algo_parent := set_filled_quantity (total_filled s) algo_parent in
  let algo_parent :=
    set_remaining_quantity (sim_quantity s - total_filled s) algo_parent in
  let algo_parent :=
    set_average_price
      (if 0 <? total_filled s
       then (total_value s / Py.float_of_int (total_filled s))%float
       else 0%float) algo_parent in
  let algo_parent :=
    set_state (if sim_quantity s <=? total_filled s
               then "FILLED" else "WORKING") algo_parent in
  let s := add_snapshot algo_parent "ALGO_UPDATE" (Some u) s in
  let client_order := set_filled_quantity (total_filled s) client_order in
  let client_order :=
    set_remaining_quantity (sim_quantity s - total_filled s) client_order in
  let client_order :=
    set_average_price (average_price algo_parent) client_order in
  let client_order := set_state (state algo_parent) client_order in
  let s := add_snapshot client_order "CLIENT_UPDATE" None s in
  (s, algo_parent, client_order).

End ProductionVWAP.


(** ** data/generate_production_vwap_fixed.py *)

Module ProductionVWAPFixed.

(** The attributes of a [ProductionVWAPGenerator] once [generate] has
    created the client order and the algo parent. *)
Record generator := Generator {
  order_size : Z;
  avg_slice_size : Z;
  detail_level : string;
  snapshots : list snapshot;
  gen_record_id : Z;
  total_filled : Z;
  total_value : float;
  client_order : order;
  algo_parent : order;
  gen_market_price : float;
  gen_stats : stats
}.

Definition set_totals (tf : Z) (tv : float) (g : generator) : generator :=
  Generator (order_size g) (avg_slice_size g) (detail_level g) (snapshots g)
    (gen_record_id g) tf tv (client_order g) (algo_parent g)
    (gen_market_price g) (gen_stats g).

Definition set_client_order (o : order) (g : generator) : generator :=
  Generator (order_size g) (avg_slice_size g) (detail_level g) (snapshots g)
    (gen_record_id g) (total_filled g) (total_value g) o (algo_parent g)
    (gen_market_price g) (gen_stats g).

Definition set_algo_parent (o : order) (g : generator) : generator :=
  Generator (order_size g) (avg_slice_size g) (detail_level g) (snapshots g)
    (gen_record_id g) (total_filled g) (total_value g) (client_order g) o
    (gen_market_price g) (gen_stats g).

Definition set_market_price (p : float) (g : generator) : generator :=
  Generator (order_size g) (avg_slice_size g) (detail_level g) (snapshots g)
    (gen_record_id g) (total_filled g) (total_value g) (client_order g)
    (algo_parent g) p (gen_stats g).

Definition set_stats (st : stats) (g : generator) : generator :=
  Generator (order_size g) (avg_slice_size g) (detail_level g) (snapshots g)
    (gen_record_id g) (total_filled g) (total_value g) (client_order g)
    (algo_parent g) (gen_market_price g) st.

(** [add_snapshot(order, event_type, timestamp)] *)
Definition add_snapshot (o : order) (ev : string) (g : generator)
    : generator :=
  Generator (order_size g) (avg_slice_size g) (detail_level g)
    (snapshots g ++ [Snapshot o ev (Some (gen_record_id g))
                     (Some (gen_market_price g))])
    (gen_record_id g + 1) (total_filled g) (total_value g) (client_order g)
    (algo_parent g) (gen_market_price g) (gen_stats g).

(** [propagate_fill_up_chain(slice_filled, slice_value, slice_order,
    timestamp, urgency)].  The slice dict is the caller's; it is returned
    next to the generator.  The key [participation_pct] of the algo
    parent is not carried. *)
Definition propagate_fill_up_chain (slice_filled : Z) (slice_value : float)
    (slice_order : order) (u : Urgency) (g : generator)
    : generator * order :=
  if slice_filled =? 0 then (g, slice_order)
  else
    (* running totals *)
    let g := set_totals (total_filled g + slice_filled)
                        (total_value g + slice_value)%float g in
    (* 1. the slice *)
    let slice_order :=
      set_filled_quantity (filled_quantity slice_order + slice_filled)
                          slice_order in
    let slice_order :=
      set_remaining_quantity
        (quantity slice_order - filled_quantity slice_order) slice_order in
    let slice_order :=
      if 0 <? filled_quantity slice_order
      then set_average_price
             (slice_value / Py.float_of_int slice_filled)%float slice_order
      else slice_order in
    let slice_order :=
      set_state (if quantity slice_order <=? filled_quantity slice_order
                 then "FILLED" else "PARTIAL") slice_order in
    let g := add_snapshot slice_order "SLICE_UPDATE" g in
    (* 2. the algo parent *)
    let ap := algo_parent g in
    let ap := set_filled_quantity (total_filled g) ap in
    let ap := set_remaining_quantity (order_size g - total_filled g) ap in
    let ap :=
      if 0 <? total_filled g
      then set_average_price
             (total_value g / Py.float_of_int (total_filled g))%float ap
      else ap in
    let ap := set_state (if order_size g <=? total_filled g
                         then "FILLED" else "WORKING") ap in
    let ap := set_urgency (Some (Urgency_value u)) ap in
    let g := set_algo_parent ap g in
    let g := add_snapshot (algo_parent g) "ALGO_UPDATE" g in
    (* 3. the client order *)
    let co := client_order g in
    let co := set_filled_quantity (total_filled g) co in
    let co := set_remaining_quantity (order_size g - total_filled g) co in
    let co := set_average_price (average_price (algo_parent g)) co in
    let co := set_state (state (algo_parent g)) co in
    let g := set_client_order co g in
    let g := add_snapshot (client_order g) "CLIENT_UPDATE" g in
    (g, slice_order).

(** The urgency [generate] assigns at the start of an hour. *)
Definition hour_urgency (order_size total_filled hour : Z) : Urgency :=
  let expected := (order_size / 7) * (hour + 1) in
  let participation_rate :=
    if 0 <? expected then (Py.truediv total_filled expected * 100)%float
    else 0%float in
  if (participation_rate <? 70)%float then CRITICAL
  else if (participation_rate <? 85)%float then URGENT
  else if (participation_rate <? 95)%float then NORMAL
  else PASSIVE.

(** The outcome of one route: result, filled quantity and fill price,
    decided by [outcome_rand] (and a second draw inside the 2%). *)
Definition venue_outcome (rs : random_source) (u : Urgency)
    (market : float) (hour sl route route_size : Z)
    : VenueResult * Z * float :=
  let k := outcome_rand rs hour sl route in
  if Py.draw_lt k 0.05 then (FADE, 0, 0%float)
  else if Py.draw_lt k 0.15 then
    (PARTIAL, route_size / 2,
     (market + uniform rs hour sl route (-0.01) 0.02)%float)
  else if Py.draw_lt k 0.17 then
    (if Py.draw_lt (reject_rand rs hour sl route) 0.5
     then REJECT else NO_CONN, 0, 0%float)
  else
    (FILLED, route_size,
     match u with
     | CRITICAL => (market + uniform rs hour sl route 0.02 0.04)%float
     | URGENT => (market + uniform rs hour sl route 0.01 0.02)%float
     | _ => (market + uniform rs hour sl route (-0.01) 0.01)%float
     end).

(** The route dict built for one venue attempt. *)
Definition sor_order (sor_counter : Z) (slice_order : order) (u : Urgency)
    (route_num route_size : Z) (result : VenueResult) (filled_qty : Z)
    (fill_price : float) : order :=
  Order ("SOR_" +:+ Py.zfill 6 sor_counter) (Some (order_id slice_order)) 3
        "Buy" route_size filled_qty (route_size - filled_qty)
        (if 0 <? filled_qty then fill_price else 0%float)
        (VenueResult_value result) (Some (Urgency_value u))
        (venues !! Z.to_nat (route_num mod 5)).

(** The variables the route loop carries. *)
Record route_state := RouteState {
  rt_gen : generator;
  rt_slice : order;
  slice_filled : Z;
  slice_value : float;
  rt_sor_counter : Z
}.

(** One iteration of [for route_num in range(num_routes)]. *)
Definition route_body (rs : random_source) (u : Urgency) (hour sl : Z)
    (slice_size num_routes : Z) (route_num : Z) (st : route_state)
    : loop_step route_state :=
  if slice_size <=? slice_filled st then Break st
  else
    let route_size :=
      Z.min ((slice_size - slice_filled st) / (num_routes - route_num))
            (slice_size - slice_filled st) in
    if route_size <=? 0 then Next st
    else
      let g := rt_gen st in
      let '(result, filled_qty, fill_price) :=
        venue_outcome rs u (gen_market_price g) hour sl route_num
                      route_size in
      let g := set_stats (bump_outcome result (gen_stats g)) g in
      let g :=
        if String.eqb (detail_level g) "full"
        then add_snapshot
               (sor_order (rt_sor_counter st) (rt_slice st) u route_num
                          route_size result filled_qty fill_price)
               ("VENUE_" +:+ VenueResult_value result) g
        else g in
      let g := set_stats (bump_routes (gen_stats g)) g in
      let sor_counter := rt_sor_counter st + 1 in
      if 0 <? filled_qty then
        let value := (Py.float_of_int filled_qty * fill_price)%float in
        let sf := slice_filled st + filled_qty in
        let sv := (slice_value st + value)%float in
        if negb (String.eqb (detail_level g) "none") then
          let '(g, so) :=
            propagate_fill_up_chain filled_qty value (rt_slice st) u g in
          Next (RouteState g so sf sv sor_counter)
        else Next (RouteState g (rt_slice st) sf sv sor_counter)
      else Next (RouteState g (rt_slice st) (slice_filled st)
                            (slice_value st) sor_counter).

(** The variables the slice loop and the hour loop carry. *)
Record slice_state := SliceState {
  sl_gen : generator;
  slice_counter : Z;
  sl_sor_counter : Z
}.

(** One iteration of [for slice_in_hour in range(hour_slices)]. *)
Definition slice_body (rs : random_source) (u : Urgency) (hour : Z)
    (sl : Z) (st : slice_state) : loop_step slice_state :=
  let g := sl_gen st in
  if order_size g <=? total_filled g then Break st
  else
    let g := set_market_price
               (gen_market_price g + market_move rs hour sl)%float g in
    let avg := avg_slice_size g in
    let slice_size :=
      match u with
      | CRITICAL => randint rs hour sl (avg * 2) (avg * 4)
      | URGENT => randint rs hour sl avg (avg * 2)
      | _ => randint rs hour sl (avg / 2) avg
      end in
    let slice_size := Z.min slice_size (order_size g - total_filled g) in
    let slice_order :=
      new_order ("SLICE_" +:+ Py.zfill 5 (slice_counter st))
                (Some "ALGO_001") 2 slice_size "PENDING"
                (Some (Urgency_value u)) None in
    let g :=
      if String.eqb (detail_level g) "full"
         || String.eqb (detail_level g) "summary"
      then add_snapshot slice_order "NEW" g else g in
    let g := set_stats (bump_slices (gen_stats g)) g in
    let num_routes :=
      match u with CRITICAL | URGENT => 3 | _ => 2 end in
    let r :=
      for_each (route_body rs u hour sl slice_size num_routes)
               (range num_routes)
               (RouteState g slice_order 0 0%float (sl_sor_counter st)) in
    Next (SliceState (rt_gen r) (slice_counter st + 1) (rt_sor_counter r)).

(** One iteration of [for hour in range(hours)]. *)
Definition hour_body (rs : random_source) (hour : Z) (st : slice_state)
    : loop_step slice_state :=
  let g := sl_gen st in
  if order_size g <=? total_filled g then Break st
  else
    let u := hour_urgency (order_size g) (total_filled g) hour in
    let num_slices := order_size g / avg_slice_size g in
    let slices_per_hour := num_slices / 7 in
    let hour_slices := Z.min slices_per_hour 50 in
    Next (for_each (slice_body rs u hour) (range hour_slices) st).

(** The generator as [generate] has it after the three opening
    snapshots (client [NEW], client [ACCEPTED], algo parent [NEW]). *)
Definition opened (order_size avg_slice_size : Z) (detail_level : string)
    : generator :=
  let co := new_order "CLIENT_001" None 0 order_size "PENDING" None None in
  let g := Generator order_size avg_slice_size detail_level [] 0 0 0%float
             co co 650%float (Stats 0 0 0 0 0) in
  let g := add_snapshot co "NEW" g in
  let g := set_client_order (set_state "ACCEPTED" (client_order g)) g in
  let g := add_snapshot (client_order g) "ACCEPTED" g in
  let ap := new_order "ALGO_001" (Some "CLIENT_001") 1 order_size "WORKING"
                      None None in
  let g := set_algo_parent ap g in
  add_snapshot ap "NEW" g.

(** The closing update of [generate]. *)
Definition completed (g : generator) : generator :=
  if order_size g <=? total_filled g then
    let g := set_client_order (set_state "FILLED" (client_order g)) g in
    let g := set_algo_parent (set_state "FILLED" (algo_parent g)) g in
    let g := add_snapshot (algo_parent g) "COMPLETED" g in
    add_snapshot (client_order g) "COMPLETED" g
  else g.

(** [ProductionVWAPGenerator(order_size, avg_slice_size,
    detail_level).generate()].  [None] is a [ZeroDivisionError]: of
    [order_size // avg_slice_size] at the start, or of
    [total_filled / order_size] in the closing summary. *)
Definition generate (rs : random_source) (order_size avg_slice_size : Z)
    (detail_level : string) : option generator :=
  if (avg_slice_size =? 0) || (order_size =? 0) then None
  else
    let st :=
      for_each (hour_body rs) (range 7)
               (SliceState (opened order_size avg_slice_size detail_level)
                           1 1) in
    Some (completed (sl_gen st)).

End ProductionVWAPFixed.


(** ** data/generate_final_vwap.py *)

Module FinalVWAP.

(** The local variables of [generate_final_vwap] that outlive a loop
    iteration.  The snapshot keys [snapshot_time], [event_type] and
    [record_id] are written into the dicts themselves there; here they
    stay in the [snapshot] row. *)
Record run := Run {
  order_size : Z;
  avg_slice_size : Z;
  detail_level : string;
  fade_rate : float;
  partial_rate : float;
  snapshots : list snapshot;
  record_id : Z;
  total_filled : Z;
  total_value : float;
  client_order : order;
  slice_counter : Z;
  sor_counter : Z;
  run_stats : stats
}.

Definition set_totals (tf : Z) (tv : float) (r : run) : run :=
  Run (order_size r) (avg_slice_size r) (detail_level r) (fade_rate r)
    (partial_rate r) (snapshots r) (record_id r) tf tv (client_order r)
    (slice_counter r) (sor_counter r) (run_stats r).

Definition set_client_order (o : order) (r : run) : run :=
  Run (order_size r) (avg_slice_size r) (detail_level r) (fade_rate r)
    (partial_rate r) (snapshots r) (record_id r) (total_filled r)
    (total_value r) o (slice_counter r) (sor_counter r) (run_stats r).

Definition set_counters (sc rc : Z) (r : run) : run :=
  Run (order_size r) (avg_slice_size r) (detail_level r) (fade_rate r)
    (partial_rate r) (snapshots r) (record_id r) (total_filled r)
    (total_value r) (client_order r) sc rc (run_stats r).

Definition set_stats (st : stats) (r : run) : run :=
  Run (order_size r) (avg_slice_size r) (detail_level r) (fade_rate r)
    (partial_rate r) (snapshots r) (record_id r) (total_filled r)
    (total_value r) (client_order r) (slice_counter r) (sor_counter r) st.

(** [snapshots.append(order.copy()); record_id += 1] *)
Definition append (o : order) (ev : string) (r : run) : run :=
  Run (order_size r) (avg_slice_size r) (detail_level r) (fade_rate r)
    (partial_rate r) (snapshots r ++ [Snapshot o ev (Some (record_id r)) None])
    (record_id r + 1) (total_filled r) (total_value r) (client_order r)
    (slice_counter r) (sor_counter r) (run_stats r).

(** The urgency of an hour. *)
Definition hour_urgency (order_size total_filled hour : Z) : Urgency :=
  let expected := Py.float_of_int ((order_size / 7) * (hour + 1)) in
  if (Py.float_of_int total_filled <? expected * 0.7)%float then CRITICAL
  else if (Py.float_of_int total_filled <? expected * 0.9)%float then URGENT
  else NORMAL.

(** The outcome of one route: result and filled quantity. *)
Definition venue_outcome (rs : random_source) (fade_rate partial_rate : float)
    (hour sl route route_size : Z) : VenueResult * Z :=
  let k := outcome_rand rs hour sl route in
  if Py.draw_lt k fade_rate then (FADE, 0)
  else if Py.draw_lt k (fade_rate + partial_rate)%float then
    (PARTIAL, route_size / 2)
  else if Py.draw_lt k (fade_rate + partial_rate + 0.02)%float then
    (if Py.draw_lt (reject_rand rs hour sl route) 0.5
     then NO_CONN else REJECT, 0)
  else (FILLED, route_size).

(** The fill price of a route. *)
Definition fill_price (rs : random_source) (u : Urgency) (market : float)
    (hour sl route filled_qty : Z) : float :=
  if 0 <? filled_qty then
    match u with
    | CRITICAL => (market + uniform rs hour sl route 0.02 0.05)%float
    | URGENT => (market + uniform rs hour sl route 0.01 0.03)%float
    | _ => (market + uniform rs hour sl route (-0.01) 0.01)%float
    end
  else 0%float.

Definition sor_order (sor_counter : Z) (slice_order : order)
    (route_num route_size : Z) (result : VenueResult) (filled_qty : Z)
    (price : float) : order :=
  Order ("SOR_" +:+ Py.zfill 6 sor_counter) (Some (order_id slice_order)) 3
        "Buy" route_size filled_qty (route_size - filled_qty) price
        (VenueResult_value result) None
        (venues !! Z.to_nat (route_num mod 5)).

(** The variables the route loop carries. *)
Record route_state := RouteState {
  rt_run : run;
  slice_filled : Z;
  slice_value : float
}.

(** One iteration of [for route_num in range(num_routes)]. *)
Definition route_body (rs : random_source) (u : Urgency) (hour sl : Z)
    (slice_order : order) (slice_size num_routes : Z) (route_num : Z)
    (st : route_state) : loop_step route_state :=
  if slice_size <=? slice_filled st then Break st
  else
    let r := rt_run st in
    let route_size := slice_size / num_routes in
    let '(result, filled_qty) :=
      venue_outcome rs (fade_rate r) (partial_rate r) hour sl route_num
                    route_size in
    let r := set_stats (bump_outcome result (run_stats r)) r in
    let price := fill_price rs u 650%float hour sl route_num filled_qty in
    let r :=
      if String.eqb (detail_level r) "full"
      then append (sor_order (sor_counter r) slice_order route_num
                             route_size result filled_qty price)
                  ("VENUE_" +:+ VenueResult_value result) r
      else r in
    let r := set_stats (bump_routes (run_stats r)) r in
    let r := set_counters (slice_counter r) (sor_counter r + 1) r in
    Next (RouteState r (slice_filled st + filled_qty)
            (slice_value st + Py.float_of_int filled_qty * price)%float).

(** One iteration of [for _ in range(min(hour_slices, 50))]. *)
Definition slice_body (rs : random_source) (u : Urgency) (hour : Z)
    (sl : Z) (r : run) : loop_step run :=
  if order_size r <=? total_filled r then Break r
  else
    let avg := avg_slice_size r in
    let slice_size :=
      match u with
      | CRITICAL => randint rs hour sl (avg * 2) (avg * 4)
      | URGENT => randint rs hour sl avg (avg * 2)
      | _ => randint rs hour sl (avg / 2) avg
      end in
    let slice_size := Z.min slice_size (order_size r - total_filled r) in
    let slice_order :=
      new_order ("SLICE_" +:+ Py.zfill 5 (slice_counter r))
                (Some "ALGO_001") 2 slice_size "PENDING"
                (Some (Urgency_value u)) None in
    let r :=
      if String.eqb (detail_level r) "full"
      then append slice_order "NEW" r else r in
    let r := set_stats (bump_slices (run_stats r)) r in
    let r := set_counters (slice_counter r + 1) (sor_counter r) r in
    let num_routes :=
      match u with CRITICAL | URGENT => 3 | _ => 2 end in
    let st :=
      for_each (route_body rs u hour sl slice_order slice_size num_routes)
               (range num_routes) (RouteState r 0 0%float) in
    let r := rt_run st in
    let r := set_totals (total_filled r + slice_filled st)
                        (total_value r + slice_value st)%float r in
    let r :=
      if String.eqb (detail_level r) "summary" && (0 <? slice_filled st)
      then
        let so := set_filled_quantity (slice_filled st) slice_order in
        let so := set_remaining_quantity (slice_size - slice_filled st) so in
        let so :=
          set_average_price
            (if 0 <? slice_filled st
             then (slice_value st / Py.float_of_int (slice_filled st))%float
             else 0%float) so in
        let so := set_state (if slice_size <=? slice_filled st
                             then "FILLED" else "PARTIAL") so in
        append so "SLICE_SUMMARY" r
      else r in
    Next r.

(** One iteration of [for hour in range(hours)]. *)
Definition hour_body (rs : random_source) (hour : Z) (r : run)
    : loop_step run :=
  if order_size r <=? total_filled r then Break r
  else
    let u := hour_urgency (order_size r) (total_filled r) hour in
    let num_slices := order_size r / avg_slice_size r in
    let slices_per_hour := num_slices / 7 in
    let hour_slices :=
      if hour <? 7 - 1 then slices_per_hour
      else num_slices - slice_counter r + 1 in
    let r := for_each (slice_body rs u hour) (range (Z.min hour_slices 50)) r in
    (* hourly update to the client *)
    let co := client_order r in
    let co := set_filled_quantity (total_filled r) co in
    let co := set_remaining_quantity (order_size r - total_filled r) co in
    let co :=
      set_average_price
        (if 0 <? total_filled r
         then (total_value r / Py.float_of_int (total_filled r))%float
         else 0%float) co in
    let co := set_state (if total_filled r <? order_size r
                         then "WORKING" else "FILLED") co in
    let co := set_urgency (Some (Urgency_value u)) co in
    let r := set_client_order co r in
    Next (append (client_order r) "CLIENT_UPDATE" r).

(** The run after the opening snapshots (client [NEW], and the algo
    parent [NEW] unless the detail level is ["client_only"]). *)
Definition opened (order_size avg_slice_size : Z) (detail_level : string)
    (fade_rate partial_rate : float) : run :=
  let co := new_order "CLIENT_001" None 0 order_size "PENDING" None None in
  let r := Run order_size avg_slice_size detail_level fade_rate partial_rate
             [] 0 0 0%float co 1 1 (Stats 0 0 0 0 0) in
  let r := append co "NEW" r in
  let ap := new_order "ALGO_001" (Some "CLIENT_001") 1 order_size "WORKING"
                      None None in
  if negb (String.eqb detail_level "client_only")
  then append ap "NEW" r else r.

(** [generate_final_vwap(order_size, avg_slice_size, detail_level,
    fade_rate, partial_rate)].  [None] is a [ZeroDivisionError]: of
    [order_size // avg_slice_size] at the start, or of
    [total_filled / order_size] in the closing summary. *)
Definition generate_final_vwap (rs : random_source)
    (order_size avg_slice_size : Z) (detail_level : string)
    (fade_rate partial_rate : float) : option run :=
  if (avg_slice_size =? 0) || (order_size =? 0) then None
  else
    Some (for_each (hour_body rs) (range 7)
            (opened order_size avg_slice_size detail_level fade_rate
                    partial_rate)).

End FinalVWAP.


(** ** scripts/trading_system_simulator_v2.py *)

Module TradingSimV2.

(** The fill dict a venue returns. *)
Record fill := Fill {
  fill_venue : string;
  fill_order_id : string;
  fill_quantity : Z;
  fill_price : float;
  fill_market_price : float
}.

(** The random inputs of a run: the market ticks [(price, bid, ask)] that
    [MarketSimulator.tick] returns, in call order; the
    [random.uniform(0, 0.02)] a venue adds to the spread, indexed by the
    tick it follows; and the results of [random.sample(population, k)],
    in call order. *)
Record feed := Feed {
  tick : Z -> float * float * float;
  spread_noise : Z -> float;
  sample : Z -> list string -> Z -> list string
}.

(** What [random.sample] guarantees. *)
Definition well_formed (fd : feed) : Prop :=
  forall n population k,
    0 <= k <= Z.of_nat (length population) ->
    Z.of_nat (length (sample fd n population k)) = k
    /\ Forall (fun v => v ∈ population) (sample fd n population k).

(** An entry of [AlgoEngine.parent_orders].  [client_order] is the
    client's own dict: the engine updates it through this entry. *)
Record parent_data := ParentData {
  parent : order;
  client_order : order;
  fills : list fill;
  child_count : Z;
  filled_children : Z
}.

(** The objects of one simulation: the tick database, the number of
    market ticks and samples drawn so far, the order counters of the
    router and of the algo engine, the engine's parent orders and the
    venue names (the keys of [SmartOrderRouter.venues]).  The registries
    that are only ever written ([Venue.orders], [SmartOrderRouter.orders],
    [AlgoEngine.child_orders], [Client.orders]) are not carried. *)
Record world := World {
  snapshots : list snapshot;
  record_counter : Z;
  ticks : Z;
  samples : Z;
  sor_counter : Z;
  algo_counter : Z;
  parent_orders : gmap string parent_data;
  venues : list string
}.

(** [TickDatabase.capture_snapshot(order, event_type, timestamp,
    market_price)]; a market price of [0.0] is falsy and is not
    stored. *)
Definition capture_snapshot (o : order) (ev : string) (mp : float)
    (w : world) : world :=
  World (snapshots w
           ++ [Snapshot o ev (Some (record_counter w))
                 (if (mp =? 0)%float then None else Some mp)])
    (record_counter w + 1) (ticks w) (samples w) (sor_counter w)
    (algo_counter w) (parent_orders w) (venues w).

(** [MarketSimulator.tick()] *)
Definition market_tick (fd : feed) (w : world)
    : float * float * float * world :=
  (tick fd (ticks w),
   World (snapshots w) (record_counter w) (ticks w + 1) (samples w)
     (sor_counter w) (algo_counter w) (parent_orders w) (venues w)).

Definition set_sor_counter (c : Z) (w : world) : world :=
  World (snapshots w) (record_counter w) (ticks w) (samples w) c
    (algo_counter w) (parent_orders w) (venues w).

Definition set_algo_counter (c : Z) (w : world) : world :=
  World (snapshots w) (record_counter w) (ticks w) (samples w)
    (sor_counter w) c (parent_orders w) (venues w).

Definition set_samples (c : Z) (w : world) : world :=
  World (snapshots w) (record_counter w) (ticks w) c (sor_counter w)
    (algo_counter w) (parent_orders w) (venues w).

Definition set_parent_orders (m : gmap string parent_data) (w : world)
    : world :=
  World (snapshots w) (record_counter w) (ticks w) (samples w)
    (sor_counter w) (algo_counter w) m (venues w).

(** [Venue.receive_order(order, timestamp)] of the venue [name]: the
    order goes PENDING, ACCEPTED, FILLED; the updated order dict and
    the fill are returned. *)
Definition venue_receive_order (fd : feed) (name : string) (o : order)
    (w : world) : world * order * fill :=
  let '(mp, _, _, w) := market_tick fd w in
  let w := capture_snapshot o "VENUE_PENDING" mp w in
  let o := set_state "ACCEPTED" o in
  let w := capture_snapshot o "VENUE_ACCEPTED" mp w in
  let noise := spread_noise fd (ticks w) in
  let '(mp, bid, ask, w) := market_tick fd w in
  let price :=
    if String.eqb (side o) "Buy" then (ask + noise)%float
    else (bid - noise)%float in
  let o := set_filled_quantity (quantity o) o in
  let o := set_remaining_quantity 0 o in
  let o := set_average_price (Py.round4 price) o in
  let o := set_state "FILLED" o in
  let w := capture_snapshot o "VENUE_FILLED" mp w in
  (w, o, Fill name (order_id o) (quantity o) price mp).

(** The variables the venue loop of [route_order] carries. *)
Record routing := Routing {
  rt_world : world;
  sor_orders : list order;
  rt_fills : list fill;
  rt_total_filled : Z;
  rt_total_value : float
}.

(** The quantity of the route to the venue at position [idx] of
    [n_selected]: the remainder is added to the last venue. *)
Definition venue_share (qty_per_venue remainder n_selected idx : Z) : Z :=
  qty_per_venue + (if idx =? n_selected - 1 then remainder else 0).

(** One iteration of [for idx, venue_name in enumerate(selected_venues)]. *)
Definition route_body (fd : feed) (algo_child : order)
    (qty_per_venue remainder n_selected : Z) (iv : Z * string)
    (st : routing) : loop_step routing :=
  let '(idx, venue_name) := iv in
  let '(mp, _, _, w) := market_tick fd (rt_world st) in
  let venue_qty := venue_share qty_per_venue remainder n_selected idx in
  let so :=
    Order ("SOR_" +:+ Py.zfill 5 (sor_counter w)) (Some (order_id algo_child))
          3 (side algo_child) venue_qty 0 venue_qty 0%float "PENDING" None
          (Some venue_name) in
  let w := set_sor_counter (sor_counter w + 1) w in
  let w := capture_snapshot so "NEW" mp w in
  let '(w, so, f) := venue_receive_order fd venue_name so w in
  let so := set_filled_quantity (fill_quantity f) so in
  let so := set_remaining_quantity 0 so in
  let so := set_average_price (fill_price f) so in
  let so := set_state "FILLED" so in
  let w := capture_snapshot so "SOR_FILLED" (fill_market_price f) w in
  Next (Routing w (sor_orders st ++ [so]) (rt_fills st ++ [f])
          (rt_total_filled st + fill_quantity f)
          (rt_total_value st
           + Py.float_of_int (fill_quantity f) * fill_price f)%float).


(** The venue loop of [route_order] over the selected venues: the
    quantity is divided equally, the remainder goes to the last venue. *)
Definition route_across (fd : feed) (algo_child : order)
    (selected_venues : list string) (w : world) : routing :=
  let n := Z.of_nat (length selected_venues) in
  let qty_per_venue := quantity algo_child / n in
  let remainder := quantity algo_child mod n in
  for_each (route_body fd algo_child qty_per_venue remainder n)
           (enumerate selected_venues)
           (Routing w [] [] 0 0%float).

(** [SmartOrderRouter.route_order(algo_child, timestamp)]: the updated
    slice dict, the route orders and the fills.  [None] is the
    [ZeroDivisionError] of an empty selection or the [KeyError] of a
    selected name that is no venue. *)
Definition route_order (fd : feed) (algo_child : order) (w : world)
    : option (world * order * list order * list fill) :=
  let '(mp, _, _, w) := market_tick fd w in
  let algo_child := set_state "WORKING" algo_child in
  let w := capture_snapshot algo_child "SOR_RECEIVED" mp w in
  let selected_venues :=
    sample fd (samples w) (venues w)
           (Z.min 3 (Z.of_nat (length (venues w)))) in
  let w := set_samples (samples w + 1) w in
  if bool_decide (selected_venues = [])
     || negb (forallb (fun v => bool_decide (v ∈ venues w)) selected_venues)
  then None
  else
    let st := route_across fd algo_child selected_venues w in
    let w := rt_world st in
    let total_filled := rt_total_filled st in
    let algo_child := set_filled_quantity total_filled algo_child in
    let algo_child :=
      set_remaining_quantity (quantity algo_child - total_filled)
                             algo_child in
    let algo_child :=
      set_average_price
        (if 0 <? total_filled
         then Py.round4 (rt_total_value st / Py.float_of_int total_filled)
         else 0%float) algo_child in
    let algo_child :=
      set_state (if quantity algo_child <=? total_filled
                 then "FILLED" else "PARTIALLY_FILLED") algo_child in
    let '(mp, _, _, w) := market_tick fd w in
    let w := capture_snapshot algo_child "SOR_COMPLETE" mp w in
    Some (w, algo_child, sor_orders st, rt_fills st).

(** [sum(f['quantity'] for f in fills)] and
    [sum(f['quantity'] * f['price'] for f in fills)]. *)
Definition fills_quantity (fs : list fill) : Z :=
  Py.zsum (map fill_quantity fs).

Definition fills_value (fs : list fill) : float :=
  Py.fsum (map (fun f => (Py.float_of_int (fill_quantity f) * fill_price f)%float)
               fs).

(** [AlgoEngine._process_fills(child, fills, timestamp)]: the updated
    slice dict is returned next to the world. *)
Definition process_fills (fd : feed) (child : order) (fs : list fill)
    (w : world) : world * order :=
  match fs with
  | [] => (w, child)
  | _ :: _ =>
      let total_qty := fills_quantity fs in
      let total_value := fills_value fs in
      let avg_price :=
        if 0 <? total_qty
        then (total_value / Py.float_of_int total_qty)%float else 0%float in
      let '(mp, _, _, w) := market_tick fd w in
      let child := set_filled_quantity total_qty child in
      let child :=
        set_remaining_quantity (quantity child - total_qty) child in
      let child := set_average_price (Py.round4 avg_price) child in
      let child :=
        set_state (if quantity child <=? total_qty
                   then "FILLED" else "PARTIALLY_FILLED") child in
      let w := capture_snapshot child "ALGO_SLICE_FILLED" mp w in
      match parent_order_id child with
      | None => (w, child)
      | Some parent_id =>
          match parent_orders w !! parent_id with
          | None => (w, child)
          | Some pd =>
              let filled_children :=
                if String.eqb (state child) "FILLED"
                then filled_children pd + 1 else filled_children pd in
              let all_fills := fills pd ++ fs in
              let p := parent pd in
              let p := set_filled_quantity (filled_quantity p + total_qty) p in
              let p :=
                set_remaining_quantity (quantity p - filled_quantity p) p in
              let p :=
                set_average_price
                  (if 0 <? filled_quantity p
                   then Py.round4 (fills_value all_fills
                                   / Py.float_of_int (filled_quantity p))
                   else 0%float) p in
              let p := set_state (if quantity p <=? filled_quantity p
                                  then "FILLED" else "WORKING") p in
              let w := capture_snapshot p "ALGO_PARENT_UPDATE" mp w in
              let co := client_order pd in
              let co := set_filled_quantity (filled_quantity p) co in
              let co := set_remaining_quantity (remaining_quantity p) co in
              let co := set_average_price (average_price p) co in
              let co :=
                set_state (if String.eqb (state p) "FILLED"
                           then "FILLED" else "WORKING") co in
              let w := capture_snapshot co "CLIENT_UPDATE" mp w in
              let pd :=
                ParentData p co all_fills (child_count pd) filled_children in
              (set_parent_orders (<[parent_id := pd]> (parent_orders w)) w,
               child)
          end
      end
  end.

(** [Client.send_order(client_order_id, ticker, side, quantity,
    timestamp)] *)
Definition send_order (fd : feed) (client_order_id side : string)
    (qty : Z) (w : world) : world * order :=
  let '(mp, _, _, w) := market_tick fd w in
  let o := Order ("CLIENT_" +:+ client_order_id) None 0 side qty 0 qty
                 0%float "PENDING" None None in
  (capture_snapshot o "NEW" mp w, o).

(** [AlgoEngine.receive_order(client_order, timestamp)]: the id of the
    algo parent it creates. *)
Definition receive_order (fd : feed) (co : order) (w : world)
    : world * string :=
  let '(mp, _, _, w) := market_tick fd w in
  let co := set_state "ACCEPTED" co in
  let w := capture_snapshot co "ACCEPTED" mp w in
  let ap :=
    Order ("ALGO_" +:+ Py.zfill 5 (algo_counter w)) (Some (order_id co)) 1
          (side co) (quantity co) 0 (quantity co) 0%float "WORKING" None
          None in
  let w := set_algo_counter (algo_counter w + 1) w in
  let w :=
    set_parent_orders
      (<[order_id ap := ParentData ap co [] 0 0]> (parent_orders w)) w in
  (capture_snapshot ap "NEW" mp w, order_id ap).

(** [AlgoEngine.generate_child_slice(parent_id, slice_qty, timestamp)].
    [None] is a [KeyError] for an unknown parent, or an error of
    [route_order]. *)
Definition generate_child_slice (fd : feed) (parent_id : string)
    (slice_qty : Z) (w : world) : option (world * order) :=
  let '(mp, _, _, w) := market_tick fd w in
  match parent_orders w !! parent_id with
  | None => None
  | Some pd =>
      let pd :=
        ParentData (parent pd) (client_order pd) (fills pd)
                   (child_count pd + 1) (filled_children pd) in
      let w := set_parent_orders (<[parent_id := pd]> (parent_orders w)) w in
      let child :=
        Order ("SLICE_" +:+ Py.zfill 5 (algo_counter w)) (Some parent_id) 2
              (side (parent pd)) slice_qty 0 slice_qty 0%float "PENDING"
              None None in
      let w := set_algo_counter (algo_counter w + 1) w in
      let w := capture_snapshot child "NEW" mp w in
      let child := set_state "ACCEPTED" child in
      let w := capture_snapshot child "ACCEPTED" mp w in
      match route_order fd child w with
      | None => None
      | Some (w, child, _, fs) => Some (process_fills fd child fs w)
      end
  end.

(** The objects [run_vwap_simulation] starts from. *)
Definition initial : world :=
  World [] 0 0 0 5000 1000 ∅ ["NYSE"; "NASDAQ"; "ARCA"; "BATS"; "DARK"].

(** A simulation: the client sends an order, the engine accepts it, and
    the slices of [slice_sizes] are generated one after another
    ([run_vwap_simulation] does this with three slices of 10000). *)
Fixpoint run_slices (fd : feed) (parent_id : string) (slice_sizes : list Z)
    (w : world) : option world :=
  match slice_sizes with
  | [] => Some w
  | q :: rest =>
      match generate_child_slice fd parent_id q w with
      | None => None
      | Some (w, _) => run_slices fd parent_id rest w
      end
  end.

Definition simulate (fd : feed) (client_order_id side : string)
    (total_quantity : Z) (slice_sizes : list Z) : option (world * string) :=
  let '(w, co) := send_order fd client_order_id side total_quantity initial in
  let '(w, parent_id) := receive_order fd co w in
  match run_slices fd parent_id slice_sizes w with
  | None => None
  | Some w => Some (w, parent_id)
  end.

(** The worlds a simulation passes through: the initial one, and every
    world a call of the client or of the algo engine leaves behind. *)
Inductive reachable (fd : feed) : world -> Prop :=
| reach_initial : reachable fd initial
| reach_send id side qty w :
    reachable fd w -> reachable fd (fst (send_order fd id side qty w))
| reach_receive co w :
    reachable fd w -> reachable fd (fst (receive_order fd co w))
| reach_slice parent_id slice_qty w w' child :
    reachable fd w ->
    generate_child_slice fd parent_id slice_qty w = Some (w', child) ->
    reachable fd w'.

(** The parent's filled quantity and average price recomputed from its
    fill log: the quantities summed, and the quantity-weighted mean of
    the prices rounded to four places ([0] while nothing is filled). *)
Definition recomputed_filled (pd : parent_data) : Z :=
  fills_quantity (fills pd).

Definition recomputed_average (pd : parent_data) : float :=
  if 0 <? recomputed_filled pd
  then Py.round4 (fills_value (fills pd)
                  / Py.float_of_int (recomputed_filled pd))
  else 0%float.

(** The quantity-weighted mean of the fill log, not rounded. *)
Definition weighted_mean (pd : parent_data) : float :=
  (fills_value (fills pd) / Py.float_of_int (recomputed_filled pd))%float.

(** The stored values of a parent agree with the recomputed ones. *)
Definition consistent (pd : parent_data) : Prop :=
  filled_quantity (parent pd) = recomputed_filled pd
  /\ average_price (parent pd) = recomputed_average pd.

Definition all_consistent (w : world) : Prop :=
  forall parent_id pd, parent_orders w !! parent_id = Some pd -> consistent pd.

(** The entry of the parent a simulation has created. *)
Definition parent_of (r : option (world * string)) : option parent_data :=
  match r with
  | Some (w, parent_id) => parent_orders w !! parent_id
  | None => None
  end.

End TradingSimV2.


(** ** scripts/sor_simulator_enhanced.py *)

Module EnhancedSOR.

Inductive OrderInstruction := EOE | FOK | IOC | DAY | LIMIT.

Definition OrderInstruction_value (i : OrderInstruction) : string :=
  match i with
  | EOE => "ExecuteOrEliminate" | FOK => "FillOrKill"
  | IOC => "ImmediateOrCancel" | DAY => "Day" | LIMIT => "Limit"
  end.

Inductive VenueResponse := R_FILLED | R_PARTIAL | R_FADE | R_REJECTED
                         | R_NO_LIQUIDITY.

Definition VenueResponse_value (r : VenueResponse) : string :=
  match r with
  | R_FILLED => "FILLED" | R_PARTIAL => "PARTIAL" | R_FADE => "FADE"
  | R_REJECTED => "REJECTED" | R_NO_LIQUIDITY => "NO_LIQUIDITY"
  end.

(** The random inputs of a run, indexed by the market tick they belong
    to: the prices [(price, bid, ask)] and the liquidity per venue that
    [EnhancedMarketSimulator.tick] returns, and the numerators of the
    two [random.random()] draws of [EnhancedVenue.execute_order]. *)
Record feed := Feed {
  prices : Z -> float * float * float;
  liquidity_draw : Z -> string -> Z;
  fade_draw : Z -> Z;
  reject_draw : Z -> Z
}.

Definition venue_names : list string :=
  ["NYSE"; "NASDAQ"; "ARCA"; "BATS"; "DARK"; "IEX"].

(** The router with its collaborators: the tick database, the market
    (number of ticks so far, competition level) and the venues (name and
    fade probability). *)
Record router := Router {
  snapshots : list snapshot;
  ticks : Z;
  competition_level : float;
  venues : gmap string float;
  order_counter : Z;
  max_retries : Z
}.

(** [TickDatabase.capture_snapshot(order, event_type, timestamp,
    market_price)] *)
Definition capture_snapshot (o : order) (ev : string) (mp : float)
    (r : router) : router :=
  Router (snapshots r ++ [Snapshot o ev None (Some mp)]) (ticks r)
    (competition_level r) (venues r) (order_counter r) (max_retries r).

(** [EnhancedMarketSimulator.tick()]; the liquidity dict is the list of
    its items in insertion order. *)
Definition market_tick (fd : feed) (r : router)
    : float * float * float * list (string * Z) * router :=
  let n := ticks r in
  (prices fd n, map (fun v => (v, liquidity_draw fd n v)) venue_names,
   Router (snapshots r) (n + 1) (competition_level r) (venues r)
     (order_counter r) (max_retries r)).

(** [liquidity.get(name, default)] *)
Fixpoint dict_get (d : list (string * Z)) (name : string) (default : Z) : Z :=
  match d with
  | [] => default
  | (k, v) :: d' => if String.eqb k name then v else dict_get d' name default
  end.

(** [sorted(items, key=lambda x: x[1], reverse=True)]: descending and
    stable. *)
Fixpoint insert_desc (x : string * Z) (l : list (string * Z))
    : list (string * Z) :=
  match l with
  | [] => [x]
  | y :: l' => if snd y <? snd x then x :: l else y :: insert_desc x l'
  end.

Definition sorted_desc (l : list (string * Z)) : list (string * Z) :=
  fold_left (fun acc x => insert_desc x acc) l [].

(** [EnhancedVenue.execute_order(order, market, instruction)] of a venue
    with the given name and fade probability: response, filled quantity
    and fill price. *)
Definition execute_order (fd : feed) (name : string) (fade_probability : float)
    (o : order) (instruction : OrderInstruction) (r : router)
    : VenueResponse * Z * float * router :=
  let n := ticks r in
  let '(_, bid, ask, liquidity, r) := market_tick fd r in
  let available_liquidity := dict_get liquidity name 1000 in
  if Py.draw_lt (fade_draw fd n)
                (fade_probability * competition_level r)%float
  then (R_FADE, 0, 0%float, r)
  else if available_liquidity =? 0 then (R_NO_LIQUIDITY, 0, 0%float, r)
  else
    let requested_qty := quantity o in
    let fill_price := if String.eqb (side o) "Buy" then ask else bid in
    match instruction with
    | EOE =>
        if available_liquidity <? requested_qty then
          if Py.draw_lt (reject_draw fd n) 0.3
          then (R_REJECTED, 0, 0%float, r)
          else (R_PARTIAL, available_liquidity, fill_price, r)
        else (R_FILLED, requested_qty, fill_price, r)
    | IOC =>
        let fill_qty := Z.min requested_qty available_liquidity in
        if 0 <? fill_qty then
          (if fill_qty =? requested_qty then R_FILLED else R_PARTIAL,
           fill_qty, fill_price, r)
        else (R_NO_LIQUIDITY, 0, 0%float, r)
    | _ =>
        (R_FILLED, Z.min requested_qty available_liquidity, fill_price, r)
    end.

(** [_create_sor_order(parent, venue, quantity, instruction,
    timestamp)] *)
Definition create_sor_order (parent : order) (venue : string) (qty : Z)
    (r : router) : order * router :=
  (Order ("SOR_" +:+ Py.zfill 5 (order_counter r)) (Some (order_id parent))
         3 (side parent) qty 0 qty 0%float "PENDING" None (Some venue),
   Router (snapshots r) (ticks r) (competition_level r) (venues r)
     (order_counter r + 1) (max_retries r)).

(** An execution record (the keys read by the analysis that follows). *)
Record execution_record := ExecutionRecord {
  er_order_id : string;
  er_venue : string;
  er_instruction : OrderInstruction;
  requested_qty : Z;
  filled_qty : Z;
  er_fill_price : float;
  response : VenueResponse;
  er_retry_count : Z
}.

(** The variables of [route_order]. *)
Record routing := Routing {
  rt_router : router;
  execution_records : list execution_record;
  total_filled : Z;
  remaining_qty : Z;
  retry_count : Z;
  round_fills : Z;
  failed : bool   (* a KeyError was raised *)
}.

(** The update of the route dict for a response. *)
Definition apply_response (resp : VenueResponse) (qty : Z) (price : float)
    (o : order) : order :=
  match resp with
  | R_FILLED =>
      set_average_price price (set_filled_quantity qty (set_state "FILLED" o))
  | R_PARTIAL =>
      set_average_price price (set_filled_quantity qty (set_state "PARTIAL" o))
  | R_FADE => set_filled_quantity 0 (set_state "FADE" o)
  | R_NO_LIQUIDITY => set_filled_quantity 0 (set_state "NO_FILL" o)
  | R_REJECTED => set_filled_quantity 0 (set_state "REJECTED" o)
  end.

(** One iteration of [for venue_name in selected_venues]. *)
Definition venue_body (fd : feed) (algo_child : order)
    (liquidity : list (string * Z)) (price : float)
    (instruction : OrderInstruction) (venue_name : string) (st : routing)
    : loop_step routing :=
  if remaining_qty st <=? 0 then Break st
  else
    let venue_liquidity := dict_get liquidity venue_name 0 in
    let slice_qty := Z.min (remaining_qty st) venue_liquidity in
    if slice_qty <=? 0 then Next st
    else
      let '(so, r) :=
        create_sor_order algo_child venue_name slice_qty (rt_router st) in
      match venues r !! venue_name with
      | None =>
          Break (Routing r (execution_records st) (total_filled st)
                   (remaining_qty st) (retry_count st) (round_fills st) true)
      | Some fade_probability =>
          let '(resp, qty, fill_price, r) :=
            execute_order fd venue_name fade_probability so instruction r in
          let rec :=
            ExecutionRecord (order_id so) venue_name instruction slice_qty
                            qty fill_price resp (retry_count st) in
          let so := apply_response resp qty fill_price so in
          let r :=
            capture_snapshot so ("SOR_" +:+ VenueResponse_value resp) price r in
          if 0 <? qty then
            Next (Routing r (execution_records st ++ [rec])
                    (total_filled st + qty) (remaining_qty st - qty)
                    (retry_count st) (round_fills st + qty) false)
          else
            Next (Routing r (execution_records st ++ [rec]) (total_filled st)
                    (remaining_qty st) (retry_count st) (round_fills st)
                    false)
      end.

(** The condition of the [while] loop. *)
Definition continues (st : routing) : bool :=
  (0 <? remaining_qty st)
  && (retry_count st <=? max_retries (rt_router st))
  && negb (failed st).

(** One routing pass: the body of the [while] loop. *)
Definition routing_pass (fd : feed) (algo_child : order) (st : routing)
    : routing :=
  let '(price, _, _, liquidity, r) := market_tick fd (rt_router st) in
  let selected_venues := map fst (take 3 (sorted_desc liquidity)) in
  let instruction := if retry_count st =? 0 then EOE else IOC in
  let st :=
    for_each (venue_body fd algo_child liquidity price instruction)
             selected_venues
             (Routing r (execution_records st) (total_filled st)
                (remaining_qty st) (retry_count st) 0 (failed st)) in
  if failed st then st
  else
    Routing (rt_router st) (execution_records st) (total_filled st)
      (remaining_qty st) (retry_count st + 1) (round_fills st) false.

(** [while continues: routing_pass], unrolled at most [fuel] times. *)
Fixpoint route_loop (fd : feed) (algo_child : order) (fuel : nat)
    (st : routing) : routing :=
  match fuel with
  | O => st
  | S fuel' =>
      if continues st
      then route_loop fd algo_child fuel' (routing_pass fd algo_child st)
      else st
  end.

(** The variables of [route_order] when its [while] loop is left: every
    pass increments [retry_count], so [max_retries + 1] unrollings reach
    the exit. *)
Definition route_final (fd : feed) (algo_child : order) (r : router)
    : routing :=
  route_loop fd algo_child (Z.to_nat (max_retries r + 1))
    (Routing r [] 0 (quantity algo_child) 0 0 false).

(** [route_order(algo_child, timestamp)]: the execution records and the
    total filled; [None] is the [KeyError] of a venue the router does not
    know. *)
Definition route_order (fd : feed) (algo_child : order) (r : router)
    : option (list execution_record * Z * router) :=
  let st := route_final fd algo_child r in
  if failed st then None
  else Some (execution_records st, total_filled st, rt_router st).

(** The router of [run_sor_simulation]. *)
Definition simulation_router (competition : float) : router :=
  Router [] 0 competition
    (list_to_map [("NYSE", 0.05%float); ("NASDAQ", 0.1%float);
                  ("ARCA", 0.15%float); ("BATS", 0.2%float);
                  ("DARK", 0.02%float); ("IEX", 0.25%float)])
    5000 2.

End EnhancedSOR.


(** ** scripts/generate_tick_database.py *)

Module TickDatabaseGen.

(** An entry of [fills_data]. *)
Record fill_datum := FillDatum {
  qty : Z;
  price : float;
  fd_venue : string
}.

(** The draws of one run, indexed by the loop counters of the call site
    (hour, slice within the hour, position in the venue selection). *)
Record random_draws := RandomDraws {
  slices_per_hour_draw : Z -> Z;           (* random.randint(2, 4) *)
  slice_jitter : Z -> Z -> Z;              (* random.randint(-500, 500) *)
  num_venues_draw : Z -> Z -> Z;           (* random.randint(1, 3) *)
  venue_sample : Z -> Z -> Z -> list string;
                                           (* random.sample(venues, k) *)
  venue_jitter : Z -> Z -> Z -> Z;         (* random.randint(-100, 100) *)
  price_noise : Z -> Z -> Z -> float       (* random.uniform(-1, 1) *)
}.

(** The generator and the local variables of [generate_complete_flow]
    that outlive a loop iteration. *)
Record flow := Flow {
  flow_quantity : Z;
  snapshots : list snapshot;
  order_counter : Z;
  client_order : order;
  algo_parent : order;
  total_filled : Z;
  fills_data : list fill_datum
}.

(** [add_snapshot(order, event_type)]; the record id is the number of
    snapshots so far. *)
Definition add_snapshot (o : order) (ev : string) (f : flow) : flow :=
  Flow (flow_quantity f)
    (snapshots f
       ++ [Snapshot o ev (Some (Z.of_nat (length (snapshots f)))) None])
    (order_counter f) (client_order f) (algo_parent f) (total_filled f)
    (fills_data f).

Definition bump_counter (f : flow) : flow :=
  Flow (flow_quantity f) (snapshots f) (order_counter f + 1) (client_order f)
    (algo_parent f) (total_filled f) (fills_data f).

Definition vwap_profile : list float :=
  [0.12; 0.09; 0.08; 0.06; 0.07; 0.08; 0.09; 0.10; 0.15; 0.16]%float.

(** [sum(f['qty'] * f['price'] for f in fills_data)] *)
Definition fills_value (fs : list fill_datum) : float :=
  Py.fsum (map (fun f => (Py.float_of_int (qty f) * price f)%float) fs).

Definition fills_quantity (fs : list fill_datum) : Z :=
  Py.zsum (map qty fs).

(** The variables the venue loop carries. *)
Record venue_state := VenueState {
  vs_flow : flow;
  slice_filled : Z;
  slice_value : float
}.

(** One iteration of [for venue in selected_venues]. *)
Definition venue_body (rd : random_draws) (hour sl : Z)
    (algo_child_id : string) (slice_qty num_venues : Z) (iv : Z * string)
    (st : venue_state) : loop_step venue_state :=
  let '(i, venue) := iv in
  if slice_qty <=? slice_filled st then Break st
  else
    let venue_qty :=
      Z.min (slice_qty / num_venues + venue_jitter rd hour sl i)
            (slice_qty - slice_filled st) in
    if venue_qty <=? 0 then Next st
    else
      let f := vs_flow st in
      let sor_child :=
        Order ("SOR_" +:+ pretty (order_counter f)) (Some algo_child_id) 3
              "Buy" venue_qty 0 venue_qty 0%float "SENT" None (Some venue) in
      let f := add_snapshot sor_child "NEW" f in
      let f := bump_counter f in
      let fill_price := (650 + price_noise rd hour sl i)%float in
      let sor_child := set_filled_quantity venue_qty sor_child in
      let sor_child := set_remaining_quantity 0 sor_child in
      let sor_child := set_average_price fill_price sor_child in
      let sor_child := set_state "FILLED" sor_child in
      let f := add_snapshot sor_child "FILL" f in
      let f :=
        Flow (flow_quantity f) (snapshots f) (order_counter f)
          (client_order f) (algo_parent f) (total_filled f)
          (fills_data f ++ [FillDatum venue_qty fill_price venue]) in
      Next (VenueState f (slice_filled st + venue_qty)
              (slice_value st + Py.float_of_int venue_qty * fill_price)%float).

(** The cascade of a slice's fills to the algo parent and the client
    order (the body of [if slice_filled > 0]). *)
Definition cascade (algo_child : order) (slice_qty slice_filled : Z)
    (slice_value : float) (f : flow) : flow :=
  let algo_child := set_filled_quantity slice_filled algo_child in
  let algo_child :=
    set_remaining_quantity (slice_qty - slice_filled) algo_child in
  let algo_child :=
    set_average_price
      (if 0 <? slice_filled
       then (slice_value / Py.float_of_int slice_filled)%float else 0%float)
      algo_child in
  let algo_child :=
    set_state (if slice_qty <=? slice_filled then "FILLED" else "PARTIAL")
              algo_child in
  let f := add_snapshot algo_child "FILL" f in
  (* total_filled += slice_filled *)
  let f :=
    Flow (flow_quantity f) (snapshots f) (order_counter f) (client_order f)
      (algo_parent f) (total_filled f + slice_filled) (fills_data f) in
  let total_value := fills_value (fills_data f) in
  let average :=
    if 0 <? total_filled f
    then (total_value / Py.float_of_int (total_filled f))%float
    else 0%float in
  let st :=
    if total_filled f <? flow_quantity f then "WORKING" else "FILLED" in
  let ap := set_filled_quantity (total_filled f) (algo_parent f) in
  let ap := set_remaining_quantity (flow_quantity f - total_filled f) ap in
  let ap := set_state st (set_average_price average ap) in
  let f :=
    Flow (flow_quantity f) (snapshots f) (order_counter f) (client_order f)
      ap (total_filled f) (fills_data f) in
  let f := add_snapshot ap "FILL" f in
  let co := set_filled_quantity (total_filled f) (client_order f) in
  let co := set_remaining_quantity (flow_quantity f - total_filled f) co in
  let co := set_state st (set_average_price average co) in
  let f :=
    Flow (flow_quantity f) (snapshots f) (order_counter f) co
      (algo_parent f) (total_filled f) (fills_data f) in
  add_snapshot co "FILL" f.

Definition venues : list string := ["NYSE"; "NASDAQ"; "ARCA"; "BATS"; "DARK"].

(** One iteration of [for slice_idx in range(slices_per_hour)]. *)
Definition slice_body (rd : random_draws) (hour : Z)
    (hour_quantity slices_per_hour : Z) (sl : Z) (f : flow)
    : loop_step flow :=
  if flow_quantity f <=? total_filled f then Break f
  else
    let slice_qty :=
      Z.min (hour_quantity / slices_per_hour + slice_jitter rd hour sl)
            (flow_quantity f - total_filled f) in
    if slice_qty <=? 0 then Next f
    else
      let algo_child :=
        Order ("ALGOCHILD_" +:+ pretty (order_counter f))
              (Some (order_id (algo_parent f))) 2 "Buy" slice_qty 0 slice_qty
              0%float "PENDING" None None in
      let f := add_snapshot algo_child "NEW" f in
      let f := bump_counter f in
      let num_venues := num_venues_draw rd hour sl in
      let selected_venues := venue_sample rd hour sl num_venues in
      let st :=
        for_each (venue_body rd hour sl (order_id algo_child) slice_qty
                             num_venues)
                 (enumerate selected_venues)
                 (VenueState f 0 0%float) in
      if 0 <? slice_filled st
      then Next (cascade algo_child slice_qty (slice_filled st)
                         (slice_value st) (vs_flow st))
      else Next (vs_flow st).

(** One iteration of [for hour_idx, participation in
    enumerate(vwap_profile)]. *)
Definition hour_body (rd : random_draws) (hp : Z * float) (f : flow)
    : loop_step flow :=
  let '(hour, participation) := hp in
  if flow_quantity f <=? total_filled f then Break f
  else
    let hour_quantity := Py.int_mul (flow_quantity f) participation in
    let slices_per_hour := slices_per_hour_draw rd hour in
    Next (for_each (slice_body rd hour hour_quantity slices_per_hour)
                   (range slices_per_hour) f).

(** The flow after the three opening snapshots. *)
Definition opened (quantity : Z) : flow :=
  let co := Order "ORD_1000" None 0 "Buy" quantity 0 quantity 0%float
                  "PENDING" None None in
  let f := Flow quantity [] 1000 co co 0 [] in
  let f := bump_counter (add_snapshot co "NEW" f) in
  let co := set_state "ACCEPTED" co in
  let f :=
    Flow (flow_quantity f) (snapshots f) (order_counter f) co co
      (total_filled f) (fills_data f) in
  let f := add_snapshot co "ACCEPTED" f in
  let ap := Order ("ALGO_" +:+ pretty (order_counter f)) (Some "ORD_1000") 1
                  "Buy" quantity 0 quantity 0%float "WORKING" None None in
  let f :=
    Flow (flow_quantity f) (snapshots f) (order_counter f) (client_order f)
      ap (total_filled f) (fills_data f) in
  bump_counter (add_snapshot ap "NEW" f).

(** The final status updates. *)
Definition done (f : flow) : flow :=
  if flow_quantity f <=? total_filled f then
    let co := set_state "FILLED" (client_order f) in
    let f :=
      Flow (flow_quantity f) (snapshots f) (order_counter f) co
        (algo_parent f) (total_filled f) (fills_data f) in
    let f := add_snapshot co "DONE" f in
    let ap := set_state "FILLED" (algo_parent f) in
    let f :=
      Flow (flow_quantity f) (snapshots f) (order_counter f) (client_order f)
        ap (total_filled f) (fills_data f) in
    add_snapshot ap "DONE" f
  else f.

(** [TickDatabaseGenerator(client_order_id, quantity).
    generate_complete_flow()] *)
Definition generate_complete_flow (rd : random_draws) (quantity : Z) : flow :=
  done (for_each (hour_body rd)
                 (enumerate vwap_profile)
                 (opened quantity)).

(** The states of the flow between two slices: the opened flow, and
    every flow a slice iteration leaves behind. *)
Inductive reachable (quantity : Z) : flow -> Prop :=
| reach_opened : reachable quantity (opened quantity)
| reach_next rd hour hq sph sl f f' :
    reachable quantity f ->
    slice_body rd hour hq sph sl f = Next f' ->
    reachable quantity f'.

(** The algo parent's filled quantity and average price recomputed from
    the fill log: the quantities summed, and the quantity-weighted mean
    of the prices ([0] while nothing is filled). *)
Definition recomputed_filled (f : flow) : Z := fills_quantity (fills_data f).

Definition recomputed_average (f : flow) : float :=
  if 0 <? recomputed_filled f
  then (fills_value (fills_data f)
        / Py.float_of_int (recomputed_filled f))%float
  else 0%float.

(** The stored values agree with the recomputed ones, for the algo
    parent and for the client order. *)
Definition consistent (f : flow) : Prop :=
  total_filled f = recomputed_filled f
  /\ filled_quantity (algo_parent f) = recomputed_filled f
  /\ average_price (algo_parent f) = recomputed_average f
  /\ filled_quantity (client_order f) = recomputed_filled f
  /\ average_price (client_order f) = recomputed_average f.

End TickDatabaseGen.


(** ** data/generate_realistic_flow.py *)

Module RealisticFlow.

(** The variables of [generate_realistic_vwap_flow] that outlive the
    routing of a slice. *)
Record flow := Flow {
  snapshots : list snapshot;
  record_id : Z;
  flow_market_price : float;
  client_order : order;
  algo_parent : order;
  total_filled : Z;
  total_value : float
}.

(** [add_snapshot(order, event_type, timestamp, market_price)] *)
Definition add_snapshot (o : order) (ev : string) (f : flow) : flow :=
  Flow (snapshots f
          ++ [Snapshot o ev (Some (record_id f))
                (if (flow_market_price f =? 0)%float then None
                 else Some (flow_market_price f))])
    (record_id f + 1) (flow_market_price f) (client_order f) (algo_parent f)
    (total_filled f) (total_value f).

(** The end of a slice iteration: the slice order takes the fills its
    routes collected ([slice_filled], [slice_value]), and the totals
    cascade to the algo parent and to the client order. *)
Definition complete_slice (slice_order : order) (slice_qty slice_filled : Z)
    (slice_value : float) (f : flow) : flow * order :=
  let so := set_filled_quantity slice_filled slice_order in
  let so := set_remaining_quantity (slice_qty - slice_filled) so in
  let so :=
    set_average_price
      (if 0 <? slice_filled
       then (slice_value / Py.float_of_int slice_filled)%float else 0%float)
      so in
  let so :=
    set_state (if slice_qty <=? slice_filled then "FILLED" else "PARTIAL") so in
  let f := add_snapshot so "SLICE_COMPLETE" f in
  let f :=
    Flow (snapshots f) (record_id f) (flow_market_price f) (client_order f)
      (algo_parent f) (total_filled f + slice_filled)
      (total_value f + slice_value)%float in
  let ap := set_filled_quantity (total_filled f) (algo_parent f) in
  let ap := set_remaining_quantity (50000 - total_filled f) ap in
  let ap :=
    set_average_price
      (if 0 <? total_filled f
       then (total_value f / Py.float_of_int (total_filled f))%float
       else 0%float) ap in
  let ap :=
    set_state (if 50000 <=? total_filled f then "FILLED" else "WORKING") ap in
  let f :=
    Flow (snapshots f) (record_id f) (flow_market_price f) (client_order f)
      ap (total_filled f) (total_value f) in
  let f := add_snapshot ap "ALGO_UPDATE" f in
  let co := set_filled_quantity (total_filled f) (client_order f) in
  let co := set_remaining_quantity (50000 - total_filled f) co in
  let co := set_average_price (average_price ap) co in
  let co :=
    set_state (if 50000 <=? total_filled f then "FILLED" else "WORKING") co in
  let f :=
    Flow (snapshots f) (record_id f) (flow_market_price f) co
      (algo_parent f) (total_filled f) (total_value f) in
  (add_snapshot co "CLIENT_UPDATE" f, so).

End RealisticFlow.

(** ** Loop invariants *)

(** The venue loop of a slice leaves the orders and the running total
    alone; it appends fills of positive quantity to the log, and
    [slice_filled] is their sum. *)
Definition venue_loop_relation (f0 : TickDatabaseGen.flow)
    (st : TickDatabaseGen.venue_state) : Prop :=
  let f := TickDatabaseGen.vs_flow st in
  TickDatabaseGen.algo_parent f = TickDatabaseGen.algo_parent f0
  /\ TickDatabaseGen.client_order f = TickDatabaseGen.client_order f0
  /\ TickDatabaseGen.total_filled f = TickDatabaseGen.total_filled f0
  /\ TickDatabaseGen.flow_quantity f = TickDatabaseGen.flow_quantity f0
  /\ exists new,
       TickDatabaseGen.fills_data f = TickDatabaseGen.fills_data f0 ++ new
       /\ TickDatabaseGen.fills_quantity new = TickDatabaseGen.slice_filled st
       /\ (new = [] \/ 0 < TickDatabaseGen.slice_filled st).

(** The fills an execution log accounts for: [route_order] adds a
    record's [filled_qty] to [total_filled] when it is positive. *)
Definition recorded_fills (recs : list EnhancedSOR.execution_record) : Z :=
  Py.zsum (map (fun e => if 0 <? EnhancedSOR.filled_qty e
                         then EnhancedSOR.filled_qty e else 0) recs).

(** A record of the first pass carries EOE, a record of a retry pass
    IOC; the pass is one of [0 .. bound]. *)
Definition escalated (bound : Z) (e : EnhancedSOR.execution_record) : Prop :=
  0 <= EnhancedSOR.er_retry_count e <= bound
  /\ EnhancedSOR.er_instruction e
     = (if EnhancedSOR.er_retry_count e =? 0
        then EnhancedSOR.EOE else EnhancedSOR.IOC).

(** Every venue the market quotes is a venue of the router. *)
Definition knows_venues (r : EnhancedSOR.router) : Prop :=
  forall v, In v EnhancedSOR.venue_names ->
            is_Some (EnhancedSOR.venues r !! v).

(** What [route_order] keeps true of its variables, for a child order of
    quantity [q] and a router [r]. *)
Definition routing_invariant (q : Z) (r : EnhancedSOR.router)
    (st : EnhancedSOR.routing) : Prop :=
  0 <= EnhancedSOR.remaining_qty st
  /\ 0 <= EnhancedSOR.total_filled st
  /\ EnhancedSOR.total_filled st + EnhancedSOR.remaining_qty st = q
  /\ 0 <= EnhancedSOR.retry_count st
  /\ EnhancedSOR.max_retries (EnhancedSOR.rt_router st)
     = EnhancedSOR.max_retries r
  /\ EnhancedSOR.venues (EnhancedSOR.rt_router st) = EnhancedSOR.venues r
  /\ EnhancedSOR.total_filled st
     = recorded_fills (EnhancedSOR.execution_records st)
  /\ Forall (escalated (EnhancedSOR.max_retries r))
            (EnhancedSOR.execution_records st)
  /\ (knows_venues r -> EnhancedSOR.failed st = false).

(** The last row of the log with [order_level = 0]. *)
Definition final_client (log : list snapshot) : option snapshot :=
  last (filter (fun s => order_level (snap_order s) = 0) log).

(** What the fixed generator keeps true between two routes, for an
    order of [size] shares: the client order carries the running total,
    and the client rows of the log never decrease and never exceed it. *)
Definition fixed_invariant (size : Z) (g : ProductionVWAPFixed.generator)
    : Prop :=
  ProductionVWAPFixed.order_size g = size
  /\ order_level (ProductionVWAPFixed.client_order g) = 0
  /\ order_level (ProductionVWAPFixed.algo_parent g) = 1
  /\ filled_quantity (ProductionVWAPFixed.client_order g)
     = ProductionVWAPFixed.total_filled g
  /\ nondecreasing (client_fills (ProductionVWAPFixed.snapshots g))
  /\ Forall (fun x => x <= ProductionVWAPFixed.total_filled g)
            (client_fills (ProductionVWAPFixed.snapshots g)).

(** The same inside the route loop of a slice of [slice_size] shares
    that began with [before] shares filled. *)
Definition fixed_route_invariant (size before slice_size : Z)
    (st : ProductionVWAPFixed.route_state) : Prop :=
  fixed_invariant size (ProductionVWAPFixed.rt_gen st)
  /\ order_level (ProductionVWAPFixed.rt_slice st) = 2
  /\ 0 <= ProductionVWAPFixed.slice_filled st <= Z.max 0 slice_size
  /\ ProductionVWAPFixed.total_filled (ProductionVWAPFixed.rt_gen st)
     <= before + ProductionVWAPFixed.slice_filled st.

(** Between two slices. *)
Definition fixed_slice_invariant (size : Z)
    (st : ProductionVWAPFixed.slice_state) : Prop :=
  fixed_invariant size (ProductionVWAPFixed.sl_gen st)
  /\ ProductionVWAPFixed.total_filled (ProductionVWAPFixed.sl_gen st)
     <= Z.max 0 size.

(** What [generate_final_vwap] keeps true between two slices, for an
    order of [size] shares: the client rows never decrease and never
    exceed the running total, which stays within the order. *)
Definition final_invariant (size : Z) (r : FinalVWAP.run) : Prop :=
  FinalVWAP.order_size r = size
  /\ order_level (FinalVWAP.client_order r) = 0
  /\ nondecreasing (client_fills (FinalVWAP.snapshots r))
  /\ Forall (fun x => x <= FinalVWAP.total_filled r)
            (client_fills (FinalVWAP.snapshots r))
  /\ FinalVWAP.total_filled r <= Z.max 0 size.

(** Before route [i] of a slice of [slice_size] shares cut into routes
    of [route_size]: the routes so far have touched neither the client
    order nor the totals nor the client rows of [r0], and have filled at
    most their sizes. *)
Definition final_route_invariant (r0 : FinalVWAP.run)
    (slice_size route_size i : Z) (st : FinalVWAP.route_state) : Prop :=
  FinalVWAP.order_size (FinalVWAP.rt_run st) = FinalVWAP.order_size r0
  /\ FinalVWAP.client_order (FinalVWAP.rt_run st) = FinalVWAP.client_order r0
  /\ FinalVWAP.total_filled (FinalVWAP.rt_run st) = FinalVWAP.total_filled r0
  /\ client_fills (FinalVWAP.snapshots (FinalVWAP.rt_run st))
     = client_fills (FinalVWAP.snapshots r0)
  /\ 0 <= FinalVWAP.slice_filled st
  /\ (0 < slice_size -> FinalVWAP.slice_filled st <= i * route_size)
  /\ (slice_size <= 0 -> FinalVWAP.slice_filled st = 0).

(** Between two hours: as between two slices, and once an order of
    positive size is filled the last client row shows the total and the
    state FILLED. *)
Definition final_hour_invariant (size : Z) (r : FinalVWAP.run) : Prop :=
  final_invariant size r
  /\ (0 < size -> size <= FinalVWAP.total_filled r ->
      exists s,
        final_client (FinalVWAP.snapshots r) = Some s
        /\ filled_quantity (snap_order s) = FinalVWAP.total_filled r
        /\ state (snap_order s) = "FILLED").

(** ** The venue response table *)

(** The table as the specification words it, read on a draw [k / 2^53]
    and a second draw [k2 / 2^53]: below 5% a fade, below 15% a partial
    fill of half the quantity, below 17% a reject or a lost connection
    ([low] on the lower half of the second draw, [high] on the upper),
    otherwise a full fill. *)
Definition response_table (low high : VenueResult) (k k2 q : Z)
    : VenueResult * Z :=
  if 100 * k <? 5 * 2 ^ 53 then (FADE, 0)
  else if 100 * k <? 15 * 2 ^ 53 then (PARTIAL, q / 2)
  else if 100 * k <? 17 * 2 ^ 53
  then (if 2 * k2 <? 2 ^ 53 then low else high, 0)
  else (FILLED, q).

(** The outcomes that are no fill and no error. *)
Definition non_fatal (r : VenueResult) : bool :=
  match r with FADE | REJECT | NO_CONN => true | _ => false end.

(** ** The urgency table *)

(** The participation rate as the specification words it: what is
    filled over what is expected, in percent, and 100% when nothing is
    expected. *)
Definition participation_rate (actual_filled expected_cumulative : Z)
    : float :=
  if expected_cumulative =? 0 then 100%float
  else (Py.truediv actual_filled expected_cumulative * 100)%float.

(** The classification as the specification words it: Passive from 95%,
    Normal from 85% to below 95%, Urgent from 70% to below 85%, Critical
    below 70%. *)
Definition classified (rate : float) (u : Urgency) : Prop :=
  ((95 <=? rate)%float = true -> u = PASSIVE)
  /\ ((85 <=? rate)%float = true -> (rate <? 95)%float = true -> u = NORMAL)
  /\ ((70 <=? rate)%float = true -> (rate <? 85)%float = true -> u = URGENT)
  /\ ((rate <? 70)%float = true -> u = CRITICAL).

(** ** Invariants of the logs *)

(** Row [i] of the log carries the record id [i]. *)
Definition sequential (log : list snapshot) : Prop :=
  forall i s, log !! i = Some s -> record_id s = Some (Z.of_nat i).

(** A log whose rows satisfy [row_ok] and are numbered in sequence,
    [next_id] being the id of the next row. *)
Definition log_ok (row_ok : snapshot -> Prop) (log : list snapshot)
    (next_id : Z) : Prop :=
  next_id = Z.of_nat (length log) /\ sequential log /\ Forall row_ok log.

(** An order that is filled within its quantity. *)
Definition within_quantity (o : order) : Prop :=
  0 <= filled_quantity o <= quantity o.

(** A row of the fixed generator's log at detail level [dl]: the
    accounting invariant; the fill within the quantity (under the
    assumption [bounded] on the inputs); a route row only at level
    ["full"], the [NEW] row of a slice only at ["full"] or ["summary"]. *)
Definition fixed_row (bounded : Prop) (dl : string) (s : snapshot) : Prop :=
  conserved (snap_order s)
  /\ (bounded -> within_quantity (snap_order s))
  /\ (order_level (snap_order s) = 3 -> dl = "full")
  /\ (order_level (snap_order s) = 2 -> event_type s = "NEW" ->
      dl = "full" \/ dl = "summary").

(** The client order and the algo parent of the fixed generator carry
    the running total. *)
Definition fixed_orders (size : Z) (g : ProductionVWAPFixed.generator)
    : Prop :=
  order_level (ProductionVWAPFixed.client_order g) = 0
  /\ order_level (ProductionVWAPFixed.algo_parent g) = 1
  /\ quantity (ProductionVWAPFixed.client_order g) = size
  /\ quantity (ProductionVWAPFixed.algo_parent g) = size
  /\ filled_quantity (ProductionVWAPFixed.client_order g)
     = ProductionVWAPFixed.total_filled g
  /\ filled_quantity (ProductionVWAPFixed.algo_parent g)
     = ProductionVWAPFixed.total_filled g
  /\ remaining_quantity (ProductionVWAPFixed.client_order g)
     = size - ProductionVWAPFixed.total_filled g
  /\ remaining_quantity (ProductionVWAPFixed.algo_parent g)
     = size - ProductionVWAPFixed.total_filled g
  /\ 0 <= ProductionVWAPFixed.total_filled g.

(** The log and the orders of the fixed generator. *)
Definition fixed_log (bounded : Prop) (size avg : Z) (dl : string)
    (g : ProductionVWAPFixed.generator) : Prop :=
  ProductionVWAPFixed.order_size g = size
  /\ ProductionVWAPFixed.avg_slice_size g = avg
  /\ ProductionVWAPFixed.detail_level g = dl
  /\ log_ok (fixed_row bounded dl) (ProductionVWAPFixed.snapshots g)
            (ProductionVWAPFixed.gen_record_id g)
  /\ fixed_orders size g.

(** The same inside the route loop of a slice of [slice_size] shares. *)
Definition fixed_route_log (bounded : Prop) (size avg : Z) (dl : string)
    (slice_size : Z) (st : ProductionVWAPFixed.route_state) : Prop :=
  fixed_log bounded size avg dl (ProductionVWAPFixed.rt_gen st)
  /\ order_level (ProductionVWAPFixed.rt_slice st) = 2
  /\ quantity (ProductionVWAPFixed.rt_slice st) = slice_size
  /\ 0 <= filled_quantity (ProductionVWAPFixed.rt_slice st)
     <= ProductionVWAPFixed.slice_filled st.

(** The draws of the examples: the largest slice size, every route
    filled except a partial fill on the first route of the second hour. *)
Definition example_draws : random_source :=
  RandomSource (fun _ _ _ b => b) (fun _ _ => 0%float)
    (fun h _ r => if (h =? 1) && (r =? 0) then 2 ^ 53 / 10 else 2 ^ 53 - 1)
    (fun _ _ _ => 0) (fun _ _ _ a _ => a).

(** The fixed generator at detail level ["none"]: nothing but the three
    opening rows, nothing filled. *)
Definition fixed_none (size avg : Z) (g : ProductionVWAPFixed.generator)
    : Prop :=
  ProductionVWAPFixed.order_size g = size
  /\ ProductionVWAPFixed.avg_slice_size g = avg
  /\ ProductionVWAPFixed.detail_level g = "none"
  /\ ProductionVWAPFixed.total_filled g = 0
  /\ ProductionVWAPFixed.snapshots g
     = ProductionVWAPFixed.snapshots
         (ProductionVWAPFixed.opened size avg "none").

(** The counters of the fixed generator against its log: the outcomes
    counted are outcomes of routes, and the log has at most a row for
    every slice and four for every route next to the opening rows. *)
Definition fixed_counts (g : ProductionVWAPFixed.generator) : Prop :=
  let st := ProductionVWAPFixed.gen_stats g in
  0 <= fade_count st /\ 0 <= partial_count st /\ 0 <= reject_count st
  /\ fade_count st + partial_count st + reject_count st <= total_routes st
  /\ Z.of_nat (length (ProductionVWAPFixed.snapshots g))
     <= 3 + total_slices st + 4 * total_routes st.

(** A row of the log of [generate_final_vwap] at detail level [dl]: the
    accounting invariant; the fill within the quantity (under the
    assumption [bounded] on the inputs); and the level of the row
    against the detail level. *)
Definition final_row (bounded : Prop) (dl : string) (s : snapshot) : Prop :=
  conserved (snap_order s)
  /\ (bounded -> within_quantity (snap_order s))
  /\ (order_level (snap_order s) = 0
      \/ (order_level (snap_order s) = 1 /\ dl <> "client_only")
      \/ (order_level (snap_order s) = 2
          /\ ((dl = "full" /\ event_type s = "NEW")
              \/ (dl = "summary" /\ event_type s = "SLICE_SUMMARY")))
      \/ (order_level (snap_order s) = 3 /\ dl = "full")).

(** The log of [generate_final_vwap]. *)
Definition final_log (bounded : Prop) (avg : Z) (dl : string)
    (r : FinalVWAP.run) : Prop :=
  FinalVWAP.avg_slice_size r = avg
  /\ FinalVWAP.detail_level r = dl
  /\ log_ok (final_row bounded dl) (FinalVWAP.snapshots r)
            (FinalVWAP.record_id r).

(** The run between two slices: the log, the client order and the
    running total. *)
Definition final_run (bounded : Prop) (size avg : Z) (dl : string)
    (r : FinalVWAP.run) : Prop :=
  final_invariant size r
  /\ final_log bounded avg dl r
  /\ quantity (FinalVWAP.client_order r) = size
  /\ 0 <= FinalVWAP.total_filled r.

(** The counters of [generate_final_vwap] against its log after [hours]
    hourly updates: next to the opening rows the log has at most a row
    for every slice, every route and every hour; [pending] is 1 while a
    slice is counted whose row comes only with its summary. *)
Definition final_counts (hours pending : Z) (r : FinalVWAP.run) : Prop :=
  let st := FinalVWAP.run_stats r in
  0 <= fade_count st /\ 0 <= partial_count st /\ 0 <= reject_count st
  /\ fade_count st + partial_count st + reject_count st <= total_routes st
  /\ Z.of_nat (length (FinalVWAP.snapshots r))
     <= 2 + total_slices st + total_routes st + hours - pending.

(** A row of the tick database of [generate_complete_flow]: the
    accounting invariant, and the fill within the quantity (for an order
    of non-negative quantity, the assumption [bounded]). *)
Definition tick_row (bounded : Prop) (s : snapshot) : Prop :=
  conserved (snap_order s) /\ (bounded -> within_quantity (snap_order s)).

(** The flow of [generate_complete_flow] between two slices, for an
    order of [q] shares. *)
Definition tick_flow (bounded : Prop) (q : Z) (f : TickDatabaseGen.flow)
    : Prop :=
  TickDatabaseGen.flow_quantity f = q
  /\ log_ok (tick_row bounded) (TickDatabaseGen.snapshots f)
            (Z.of_nat (length (TickDatabaseGen.snapshots f)))
  /\ order_level (TickDatabaseGen.client_order f) = 0
  /\ order_level (TickDatabaseGen.algo_parent f) = 1
  /\ quantity (TickDatabaseGen.client_order f) = q
  /\ quantity (TickDatabaseGen.algo_parent f) = q
  /\ conserved (TickDatabaseGen.client_order f)
  /\ conserved (TickDatabaseGen.algo_parent f)
  /\ filled_quantity (TickDatabaseGen.client_order f)
     = TickDatabaseGen.total_filled f
  /\ filled_quantity (TickDatabaseGen.algo_parent f)
     = TickDatabaseGen.total_filled f
  /\ 0 <= TickDatabaseGen.total_filled f <= Z.max 0 q
  /\ nondecreasing (client_fills (TickDatabaseGen.snapshots f))
  /\ Forall (fun x => x <= TickDatabaseGen.total_filled f)
            (client_fills (TickDatabaseGen.snapshots f)).

(** The venue loop of a slice of [slice_qty] shares, entered with the
    flow [f0]: the orders, the total and the client rows are those of
    [f0]; the slice is filled within its quantity. *)
Definition tick_venue (bounded : Prop) (f0 : TickDatabaseGen.flow)
    (slice_qty : Z) (st : TickDatabaseGen.venue_state) : Prop :=
  let f := TickDatabaseGen.vs_flow st in
  TickDatabaseGen.flow_quantity f = TickDatabaseGen.flow_quantity f0
  /\ TickDatabaseGen.client_order f = TickDatabaseGen.client_order f0
  /\ TickDatabaseGen.algo_parent f = TickDatabaseGen.algo_parent f0
  /\ TickDatabaseGen.total_filled f = TickDatabaseGen.total_filled f0
  /\ log_ok (tick_row bounded) (TickDatabaseGen.snapshots f)
            (Z.of_nat (length (TickDatabaseGen.snapshots f)))
  /\ client_fills (TickDatabaseGen.snapshots f)
     = client_fills (TickDatabaseGen.snapshots f0)
  /\ 0 <= TickDatabaseGen.slice_filled st <= Z.max 0 slice_qty.

(** The tick database of the trading simulator: rows numbered by the
    record counter, each with the accounting invariant. *)
Definition v2_log (w : TradingSimV2.world) : Prop :=
  log_ok (fun s => conserved (snap_order s)) (TradingSimV2.snapshots w)
         (TradingSimV2.record_counter w).

(** The entry of the algo parent of a simulation of [total] shares after
    [filled] of them are filled. *)
Definition v2_parent (total filled : Z) (pd : TradingSimV2.parent_data)
    : Prop :=
  order_level (TradingSimV2.client_order pd) = 0
  /\ order_level (TradingSimV2.parent pd) = 1
  /\ quantity (TradingSimV2.client_order pd) = total
  /\ quantity (TradingSimV2.parent pd) = total
  /\ filled_quantity (TradingSimV2.parent pd) = filled
  /\ remaining_quantity (TradingSimV2.parent pd) = total - filled
  /\ filled_quantity (TradingSimV2.client_order pd) = filled
  /\ remaining_quantity (TradingSimV2.client_order pd) = total - filled.

(** The world of a simulation between two slices. *)
Definition v2_world (pid : string) (total filled : Z)
    (w : TradingSimV2.world) : Prop :=
  v2_log w
  /\ TradingSimV2.venues w = TradingSimV2.venues TradingSimV2.initial
  /\ exists pd,
       TradingSimV2.parent_orders w !! pid = Some pd
       /\ v2_parent total filled pd.

(** The running totals of the slice sizes, from [acc]. *)
Fixpoint running_totals (acc : Z) (sizes : list Z) : list Z :=
  match sizes with
  | [] => []
  | q :: rest => (acc + q) :: running_totals (acc + q) rest
  end.

(** A feed for the runs below: a quiet market, and a [random.sample]
    that takes the first [k] names of the population. *)
Definition first_venues_feed : TradingSimV2.feed :=
  TradingSimV2.Feed (fun _ => (650, 649.99, 650.01)%float)
                    (fun _ => 0.01%float)
                    (fun _ l k => take (Z.to_nat k) l).

(** ** The log of the enhanced router *)

(** The state the router writes on a route for a venue response. *)
Definition state_of_response (resp : EnhancedSOR.VenueResponse) : string :=
  match resp with
  | EnhancedSOR.R_FILLED => "FILLED"
  | EnhancedSOR.R_PARTIAL => "PARTIAL"
  | EnhancedSOR.R_FADE => "FADE"
  | EnhancedSOR.R_NO_LIQUIDITY => "NO_FILL"
  | EnhancedSOR.R_REJECTED => "REJECTED"
  end.

(** The snapshot [s] is the route of the execution record [e], for a
    slice [parent]: same order, venue, quantity and fill; the state and
    the event are those of the response; [remaining_quantity] is still
    the quantity. *)
Definition row_of_record (parent : order) (s : snapshot)
    (e : EnhancedSOR.execution_record) : Prop :=
  order_id (snap_order s) = EnhancedSOR.er_order_id e
  /\ parent_order_id (snap_order s) = Some (order_id parent)
  /\ order_level (snap_order s) = 3
  /\ venue (snap_order s) = Some (EnhancedSOR.er_venue e)
  /\ quantity (snap_order s) = EnhancedSOR.requested_qty e
  /\ filled_quantity (snap_order s) = EnhancedSOR.filled_qty e
  /\ remaining_quantity (snap_order s) = EnhancedSOR.requested_qty e
  /\ state (snap_order s) = state_of_response (EnhancedSOR.response e)
  /\ event_type s
     = "SOR_" +:+ EnhancedSOR.VenueResponse_value (EnhancedSOR.response e).

(** The response of an execution record agrees with its fill. *)
Definition record_coherent (e : EnhancedSOR.execution_record) : Prop :=
  match EnhancedSOR.response e with
  | EnhancedSOR.R_FILLED =>
      EnhancedSOR.filled_qty e = EnhancedSOR.requested_qty e
  | EnhancedSOR.R_PARTIAL =>
      0 < EnhancedSOR.filled_qty e < EnhancedSOR.requested_qty e
  | EnhancedSOR.R_FADE | EnhancedSOR.R_NO_LIQUIDITY
  | EnhancedSOR.R_REJECTED =>
      EnhancedSOR.filled_qty e = 0
  end.

(** The market quotes no negative liquidity. *)
Definition quotes_liquidity (fd : EnhancedSOR.feed) : Prop :=
  forall n v, 0 <= EnhancedSOR.liquidity_draw fd n v.

(** What [route_order] keeps true of its log, for a slice [parent] and
    the router [r0] it starts from. *)
Definition sor_log (nonneg : Prop) (parent : order) (r0 : EnhancedSOR.router)
    (st : EnhancedSOR.routing) : Prop :=
  EnhancedSOR.venues (EnhancedSOR.rt_router st) = EnhancedSOR.venues r0
  /\ EnhancedSOR.remaining_qty st <= quantity parent
  /\ (EnhancedSOR.failed st = false ->
      EnhancedSOR.order_counter (EnhancedSOR.rt_router st)
      = EnhancedSOR.order_counter r0
        + Z.of_nat (length (EnhancedSOR.execution_records st)))
  /\ (exists rows,
        EnhancedSOR.snapshots (EnhancedSOR.rt_router st)
        = EnhancedSOR.snapshots r0 ++ rows
        /\ Forall2 (row_of_record parent) rows
                   (EnhancedSOR.execution_records st))
  /\ Forall (fun e => 0 < EnhancedSOR.requested_qty e <= quantity parent)
            (EnhancedSOR.execution_records st)
  /\ (nonneg -> Forall record_coherent (EnhancedSOR.execution_records st))
  /\ (knows_venues r0 -> EnhancedSOR.failed st = false).

(** A market for the runs below: NYSE quotes 3000 shares and every
    other venue 500; the venue of the third tick fades, no venue
    rejects. *)
Definition thin_market : EnhancedSOR.feed :=
  EnhancedSOR.Feed (fun _ => (650, 649.99, 650.01)%float)
    (fun _ v => if String.eqb v "NYSE" then 3000 else 500)
    (fun n => if n =? 2 then 0 else 2 ^ 53 - 1) (fun _ => 2 ^ 53 - 1).

(** ** data/generate_production_vwap.py: the execution *)

Module ProductionRun.

(** [OrderInstruction]: what the router is told, by urgency. *)
Inductive OrderInstruction := POST_ONLY | LIMIT_IOC | MARKET_IOC | SWEEP.

(** The draws of a run in call order: the result of the [n]-th call of
    [random], as [random.uniform(a, b)] or as the numerator of
    [random.random()]. *)
Record draws := Draws {
  uniform : Z -> float -> float -> float;
  random : Z -> Z
}.

(** [ProductionVWAPSimulator(client_order_id, quantity)]; [None] is an
    error of [calculate_vwap_schedule]. *)
Definition init (quantity : Z) : option ProductionVWAP.simulator :=
  match ProductionVWAP.calculate_vwap_schedule quantity 7 with
  | Some schedule =>
      Some (ProductionVWAP.Simulator quantity schedule [] 0 0 0%float
                                     650%float)
  | None => None
  end.

Definition set_market_price (p : float) (s : ProductionVWAP.simulator)
    : ProductionVWAP.simulator :=
  ProductionVWAP.Simulator (ProductionVWAP.sim_quantity s)
    (ProductionVWAP.schedule s) (ProductionVWAP.snapshots s)
    (ProductionVWAP.sim_record_id s) (ProductionVWAP.total_filled s)
    (ProductionVWAP.total_value s) p.

(** [self.total_filled += filled; self.total_value += value] *)
Definition add_fill (filled : Z) (value : float)
    (s : ProductionVWAP.simulator) : ProductionVWAP.simulator :=
  ProductionVWAP.Simulator (ProductionVWAP.sim_quantity s)
    (ProductionVWAP.schedule s) (ProductionVWAP.snapshots s)
    (ProductionVWAP.sim_record_id s)
    (ProductionVWAP.total_filled s + filled)
    (ProductionVWAP.total_value s + value)%float
    (ProductionVWAP.sim_market_price s).

(** The venues of an instruction. *)
Definition venues_of (i : OrderInstruction) : list string :=
  match i with
  | SWEEP => ["NYSE"; "NASDAQ"; "ARCA"; "BATS"; "DARK"]
  | MARKET_IOC => ["NYSE"; "NASDAQ"; "ARCA"]
  | LIMIT_IOC => ["DARK"; "NYSE"]
  | POST_ONLY => ["ARCA"]
  end.

(** The variables of [execute_sor]: the simulator, the number of draws
    made, the local [sor_counter], [filled] and [value]. *)
Record sor_state := SorState {
  ss_sim : ProductionVWAP.simulator;
  ss_drawn : Z;
  ss_counter : Z;
  ss_filled : Z;
  ss_value : float
}.

(** The route filled with [qty] at [fill_price], in the state [st]. *)
Definition fill_route (qty : Z) (fill_price : float) (st : string)
    (o : order) : order :=
  set_state st (set_average_price fill_price (set_filled_quantity qty o)).

(** One iteration of [for venue in venues]. *)
Definition sor_body (ds : draws) (slice_order : order)
    (instruction : OrderInstruction) (target_qty n_venues : Z)
    (venue : string) (st : sor_state) : loop_step sor_state :=
  if target_qty <=? ss_filled st then Break st
  else
    let venue_qty := target_qty / n_venues in
    let so :=
      Order ("SOR_" +:+ pretty (ss_counter st)) (Some (order_id slice_order))
            3 "Buy" venue_qty 0 venue_qty 0%float "PENDING" None
            (Some venue) in
    let s := ProductionVWAP.add_snapshot so "NEW" None (ss_sim st) in
    let counter := ss_counter st + 1 in
    let n := ss_drawn st in
    let market := ProductionVWAP.sim_market_price s in
    match instruction with
    | SWEEP =>
        let fill_price := (market + uniform ds n 0.02 0.05)%float in
        Next (SorState
                (ProductionVWAP.add_snapshot
                   (fill_route venue_qty fill_price "FILLED" so)
                   "VENUE_FILLED" None s)
                (n + 1) counter (ss_filled st + venue_qty)
                (ss_value st + Py.float_of_int venue_qty * fill_price)%float)
    | MARKET_IOC =>
        if Py.draw_lt (random ds n) 0.85 then
          let fill_price := (market + uniform ds (n + 1) 0.01 0.03)%float in
          Next (SorState
                  (ProductionVWAP.add_snapshot
                     (fill_route venue_qty fill_price "FILLED" so)
                     "VENUE_FILLED" None s)
                  (n + 2) counter (ss_filled st + venue_qty)
                  (ss_value st
                   + Py.float_of_int venue_qty * fill_price)%float)
        else
          let so := set_state "FADE" so in
          let s := ProductionVWAP.add_snapshot so "VENUE_FADE" None s in
          Next (SorState
                  (ProductionVWAP.add_snapshot so "VENUE_FADE" None s)
                  (n + 1) counter (ss_filled st) (ss_value st))
    | LIMIT_IOC =>
        if Py.draw_lt (random ds n) 0.7 then
          let fill_price :=
            (market + uniform ds (n + 1) (-0.01) 0.01)%float in
          if Py.draw_lt (random ds (n + 2)) 0.3 then
            let partial_qty := venue_qty / 2 in
            Next (SorState
                    (ProductionVWAP.add_snapshot
                       (fill_route partial_qty fill_price "PARTIAL" so)
                       "VENUE_PARTIAL" None s)
                    (n + 3) counter (ss_filled st + partial_qty)
                    (ss_value st
                     + Py.float_of_int partial_qty * fill_price)%float)
          else
            Next (SorState
                    (ProductionVWAP.add_snapshot
                       (fill_route venue_qty fill_price "FILLED" so)
                       "VENUE_FILLED" None s)
                    (n + 3) counter (ss_filled st + venue_qty)
                    (ss_value st
                     + Py.float_of_int venue_qty * fill_price)%float)
        else
          Next (SorState
                  (ProductionVWAP.add_snapshot so "VENUE_PENDING" None s)
                  (n + 1) counter (ss_filled st) (ss_value st))
    | POST_ONLY =>
        if Py.draw_lt (random ds n) 0.3 then
          let fill_price := (market - 0.01)%float in
          Next (SorState
                  (ProductionVWAP.add_snapshot
                     (fill_route venue_qty fill_price "FILLED" so)
                     "VENUE_FILLED" None s)
                  (n + 1) counter (ss_filled st + venue_qty)
                  (ss_value st
                   + Py.float_of_int venue_qty * fill_price)%float)
        else
          Next (SorState
                  (ProductionVWAP.add_snapshot so "VENUE_PENDING" None s)
                  (n + 1) counter (ss_filled st) (ss_value st))
    end.

(** [execute_sor(slice_order, instruction, timestamp, sor_counter)]:
    the simulator and the number of draws afterwards, [filled] and
    [value]. *)
Definition execute_sor (ds : draws) (slice_order : order)
    (instruction : OrderInstruction) (sor_counter : Z)
    (s : ProductionVWAP.simulator) (drawn : Z)
    : ProductionVWAP.simulator * Z * Z * float :=
  let venues := venues_of instruction in
  let st :=
    for_each (sor_body ds slice_order instruction (quantity slice_order)
                       (Z.of_nat (length venues)))
             venues (SorState s drawn sor_counter 0 0%float) in
  (ss_sim st, ss_drawn st, ss_filled st, ss_value st).

(** [n < x] for an int [n] and a float [x]: the exact values are
    compared. *)
Definition int_lt_float (n : Z) (x : float) : bool :=
  match Prim2SF x with
  | S754_zero _ => n <? 0
  | S754_infinity s => negb s
  | S754_nan => false
  | S754_finite s m e =>
      let v := if s then Z.neg m else Z.pos m in
      if 0 <=? e then n <? v * 2 ^ e else n * 2 ^ (- e) <? v
  end.

(** [min(a, b)] on two strings. *)
Definition min_str (a b : string) : string :=
  if String.ltb b a then b else a.

(** [Urgency(value)]; [None] is the [ValueError]. *)
Definition Urgency_of_value (v : string) : option Urgency :=
  if String.eqb v "PASSIVE" then Some PASSIVE
  else if String.eqb v "NORMAL" then Some NORMAL
  else if String.eqb v "URGENT" then Some URGENT
  else if String.eqb v "CRITICAL" then Some CRITICAL
  else None.

(** [Urgency(min(urgency.value, Urgency.CRITICAL.value))] *)
Definition escalate (u : Urgency) : option Urgency :=
  Urgency_of_value (min_str (Urgency_value u) (Urgency_value CRITICAL)).

(** The simulator and the locals of [generate_execution] that outlive a
    slice. *)
Record run := Run {
  sim : ProductionVWAP.simulator;
  drawn : Z;
  client_order : order;
  algo_parent : order;
  slice_counter : Z;
  sor_counter : Z
}.

(** The variables the slice loop of an hour carries; [hs_failed] is the
    [ValueError] of the escalation. *)
Record hour_state := HourState {
  hs_run : run;
  hs_urgency : Urgency;
  hour_filled : Z;
  hs_failed : bool
}.

(** One iteration of [for slice_num in range(num_slices)]. *)
Definition slice_body (ds : draws) (hour_target slice_size num_slices : Z)
    (instruction : OrderInstruction) (slice_num : Z) (st : hour_state)
    : loop_step hour_state :=
  let r := hs_run st in
  let s := sim r in
  let u := hs_urgency st in
  if (ProductionVWAP.sim_quantity s <=? ProductionVWAP.total_filled s)
     || (hour_target <=? hour_filled st)
  then Break st
  else
    let s :=
      set_market_price
        (ProductionVWAP.sim_market_price s
         + uniform ds (drawn r) (-0.2) 0.2)%float s in
    let actual_slice_size :=
      Z.min slice_size
            (ProductionVWAP.sim_quantity s - ProductionVWAP.total_filled s) in
    let slice_order :=
      Order ("SLICE_" +:+ pretty (slice_counter r)) (Some "ALGO_100001") 2
            "Buy" actual_slice_size 0 actual_slice_size 0%float "PENDING"
            (Some (Urgency_value u)) None in
    let s := ProductionVWAP.add_snapshot slice_order "NEW" (Some u) s in
    let '(s, n, slice_filled, slice_value) :=
      execute_sor ds slice_order instruction (sor_counter r) s
                  (drawn r + 1) in
    let slice_order := set_filled_quantity slice_filled slice_order in
    let slice_order :=
      set_remaining_quantity (actual_slice_size - slice_filled)
                             slice_order in
    let slice_order :=
      set_average_price
        (if 0 <? slice_filled
         then (slice_value / Py.float_of_int slice_filled)%float
         else 0%float) slice_order in
    let slice_order :=
      set_state (if actual_slice_size <=? slice_filled
                 then "FILLED" else "PARTIAL") slice_order in
    let s :=
      ProductionVWAP.add_snapshot slice_order "SLICE_COMPLETE" (Some u) s in
    let hour_filled := hour_filled st + slice_filled in
    let s := add_fill slice_filled slice_value s in
    let '(s, ap, co) :=
      ProductionVWAP.update_parent_orders (algo_parent r) (client_order r)
                                          u s in
    let r := Run s n co ap (slice_counter r + 1) (sor_counter r + 10) in
    if int_lt_float hour_filled (Py.float_of_int hour_target * 0.5)%float
       && (num_slices / 2 <? slice_num)
    then
      match escalate u with
      | Some u' => Next (HourState r u' hour_filled false)
      | None => Break (HourState r u hour_filled true)
      end
    else Next (HourState r u hour_filled false).

(** The variables of [generate_execution]; [failed] is an exception
    raised in an hour. *)
Record execution := Execution {
  ex_run : run;
  failed : bool
}.

(** One iteration of [for hour in range(len(self.schedule))]. *)
Definition hour_body (ds : draws) (hour : Z) (e : execution)
    : loop_step execution :=
  let r := ex_run e in
  let s := sim r in
  let quantity := ProductionVWAP.sim_quantity s in
  let total_filled := ProductionVWAP.total_filled s in
  if quantity <=? total_filled then Break e
  else
    let hour_target := nth (Z.to_nat hour) (ProductionVWAP.schedule s) 0 in
    let '(urgency, shortfall) :=
      ProductionVWAP.calculate_urgency s hour total_filled in
    let '(slice_size, instruction, num_slices) :=
      match urgency with
      | CRITICAL => (Z.min shortfall (quantity - total_filled), SWEEP, 1)
      | URGENT =>
          (Z.min (hour_target / 2) (quantity - total_filled), MARKET_IOC, 3)
      | NORMAL => (hour_target / 4, LIMIT_IOC, 4)
      | PASSIVE => (hour_target / 6, POST_ONLY, 6)
      end in
    let st :=
      for_each (slice_body ds hour_target slice_size num_slices instruction)
               (range num_slices) (HourState r urgency 0 false) in
    if hs_failed st then Break (Execution (hs_run st) true)
    else Next (Execution (hs_run st) false).

(** The run after the three opening snapshots. *)
Definition opened (client_order_id : string) (s : ProductionVWAP.simulator)
    : run :=
  let quantity := ProductionVWAP.sim_quantity s in
  let co :=
    Order ("CLIENT_" +:+ client_order_id) None 0 "Buy" quantity 0 quantity
          0%float "PENDING" None None in
  let s := ProductionVWAP.add_snapshot co "NEW" None s in
  let co := set_state "ACCEPTED" co in
  let s := ProductionVWAP.add_snapshot co "ACCEPTED" None s in
  let ap :=
    Order "ALGO_100001" (Some (order_id co)) 1 "Buy" quantity 0 quantity
          0%float "WORKING" None None in
  let s := ProductionVWAP.add_snapshot ap "NEW" None s in
  Run s 0 co ap 200001 300001.

(** [generate_execution()]: the run when the function returns.  [None]
    is an exception: of the escalation, or the [ZeroDivisionError] of
    the final report, which prints [total_filled / quantity]. *)
Definition generate_execution (ds : draws) (client_order_id : string)
    (s : ProductionVWAP.simulator) : option run :=
  let e :=
    for_each (hour_body ds)
             (range (Z.of_nat (length (ProductionVWAP.schedule s))))
             (Execution (opened client_order_id s) false) in
  if failed e then None
  else if ProductionVWAP.sim_quantity s =? 0 then None
  else Some (ex_run e).

(** [ProductionVWAPSimulator(client_order_id, quantity)
    .generate_execution()] *)
Definition simulate (ds : draws) (client_order_id : string) (quantity : Z)
    : option run :=
  match init quantity with
  | Some s => generate_execution ds client_order_id s
  | None => None
  end.

End ProductionRun.

(** A row of the log of the production simulator: a route row
    ([order_level = 3]) still shows the whole quantity as remaining,
    every other row satisfies the accounting invariant; nothing is
    filled beyond the quantity. *)
Definition prod_row (s : snapshot) : Prop :=
  let o := snap_order s in
  (order_level o = 3 -> remaining_quantity o = quantity o)
  /\ (order_level o <> 3 -> conserved o)
  /\ 0 <= filled_quantity o <= Z.max 0 (quantity o).

(** The production simulator of an order of [q] shares, once its log is
    opened: the rows are numbered, the total stays within the order, the
    client rows never decrease and the last one shows the total. *)
Definition prod_sim (q : Z) (s : ProductionVWAP.simulator) : Prop :=
  ProductionVWAP.sim_quantity s = q
  /\ log_ok prod_row (ProductionVWAP.snapshots s)
            (ProductionVWAP.sim_record_id s)
  /\ 0 <= ProductionVWAP.total_filled s <= Z.max 0 q
  /\ nondecreasing (client_fills (ProductionVWAP.snapshots s))
  /\ last (client_fills (ProductionVWAP.snapshots s))
     = Some (ProductionVWAP.total_filled s).

(** The run of [generate_execution] between two slices. *)
Definition prod_run (q : Z) (r : ProductionRun.run) : Prop :=
  prod_sim q (ProductionRun.sim r)
  /\ order_level (ProductionRun.client_order r) = 0
  /\ order_level (ProductionRun.algo_parent r) = 1
  /\ quantity (ProductionRun.client_order r) = q
  /\ quantity (ProductionRun.algo_parent r) = q.

(** Draws for the runs below: every [random.random()] is [0.5], every
    [random.uniform(a, b)] is [a]. *)
Definition even_draws : ProductionRun.draws :=
  ProductionRun.Draws (fun _ a _ => a) (fun _ => 2 ^ 52).

(** ** data/generate_realistic_flow.py: the whole flow *)

Module RealisticRun.

(** The draws of a run: [random.uniform(-0.5, 0.5)] for the market move
    of a slice, and [random.uniform(-0.02, 0.05)] for the fill of the
    route at a position of a slice. *)
Record draws := Draws {
  market_move : Z -> float;
  fill_noise : Z -> Z -> float
}.

(** [l.index(x)]; the routes below look up an element of the list
    itself. *)
Fixpoint index (x : string * Z) (l : list (string * Z)) : Z :=
  match l with
  | [] => 0
  | y :: l' =>
      if String.eqb (fst y) (fst x) && (snd y =? snd x) then 0
      else 1 + index x l'
  end.

(** The variables a venue loop carries. *)
Record routing := Routing {
  rt_flow : RealisticFlow.flow;
  slice_filled : Z;
  slice_value : float
}.

(** A route filled with [qty] at [price], [left] remaining. *)
Definition filled_route (qty left : Z) (price : float) (st : string)
    (o : order) : order :=
  set_state st
    (set_average_price price
       (set_remaining_quantity left (set_filled_quantity qty o))).

Definition normal_venues : list (string * Z) :=
  [("NYSE", 5000); ("NASDAQ", 5000); ("ARCA", 5000)].

(** One iteration of the venue loop of the scenario ['normal']. *)
Definition normal_body (ds : draws) (slice_num : Z) (slice_order : order)
    (vq : string * Z) (st : routing) : loop_step routing :=
  let '(venue, qty) := vq in
  let f := rt_flow st in
  let so :=
    Order ("SOR_" +:+ pretty (70000 + slice_num * 10
                              + index (venue, qty) normal_venues))
          (Some (order_id slice_order)) 3 "Buy" qty 0 qty 0%float "PENDING"
          None (Some venue) in
  let f := RealisticFlow.add_snapshot so "NEW" f in
  let so := set_state "ACCEPTED" so in
  let f := RealisticFlow.add_snapshot so "VENUE_ACCEPTED" f in
  let fill_price :=
    (RealisticFlow.flow_market_price f
     + fill_noise ds slice_num (index (venue, qty) normal_venues))%float in
  let so := filled_route qty 0 fill_price "FILLED" so in
  let f := RealisticFlow.add_snapshot so "VENUE_FILLED" f in
  Next (Routing f (slice_filled st + qty)
          (slice_value st + Py.float_of_int qty * fill_price)%float).

Definition venues_try1 : list (string * Z) :=
  [("NYSE", 8000); ("NASDAQ", 8000); ("BATS", 4000)].

(** One iteration of the first attempt of the scenario
    ['fade_retry']. *)
Definition fade_body (slice_order : order) (vq : string * Z) (st : routing)
    : loop_step routing :=
  let '(venue, qty) := vq in
  let f := rt_flow st in
  let so :=
    Order ("SOR_" +:+ pretty (71000 + index (venue, qty) venues_try1))
          (Some (order_id slice_order)) 3 "Buy" qty 0 qty 0%float "PENDING"
          None (Some venue) in
  let f := RealisticFlow.add_snapshot so "NEW" f in
  let market_price := RealisticFlow.flow_market_price f in
  if String.eqb venue "NASDAQ" then
    let so := set_state "FADE" so in
    Next (Routing (RealisticFlow.add_snapshot so "VENUE_FADE" f)
            (slice_filled st) (slice_value st))
  else if String.eqb venue "BATS" then
    let partial_qty := 1500 in
    let fill_price := (market_price + 0.02)%float in
    let so :=
      filled_route partial_qty (qty - partial_qty) fill_price "PARTIAL" so in
    Next (Routing (RealisticFlow.add_snapshot so "VENUE_PARTIAL" f)
            (slice_filled st + partial_qty)
            (slice_value st
             + Py.float_of_int partial_qty * fill_price)%float)
  else
    let fill_price := (market_price + 0.01)%float in
    let so := filled_route qty 0 fill_price "FILLED" so in
    Next (Routing (RealisticFlow.add_snapshot so "VENUE_FILLED" f)
            (slice_filled st + qty)
            (slice_value st + Py.float_of_int qty * fill_price)%float).

(** One iteration of [for venue, qty in retry_venues]. *)
Definition retry_body (slice_order : order) (vq : string * Z) (st : routing)
    : loop_step routing :=
  let '(venue, qty) := vq in
  let f := rt_flow st in
  let so :=
    Order "SOR_71100" (Some (order_id slice_order)) 3 "Buy" qty 0 qty 0%float
          "PENDING" None (Some venue) in
  let f := RealisticFlow.add_snapshot so "NEW_RETRY" f in
  let fill_price := (RealisticFlow.flow_market_price f - 0.01)%float in
  let so := filled_route qty 0 fill_price "FILLED" so in
  let f := RealisticFlow.add_snapshot so "VENUE_FILLED" f in
  Next (Routing f (slice_filled st + qty)
          (slice_value st + Py.float_of_int qty * fill_price)%float).

(** The routing of a slice by its scenario; a scenario without a branch
    routes nothing. *)
Definition route_scenario (ds : draws) (slice_num : Z) (slice_order : order)
    (qty : Z) (scenario : string) (f : RealisticFlow.flow) : routing :=
  let start := Routing f 0 0%float in
  if String.eqb scenario "normal" then
    for_each (normal_body ds slice_num slice_order) normal_venues start
  else if String.eqb scenario "fade_retry" then
    let st := for_each (fade_body slice_order) venues_try1 start in
    let remaining := qty - slice_filled st in
    if 0 <? remaining
    then for_each (retry_body slice_order) [("DARK", remaining)] st
    else st
  else start.

Definition slices : list (Z * string) :=
  [(15000, "normal"); (20000, "fade_retry"); (15000, "partial_fills")].

Definition set_flow_market_price (p : float) (f : RealisticFlow.flow)
    : RealisticFlow.flow :=
  RealisticFlow.Flow (RealisticFlow.snapshots f) (RealisticFlow.record_id f)
    p (RealisticFlow.client_order f) (RealisticFlow.algo_parent f)
    (RealisticFlow.total_filled f) (RealisticFlow.total_value f).

(** One iteration of [for slice_num, slice_config in
    enumerate(slices, 1)]. *)
Definition slice_body (ds : draws) (nc : Z * (Z * string))
    (f : RealisticFlow.flow) : loop_step RealisticFlow.flow :=
  let '(slice_num, (qty, scenario)) := nc in
  let f :=
    set_flow_market_price
      (RealisticFlow.flow_market_price f + market_move ds slice_num)%float
      f in
  let slice_order :=
    Order ("SLICE_" +:+ pretty (60000 + slice_num)) (Some "ALGO_50001") 2
          "Buy" qty 0 qty 0%float "PENDING" None None in
  let f := RealisticFlow.add_snapshot slice_order "NEW" f in
  let slice_order := set_state "ACCEPTED" slice_order in
  let f := RealisticFlow.add_snapshot slice_order "ACCEPTED" f in
  let st := route_scenario ds slice_num slice_order qty scenario f in
  Next (fst (RealisticFlow.complete_slice slice_order qty (slice_filled st)
               (slice_value st) (rt_flow st))).

(** The flow after the three opening snapshots. *)
Definition opened : RealisticFlow.flow :=
  let co :=
    Order "CLIENT_C20241216_100001" None 0 "Buy" 50000 0 50000 0%float
          "PENDING" None None in
  let f := RealisticFlow.Flow [] 0 650%float co co 0 0%float in
  let f := RealisticFlow.add_snapshot co "NEW" f in
  let co := set_state "ACCEPTED" co in
  let f := RealisticFlow.add_snapshot co "ACCEPTED" f in
  let ap :=
    Order "ALGO_50001" (Some "CLIENT_C20241216_100001") 1 "Buy" 50000 0 50000
          0%float "WORKING" None None in
  let f :=
    RealisticFlow.Flow (RealisticFlow.snapshots f) (RealisticFlow.record_id f)
      (RealisticFlow.flow_market_price f) co ap (RealisticFlow.total_filled f)
      (RealisticFlow.total_value f) in
  RealisticFlow.add_snapshot ap "NEW" f.

(** [generate_realistic_vwap_flow()]: the flow when the function
    returns; [None] is the [ZeroDivisionError] of the report, which
    prints [total_value / total_filled]. *)
Definition generate_realistic_vwap_flow (ds : draws)
    : option RealisticFlow.flow :=
  let f := for_each (slice_body ds) (enumerate_from 1 slices) opened in
  if RealisticFlow.total_filled f =? 0 then None else Some f.

End RealisticRun.

(** The numbers of a row: level, event, state, quantity, filled and
    remaining quantity. *)
Definition row_numbers (s : snapshot) : Z * string * string * (Z * Z * Z) :=
  (order_level (snap_order s), event_type s, state (snap_order s),
   (quantity (snap_order s), filled_quantity (snap_order s),
    remaining_quantity (snap_order s))).

(** The number of rows of an event. *)
Definition count_event (ev : string) (log : list snapshot) : nat :=
  length (filter (fun s => event_type s = ev) log).

(** The number of periods [participation[:hours]] has: the curve has
    eight, a negative [hours] drops periods from the end. *)
Definition periods (hours : Z) : Z :=
  if 0 <=? hours then Z.min hours 8 else Z.max 0 (8 + hours).

(** The passes [route_order] has begun: the completed ones, and the one
    a [KeyError] has interrupted. *)
Definition passes_begun (st : EnhancedSOR.routing) : Z :=
  EnhancedSOR.retry_count st + (if EnhancedSOR.failed st then 1 else 0).

(** At most three routes are sent in a pass, and the passes are
    bounded. *)
Definition sor_count (r0 : EnhancedSOR.router) (st : EnhancedSOR.routing)
    : Prop :=
  EnhancedSOR.max_retries (EnhancedSOR.rt_router st)
  = EnhancedSOR.max_retries r0
  /\ 0 <= EnhancedSOR.retry_count st
  /\ passes_begun st <= Z.max 0 (EnhancedSOR.max_retries r0 + 1)
  /\ Z.of_nat (length (EnhancedSOR.execution_records st))
     <= 3 * passes_begun st.

(** ** scripts/sor_simulator_enhanced.py: the venue statistics *)

Module SorAnalysis.

(** An entry of [venue_stats]. *)
Record venue_stat := VenueStat {
  attempts : Z;
  fills : Z;
  fades : Z;
  volume : Z
}.

(** The body of [for exec in all_executions]. *)
Definition tally (venue_stats : gmap string venue_stat)
    (e : EnhancedSOR.execution_record) : gmap string venue_stat :=
  let venue := EnhancedSOR.er_venue e in
  let s :=
    match venue_stats !! venue with
    | Some s => s
    | None => VenueStat 0 0 0 0
    end in
  let s := VenueStat (attempts s + 1) (fills s) (fades s) (volume s) in
  let s :=
    match EnhancedSOR.response e with
    | EnhancedSOR.R_FILLED =>
        VenueStat (attempts s) (fills s + 1) (fades s)
                  (volume s + EnhancedSOR.filled_qty e)
    | EnhancedSOR.R_FADE =>
        VenueStat (attempts s) (fills s) (fades s + 1) (volume s)
    | _ => s
    end in
  <[venue := s]> venue_stats.

(** [venue_stats] after the loop of [run_sor_simulation] over the
    execution records. *)
Definition venue_stats (all_executions : list EnhancedSOR.execution_record)
    : gmap string venue_stat :=
  fold_left tally all_executions ∅.

End SorAnalysis.

(** The executions at a venue, and those among them with a response. *)
Definition at_venue (v : string) (e : EnhancedSOR.execution_record) : bool :=
  String.eqb (EnhancedSOR.er_venue e) v.

Definition answered (resp : EnhancedSOR.VenueResponse)
    (e : EnhancedSOR.execution_record) : bool :=
  String.eqb (EnhancedSOR.VenueResponse_value (EnhancedSOR.response e))
             (EnhancedSOR.VenueResponse_value resp).

(** The sum of [weight] over the executions that satisfy [p]. *)
Definition total_of (p : EnhancedSOR.execution_record -> bool)
    (weight : EnhancedSOR.execution_record -> Z)
    (recs : list EnhancedSOR.execution_record) : Z :=
  Py.zsum (map (fun e => if p e then weight e else 0) recs).

(** The statistics of a venue, read off the execution records. *)
Definition stat_of (v : string) (recs : list EnhancedSOR.execution_record)
    : SorAnalysis.venue_stat :=
  SorAnalysis.VenueStat
    (total_of (at_venue v) (fun _ => 1) recs)
    (total_of (fun e => at_venue v e && answered EnhancedSOR.R_FILLED e)
              (fun _ => 1) recs)
    (total_of (fun e => at_venue v e && answered EnhancedSOR.R_FADE e)
              (fun _ => 1) recs)
    (total_of (fun e => at_venue v e && answered EnhancedSOR.R_FILLED e)
              EnhancedSOR.filled_qty recs).

(** Two entries added up. *)
Definition add_stat (a b : SorAnalysis.venue_stat) : SorAnalysis.venue_stat :=
  SorAnalysis.VenueStat
    (SorAnalysis.attempts a + SorAnalysis.attempts b)
    (SorAnalysis.fills a + SorAnalysis.fills b)
    (SorAnalysis.fades a + SorAnalysis.fades b)
    (SorAnalysis.volume a + SorAnalysis.volume b).

(** * Properties *)

(** ** Numbers *)

Section Numbers.

#[local] Open Scope Z_scope.

Lemma zsum_from (l : list Z) (a : Z) :
  fold_left Z.add l a = a + Py.zsum l.
Proof.
  unfold Py.zsum. revert a.
  induction l as [|x l IH]; intros a; cbn [fold_left].
  - lia.
  - rewrite (IH (a + x)), (IH (0 + x)). lia.
Qed.

Lemma zsum_cons (x : Z) (l : list Z) : Py.zsum (x :: l) = x + Py.zsum l.
Proof. unfold Py.zsum at 1. cbn [fold_left]. rewrite zsum_from. lia. Qed.

Lemma zsum_app (l1 l2 : list Z) :
  Py.zsum (l1 ++ l2) = Py.zsum l1 + Py.zsum l2.
Proof.
  induction l1 as [|x l1 IH]; simpl.
  - reflexivity.
  - rewrite !zsum_cons, IH. lia.
Qed.

Lemma zsum_nonneg (l : list Z) : Forall (fun x => 0 <= x) l -> 0 <= Py.zsum l.
Proof.
  induction 1 as [|x l Hx _ IH].
  - reflexivity.
  - rewrite zsum_cons. lia.
Qed.

(** Rounding to nearest moves a non-negative quotient by at most one
    half. *)
Lemma round_half_even_bounds (n d : Z) :
  0 <= n -> 0 < d ->
  0 <= Py.round_half_even n d
  /\ 2 * (Py.round_half_even n d * d) <= 2 * n + d.
Proof.
  intros Hn Hd. unfold Py.round_half_even.
  pose proof (Z.div_mod n d ltac:(lia)) as Hdm.
  pose proof (Z.mod_pos_bound n d Hd) as Hr.
  pose proof (Z.div_pos n d Hn Hd) as Hq.
  assert (Hqd : n / d * d = n - n mod d) by lia.
  destruct (2 * (n mod d) <? d) eqn:H1; [apply Z.ltb_lt in H1; lia|].
  apply Z.ltb_ge in H1.
  assert (Hup : 2 * ((n / d + 1) * d) <= 2 * n + d) by lia.
  destruct (d <? 2 * (n mod d)); [lia|].
  destruct (Z.even (n / d)); lia.
Qed.

(** Rounding a non-negative dyadic to 53 bits shifts it by [s >= 0]
    places and raises it by at most one part in [2^53]. *)
Lemma round53_bounds (m e : Z) :
  0 <= m ->
  exists s,
    0 <= s
    /\ Py.expo (Py.round53 (Py.Dyadic m e)) = e + s
    /\ 0 <= Py.mant (Py.round53 (Py.Dyadic m e))
    /\ Py.mant (Py.round53 (Py.Dyadic m e)) * 2 ^ s * 2 ^ 53
       <= m * (2 ^ 53 + 1).
Proof.
  intros Hm. unfold Py.round53. cbn [Py.mant Py.expo].
  rewrite (Z.abs_eq m Hm).
  destruct (Z.log2 m - 52 <=? 0) eqn:Hs.
  - exists 0. cbn [Py.mant Py.expo]. repeat split; lia.
  - apply Z.leb_gt in Hs. exists (Z.log2 m - 52). cbn [Py.mant Py.expo].
    assert (Hmpos : 0 < m).
    { destruct (Z.eq_dec m 0) as [->|]; [simpl in Hs; lia | lia]. }
    set (s := Z.log2 m - 52) in *.
    assert (Hpow : 0 < 2 ^ s) by (apply Z.pow_pos_nonneg; lia).
    destruct (round_half_even_bounds m (2 ^ s) Hm Hpow) as [Hr0 Hr1].
    rewrite (Z.sgn_pos m Hmpos), Z.mul_1_l.
    repeat split; try lia.
    (* 2^s * 2^52 = 2^(log2 m) <= m *)
    assert (Hlog : 2 ^ s * 2 ^ 52 <= m).
    { rewrite <- Z.pow_add_r by lia.
      replace (s + 52) with (Z.log2 m) by (unfold s; lia).
      apply Z.log2_spec. exact Hmpos. }
    set (r := Py.round_half_even m (2 ^ s)) in *.
    assert (H2 : 2 * (r * 2 ^ s) * 2 ^ 52 <= (2 * m + 2 ^ s) * 2 ^ 52).
    { apply Z.mul_le_mono_nonneg_r; lia. }
    replace (2 ^ 53) with (2 * 2 ^ 52) by reflexivity.
    lia.
Qed.

(** [int(z * x)] for [z >= 0] and a positive float [x = M * 2^-E] below
    one: non-negative, and above the exact product [z * x] by no more
    than two roundings allow. *)
Lemma int_mul_bounds (z : Z) (x : float) (M E : Z) :
  0 <= z -> 0 <= M -> 0 <= E ->
  Py.dyadic_of_float x = Some (Py.Dyadic M (- E)) ->
  0 <= Py.int_mul z x
  /\ Py.int_mul z x * 2 ^ E * (2 ^ 53 * 2 ^ 53)
     <= z * M * ((2 ^ 53 + 1) * (2 ^ 53 + 1)).
Proof.
  intros Hz HM HE Hx. unfold Py.int_mul. rewrite Hx.
  unfold Py.dyadic_of_int, Py.dyadic_mul.
  destruct (round53_bounds z 0 Hz) as (s1 & Hs1 & He1 & Hm1 & Hb1).
  set (d1 := Py.round53 (Py.Dyadic z 0)) in *.
  cbn [Py.mant Py.expo].
  assert (Hprod : 0 <= Py.mant d1 * M) by (apply Z.mul_nonneg_nonneg; lia).
  destruct (round53_bounds (Py.mant d1 * M) (Py.expo d1 + - E) Hprod)
    as (s2 & Hs2 & He2 & Hm2 & Hb2).
  set (d2 := Py.round53 (Py.Dyadic (Py.mant d1 * M) (Py.expo d1 + - E))) in *.
  set (K := 2 ^ 53 + 1) in *.
  set (m1 := Py.mant d1) in *. set (m2 := Py.mant d2) in *.
  assert (HK : 0 < K) by (unfold K; lia).
  assert (Hp1 : 0 < 2 ^ s1) by (apply Z.pow_pos_nonneg; lia).
  assert (Hp2 : 0 < 2 ^ s2) by (apply Z.pow_pos_nonneg; lia).
  assert (HpE : 0 < 2 ^ E) by (apply Z.pow_pos_nonneg; lia).
  (* the truncated value, scaled by 2^E, is at most m2 * 2^s2 * 2^s1 *)
  assert (Hv : 0 <= Py.int_of_dyadic d2
               /\ Py.int_of_dyadic d2 * 2 ^ E <= m2 * 2 ^ s2 * 2 ^ s1).
  { assert (He : Py.expo d2 = s1 + - E + s2) by lia.
    unfold Py.int_of_dyadic. fold m2. rewrite He.
    destruct (0 <=? s1 + - E + s2) eqn:Hsign.
    - apply Z.leb_le in Hsign. split.
      + apply Z.mul_nonneg_nonneg; [lia|]. apply Z.pow_nonneg. lia.
      + rewrite <- Z.mul_assoc, <- Z.pow_add_r by lia.
        replace (s1 + - E + s2 + E) with (s2 + s1) by lia.
        rewrite Z.pow_add_r by lia. lia.
    - apply Z.leb_gt in Hsign.
      set (t := - (s1 + - E + s2)) in *.
      assert (Ht : 0 < 2 ^ t) by (apply Z.pow_pos_nonneg; lia).
      rewrite Z.quot_div_nonneg by lia.
      pose proof (Z.div_pos m2 (2 ^ t) Hm2 Ht) as Hq0.
      pose proof (Z.mul_div_le m2 (2 ^ t) Ht) as Hq1.
      split; [exact Hq0|].
      replace E with (t + (s2 + s1)) by (unfold t; lia).
      rewrite Z.pow_add_r by lia. rewrite (Z.pow_add_r 2 s2 s1) by lia.
      assert (Hstep : m2 / 2 ^ t * 2 ^ t * (2 ^ s2 * 2 ^ s1)
                      <= m2 * (2 ^ s2 * 2 ^ s1)).
      { apply Z.mul_le_mono_nonneg_r; lia. }
      lia. }
  destruct Hv as [Hv0 Hv1]. split; [exact Hv0|].
  set (v := Py.int_of_dyadic d2) in *.
  (* chain the two rounding bounds *)
  assert (HA : v * 2 ^ E * (2 ^ 53 * 2 ^ 53)
               <= m2 * 2 ^ s2 * 2 ^ s1 * (2 ^ 53 * 2 ^ 53)).
  { apply Z.mul_le_mono_nonneg_r; lia. }
  assert (HB : m2 * 2 ^ s2 * 2 ^ 53 * (2 ^ s1 * 2 ^ 53)
               <= m1 * M * K * (2 ^ s1 * 2 ^ 53)).
  { apply Z.mul_le_mono_nonneg_r; lia. }
  assert (HC : m1 * 2 ^ s1 * 2 ^ 53 * (M * K) <= z * K * (M * K)).
  { apply Z.mul_le_mono_nonneg_r; [apply Z.mul_nonneg_nonneg; lia | exact Hb1]. }
  lia.
Qed.

(** The same bound against a fraction in thousandths. *)
Lemma int_mul_permille (z : Z) (x : float) (M E c : Z) :
  0 <= z -> 0 <= M -> 0 <= E ->
  Py.dyadic_of_float x = Some (Py.Dyadic M (- E)) ->
  1000 * M * ((2 ^ 53 + 1) * (2 ^ 53 + 1)) <= c * (2 ^ E * (2 ^ 53 * 2 ^ 53)) ->
  0 <= Py.int_mul z x /\ 1000 * Py.int_mul z x <= c * z.
Proof.
  intros Hz HM HE Hx Hc.
  destruct (int_mul_bounds z x M E Hz HM HE Hx) as [H0 H1].
  split; [exact H0|].
  set (v := Py.int_mul z x) in *.
  set (D := 2 ^ E * (2 ^ 53 * 2 ^ 53)) in *.
  assert (HD : 0 < D).
  { unfold D. apply Z.mul_pos_pos; [apply Z.pow_pos_nonneg; lia | lia]. }
  assert (H2 : 1000 * v * D <= z * (1000 * M * ((2 ^ 53 + 1) * (2 ^ 53 + 1)))).
  { unfold D. lia. }
  assert (H3 : z * (1000 * M * ((2 ^ 53 + 1) * (2 ^ 53 + 1))) <= z * (c * D)).
  { apply Z.mul_le_mono_nonneg_l; lia. }
  apply (Z.mul_le_mono_pos_r _ _ D HD). lia.
Qed.

(** Rounding to nearest lowers a non-negative quotient by at most one
    half. *)
Lemma round_half_even_within (n d : Z) :
  0 <= n -> 0 < d ->
  2 * n <= 2 * (Py.round_half_even n d * d) + d.
Proof.
  intros Hn Hd. unfold Py.round_half_even.
  pose proof (Z.div_mod n d ltac:(lia)) as Hdm.
  pose proof (Z.mod_pos_bound n d Hd) as Hr.
  destruct (2 * (n mod d) <? d) eqn:H1; [apply Z.ltb_lt in H1; lia|].
  apply Z.ltb_ge in H1.
  destruct (d <? 2 * (n mod d)) eqn:H2; [lia|].
  apply Z.ltb_ge in H2.
  destruct (Z.even (n / d)); lia.
Qed.

(** Rounding a non-negative dyadic to 53 bits lowers it by at most one
    part in [2^53]. *)
Lemma round53_within (m e : Z) :
  0 <= m ->
  exists s,
    0 <= s
    /\ Py.expo (Py.round53 (Py.Dyadic m e)) = e + s
    /\ 0 <= Py.mant (Py.round53 (Py.Dyadic m e))
    /\ m * (2 ^ 53 - 1)
       <= Py.mant (Py.round53 (Py.Dyadic m e)) * 2 ^ s * 2 ^ 53.
Proof.
  intros Hm. unfold Py.round53. cbn [Py.mant Py.expo].
  rewrite (Z.abs_eq m Hm).
  destruct (Z.log2 m - 52 <=? 0) eqn:Hs.
  - exists 0. cbn [Py.mant Py.expo]. repeat split; lia.
  - apply Z.leb_gt in Hs. exists (Z.log2 m - 52). cbn [Py.mant Py.expo].
    assert (Hmpos : 0 < m).
    { destruct (Z.eq_dec m 0) as [->|]; [simpl in Hs; lia | lia]. }
    set (s := Z.log2 m - 52) in *.
    assert (Hpow : 0 < 2 ^ s) by (apply Z.pow_pos_nonneg; lia).
    destruct (round_half_even_bounds m (2 ^ s) Hm Hpow) as [Hr0 _].
    pose proof (round_half_even_within m (2 ^ s) Hm Hpow) as Hr1.
    rewrite (Z.sgn_pos m Hmpos), Z.mul_1_l.
    repeat split; try lia.
    assert (Hlog : 2 ^ s * 2 ^ 52 <= m).
    { rewrite <- Z.pow_add_r by lia.
      replace (s + 52) with (Z.log2 m) by (unfold s; lia).
      apply Z.log2_spec. exact Hmpos. }
    set (r := Py.round_half_even m (2 ^ s)) in *.
    assert (H2 : 2 * m * 2 ^ 52 <= (2 * (r * 2 ^ s) + 2 ^ s) * 2 ^ 52).
    { apply Z.mul_le_mono_nonneg_r; lia. }
    replace (2 ^ 53) with (2 * 2 ^ 52) by reflexivity.
    lia.
Qed.

(** [int(z * x)] is less than one below the exact product lowered by
    two roundings. *)
Lemma int_mul_within (z : Z) (x : float) (M E : Z) :
  0 <= z -> 0 <= M -> 0 <= E ->
  Py.dyadic_of_float x = Some (Py.Dyadic M (- E)) ->
  z * M * ((2 ^ 53 - 1) * (2 ^ 53 - 1))
  < (Py.int_mul z x + 1) * 2 ^ E * (2 ^ 53 * 2 ^ 53).
Proof.
  intros Hz HM HE Hx. unfold Py.int_mul. rewrite Hx.
  unfold Py.dyadic_of_int, Py.dyadic_mul.
  destruct (round53_within z 0 Hz) as (s1 & Hs1 & He1 & Hm1 & Hb1).
  set (d1 := Py.round53 (Py.Dyadic z 0)) in *.
  cbn [Py.mant Py.expo].
  assert (Hprod : 0 <= Py.mant d1 * M) by (apply Z.mul_nonneg_nonneg; lia).
  destruct (round53_within (Py.mant d1 * M) (Py.expo d1 + - E) Hprod)
    as (s2 & Hs2 & He2 & Hm2 & Hb2).
  set (d2 := Py.round53 (Py.Dyadic (Py.mant d1 * M) (Py.expo d1 + - E))) in *.
  set (L := 2 ^ 53 - 1) in *.
  set (m1 := Py.mant d1) in *. set (m2 := Py.mant d2) in *.
  assert (HL : 0 < L) by (unfold L; lia).
  assert (Hp1 : 0 < 2 ^ s1) by (apply Z.pow_pos_nonneg; lia).
  assert (Hp2 : 0 < 2 ^ s2) by (apply Z.pow_pos_nonneg; lia).
  assert (HpE : 0 < 2 ^ E) by (apply Z.pow_pos_nonneg; lia).
  assert (Hv : m2 * 2 ^ s2 * 2 ^ s1 < (Py.int_of_dyadic d2 + 1) * 2 ^ E).
  { assert (He : Py.expo d2 = s1 + - E + s2) by lia.
    unfold Py.int_of_dyadic. fold m2. rewrite He.
    destruct (0 <=? s1 + - E + s2) eqn:Hsign.
    - apply Z.leb_le in Hsign.
      assert (Heq : m2 * 2 ^ (s1 + - E + s2) * 2 ^ E = m2 * 2 ^ s2 * 2 ^ s1).
      { rewrite <- Z.mul_assoc, <- Z.pow_add_r by lia.
        replace (s1 + - E + s2 + E) with (s2 + s1) by lia.
        rewrite Z.pow_add_r by lia. lia. }
      lia.
    - apply Z.leb_gt in Hsign.
      set (t := - (s1 + - E + s2)) in *.
      assert (Ht : 0 < 2 ^ t) by (apply Z.pow_pos_nonneg; lia).
      rewrite Z.quot_div_nonneg by lia.
      pose proof (Z.div_mod m2 (2 ^ t) ltac:(lia)) as Hdm.
      pose proof (Z.mod_pos_bound m2 (2 ^ t) Ht) as Hr.
      replace E with (t + (s2 + s1)) by (unfold t; lia).
      rewrite Z.pow_add_r by lia. rewrite (Z.pow_add_r 2 s2 s1) by lia.
      assert (Hlt : m2 < (m2 / 2 ^ t + 1) * 2 ^ t) by lia.
      assert (Hstep : m2 * (2 ^ s2 * 2 ^ s1)
                      < (m2 / 2 ^ t + 1) * 2 ^ t * (2 ^ s2 * 2 ^ s1)).
      { apply Z.mul_lt_mono_pos_r; lia. }
      lia. }
  set (v := Py.int_of_dyadic d2) in *.
  assert (HA : m2 * 2 ^ s2 * 2 ^ s1 * (2 ^ 53 * 2 ^ 53)
               < (v + 1) * 2 ^ E * (2 ^ 53 * 2 ^ 53)).
  { apply Z.mul_lt_mono_pos_r; lia. }
  assert (HB : m1 * M * L * (2 ^ s1 * 2 ^ 53)
               <= m2 * 2 ^ s2 * 2 ^ 53 * (2 ^ s1 * 2 ^ 53)).
  { apply Z.mul_le_mono_nonneg_r; lia. }
  assert (HC : z * L * (M * L) <= m1 * 2 ^ s1 * 2 ^ 53 * (M * L)).
  { apply Z.mul_le_mono_nonneg_r; [apply Z.mul_nonneg_nonneg; lia | exact Hb1]. }
  lia.
Qed.

(** For a quantity that converts exactly, [int(z * x)] is within two
    shares of the fraction [p / 1000] that the literal [x] stands for. *)
Lemma int_mul_share (z : Z) (x : float) (M E p : Z) :
  0 <= z <= 2 ^ 53 -> 0 <= M -> 0 <= E ->
  Py.dyadic_of_float x = Some (Py.Dyadic M (- E)) ->
  1000 * M * ((2 ^ 53 + 1) * (2 ^ 53 + 1)) * 2 ^ 53
    <= (p * 2 ^ 53 + 1000) * (2 ^ E * (2 ^ 53 * 2 ^ 53)) ->
  (p * 2 ^ 53 - 1000) * (2 ^ E * (2 ^ 53 * 2 ^ 53))
    <= 1000 * M * ((2 ^ 53 - 1) * (2 ^ 53 - 1)) * 2 ^ 53 ->
  p * z - 2000 < 1000 * Py.int_mul z x <= p * z + 1000.
Proof.
  intros Hz HM HE Hx HU HL.
  destruct (int_mul_bounds z x M E (proj1 Hz) HM HE Hx) as [H0 H1].
  pose proof (int_mul_within z x M E (proj1 Hz) HM HE Hx) as H2.
  set (v := Py.int_mul z x) in *.
  set (D := 2 ^ E * (2 ^ 53 * 2 ^ 53)) in *.
  set (U := 1000 * M * ((2 ^ 53 + 1) * (2 ^ 53 + 1)) * 2 ^ 53) in *.
  set (W := 1000 * M * ((2 ^ 53 - 1) * (2 ^ 53 - 1)) * 2 ^ 53) in *.
  assert (HD : 0 < D).
  { unfold D. apply Z.mul_pos_pos; [apply Z.pow_pos_nonneg; lia | lia]. }
  assert (H1' : 1000 * v * 2 ^ 53 * D <= z * U) by (unfold U, D; lia).
  assert (H2' : z * W < 1000 * (v + 1) * 2 ^ 53 * D) by (unfold W, D; lia).
  assert (H3 : z * U <= z * ((p * 2 ^ 53 + 1000) * D)).
  { apply Z.mul_le_mono_nonneg_l; lia. }
  assert (H4 : z * ((p * 2 ^ 53 - 1000) * D) <= z * W).
  { apply Z.mul_le_mono_nonneg_l; lia. }
  assert (H5 : z * D <= 2 ^ 53 * D).
  { apply Z.mul_le_mono_nonneg_r; lia. }
  split.
  - apply (Z.mul_lt_mono_pos_r (2 ^ 53 * D)); [lia|]. nia.
  - apply (Z.mul_le_mono_pos_r _ _ (2 ^ 53 * D)); [lia|]. nia.
Qed.

End Numbers.

(** ** The session schedule (data/generate_production_vwap.py) *)

Lemma zsum_take_mono (l : list Z) (n : nat) :
  Forall (fun x => 0 <= x) l -> Py.zsum (take n l) <= Py.zsum (take (S n) l).
Proof.
  revert l. induction n as [|n IH]; intros [|x l] Hl; cbn [take]; try lia.
  - inversion Hl; subst. rewrite zsum_cons, take_0.
    change (Py.zsum []) with 0. lia.
  - inversion Hl; subst. rewrite !zsum_cons. specialize (IH l ltac:(assumption)).
    lia.
Qed.

(** A schedule whose last entry is what the others leave of the total. *)
Lemma reconciled_schedule (total : Z) (first : list Z) :
  Forall (fun q => 0 <= q) first -> Py.zsum first <= total ->
  let schedule := first ++ [total - Py.zsum first] in
  Forall (fun q => 0 <= q) schedule
  /\ Py.zsum schedule = total
  /\ (forall h, 0 <= h ->
        ProductionVWAP.expected_cumulative schedule h
        <= ProductionVWAP.expected_cumulative schedule (h + 1))
  /\ ProductionVWAP.expected_cumulative schedule
       (Z.of_nat (length schedule) - 1) = total.
Proof.
  intros Hfirst Hle schedule.
  assert (Hall : Forall (fun q => 0 <= q) schedule).
  { apply Forall_app. split; [exact Hfirst|]. constructor; [lia|constructor]. }
  assert (Hsum : Py.zsum schedule = total).
  { unfold schedule. rewrite zsum_app, zsum_cons. change (Py.zsum []) with 0.
    lia. }
  repeat split; try assumption.
  - intros h Hh. unfold ProductionVWAP.expected_cumulative,
      ProductionVWAP.slice_to.
    rewrite !(proj2 (Z.leb_le 0 _)) by lia.
    replace (Z.to_nat (h + 1 + 1)) with (S (Z.to_nat (h + 1))) by lia.
    apply zsum_take_mono. exact Hall.
  - unfold ProductionVWAP.expected_cumulative, ProductionVWAP.slice_to.
    replace (Z.of_nat (length schedule) - 1 + 1)
      with (Z.of_nat (length schedule)) by lia.
    rewrite (proj2 (Z.leb_le 0 _)) by lia.
    rewrite Nat2Z.id, firstn_all. exact Hsum.
Qed.

(** The truncated products of the first seven periods: each is
    non-negative and at most its fraction of the total plus a
    thousandth. *)
Lemma participation_bounds (t : Z) :
  0 <= t ->
  (0 <= Py.int_mul t 0.15 /\ 1000 * Py.int_mul t 0.15 <= 151 * t)
  /\ (0 <= Py.int_mul t 0.10 /\ 1000 * Py.int_mul t 0.10 <= 101 * t)
  /\ (0 <= Py.int_mul t 0.08 /\ 1000 * Py.int_mul t 0.08 <= 81 * t)
  /\ (0 <= Py.int_mul t 0.07 /\ 1000 * Py.int_mul t 0.07 <= 71 * t)
  /\ (0 <= Py.int_mul t 0.12 /\ 1000 * Py.int_mul t 0.12 <= 121 * t).
Proof.
  intros Ht.
  pose proof (int_mul_permille t 0.15 5404319552844595 55 151 Ht) as H15.
  pose proof (int_mul_permille t 0.10 7205759403792794 56 101 Ht) as H10.
  pose proof (int_mul_permille t 0.08 5764607523034235 56 81 Ht) as H08.
  pose proof (int_mul_permille t 0.07 5044031582654956 56 71 Ht) as H07.
  pose proof (int_mul_permille t 0.12 8646911284551352 56 121 Ht) as H12.
  repeat split.
  all: first [ apply H15 | apply H10 | apply H08 | apply H07 | apply H12 ].
  all: first [ lia | reflexivity | apply Z.leb_le; vm_compute; reflexivity ].
Qed.

(** For a total that converts exactly, every period but the last is
    within two shares of its fraction of the total. *)
Lemma participation_shares (t : Z) :
  0 <= t <= 2 ^ 53 ->
  (150 * t - 2000 < 1000 * Py.int_mul t 0.15 <= 150 * t + 1000)
  /\ (100 * t - 2000 < 1000 * Py.int_mul t 0.10 <= 100 * t + 1000)
  /\ (80 * t - 2000 < 1000 * Py.int_mul t 0.08 <= 80 * t + 1000)
  /\ (70 * t - 2000 < 1000 * Py.int_mul t 0.07 <= 70 * t + 1000)
  /\ (120 * t - 2000 < 1000 * Py.int_mul t 0.12 <= 120 * t + 1000).
Proof.
  intros Ht.
  pose proof (int_mul_share t 0.15 5404319552844595 55 150 Ht) as H15.
  pose proof (int_mul_share t 0.10 7205759403792794 56 100 Ht) as H10.
  pose proof (int_mul_share t 0.08 5764607523034235 56 80 Ht) as H08.
  pose proof (int_mul_share t 0.07 5044031582654956 56 70 Ht) as H07.
  pose proof (int_mul_share t 0.12 8646911284551352 56 120 Ht) as H12.
  repeat apply conj.
  all: first [ apply H15 | apply H10 | apply H08 | apply H07 | apply H12 ].
  all: first [ lia | reflexivity | apply Z.leb_le; vm_compute; reflexivity ].
Qed.

(** C6.  For every total quantity [>= 0] that converts to a float
    exactly and every number of periods from 1 to 8,
    [calculate_vwap_schedule] returns a schedule with that many periods,
    all of them non-negative, whose sum is the total quantity exactly.
    Hence the expected cumulative quantity [sum(schedule[:hour+1])]
    never decreases from one period to the next, and after the last
    period it is the total quantity.  Every period but the last is
    [int(total_quantity * pct)] for its fraction [pct] of the curve,
    which is within two shares of that fraction of the total; the last
    period is the total less the sum of the others, so it takes up what
    truncation left over (and, with fewer than 8 periods, the fractions
    of the periods that are not scheduled). *)
Theorem calculate_vwap_schedule_reconciles (total_quantity hours : Z) :
  0 <= total_quantity -> Py.exact_int total_quantity -> 1 <= hours <= 8 ->
  exists schedule,
    ProductionVWAP.calculate_vwap_schedule total_quantity hours = Some schedule
    /\ Z.of_nat (length schedule) = hours
    /\ Forall (fun q => 0 <= q) schedule
    /\ Py.zsum schedule = total_quantity
    /\ (forall h, 0 <= h ->
          ProductionVWAP.expected_cumulative schedule h
          <= ProductionVWAP.expected_cumulative schedule (h + 1))
    /\ ProductionVWAP.expected_cumulative schedule (hours - 1)
       = total_quantity
    /\ removelast schedule
       = map (fun pct => Py.int_mul total_quantity pct)
             (take (Z.to_nat (hours - 1)) ProductionVWAP.participation)
    /\ Forall2 (fun q permille =>
                  permille * total_quantity - 2000 < 1000 * q
                  <= permille * total_quantity + 1000)
               (removelast schedule)
               (take (Z.to_nat (hours - 1))
                     ProductionVWAP.participation_permille)
    /\ last schedule = Some (total_quantity - Py.zsum (removelast schedule)).
Proof.
  intros Ht Hex Hh.
  destruct (participation_bounds total_quantity Ht)
    as ([A0 A1] & [B0 B1] & [C0 C1] & [D0 D1] & [E0 E1]).
  assert (Hrange : 0 <= total_quantity <= 2 ^ 53)
    by (unfold Py.exact_int in Hex; lia).
  destruct (participation_shares total_quantity Hrange)
    as (SA & SB & SC & SD & SE).
  assert (Hcases : hours = 1 \/ hours = 2 \/ hours = 3 \/ hours = 4
                   \/ hours = 5 \/ hours = 6 \/ hours = 7 \/ hours = 8)
    by lia.
  unfold ProductionVWAP.calculate_vwap_schedule.
  decompose [or] Hcases; subst hours; simpl;
    match goal with
    | |- exists s, Some ?l = Some s /\ _ =>
        let first := eval cbn [removelast] in (removelast l) in
        change l with (first ++ [total_quantity - Py.zsum first]);
        assert (Hfirst : Forall (fun q => 0 <= q) first)
          by (repeat constructor; assumption);
        assert (Hle : Py.zsum first <= total_quantity)
          by (rewrite ?zsum_cons; change (Py.zsum []) with 0; lia);
        destruct (reconciled_schedule total_quantity first Hfirst Hle)
          as (R1 & R2 & R3 & R4);
        eexists; split; [reflexivity|];
        split; [reflexivity|];
        split; [exact R1|]; split; [exact R2|]; split; [exact R3|];
        split; [exact R4|];
        split; [reflexivity|];
        split; [cbn [removelast app];
                repeat (apply List.Forall2_cons; [assumption|]);
                apply List.Forall2_nil
               | reflexivity]
    end.
Qed.

Lemma calculate_vwap_schedule_reconciles_witness :
  0 <= 100000 /\ Py.exact_int 100000 /\ 1 <= 7 <= 8
  /\ exists schedule,
       ProductionVWAP.calculate_vwap_schedule 100000 7 = Some schedule
       /\ Z.of_nat (length schedule) = 7
       /\ Forall (fun q => 0 <= q) schedule
       /\ Py.zsum schedule = 100000
       /\ (forall h, 0 <= h ->
             ProductionVWAP.expected_cumulative schedule h
             <= ProductionVWAP.expected_cumulative schedule (h + 1))
       /\ ProductionVWAP.expected_cumulative schedule (7 - 1) = 100000
       /\ removelast schedule
          = map (fun pct => Py.int_mul 100000 pct)
                (take (Z.to_nat (7 - 1)) ProductionVWAP.participation)
       /\ Forall2 (fun q permille =>
                     permille * 100000 - 2000 < 1000 * q
                     <= permille * 100000 + 1000)
                  (removelast schedule)
                  (take (Z.to_nat (7 - 1))
                        ProductionVWAP.participation_permille)
       /\ last schedule = Some (100000 - Py.zsum (removelast schedule)).
Proof.
  assert (Hex : Py.exact_int 100000) by (unfold Py.exact_int; simpl; lia).
  split; [lia|]. split; [exact Hex|]. split; [lia|].
  apply (calculate_vwap_schedule_reconciles 100000 7); [lia | exact Hex | lia].
Defined.

(** The literals of the curve are the floats nearest to the
    thousandths. *)
Example participation_literals :
  map (fun permille => Py.truediv permille 1000)
      ProductionVWAP.participation_permille
  = ProductionVWAP.participation.
Proof. vm_compute. reflexivity. Qed.

(** The schedule of the simulator's default order, and of a one-period
    session. *)
Example schedule_100000 :
  ProductionVWAP.calculate_vwap_schedule 100000 7
  = Some [15000; 10000; 8000; 7000; 8000; 10000; 42000].
Proof. vm_compute. reflexivity. Qed.

Example schedule_one_period :
  ProductionVWAP.calculate_vwap_schedule 999 1 = Some [999].
Proof. vm_compute. reflexivity. Qed.

(** No periods: [schedule[-1]] fails. *)
Example schedule_no_period :
  ProductionVWAP.calculate_vwap_schedule 100000 0 = None.
Proof. vm_compute. reflexivity. Qed.

(** The rounding of [Py.int_mul] against the primitive multiplication,
    on quantities of every size. *)
Example int_mul_agrees_with_primitive :
  forallb (fun z => forallb (fun x => Py.int_mul z x =? Py.int_mul_prim z x)
                            ProductionVWAP.participation)
          [0; 1; 7; 20; 300; 100000; 2000000; 123456789;
           9007199254740993; 123456789012345678901234567890]
  = true.
Proof. vm_compute. reflexivity. Qed.

(** ** Loops *)

(** An invariant of the loop body is an invariant of the loop. *)
Lemma for_each_invariant {I S : Type} (P : S -> Prop)
    (body : I -> S -> loop_step S) (idxs : list I) (s : S) :
  (forall i s, P s -> match body i s with Next s' | Break s' => P s' end) ->
  P s -> P (for_each body idxs s).
Proof.
  intros Hbody. revert s.
  induction idxs as [|i idxs IH]; intros s Hs; cbn [for_each].
  - exact Hs.
  - specialize (Hbody i s Hs). destruct (body i s) as [s'|s'].
    + apply IH. exact Hbody.
    + exact Hbody.
Qed.

(** The same for an invariant that holds of the pair of the loop's
    entry state and its current state. *)
Lemma for_each_relation {I S : Type} (R : S -> S -> Prop)
    (body : I -> S -> loop_step S) (idxs : list I) (s : S) :
  (forall s, R s s) ->
  (forall i s0 s, R s0 s ->
     match body i s with Next s' | Break s' => R s0 s' end) ->
  R s (for_each body idxs s).
Proof.
  intros Hrefl Hbody.
  apply (for_each_invariant (R s)); [|apply Hrefl].
  intros i s1 Hs1. apply Hbody. exact Hs1.
Qed.

(** ** Urgency (C3) *)

(** [calculate_urgency] takes the participation rate as 100% when
    nothing is expected yet, and answers [PASSIVE]. *)
Lemma calculate_urgency_without_expectation
    (s : ProductionVWAP.simulator) (hour filled : Z) :
  ProductionVWAP.expected_cumulative (ProductionVWAP.schedule s) hour <= 0 ->
  fst (ProductionVWAP.calculate_urgency s hour filled) = PASSIVE.
Proof.
  intros H. unfold ProductionVWAP.calculate_urgency.
  rewrite (proj2 (Z.ltb_ge 0 _) H). reflexivity.
Qed.

(** The scenario of the specification: 699 filled of 1000 expected is
    [CRITICAL] in both generators (the rate is 69.9). *)
Example urgency_boundary_699 :
  fst (ProductionVWAP.calculate_urgency
         (ProductionVWAP.Simulator 1000 [1000] [] 0 699 0 650) 0 699)
  = CRITICAL
  /\ ProductionVWAPFixed.hour_urgency 7000 699 0 = CRITICAL.
Proof. split; vm_compute; reflexivity. Qed.

(** The boundaries themselves fall into the less urgent bucket. *)
Example urgency_boundaries :
  map (fun filled =>
         fst (ProductionVWAP.calculate_urgency
                (ProductionVWAP.Simulator 1000 [1000] [] 0 0 0 650) 0 filled))
      [950; 949; 850; 849; 700; 699]
  = [PASSIVE; NORMAL; NORMAL; URGENT; URGENT; CRITICAL]
  /\ map (fun filled => ProductionVWAPFixed.hour_urgency 7000 filled 0)
         [950; 949; 850; 849; 700; 699]
     = [PASSIVE; NORMAL; NORMAL; URGENT; URGENT; CRITICAL].
Proof. split; vm_compute; reflexivity. Qed.

(** The order of binary64: nothing is below [a] and at or above [b]
    when [a <= b]. *)
Lemma SFcompare_chain (x a b : spec_float) :
  SFleb a b = true -> SFltb x a = true -> SFleb b x = true -> False.
Proof.
  unfold SFleb, SFltb.
  destruct x as [sx|sx| |sx mx ex], a as [sa|sa| |sa ma ea],
           b as [sb|sb| |sb mb eb];
    cbn [SFcompare];
    repeat match goal with s : bool |- _ => destruct s end;
    try discriminate;
    change (Pos.compare_cont Eq) with Pos.compare;
    repeat match goal with
           | |- context [(?p ?= ?q)%Z] => destruct (Z.compare_spec p q)
           | |- context [(?p ?= ?q)%positive] =>
               destruct (Pos.compare_spec p q)
           end;
    cbn [CompOpp]; intros; try discriminate; subst; lia.
Qed.

Lemma float_below_not_above (x a b : float) :
  (a <=? b)%float = true -> (x <? a)%float = true ->
  (b <=? x)%float = false.
Proof.
  intros Hab Hxa. destruct (b <=? x)%float eqn:Hbx; [|reflexivity].
  exfalso. rewrite leb_spec in Hab, Hbx. rewrite ltb_spec in Hxa.
  exact (SFcompare_chain _ _ _ Hab Hxa Hbx).
Qed.

(** [calculate_urgency] follows the table. *)
Lemma calculate_urgency_classified
    (s : ProductionVWAP.simulator) (hour filled : Z) :
  0 <= ProductionVWAP.expected_cumulative (ProductionVWAP.schedule s) hour ->
  classified
    (participation_rate filled
       (ProductionVWAP.expected_cumulative (ProductionVWAP.schedule s) hour))
    (fst (ProductionVWAP.calculate_urgency s hour filled)).
Proof.
  intros He. unfold ProductionVWAP.calculate_urgency, participation_rate.
  set (e := ProductionVWAP.expected_cumulative _ _) in *.
  cbn [fst].
  replace (if e =? 0 then 100%float
           else (Py.truediv filled e * 100)%float)
    with (if 0 <? e then (Py.truediv filled e * 100)%float else 100%float).
  2:{ destruct (Z.ltb_spec 0 e), (Z.eqb_spec e 0); try reflexivity; lia. }
  set (r := if 0 <? e then _ else _).
  repeat split.
  - intros ->. reflexivity.
  - intros H85 H95.
    rewrite (float_below_not_above r 95 95 eq_refl H95), H85. reflexivity.
  - intros H70 H85.
    rewrite (float_below_not_above r 85 95 eq_refl H85),
      (float_below_not_above r 85 85 eq_refl H85), H70. reflexivity.
  - intros H70.
    rewrite (float_below_not_above r 70 95 eq_refl H70),
      (float_below_not_above r 70 85 eq_refl H70),
      (float_below_not_above r 70 70 eq_refl H70). reflexivity.
Qed.

Lemma float_above_not_below (x a b : float) :
  (a <=? b)%float = true -> (b <=? x)%float = true ->
  (x <? a)%float = false.
Proof.
  intros Hab Hbx. destruct (x <? a)%float eqn:Hxa; [|reflexivity].
  rewrite (float_below_not_above x a b Hab Hxa) in Hbx. discriminate.
Qed.

(** So does the fixed generator in an hour that expects something. *)
Lemma hour_urgency_classified (order_size total_filled hour : Z) :
  0 < (order_size / 7) * (hour + 1) ->
  classified
    (participation_rate total_filled ((order_size / 7) * (hour + 1)))
    (ProductionVWAPFixed.hour_urgency order_size total_filled hour).
Proof.
  intros He. unfold ProductionVWAPFixed.hour_urgency, participation_rate.
  set (e := order_size / 7 * (hour + 1)) in *.
  rewrite (proj2 (Z.ltb_lt 0 e) He).
  rewrite (proj2 (Z.eqb_neq e 0)) by lia.
  set (r := (Py.truediv total_filled e * 100)%float).
  repeat split.
  - intros H95.
    rewrite (float_above_not_below r 70 95 eq_refl H95),
      (float_above_not_below r 85 95 eq_refl H95),
      (float_above_not_below r 95 95 eq_refl H95). reflexivity.
  - intros H85 H95.
    rewrite (float_above_not_below r 70 85 eq_refl H85),
      (float_above_not_below r 85 85 eq_refl H85), H95. reflexivity.
  - intros H70 H85.
    rewrite (float_above_not_below r 70 70 eq_refl H70), H85. reflexivity.
  - intros ->. reflexivity.
Qed.

(** An hour of the fixed generator in which nothing is expected yet
    creates no slice. *)
Lemma hour_without_expectation (rs : random_source) (hour : Z)
    (st : ProductionVWAPFixed.slice_state) :
  let g := ProductionVWAPFixed.sl_gen st in
  0 <= ProductionVWAPFixed.total_filled g < ProductionVWAPFixed.order_size g ->
  ProductionVWAPFixed.order_size g / 7 <= 0 ->
  ProductionVWAPFixed.hour_body rs hour st = Next st.
Proof.
  intros g Hf He. unfold ProductionVWAPFixed.hour_body. fold g.
  rewrite (proj2 (Z.leb_gt _ _)) by lia.
  set (size := ProductionVWAPFixed.order_size g) in *.
  set (avg := ProductionVWAPFixed.avg_slice_size g).
  assert (Hsize : 0 < size < 7).
  { split; [lia|]. destruct (Z.lt_ge_cases size 7) as [|H7]; [assumption|].
    pose proof (Z.div_le_mono 7 size 7 ltac:(lia) H7) as H.
    change (7 / 7) with 1 in H. lia. }
  assert (Hn : size / avg / 7 <= 0).
  { destruct (Z.lt_trichotomy avg 0) as [Hneg|[->|Hpos]].
    - pose proof (Z.div_mod size avg ltac:(lia)) as Hdm.
      pose proof (Z.mod_neg_bound size avg Hneg) as Hr.
      assert (size / avg < 0) by nia.
      apply Z.div_le_upper_bound; lia.
    - rewrite Z.div_0_r. reflexivity.
    - assert (size / avg <= size) by (apply Z.div_le_upper_bound; nia).
      assert (0 <= size / avg) by (apply Z.div_pos; lia).
      rewrite Z.div_small by lia. reflexivity. }
  unfold range. replace (Z.to_nat (Z.min (size / avg / 7) 50)) with 0%nat by lia.
  reflexivity.
Qed.

(** A run of the fixed generator in which no hour expects anything is
    the opening rows and the closing update. *)
Lemma generate_without_expectation (rs : random_source)
    (order_size avg_slice_size : Z) (detail_level : string) :
  0 < order_size -> order_size / 7 <= 0 -> avg_slice_size <> 0 ->
  ProductionVWAPFixed.generate rs order_size avg_slice_size detail_level
  = Some (ProductionVWAPFixed.completed
            (ProductionVWAPFixed.opened order_size avg_slice_size
               detail_level)).
Proof.
  intros Hs He Ha. unfold ProductionVWAPFixed.generate.
  rewrite (proj2 (Z.eqb_neq _ _) Ha), (proj2 (Z.eqb_neq order_size 0))
    by lia.
  cbn [orb]. do 2 f_equal.
  set (st := ProductionVWAPFixed.SliceState _ 1 1).
  assert (Hh : forall h, ProductionVWAPFixed.hour_body rs h st = Next st).
  { intros h. apply hour_without_expectation; unfold st; cbn; lia. }
  change (range 7) with [0; 1; 2; 3; 4; 5; 6].
  cbn [for_each]. rewrite !Hh. reflexivity.
Qed.

(** In an hour that expects nothing the fixed generator computes its
    urgency from a rate of 0, not of 100; by [hour_without_expectation]
    no slice is made in such an hour, so this value is never used. *)
Remark hour_urgency_without_expectation (order_size total_filled hour : Z) :
  (order_size / 7) * (hour + 1) <= 0 ->
  ProductionVWAPFixed.hour_urgency order_size total_filled hour = CRITICAL.
Proof.
  intros He. unfold ProductionVWAPFixed.hour_urgency.
  rewrite (proj2 (Z.ltb_ge 0 _) He). reflexivity.
Qed.

(** C3.  At the start of a period the urgency is classified from the
    participation rate [filled / expected * 100], taken as 100 when
    nothing is expected: [PASSIVE] from 95, [NORMAL] from 85 to below
    95, [URGENT] from 70 to below 85, [CRITICAL] below 70.
    [calculate_urgency] does so for every filled quantity and every
    expected quantity [>= 0], and answers [PASSIVE] when nothing is
    expected.  The fixed generator does so in every hour that expects
    something; an hour that expects nothing (an order of fewer than 7
    shares) makes no slice and leaves the generator as it is, and the
    whole run is then the opening rows and the closing update, so that
    no row of its log carries an urgency.  699 filled of 1000 expected
    is [CRITICAL] in both.  Quantities are those that convert to a float
    exactly. *)
Theorem urgency_classified_by_participation
    (s : ProductionVWAP.simulator) (hour filled : Z)
    (rs : random_source) (order_size avg_slice_size : Z)
    (detail_level : string) (fixed_hour total_filled : Z) :
  let expected :=
    ProductionVWAP.expected_cumulative (ProductionVWAP.schedule s) hour in
  let fixed_expected := (order_size / 7) * (fixed_hour + 1) in
  0 <= expected -> Py.exact_int expected -> Py.exact_int filled ->
  0 <= fixed_hour < 7 -> Py.exact_int order_size -> avg_slice_size <> 0 ->
  0 <= total_filled < order_size ->
  classified (participation_rate filled expected)
             (fst (ProductionVWAP.calculate_urgency s hour filled))
  /\ (expected = 0 ->
      fst (ProductionVWAP.calculate_urgency s hour filled) = PASSIVE)
  /\ (0 < fixed_expected ->
      classified (participation_rate total_filled fixed_expected)
                 (ProductionVWAPFixed.hour_urgency order_size total_filled
                    fixed_hour))
  /\ (fixed_expected <= 0 ->
      (forall st,
         ProductionVWAPFixed.order_size (ProductionVWAPFixed.sl_gen st)
         = order_size ->
         ProductionVWAPFixed.total_filled (ProductionVWAPFixed.sl_gen st)
         = total_filled ->
         ProductionVWAPFixed.hour_body rs fixed_hour st = Next st)
      /\ ProductionVWAPFixed.generate rs order_size avg_slice_size
           detail_level
         = Some (ProductionVWAPFixed.completed
                   (ProductionVWAPFixed.opened order_size avg_slice_size
                      detail_level)))
  /\ fst (ProductionVWAP.calculate_urgency
            (ProductionVWAP.Simulator 1000 [1000] [] 0 699 0 650) 0 699)
     = CRITICAL
  /\ ProductionVWAPFixed.hour_urgency 7000 699 0 = CRITICAL.
Proof.
  intros expected fixed_expected He _ _ Hh _ Ha Hf.
  split; [apply calculate_urgency_classified; exact He|].
  split.
  { intros H0. apply calculate_urgency_without_expectation.
    fold expected. lia. }
  split; [intros Hpos; apply hour_urgency_classified; exact Hpos|].
  split; [|split; vm_compute; reflexivity].
  intros Hle.
  assert (H7 : order_size / 7 <= 0) by (unfold fixed_expected in Hle; nia).
  split.
  - intros st Hsize Hfilled. apply hour_without_expectation.
    + rewrite Hsize, Hfilled. exact Hf.
    + rewrite Hsize. exact H7.
  - apply generate_without_expectation; [lia | exact H7 | exact Ha].
Qed.

Lemma urgency_classified_by_participation_witness :
  let s := ProductionVWAP.Simulator 1000 [1000] [] 0 699 0 650 in
  let rs :=
    RandomSource (fun _ _ _ b => b) (fun _ _ => 0%float)
      (fun _ _ _ => 2 ^ 53 - 1) (fun _ _ _ => 0) (fun _ _ _ a _ => a) in
  let expected :=
    ProductionVWAP.expected_cumulative (ProductionVWAP.schedule s) 0 in
  let fixed_expected := (5 / 7) * (0 + 1) in
  0 <= expected /\ Py.exact_int expected /\ Py.exact_int 699
  /\ 0 <= 0 < 7 /\ Py.exact_int 5 /\ 1 <> 0 /\ 0 <= 0 < 5
  /\ classified (participation_rate 699 expected)
                (fst (ProductionVWAP.calculate_urgency s 0 699))
  /\ (expected = 0 ->
      fst (ProductionVWAP.calculate_urgency s 0 699) = PASSIVE)
  /\ (0 < fixed_expected ->
      classified (participation_rate 0 fixed_expected)
                 (ProductionVWAPFixed.hour_urgency 5 0 0))
  /\ (fixed_expected <= 0 ->
      (forall st,
         ProductionVWAPFixed.order_size (ProductionVWAPFixed.sl_gen st) = 5 ->
         ProductionVWAPFixed.total_filled (ProductionVWAPFixed.sl_gen st)
         = 0 ->
         ProductionVWAPFixed.hour_body rs 0 st = Next st)
      /\ ProductionVWAPFixed.generate rs 5 1 "summary"
         = Some (ProductionVWAPFixed.completed
                   (ProductionVWAPFixed.opened 5 1 "summary")))
  /\ fst (ProductionVWAP.calculate_urgency
            (ProductionVWAP.Simulator 1000 [1000] [] 0 699 0 650) 0 699)
     = CRITICAL
  /\ ProductionVWAPFixed.hour_urgency 7000 699 0 = CRITICAL.
Proof.
  intros s rs expected fixed_expected.
  assert (H1 : 0 <= expected) by (change (0 <= 1000); lia).
  assert (H2 : Py.exact_int expected)
    by (change (Z.abs 1000 <= 2 ^ 53); simpl; lia).
  assert (H3 : Py.exact_int 699) by (unfold Py.exact_int; simpl; lia).
  assert (H4 : Py.exact_int 5) by (unfold Py.exact_int; simpl; lia).
  split; [exact H1|]. split; [exact H2|]. split; [exact H3|].
  split; [lia|]. split; [exact H4|]. split; [lia|]. split; [lia|].
  apply (urgency_classified_by_participation s 0 699 rs 5 1 "summary" 0 0);
    [exact H1 | exact H2 | exact H3 | lia | exact H4 | lia | lia].
Defined.

(** The run of an order of 5 shares: three opening rows, and no row
    with an urgency. *)
Example generate_five_shares :
  let rs :=
    RandomSource (fun _ _ _ b => b) (fun _ _ => 0%float)
      (fun _ _ _ => 2 ^ 53 - 1) (fun _ _ _ => 0) (fun _ _ _ a _ => a) in
  option_map
    (fun g => map (fun sn => (order_id (snap_order sn), event_type sn,
                              urgency (snap_order sn)))
                  (ProductionVWAPFixed.snapshots g))
    (ProductionVWAPFixed.generate rs 5 1 "summary")
  = Some [("CLIENT_001", "NEW", None); ("CLIENT_001", "ACCEPTED", None);
          ("ALGO_001", "NEW", None)].
Proof. vm_compute. reflexivity. Qed.

(** ** The fill cascade of the fixed generator (C1, C4, C5) *)

(** What [propagate_fill_up_chain] does to the slice: the fill is added
    to [filled_quantity], [remaining_quantity] follows, and the average
    price is the value of this fill over the quantity of this fill. *)
Lemma propagate_slice (slice_filled : Z) (slice_value : float)
    (slice_order : order) (u : Urgency) (g : ProductionVWAPFixed.generator) :
  slice_filled <> 0 ->
  let so :=
    snd (ProductionVWAPFixed.propagate_fill_up_chain slice_filled slice_value
           slice_order u g) in
  quantity so = quantity slice_order
  /\ filled_quantity so = filled_quantity slice_order + slice_filled
  /\ remaining_quantity so = quantity so - filled_quantity so
  /\ (0 < filled_quantity so ->
      average_price so = (slice_value / Py.float_of_int slice_filled)%float).
Proof.
  intros Hne so. subst so. unfold ProductionVWAPFixed.propagate_fill_up_chain.
  rewrite (proj2 (Z.eqb_neq _ _) Hne). cbn [snd].
  destruct (0 <? filled_quantity
                   (set_remaining_quantity _ (set_filled_quantity _ slice_order)))
    eqn:Hpos; cbn in Hpos |- *.
  - repeat split; reflexivity.
  - apply Z.ltb_ge in Hpos. repeat split; try reflexivity. intros; lia.
Qed.

(** The three orders the cascade touches satisfy the accounting
    invariant afterwards. *)
Lemma propagate_conserves (slice_filled : Z) (slice_value : float)
    (slice_order : order) (u : Urgency) (g : ProductionVWAPFixed.generator) :
  slice_filled <> 0 ->
  quantity (ProductionVWAPFixed.algo_parent g) = ProductionVWAPFixed.order_size g ->
  quantity (ProductionVWAPFixed.client_order g) = ProductionVWAPFixed.order_size g ->
  let r := ProductionVWAPFixed.propagate_fill_up_chain slice_filled slice_value
             slice_order u g in
  conserved (snd r)
  /\ conserved (ProductionVWAPFixed.algo_parent (fst r))
  /\ conserved (ProductionVWAPFixed.client_order (fst r)).
Proof.
  intros Hne Hap Hco r. subst r.
  unfold ProductionVWAPFixed.propagate_fill_up_chain.
  rewrite (proj2 (Z.eqb_neq _ _) Hne). unfold conserved.
  cbn [fst snd].
  repeat split.
  - destruct (0 <? _); cbn; lia.
  - cbn. destruct (0 <? _); cbn; lia.
  - cbn. lia.
Qed.

(** The client order after the cascade carries the algo parent's
    quantities, average price and state. *)
Lemma propagate_mirrors (slice_filled : Z) (slice_value : float)
    (slice_order : order) (u : Urgency) (g : ProductionVWAPFixed.generator) :
  slice_filled <> 0 ->
  let g' :=
    fst (ProductionVWAPFixed.propagate_fill_up_chain slice_filled slice_value
           slice_order u g) in
  mirrors (ProductionVWAPFixed.client_order g')
          (ProductionVWAPFixed.algo_parent g').
Proof.
  intros Hne g'. subst g'.
  unfold ProductionVWAPFixed.propagate_fill_up_chain.
  rewrite (proj2 (Z.eqb_neq _ _) Hne). unfold mirrors. cbn [fst].
  cbn. destruct (0 <? _); cbn; repeat split; reflexivity.
Qed.

(** C4.  A slice of 100 shares receives two fills of 50, at 650 and at
    651.  After the second cascade the slice is fully filled, but its
    average price is 651, the price of the second fill alone, where the
    mean of its fills is 650.5 (the value the algo parent shows). *)
Theorem propagate_slice_average_forgets_earlier_fills :
  let g0 := ProductionVWAPFixed.opened 1000 100 "summary" in
  let slice_order :=
    new_order "SLICE_00001" (Some "ALGO_001") 2 100 "PENDING"
              (Some "NORMAL") None in
  let '(g1, s1) :=
    ProductionVWAPFixed.propagate_fill_up_chain 50 (50 * 650)%float
      slice_order NORMAL g0 in
  let '(g2, s2) :=
    ProductionVWAPFixed.propagate_fill_up_chain 50 (50 * 651)%float
      s1 NORMAL g1 in
  filled_quantity s2 = 100 /\ remaining_quantity s2 = 0
  /\ state s2 = "FILLED"
  /\ average_price s2 = 651%float
  /\ ((50 * 650 + 50 * 651) / 100)%float = 650.5%float
  /\ average_price (ProductionVWAPFixed.algo_parent g2) = 650.5%float.
Proof. vm_compute. repeat split; reflexivity. Qed.

(** The slice update of [generate_realistic_vwap_flow] takes the
    cumulative fills of the slice instead. *)
Lemma realistic_flow_slice_average (slice_order : order)
    (slice_qty slice_filled : Z) (slice_value : float)
    (f : RealisticFlow.flow) :
  let so :=
    snd (RealisticFlow.complete_slice slice_order slice_qty slice_filled
           slice_value f) in
  filled_quantity so = slice_filled
  /\ remaining_quantity so = slice_qty - slice_filled
  /\ average_price so
     = (if 0 <? slice_filled
        then (slice_value / Py.float_of_int slice_filled)%float else 0%float).
Proof. repeat split; reflexivity. Qed.

(** A run of [generate] in which the first slice is filled by three
    routes at two prices: each [SLICE_UPDATE] row shows the price of the
    route that has just filled. *)
Example generate_slice_updates :
  let rs :=
    RandomSource (fun _ _ a _ => a) (fun _ _ => 0%float) (fun _ _ _ => 2 ^ 52)
                 (fun _ _ _ => 0)
                 (fun _ _ route a b => if route =? 0 then a else b) in
  option_map
    (fun g =>
       map (fun s => (filled_quantity (snap_order s),
                      average_price (snap_order s)))
           (filter (fun s => order_id (snap_order s) = "SLICE_00001"
                             /\ event_type s = "SLICE_UPDATE")
                   (ProductionVWAPFixed.snapshots g)))
    (ProductionVWAPFixed.generate rs 1000 100 "summary")
  = Some [(66, 650.02%float); (133, 650.04%float); (200, 650.04%float)].
Proof. vm_compute. reflexivity. Qed.

(** ** The accounting invariant in the routers (C1) *)

(** A fill recorded by the enhanced router breaks the invariant of the
    fresh route order: [filled_quantity] is set, [remaining_quantity]
    keeps the full quantity. *)
Lemma apply_response_breaks_conservation (resp : EnhancedSOR.VenueResponse)
    (qty : Z) (price : float) (o : order) :
  remaining_quantity o = quantity o -> 0 < qty ->
  resp = EnhancedSOR.R_FILLED \/ resp = EnhancedSOR.R_PARTIAL ->
  ~ conserved (EnhancedSOR.apply_response resp qty price o).
Proof.
  unfold conserved. intros Ho Hq [-> | ->]; cbn; lia.
Qed.

(** C1.  The enhanced router receives a slice of 5000 shares; NYSE has
    liquidity for all of it and fills it.  The snapshot the router
    records for the route order has [quantity = 5000],
    [filled_quantity = 5000] and still [remaining_quantity = 5000]:
    filled plus remaining is not the quantity. *)
Theorem enhanced_router_snapshot_breaks_conservation :
  let fd :=
    EnhancedSOR.Feed (fun _ => (650, 649.99, 650.01)%float)
                     (fun _ _ => 10000) (fun _ => 2 ^ 52) (fun _ => 2 ^ 52) in
  let algo_child := new_order "ALGO_001" None 2 5000 "PENDING" None None in
  exists records r s,
    EnhancedSOR.route_order fd algo_child (EnhancedSOR.simulation_router 0.5)
    = Some (records, 5000, r)
    /\ EnhancedSOR.snapshots r = [s]
    /\ event_type s = "SOR_FILLED"
    /\ order_level (snap_order s) = 3
    /\ quantity (snap_order s) = 5000
    /\ filled_quantity (snap_order s) = 5000
    /\ remaining_quantity (snap_order s) = 5000
    /\ ~ conserved (snap_order s).
Proof.
  intros fd algo_child.
  assert (H : exists x, EnhancedSOR.route_order fd algo_child
                          (EnhancedSOR.simulation_router 0.5) = Some x).
  { vm_compute. eexists. reflexivity. }
  destruct H as ([[records total] r] & H).
  revert H. vm_compute. intros H. injection H as <- <- <-.
  do 3 eexists. repeat split. cbn. lia.
Qed.

(** ** The cascade of the trading simulator (C1, C2, C5) *)

(** What [_process_fills] does: the slice takes the fills of this call;
    the parent's entry takes them into its fill log, its filled quantity
    grows by theirs, its average price is recomputed from the whole log
    and rounded to four places, and the client order is given the
    parent's values. *)
Lemma process_fills_cascade (fd : TradingSimV2.feed) (child : order)
    (fs : list TradingSimV2.fill) (w : TradingSimV2.world) (pid : string)
    (pd : TradingSimV2.parent_data) :
  fs <> [] ->
  parent_order_id child = Some pid ->
  TradingSimV2.parent_orders w !! pid = Some pd ->
  let r := TradingSimV2.process_fills fd child fs w in
  conserved (snd r)
  /\ exists pd',
       TradingSimV2.parent_orders (fst r)
       = <[pid := pd']> (TradingSimV2.parent_orders w)
       /\ TradingSimV2.fills pd' = TradingSimV2.fills pd ++ fs
       /\ quantity (TradingSimV2.parent pd')
          = quantity (TradingSimV2.parent pd)
       /\ quantity (TradingSimV2.client_order pd')
          = quantity (TradingSimV2.client_order pd)
       /\ filled_quantity (TradingSimV2.parent pd')
          = filled_quantity (TradingSimV2.parent pd)
            + TradingSimV2.fills_quantity fs
       /\ remaining_quantity (TradingSimV2.parent pd')
          = quantity (TradingSimV2.parent pd')
            - filled_quantity (TradingSimV2.parent pd')
       /\ average_price (TradingSimV2.parent pd')
          = (if 0 <? filled_quantity (TradingSimV2.parent pd')
             then Py.round4
                    (TradingSimV2.fills_value (TradingSimV2.fills pd')
                     / Py.float_of_int
                         (filled_quantity (TradingSimV2.parent pd')))
             else 0%float)
       /\ mirrors (TradingSimV2.client_order pd') (TradingSimV2.parent pd').
Proof.
  intros Hfs Hpid Hpd r. subst r.
  unfold TradingSimV2.process_fills.
  destruct fs as [|f fs']; [contradiction|].
  unfold TradingSimV2.market_tick.
  destruct (TradingSimV2.tick fd (TradingSimV2.ticks w)) as [[mp bid] ask].
  cbn [TradingSimV2.parent_orders TradingSimV2.capture_snapshot
       set_state set_average_price set_remaining_quantity set_filled_quantity
       parent_order_id].
  rewrite Hpid. cbn [TradingSimV2.parent_orders]. rewrite Hpd.
  cbn [fst snd]. split.
  - unfold conserved. cbn. lia.
  - eexists. split; [reflexivity|].
    cbn [TradingSimV2.fills TradingSimV2.parent TradingSimV2.client_order].
    unfold mirrors. cbn.
    repeat split.
    destruct (quantity (TradingSimV2.parent pd) <=? _); reflexivity.
Qed.

(** ** The client order mirrors the algo parent (C5) *)

Lemma update_parent_orders_mirrors (algo_parent client_order : order)
    (u : Urgency) (s : ProductionVWAP.simulator) :
  let '(_, ap, co) :=
    ProductionVWAP.update_parent_orders algo_parent client_order u s in
  mirrors co ap.
Proof. unfold mirrors. cbn. repeat split; reflexivity. Qed.

(** C5.  After a fill cascade the client order has the algo parent's
    [filled_quantity], [remaining_quantity], [average_price] and
    [state]: in [propagate_fill_up_chain] of the fixed generator (for a
    fill that is not empty), in [update_parent_orders] of the production
    simulator, and in [_process_fills] of the trading simulator (for the
    parent the slice belongs to).  The average price of the client is the
    parent's value itself in all three. *)
Theorem client_mirrors_algo_parent
    (slice_filled : Z) (slice_value : float) (slice_order : order)
    (u : Urgency) (g : ProductionVWAPFixed.generator)
    (algo_parent client_order : order) (s : ProductionVWAP.simulator)
    (fd : TradingSimV2.feed) (child : order) (fs : list TradingSimV2.fill)
    (w : TradingSimV2.world) (pid : string) (pd : TradingSimV2.parent_data) :
  slice_filled <> 0 ->
  fs <> [] ->
  parent_order_id child = Some pid ->
  TradingSimV2.parent_orders w !! pid = Some pd ->
  (let g' :=
     fst (ProductionVWAPFixed.propagate_fill_up_chain slice_filled slice_value
            slice_order u g) in
   mirrors (ProductionVWAPFixed.client_order g')
           (ProductionVWAPFixed.algo_parent g'))
  /\ (let '(_, ap, co) :=
        ProductionVWAP.update_parent_orders algo_parent client_order u s in
      mirrors co ap)
  /\ (exists pd',
        TradingSimV2.parent_orders
          (fst (TradingSimV2.process_fills fd child fs w)) !! pid = Some pd'
        /\ mirrors (TradingSimV2.client_order pd') (TradingSimV2.parent pd')).
Proof.
  intros Hsf Hfs Hpid Hpd. split; [|split].
  - apply propagate_mirrors. exact Hsf.
  - apply update_parent_orders_mirrors.
  - destruct (process_fills_cascade fd child fs w pid pd Hfs Hpid Hpd)
      as (_ & pd' & Hmap & _ & _ & _ & _ & _ & _ & Hmirror).
    exists pd'. split; [|exact Hmirror].
    rewrite Hmap. apply lookup_insert_eq.
Qed.

Lemma client_mirrors_algo_parent_witness :
  let g := ProductionVWAPFixed.opened 1000 100 "summary" in
  let slice_order :=
    new_order "SLICE_00001" (Some "ALGO_001") 2 100 "PENDING" None None in
  let ap := new_order "ALGO_01000" (Some "CLIENT_C1") 1 1000 "WORKING"
                      None None in
  let co := new_order "CLIENT_C1" None 0 1000 "ACCEPTED" None None in
  let s := ProductionVWAP.Simulator 1000 [1000] [] 0 400 260000 650 in
  let fd := TradingSimV2.Feed (fun _ => (650, 649.99, 650.01)%float)
                              (fun _ => 0.01%float) (fun _ l _ => l) in
  let pd := TradingSimV2.ParentData ap co [] 0 0 in
  let w :=
    TradingSimV2.set_parent_orders (<["ALGO_01000" := pd]> ∅)
                                   TradingSimV2.initial in
  let child := new_order "SLICE_01001" (Some "ALGO_01000") 2 400 "ACCEPTED"
                         None None in
  let fs := [TradingSimV2.Fill "NYSE" "SOR_05000" 400 650.02 650] in
  (let g' :=
     fst (ProductionVWAPFixed.propagate_fill_up_chain 50 32500
            slice_order NORMAL g) in
   mirrors (ProductionVWAPFixed.client_order g')
           (ProductionVWAPFixed.algo_parent g'))
  /\ (let '(_, ap', co') :=
        ProductionVWAP.update_parent_orders ap co NORMAL s in
      mirrors co' ap')
  /\ (exists pd',
        TradingSimV2.parent_orders
          (fst (TradingSimV2.process_fills fd child fs w)) !! "ALGO_01000"
        = Some pd'
        /\ mirrors (TradingSimV2.client_order pd') (TradingSimV2.parent pd')).
Proof.
  intros g slice_order ap co s fd pd w child fs.
  apply (client_mirrors_algo_parent 50 32500 slice_order NORMAL g ap co s fd
           child fs w "ALGO_01000" pd).
  - lia.
  - discriminate.
  - reflexivity.
  - vm_compute. reflexivity.
Defined.

(** ** The equal split of a slice across venues (C10) *)

(** One iteration of the venue loop: it never leaves the loop; it
    appends one route order for the venue, with the venue's share as
    quantity, fully filled by the venue; and it leaves the engine's
    parent orders and the venue list alone. *)
Lemma route_body_next (fd : TradingSimV2.feed) (algo_child : order)
    (qpv rem n idx : Z) (name : string) (st : TradingSimV2.routing) :
  exists st' so f,
    TradingSimV2.route_body fd algo_child qpv rem n (idx, name) st = Next st'
    /\ TradingSimV2.sor_orders st' = TradingSimV2.sor_orders st ++ [so]
    /\ TradingSimV2.rt_fills st' = TradingSimV2.rt_fills st ++ [f]
    /\ quantity so = TradingSimV2.venue_share qpv rem n idx
    /\ filled_quantity so = TradingSimV2.venue_share qpv rem n idx
    /\ remaining_quantity so = 0
    /\ order_level so = 3
    /\ venue so = Some name
    /\ TradingSimV2.fill_quantity f = TradingSimV2.venue_share qpv rem n idx
    /\ TradingSimV2.rt_total_filled st'
       = TradingSimV2.rt_total_filled st + TradingSimV2.venue_share qpv rem n idx
    /\ TradingSimV2.parent_orders (TradingSimV2.rt_world st')
       = TradingSimV2.parent_orders (TradingSimV2.rt_world st)
    /\ TradingSimV2.venues (TradingSimV2.rt_world st')
       = TradingSimV2.venues (TradingSimV2.rt_world st).
Proof.
  unfold TradingSimV2.route_body, TradingSimV2.venue_receive_order,
    TradingSimV2.market_tick.
  cbn.
  repeat match goal with
         | |- context [TradingSimV2.tick fd ?t] =>
             destruct (TradingSimV2.tick fd t) as [[? ?] ?]; cbn
         end.
  do 3 eexists. repeat split; reflexivity.
Qed.

(** The venue loop over any selection appends one route order per
    venue, in order, with the shares of the positions as quantities. *)
Lemma route_loop_spec (fd : TradingSimV2.feed) (algo_child : order)
    (qpv rem n : Z) (selected : list string) (start : Z)
    (st : TradingSimV2.routing) :
  let st' :=
    for_each (TradingSimV2.route_body fd algo_child qpv rem n)
             (enumerate_from start selected) st in
  exists sos fs,
    TradingSimV2.sor_orders st' = TradingSimV2.sor_orders st ++ sos
    /\ TradingSimV2.rt_fills st' = TradingSimV2.rt_fills st ++ fs
    /\ map quantity sos
       = map (fun iv => TradingSimV2.venue_share qpv rem n (fst iv))
             (enumerate_from start selected)
    /\ map venue sos = map Some selected
    /\ Forall (fun o => order_level o = 3
                        /\ filled_quantity o = quantity o
                        /\ remaining_quantity o = 0) sos
    /\ map TradingSimV2.fill_quantity fs = map quantity sos
    /\ TradingSimV2.rt_total_filled st'
       = TradingSimV2.rt_total_filled st + Py.zsum (map quantity sos)
    /\ TradingSimV2.parent_orders (TradingSimV2.rt_world st')
       = TradingSimV2.parent_orders (TradingSimV2.rt_world st)
    /\ TradingSimV2.venues (TradingSimV2.rt_world st')
       = TradingSimV2.venues (TradingSimV2.rt_world st).
Proof.
  revert start st.
  induction selected as [|name selected IH]; intros start st;
    cbn [enumerate_from for_each].
  - exists [], []. rewrite !app_nil_r. cbn. change (Py.zsum []) with 0.
    repeat split; try reflexivity; try constructor. lia.
  - destruct (route_body_next fd algo_child qpv rem n start name st)
      as (st1 & so & f & Hbody & Hso & Hf & Hq & Hfq & Hrq & Hlvl & Hv & Hfill
          & Htot & Hpo & Hvs).
    rewrite Hbody.
    destruct (IH (start + 1) st1)
      as (sos & fs & Hsos & Hfs & Hqs & Hvens & Hall & Hfills & Htots & Hpos
          & Hvss).
    exists (so :: sos), (f :: fs).
    rewrite Hsos, Hso, Hfs, Hf, <- !app_assoc. cbn [app map fst].
    rewrite Hqs, Hvens, Hq, Hv, Hfill, Hfills, Hqs, Htots, Htot, Hqs.
    rewrite zsum_cons, Hpos, Hpo, Hvss, Hvs.
    repeat split; try reflexivity; try lia.
    constructor; [|exact Hall]. repeat split; [exact Hlvl|lia|exact Hrq].
Qed.

(** The shares of [k >= 1] positions: [k - 1] times the quotient, then
    the quotient plus the remainder. *)
Lemma shares_of_positions {A} (qpv rem : Z) (l : list A) (start : Z) :
  l <> [] ->
  map (fun iv => TradingSimV2.venue_share qpv rem
                   (start + Z.of_nat (length l)) (fst iv))
      (enumerate_from start l)
  = replicate (length l - 1) qpv ++ [qpv + rem].
Proof.
  revert start. induction l as [|x l IH]; intros start Hne; [contradiction|].
  destruct l as [|y l].
  - cbn. unfold TradingSimV2.venue_share.
    rewrite (proj2 (Z.eqb_eq start _)) by lia. reflexivity.
  - cbn [enumerate_from map fst length].
    replace (S (S (length l)) - 1)%nat with (S (length l)) by lia.
    cbn [replicate app]. f_equal.
    + unfold TradingSimV2.venue_share.
      rewrite (proj2 (Z.eqb_neq start _)) by lia. lia.
    + specialize (IH (start + 1) ltac:(discriminate)).
      cbn [length] in IH.
      replace (S (length l) - 1)%nat with (length l) in IH by lia.
      rewrite <- IH. cbn [enumerate_from map fst].
      replace (start + 1 + Z.of_nat (S (length l)))
        with (start + Z.of_nat (S (S (length l)))) by lia.
      reflexivity.
Qed.

Lemma zsum_replicate (n : nat) (a : Z) :
  Py.zsum (replicate n a) = Z.of_nat n * a.
Proof.
  induction n as [|n IH]; [reflexivity|].
  cbn [replicate]. rewrite zsum_cons, IH. lia.
Qed.

(** The split over any selection of [k >= 1] venues. *)
Lemma route_across_spec (fd : TradingSimV2.feed) (algo_child : order)
    (selected : list string) (w : TradingSimV2.world) :
  selected <> [] -> 0 <= quantity algo_child ->
  let st := TradingSimV2.route_across fd algo_child selected w in
  let k := Z.of_nat (length selected) in
  let q := quantity algo_child in
  map venue (TradingSimV2.sor_orders st) = map Some selected
  /\ map quantity (TradingSimV2.sor_orders st)
     = replicate (length selected - 1) (q / k) ++ [q / k + q mod k]
  /\ Forall (fun o => 0 <= quantity o /\ order_level o = 3 /\ conserved o)
            (TradingSimV2.sor_orders st)
  /\ Py.zsum (map quantity (TradingSimV2.sor_orders st)) = q
  /\ map TradingSimV2.fill_quantity (TradingSimV2.rt_fills st)
     = map quantity (TradingSimV2.sor_orders st)
  /\ TradingSimV2.rt_total_filled st = q
  /\ TradingSimV2.parent_orders (TradingSimV2.rt_world st)
     = TradingSimV2.parent_orders w
  /\ TradingSimV2.venues (TradingSimV2.rt_world st) = TradingSimV2.venues w.
Proof.
  intros Hne Hq st k q.
  assert (Hk : 0 < k).
  { unfold k. destruct selected; [contradiction|]. cbn [length]. lia. }
  destruct (route_loop_spec fd algo_child (q / k) (q mod k) k selected 0
              (TradingSimV2.Routing w [] [] 0 0%float))
    as (sos & fs & Hsos & Hfs & Hqs & Hvens & Hall & Hfills & Htot & Hpo & Hvs).
  fold (enumerate selected) in Hsos, Hfs, Hqs, Htot, Hpo, Hvs.
  change (for_each _ (enumerate selected) _) with st in Hsos, Hfs, Htot, Hpo, Hvs.
  cbn [TradingSimV2.sor_orders TradingSimV2.rt_fills
       TradingSimV2.rt_total_filled TradingSimV2.rt_world app] in *.
  pose proof (shares_of_positions (q / k) (q mod k) selected 0 Hne) as Hshares.
  replace (0 + Z.of_nat (length selected)) with k in Hshares by (unfold k; lia).
  unfold enumerate in Hqs. rewrite Hshares in Hqs.
  assert (Hq0 : 0 <= q / k) by (apply Z.div_pos; lia).
  assert (Hr0 : 0 <= q mod k) by (apply Z.mod_pos_bound; lia).
  assert (Hsum : Py.zsum (map quantity sos) = q).
  { rewrite Hqs, zsum_app, zsum_replicate, zsum_cons.
    change (Py.zsum []) with 0.
    pose proof (Z.div_mod q k ltac:(lia)) as Hdm.
    replace (Z.of_nat (length selected - 1)) with (k - 1)
      by (unfold k; destruct selected; [contradiction | cbn [length]; lia]).
    lia. }
  rewrite Hsos, Hfs, Htot, Hsum.
  repeat split; try assumption; try lia.
  apply Forall_forall. intros o Ho.
  pose proof (proj1 (Forall_forall _ _) Hall o Ho) as (Hlvl & Hfo & Hro).
  assert (Hin : quantity o ∈ map quantity sos)
    by (apply list_elem_of_fmap; exists o; auto).
  rewrite Hqs in Hin. apply elem_of_app in Hin.
  assert (Hqo : 0 <= quantity o).
  { destruct Hin as [Hin | Hin].
    - apply elem_of_replicate in Hin. lia.
    - apply list_elem_of_singleton in Hin. lia. }
  repeat split; [exact Hqo | exact Hlvl |]. unfold conserved. lia.
Qed.

(** C10.  [route_order] splits a slice of quantity [q >= 0] that
    converts to a float exactly (the fills of the routes, each at most
    [q], are multiplied by their prices) across the
    [k] venues it selects ([k >= 1]: three, or all of them when the
    router has fewer): it creates exactly [k] route orders, one per
    selected venue in order, each of level 3 and of non-negative
    quantity; the first [k - 1] have quantity [q // k], the last has
    [q // k + q % k], and the quantities sum to [q] exactly. *)
Theorem route_order_splits_equally (fd : TradingSimV2.feed)
    (algo_child : order) (w : TradingSimV2.world) :
  TradingSimV2.well_formed fd ->
  TradingSimV2.venues w <> [] ->
  0 <= quantity algo_child ->
  Py.exact_int (quantity algo_child) ->
  exists w' child' sor_orders fills selected,
    TradingSimV2.route_order fd algo_child w
    = Some (w', child', sor_orders, fills)
    /\ let k := Z.of_nat (length selected) in
       let q := quantity algo_child in
       1 <= k
       /\ k = Z.min 3 (Z.of_nat (length (TradingSimV2.venues w)))
       /\ Z.of_nat (length sor_orders) = k
       /\ map venue sor_orders = map Some selected
       /\ Forall (fun o => 0 <= quantity o /\ order_level o = 3) sor_orders
       /\ map quantity sor_orders
          = replicate (Z.to_nat (k - 1)) (q / k) ++ [q / k + q mod k]
       /\ Py.zsum (map quantity sor_orders) = q.
Proof.
  intros Hwf Hvenues Hq _.
  unfold TradingSimV2.route_order, TradingSimV2.market_tick.
  destruct (TradingSimV2.tick fd (TradingSimV2.ticks w)) as [[mp bid] ask].
  cbn [TradingSimV2.venues TradingSimV2.capture_snapshot
       TradingSimV2.samples TradingSimV2.set_samples].
  set (k := Z.min 3 (Z.of_nat (length (TradingSimV2.venues w)))).
  set (selected := TradingSimV2.sample fd (TradingSimV2.samples w)
                     (TradingSimV2.venues w) k).
  assert (Hk : 1 <= k <= Z.of_nat (length (TradingSimV2.venues w))).
  { unfold k. destruct (TradingSimV2.venues w); [contradiction|].
    cbn [length]. lia. }
  destruct (Hwf (TradingSimV2.samples w) (TradingSimV2.venues w) k
              ltac:(lia)) as [Hlen Hin].
  fold selected in Hlen, Hin.
  assert (Hne : selected <> []).
  { intros E. rewrite E in Hlen. cbn in Hlen. lia. }
  rewrite bool_decide_eq_false_2 by exact Hne.
  assert (Hknown :
            forallb (fun v => bool_decide (v ∈ TradingSimV2.venues w))
                    selected = true).
  { apply forallb_forall. intros v Hv. apply bool_decide_eq_true_2.
    apply (proj1 (Forall_forall _ _) Hin). apply list_elem_of_In. exact Hv. }
  rewrite Hknown. cbn [negb orb].
  match goal with
  | |- context [TradingSimV2.route_across fd ?c selected ?w1] =>
      destruct (route_across_spec fd c selected w1 Hne Hq)
        as (Hvens & Hqs & Hall & Hsum & _);
      set (st := TradingSimV2.route_across fd c selected w1) in *
  end.
  cbn [quantity set_state] in Hqs, Hsum.
  destruct (TradingSimV2.tick fd _) as [[mp' bid'] ask'].
  do 4 eexists. exists selected. split; [reflexivity|].
  cbn zeta. rewrite Hlen.
  assert (Hcount : Z.of_nat (length (TradingSimV2.sor_orders st)) = k).
  { rewrite <- (length_map quantity), Hqs, length_app, length_replicate.
    cbn [length]. rewrite <- Hlen.
    destruct selected; [contradiction | cbn [length]; lia]. }
  repeat split; try assumption; try lia.
  - apply Forall_forall. intros o Ho.
    pose proof (proj1 (Forall_forall _ _) Hall o Ho) as (H0 & H3 & _).
    split; assumption.
  - rewrite Hqs, Hlen. f_equal. f_equal. rewrite <- Hlen. lia.
Qed.

Lemma route_order_splits_equally_witness :
  let fd := TradingSimV2.Feed (fun _ => (650, 649.99, 650.01)%float)
                              (fun _ => 0.01%float)
                              (fun _ l k => take (Z.to_nat k) l) in
  let algo_child :=
    new_order "SLICE_01001" (Some "ALGO_01000") 2 10000 "ACCEPTED" None None in
  exists w' child' sor_orders fills selected,
    TradingSimV2.route_order fd algo_child TradingSimV2.initial
    = Some (w', child', sor_orders, fills)
    /\ let k := Z.of_nat (length selected) in
       let q := quantity algo_child in
       1 <= k
       /\ k = Z.min 3 (Z.of_nat (length (TradingSimV2.venues
                                           TradingSimV2.initial)))
       /\ Z.of_nat (length sor_orders) = k
       /\ map venue sor_orders = map Some selected
       /\ Forall (fun o => 0 <= quantity o /\ order_level o = 3) sor_orders
       /\ map quantity sor_orders
          = replicate (Z.to_nat (k - 1)) (q / k) ++ [q / k + q mod k]
       /\ Py.zsum (map quantity sor_orders) = q.
Proof.
  intros fd algo_child.
  apply (route_order_splits_equally fd algo_child TradingSimV2.initial).
  - intros n population k Hk. cbn [TradingSimV2.sample fd]. split.
    + rewrite length_take. lia.
    + apply Forall_forall. intros v Hv.
      apply (subseteq_take (Z.to_nat k) population). exact Hv.
  - discriminate.
  - cbn. lia.
  - unfold Py.exact_int. cbn. lia.
Defined.

(** The split of 10000 shares over three venues. *)
Example route_order_10000 :
  let fd := TradingSimV2.Feed (fun _ => (650, 649.99, 650.01)%float)
                              (fun _ => 0.01%float)
                              (fun _ l k => take (Z.to_nat k) l) in
  let algo_child :=
    new_order "SLICE_01001" (Some "ALGO_01000") 2 10000 "ACCEPTED" None None in
  option_map (fun '(_, _, sos, _) => map (fun o => (venue o, quantity o)) sos)
             (TradingSimV2.route_order fd algo_child TradingSimV2.initial)
  = Some [(Some "NYSE", 3333); (Some "NASDAQ", 3333); (Some "ARCA", 3334)].
Proof. vm_compute. reflexivity. Qed.

(** ** The average price and the fill log (C2) *)

(** *** scripts/generate_tick_database.py *)

Lemma tick_fills_quantity_app (a b : list TickDatabaseGen.fill_datum) :
  TickDatabaseGen.fills_quantity (a ++ b)
  = TickDatabaseGen.fills_quantity a + TickDatabaseGen.fills_quantity b.
Proof.
  unfold TickDatabaseGen.fills_quantity. rewrite map_app. apply zsum_app.
Qed.

Lemma venue_body_relation (rd : TickDatabaseGen.random_draws) (hour sl : Z)
    (id : string) (slice_qty num_venues : Z) (f0 : TickDatabaseGen.flow)
    (iv : Z * string) (st : TickDatabaseGen.venue_state) :
  venue_loop_relation f0 st ->
  match TickDatabaseGen.venue_body rd hour sl id slice_qty num_venues iv st with
  | Next st' | Break st' => venue_loop_relation f0 st'
  end.
Proof.
  intros Hst. unfold TickDatabaseGen.venue_body. destruct iv as [i v].
  destruct (slice_qty <=? TickDatabaseGen.slice_filled st); [exact Hst|].
  destruct (Z.min _ _ <=? 0) eqn:Hq; [exact Hst|].
  apply Z.leb_gt in Hq.
  destruct Hst as (Hap & Hco & Htf & Hfq & new & Hnew & Hsum & Hpos).
  unfold venue_loop_relation.
  cbn [TickDatabaseGen.vs_flow TickDatabaseGen.algo_parent
       TickDatabaseGen.client_order TickDatabaseGen.total_filled
       TickDatabaseGen.flow_quantity TickDatabaseGen.fills_data
       TickDatabaseGen.slice_filled TickDatabaseGen.add_snapshot
       TickDatabaseGen.bump_counter].
  repeat split; try assumption.
  eexists (new ++ [_]). rewrite Hnew, <- app_assoc.
  split; [reflexivity|]. rewrite tick_fills_quantity_app, Hsum.
  split.
  - unfold TickDatabaseGen.fills_quantity. cbn [map TickDatabaseGen.qty].
    rewrite zsum_cons. change (Py.zsum []) with 0. lia.
  - right. destruct Hpos as [-> | Hpos].
    + cbn in Hsum. unfold TickDatabaseGen.fills_quantity in Hsum.
      cbn in Hsum. lia.
    + lia.
Qed.

(** A slice iteration keeps the stored values of the algo parent and of
    the client order in agreement with the fill log. *)
Lemma slice_body_consistent (rd : TickDatabaseGen.random_draws)
    (hour hq sph sl : Z) (f : TickDatabaseGen.flow) :
  TickDatabaseGen.consistent f ->
  match TickDatabaseGen.slice_body rd hour hq sph sl f with
  | Next f' | Break f' => TickDatabaseGen.consistent f'
  end.
Proof.
  intros Hf. unfold TickDatabaseGen.slice_body.
  destruct (TickDatabaseGen.flow_quantity f <=? TickDatabaseGen.total_filled f);
    [exact Hf|].
  destruct (Z.min _ _ <=? 0); [exact Hf|].
  match goal with
  | |- context [for_each ?body ?idxs (TickDatabaseGen.VenueState ?f1 0 0%float)] =>
      assert (Hst : venue_loop_relation f1
                      (for_each body idxs
                                (TickDatabaseGen.VenueState f1 0 0%float)));
      [ apply for_each_invariant;
        [ intros iv s Hs; apply venue_body_relation; exact Hs
        | unfold venue_loop_relation; cbn; repeat split;
          exists []; rewrite app_nil_r; repeat split; left; reflexivity ]
      | set (st := for_each body idxs
                            (TickDatabaseGen.VenueState f1 0 0%float)) in * ]
  end.
  destruct Hst as (Hap & Hco & Htf & Hfq & new & Hnew & Hsum & Hpos).
  cbn [TickDatabaseGen.vs_flow TickDatabaseGen.algo_parent
       TickDatabaseGen.client_order TickDatabaseGen.total_filled
       TickDatabaseGen.flow_quantity TickDatabaseGen.fills_data
       TickDatabaseGen.add_snapshot TickDatabaseGen.bump_counter] in *.
  destruct Hf as (H1 & H2 & H3 & H4 & H5).
  destruct (0 <? TickDatabaseGen.slice_filled st) eqn:Hsf.
  - (* the slice has fills: the cascade *)
    apply Z.ltb_lt in Hsf.
    unfold TickDatabaseGen.consistent, TickDatabaseGen.cascade,
      TickDatabaseGen.recomputed_average, TickDatabaseGen.recomputed_filled.
    cbn [TickDatabaseGen.vs_flow TickDatabaseGen.algo_parent
         TickDatabaseGen.client_order TickDatabaseGen.total_filled
         TickDatabaseGen.flow_quantity TickDatabaseGen.fills_data
         TickDatabaseGen.add_snapshot filled_quantity average_price
         set_state set_average_price set_remaining_quantity
         set_filled_quantity].
    rewrite Hnew, tick_fills_quantity_app, Hsum, Htf.
    unfold TickDatabaseGen.recomputed_filled in H1. rewrite <- H1.
    repeat split; reflexivity.
  - (* no fill: nothing was appended to the log *)
    apply Z.ltb_ge in Hsf.
    destruct Hpos as [-> | Hpos]; [|lia].
    rewrite app_nil_r in Hnew.
    unfold TickDatabaseGen.consistent, TickDatabaseGen.recomputed_average,
      TickDatabaseGen.recomputed_filled in *.
    rewrite Hnew, Hap, Hco, Htf. repeat split; assumption.
Qed.

Lemma tick_opened_consistent (quantity : Z) :
  TickDatabaseGen.consistent (TickDatabaseGen.opened quantity).
Proof. repeat split; reflexivity. Qed.

Lemma tick_reachable_consistent (quantity : Z) (f : TickDatabaseGen.flow) :
  TickDatabaseGen.reachable quantity f -> TickDatabaseGen.consistent f.
Proof.
  induction 1 as [|rd hour hq sph sl f f' _ IH Hstep].
  - apply tick_opened_consistent.
  - pose proof (slice_body_consistent rd hour hq sph sl f IH) as H.
    rewrite Hstep in H. exact H.
Qed.

(** The complete flow ends consistent as well: the final status update
    changes states only. *)
Lemma generate_complete_flow_consistent (rd : TickDatabaseGen.random_draws)
    (quantity : Z) :
  TickDatabaseGen.consistent (TickDatabaseGen.generate_complete_flow rd quantity).
Proof.
  unfold TickDatabaseGen.generate_complete_flow.
  assert (H : TickDatabaseGen.consistent
                (for_each (TickDatabaseGen.hour_body rd)
                          (enumerate TickDatabaseGen.vwap_profile)
                          (TickDatabaseGen.opened quantity))).
  { apply for_each_invariant; [|apply tick_opened_consistent].
    intros [hour p] f Hf. unfold TickDatabaseGen.hour_body.
    destruct (_ <=? _); [exact Hf|].
    apply for_each_invariant; [|exact Hf].
    intros sl f1 Hf1. apply slice_body_consistent. exact Hf1. }
  revert H. generalize (for_each (TickDatabaseGen.hour_body rd)
                          (enumerate TickDatabaseGen.vwap_profile)
                          (TickDatabaseGen.opened quantity)).
  intros f Hf. unfold TickDatabaseGen.done.
  destruct (_ <=? _); [|exact Hf].
  exact Hf.
Qed.

(** *** scripts/trading_system_simulator_v2.py *)

Lemma v2_fills_quantity_app (a b : list TradingSimV2.fill) :
  TradingSimV2.fills_quantity (a ++ b)
  = TradingSimV2.fills_quantity a + TradingSimV2.fills_quantity b.
Proof.
  unfold TradingSimV2.fills_quantity. rewrite map_app. apply zsum_app.
Qed.

(** [route_order] leaves the engine's parent orders alone and keeps the
    slice attached to its parent. *)
Lemma route_order_preserves (fd : TradingSimV2.feed) (child : order)
    (w w' : TradingSimV2.world) (child' : order) (sos : list order)
    (fs : list TradingSimV2.fill) :
  TradingSimV2.route_order fd child w = Some (w', child', sos, fs) ->
  TradingSimV2.parent_orders w' = TradingSimV2.parent_orders w
  /\ parent_order_id child' = parent_order_id child.
Proof.
  unfold TradingSimV2.route_order, TradingSimV2.market_tick.
  destruct (TradingSimV2.tick fd (TradingSimV2.ticks w)) as [[mp bid] ask].
  cbn [TradingSimV2.venues TradingSimV2.capture_snapshot
       TradingSimV2.samples TradingSimV2.set_samples].
  destruct (bool_decide _ || negb _); [discriminate|].
  unfold TradingSimV2.route_across.
  match goal with
  | |- context [for_each (TradingSimV2.route_body fd ?c ?qpv ?rem ?n)
                         (enumerate ?sel) ?s0] =>
      destruct (route_loop_spec fd c qpv rem n sel 0 s0)
        as (sos' & fs' & _ & _ & _ & _ & _ & _ & _ & Hpo & _);
      fold (enumerate sel) in Hpo;
      set (st := for_each (TradingSimV2.route_body fd c qpv rem n)
                          (enumerate sel) s0) in *
  end.
  destruct (TradingSimV2.tick fd _) as [[mp' bid'] ask'].
  intros H. injection H as <- <- _ _.
  cbn in Hpo |- *. split; [exact Hpo | reflexivity].
Qed.

(** A slice keeps every parent of the engine consistent with its fill
    log. *)
Lemma generate_child_slice_consistent (fd : TradingSimV2.feed)
    (parent_id : string) (slice_qty : Z) (w w' : TradingSimV2.world)
    (child : order) :
  TradingSimV2.all_consistent w ->
  TradingSimV2.generate_child_slice fd parent_id slice_qty w
  = Some (w', child) ->
  TradingSimV2.all_consistent w'.
Proof.
  intros Hw. unfold TradingSimV2.generate_child_slice, TradingSimV2.market_tick.
  destruct (TradingSimV2.tick fd (TradingSimV2.ticks w)) as [[mp bid] ask].
  cbn [TradingSimV2.parent_orders].
  destruct (TradingSimV2.parent_orders w !! parent_id) as [pd|] eqn:Hpd;
    [|discriminate].
  destruct (TradingSimV2.route_order _ _ _) as [[[[w1 child1] sos] fs]|] eqn:Hroute;
    [|discriminate].
  apply route_order_preserves in Hroute. destruct Hroute as [Hpo Hpid].
  cbn in Hpo, Hpid.
  intros H. injection H as H.
  assert (Hw' : fst (TradingSimV2.process_fills fd child1 fs w1) = w')
    by (rewrite H; reflexivity).
  clear H.
  assert (Hpd_ok : TradingSimV2.consistent pd) by (eapply Hw; exact Hpd).
  (* the entry of the parent after child_count += 1 *)
  set (pd1 := TradingSimV2.ParentData (TradingSimV2.parent pd)
                (TradingSimV2.client_order pd) (TradingSimV2.fills pd)
                (TradingSimV2.child_count pd + 1)
                (TradingSimV2.filled_children pd)) in *.
  assert (Hlook : TradingSimV2.parent_orders w1 !! parent_id = Some pd1).
  { rewrite Hpo. apply lookup_insert_eq. }
  destruct fs as [|f fs].
  - (* no fill: nothing cascades *)
    cbn in Hw'. subst w'. intros pid' pd' Hl. rewrite Hpo in Hl.
    destruct (decide (parent_id = pid')) as [<-|Hne].
    + rewrite lookup_insert_eq in Hl. injection Hl as <-. exact Hpd_ok.
    + rewrite lookup_insert_ne in Hl by exact Hne. eapply Hw. exact Hl.
  - destruct (process_fills_cascade fd child1 (f :: fs) w1 parent_id pd1
                ltac:(discriminate) Hpid Hlook)
      as (_ & pd2 & Hmap & Hfills & _ & _ & Hfilled & _ & Havg & _).
    rewrite Hw' in Hmap.
    intros pid' pd' Hl. rewrite Hmap, Hpo in Hl.
    destruct (decide (parent_id = pid')) as [<-|Hne].
    + rewrite lookup_insert_eq in Hl. injection Hl as <-.
      destruct Hpd_ok as [Hq _].
      assert (Hrq : filled_quantity (TradingSimV2.parent pd2)
                    = TradingSimV2.recomputed_filled pd2).
      { unfold TradingSimV2.recomputed_filled. rewrite Hfills, Hfilled.
        rewrite v2_fills_quantity_app. cbn [pd1 TradingSimV2.parent
                                              TradingSimV2.fills].
        rewrite Hq. reflexivity. }
      split; [exact Hrq|].
      unfold TradingSimV2.recomputed_average. rewrite <- Hrq. exact Havg.
    + rewrite !lookup_insert_ne in Hl by exact Hne. eapply Hw. exact Hl.
Qed.

Lemma send_order_consistent (fd : TradingSimV2.feed) (id side : string)
    (qty : Z) (w : TradingSimV2.world) :
  TradingSimV2.all_consistent w ->
  TradingSimV2.all_consistent (fst (TradingSimV2.send_order fd id side qty w)).
Proof.
  intros Hw. unfold TradingSimV2.send_order, TradingSimV2.market_tick.
  destruct (TradingSimV2.tick fd (TradingSimV2.ticks w)) as [[mp bid] ask].
  exact Hw.
Qed.

Lemma receive_order_consistent (fd : TradingSimV2.feed) (co : order)
    (w : TradingSimV2.world) :
  TradingSimV2.all_consistent w ->
  TradingSimV2.all_consistent (fst (TradingSimV2.receive_order fd co w)).
Proof.
  intros Hw. unfold TradingSimV2.receive_order, TradingSimV2.market_tick.
  destruct (TradingSimV2.tick fd (TradingSimV2.ticks w)) as [[mp bid] ask].
  unfold TradingSimV2.all_consistent.
  cbn [fst TradingSimV2.parent_orders TradingSimV2.capture_snapshot
       TradingSimV2.set_parent_orders TradingSimV2.set_algo_counter
       TradingSimV2.algo_counter].
  intros pid pd Hl.
  match type of Hl with
  | <[?k := _]> _ !! _ = _ => destruct (decide (k = pid)) as [<-|Hne]
  end.
  - rewrite lookup_insert_eq in Hl. injection Hl as <-.
    split; reflexivity.
  - rewrite lookup_insert_ne in Hl by exact Hne. eapply Hw. exact Hl.
Qed.

Lemma v2_reachable_consistent (fd : TradingSimV2.feed)
    (w : TradingSimV2.world) :
  TradingSimV2.reachable fd w -> TradingSimV2.all_consistent w.
Proof.
  induction 1 as [|id side qty w _ IH|co w _ IH|pid q w w' child _ IH Hstep].
  - intros pid pd Hl. cbn in Hl. rewrite lookup_empty in Hl. discriminate.
  - apply send_order_consistent. exact IH.
  - apply receive_order_consistent. exact IH.
  - eapply generate_child_slice_consistent; eassumption.
Qed.

Lemma run_slices_reachable (fd : TradingSimV2.feed) (parent_id : string)
    (slice_sizes : list Z) (w w' : TradingSimV2.world) :
  TradingSimV2.reachable fd w ->
  TradingSimV2.run_slices fd parent_id slice_sizes w = Some w' ->
  TradingSimV2.reachable fd w'.
Proof.
  revert w. induction slice_sizes as [|q rest IH]; intros w Hw;
    cbn [TradingSimV2.run_slices].
  - intros H. injection H as <-. exact Hw.
  - destruct (TradingSimV2.generate_child_slice fd parent_id q w)
      as [[w1 child]|] eqn:Hstep; [|intros H; discriminate H].
    apply IH. eapply TradingSimV2.reach_slice; eassumption.
Qed.

(** Every world a simulation ends in is reachable. *)
Lemma simulate_reachable (fd : TradingSimV2.feed) (id side : string)
    (total : Z) (slice_sizes : list Z) (w : TradingSimV2.world)
    (parent_id : string) :
  TradingSimV2.simulate fd id side total slice_sizes = Some (w, parent_id) ->
  TradingSimV2.reachable fd w.
Proof.
  unfold TradingSimV2.simulate.
  pose proof (TradingSimV2.reach_send fd id side total TradingSimV2.initial
                (TradingSimV2.reach_initial fd)) as H1.
  destruct (TradingSimV2.send_order fd id side total TradingSimV2.initial)
    as [w1 co]. cbn [fst] in H1.
  pose proof (TradingSimV2.reach_receive fd co w1 H1) as H2.
  destruct (TradingSimV2.receive_order fd co w1) as [w2 pid]. cbn [fst] in H2.
  destruct (TradingSimV2.run_slices fd pid slice_sizes w2) as [w3|] eqn:Hrun;
    [|intros H; discriminate H].
  intros H. injection H as <- <-.
  eapply run_slices_reachable; eassumption.
Qed.

(** The trading simulator stores the parent's average rounded to four
    places: after one slice of 10000 shares filled at 650.0112345 the
    stored average is 650.0112, while the quantity-weighted mean of the
    fill log is 650.0112345 (up to the last binary digit). *)
Lemma v2_stored_average_is_not_the_mean :
  let fd := TradingSimV2.Feed (fun _ => (650, 649.99, 650.01)%float)
                              (fun _ => 0.0012345%float)
                              (fun _ l k => take (Z.to_nat k) l) in
  exists pd,
    TradingSimV2.parent_of
      (TradingSimV2.simulate fd "C20241215_999888" "Buy" 30000 [10000])
    = Some pd
    /\ map (fun f => (TradingSimV2.fill_quantity f, TradingSimV2.fill_price f))
           (TradingSimV2.fills pd)
       = [(3333, 650.0112345%float); (3333, 650.0112345%float);
          (3334, 650.0112345%float)]
    /\ filled_quantity (TradingSimV2.parent pd) = 10000
    /\ average_price (TradingSimV2.parent pd) = 650.0112%float
    /\ TradingSimV2.weighted_mean pd = 650.01123450000011%float
    /\ average_price (TradingSimV2.parent pd) <> TradingSimV2.weighted_mean pd.
Proof.
  intros fd. eexists. split.
  - vm_compute. reflexivity.
  - repeat split; try (vm_compute; reflexivity).
    intros E. apply (f_equal (fun x => PrimFloat.eqb x 650.0112)) in E.
    vm_compute in E. discriminate E.
Qed.

(** C2 (amended).  In every state the tick-database flow reaches
    between two slices, the algo parent's [filled_quantity] is the sum
    of the quantities in the fill log and its [average_price] is the
    quantity-weighted mean of the log, [sum(qty * price) / filled]
    ([0] while nothing is filled); the client order stores the same two
    values.  In every world the trading simulator reaches, every algo
    parent's [filled_quantity] is the sum of the quantities in its fill
    log and its [average_price] is that mean rounded to four decimal
    places by [round(_, 4)] ([0] while nothing is filled).  Recomputing
    either value from the log in the same way gives the stored value
    back. *)
Theorem stored_average_recomputes_from_fill_log
    (quantity : Z) (f : TickDatabaseGen.flow)
    (fd : TradingSimV2.feed) (w : TradingSimV2.world) (parent_id : string)
    (pd : TradingSimV2.parent_data) :
  TickDatabaseGen.reachable quantity f ->
  TradingSimV2.reachable fd w ->
  TradingSimV2.parent_orders w !! parent_id = Some pd ->
  (filled_quantity (TickDatabaseGen.algo_parent f)
   = TickDatabaseGen.recomputed_filled f
   /\ average_price (TickDatabaseGen.algo_parent f)
      = TickDatabaseGen.recomputed_average f
   /\ average_price (TickDatabaseGen.client_order f)
      = TickDatabaseGen.recomputed_average f)
  /\ (filled_quantity (TradingSimV2.parent pd)
      = TradingSimV2.recomputed_filled pd
      /\ average_price (TradingSimV2.parent pd)
         = TradingSimV2.recomputed_average pd).
Proof.
  intros Hf Hw Hpd. split.
  - destruct (tick_reachable_consistent quantity f Hf)
      as (_ & H2 & H3 & _ & H5).
    repeat split; assumption.
  - exact (v2_reachable_consistent fd w Hw parent_id pd Hpd).
Qed.

Lemma stored_average_recomputes_from_fill_log_witness :
  let rd :=
    TickDatabaseGen.RandomDraws (fun _ => 3) (fun _ _ => 100) (fun _ _ => 2)
      (fun _ _ _ => ["NYSE"; "DARK"]) (fun _ _ _ => 50)
      (fun _ _ i => if i =? 0 then 0.25%float else (-0.5)%float) in
  let f :=
    after (TickDatabaseGen.slice_body rd 0 12000 3 0
             (TickDatabaseGen.opened 100000)) in
  let fd := TradingSimV2.Feed (fun _ => (650, 649.99, 650.01)%float)
                              (fun _ => 0.0012345%float)
                              (fun _ l k => take (Z.to_nat k) l) in
  exists w pd,
    TradingSimV2.simulate fd "C20241215_999888" "Buy" 30000 [10000]
    = Some (w, "ALGO_01000")
    /\ TradingSimV2.parent_orders w !! "ALGO_01000" = Some pd
    /\ (filled_quantity (TickDatabaseGen.algo_parent f)
        = TickDatabaseGen.recomputed_filled f
        /\ average_price (TickDatabaseGen.algo_parent f)
           = TickDatabaseGen.recomputed_average f
        /\ average_price (TickDatabaseGen.client_order f)
           = TickDatabaseGen.recomputed_average f)
    /\ (filled_quantity (TradingSimV2.parent pd)
        = TradingSimV2.recomputed_filled pd
        /\ average_price (TradingSimV2.parent pd)
           = TradingSimV2.recomputed_average pd).
Proof.
  intros rd f fd.
  assert (Hsim : exists w,
             TradingSimV2.simulate fd "C20241215_999888" "Buy" 30000 [10000]
             = Some (w, "ALGO_01000")).
  { vm_compute. eexists. reflexivity. }
  destruct Hsim as [w Hsim].
  assert (Hpd : exists pd,
             TradingSimV2.parent_orders w !! "ALGO_01000" = Some pd).
  { revert Hsim. vm_compute. intros H. injection H as <-.
    eexists. reflexivity. }
  destruct Hpd as [pd Hpd].
  exists w, pd. split; [exact Hsim|]. split; [exact Hpd|].
  apply (stored_average_recomputes_from_fill_log 100000 f fd w "ALGO_01000" pd).
  - apply (TickDatabaseGen.reach_next 100000 rd 0 12000 3 0
             (TickDatabaseGen.opened 100000) f).
    + apply TickDatabaseGen.reach_opened.
    + vm_compute. reflexivity.
  - exact (simulate_reachable fd _ _ _ _ w _ Hsim).
  - exact Hpd.
Defined.

(** The tick-database flow of the witness: two fills of 2100 and 2000
    shares, stored average and recomputed average alike. *)
Example tick_database_first_slice :
  let rd :=
    TickDatabaseGen.RandomDraws (fun _ => 3) (fun _ _ => 100) (fun _ _ => 2)
      (fun _ _ _ => ["NYSE"; "DARK"]) (fun _ _ _ => 50)
      (fun _ _ i => if i =? 0 then 0.25%float else (-0.5)%float) in
  let f :=
    after (TickDatabaseGen.slice_body rd 0 12000 3 0
             (TickDatabaseGen.opened 100000)) in
  map (fun d => (TickDatabaseGen.qty d, TickDatabaseGen.price d))
      (TickDatabaseGen.fills_data f)
  = [(2100, 650.25%float); (2000, 649.5%float)]
  /\ filled_quantity (TickDatabaseGen.algo_parent f) = 4100
  /\ average_price (TickDatabaseGen.algo_parent f)
     = ((2100 * 650.25 + 2000 * 649.5) / 4100)%float.
Proof. vm_compute. repeat split; reflexivity. Qed.

(** ** The venue response table (C7) *)

(** A draw compared with a float whose value is [M / 2^E]. *)
Lemma draw_lt_dyadic (k : Z) (x : float) (M E : positive) :
  Py.dyadic_of_float x = Some (Py.Dyadic (Z.pos M) (Z.neg E)) ->
  Py.draw_lt k x = (k * 2 ^ Z.pos E <? Z.pos M * 2 ^ 53).
Proof. intros H. unfold Py.draw_lt. rewrite H. reflexivity. Qed.

Ltac draw_threshold M E PE :=
  rewrite (draw_lt_dyadic _ _ M E) by (vm_compute; reflexivity);
  change (2 ^ Z.pos E) with PE;
  change (2 ^ 53) with 9007199254740992;
  match goal with
  | |- (?a <? ?b) = (?c <? ?d) =>
      destruct (Z.ltb_spec a b); destruct (Z.ltb_spec c d);
      try reflexivity; lia
  end.

(** Comparison of a draw with the thresholds of the two generators, in
    hundredths: the float thresholds cut the draws [k / 2^53] where the
    decimals 0.05, 0.15 and 0.17 do, also when they are the binary64
    sums [0.05 + 0.10] and [0.05 + 0.10 + 0.02]. *)
Lemma draw_lt_hundredths (k : Z) :
  Py.draw_lt k 0.05 = (100 * k <? 5 * 2 ^ 53)
  /\ Py.draw_lt k 0.15 = (100 * k <? 15 * 2 ^ 53)
  /\ Py.draw_lt k 0.17 = (100 * k <? 17 * 2 ^ 53)
  /\ Py.draw_lt k (0.05 + 0.10) = (100 * k <? 15 * 2 ^ 53)
  /\ Py.draw_lt k (0.05 + 0.10 + 0.02) = (100 * k <? 17 * 2 ^ 53)
  /\ Py.draw_lt k 0.5 = (2 * k <? 2 ^ 53).
Proof.
  repeat split.
  - draw_threshold 7205759403792794%positive 57%positive 144115188075855872.
  - draw_threshold 5404319552844595%positive 55%positive 36028797018963968.
  - draw_threshold 6124895493223875%positive 55%positive 36028797018963968.
  - draw_threshold 5404319552844596%positive 55%positive 36028797018963968.
  - draw_threshold 6124895493223875%positive 55%positive 36028797018963968.
  - draw_threshold 4503599627370496%positive 53%positive 9007199254740992.
Qed.

(** The comparison [Py.draw_lt] against the primitive comparison of
    floats, on the thresholds the generators use and on the draws next
    to them. *)
Example draw_lt_agrees_with_primitive :
  let e n := n * 2 ^ 53 / 100 in
  forallb
    (fun x =>
       forallb (fun k => Bool.eqb (Py.draw_lt k x) (Py.draw_lt_prim k x))
               [0; 1; e 5; e 5 + 1; e 15; e 15 + 1; e 17; e 17 + 1;
                e 30; e 30 + 1; 2 ^ 52 - 1; 2 ^ 52; 2 ^ 53 - 1])
    [0.05; 0.15; 0.17; 0.05 + 0.10; 0.05 + 0.10 + 0.02; 0.5; 0.3;
     0.05 * 0.5; 0.25 * 0.9]%float
  = true.
Proof. vm_compute. reflexivity. Qed.

(** The outcome of a route in the fixed generator, read off the table. *)
Lemma fixed_venue_outcome_table (rs : random_source) (u : Urgency)
    (market : float) (hour sl route q : Z) :
  fst (ProductionVWAPFixed.venue_outcome rs u market hour sl route q)
  = response_table REJECT NO_CONN (outcome_rand rs hour sl route)
                   (reject_rand rs hour sl route) q.
Proof.
  unfold ProductionVWAPFixed.venue_outcome, response_table.
  destruct (draw_lt_hundredths (outcome_rand rs hour sl route))
    as (H5 & H15 & H17 & _).
  destruct (draw_lt_hundredths (reject_rand rs hour sl route))
    as (_ & _ & _ & _ & _ & Hhalf).
  rewrite H5, H15, H17, Hhalf.
  destruct (100 * _ <? 5 * _); [reflexivity|].
  destruct (100 * _ <? 15 * _); [reflexivity|].
  destruct (100 * _ <? 17 * _); [|reflexivity].
  destruct (2 * _ <? _); reflexivity.
Qed.

(** The same in [generate_final_vwap] at its default rates. *)
Lemma final_venue_outcome_table (rs : random_source)
    (hour sl route q : Z) :
  FinalVWAP.venue_outcome rs 0.05 0.10 hour sl route q
  = response_table NO_CONN REJECT (outcome_rand rs hour sl route)
                   (reject_rand rs hour sl route) q.
Proof.
  unfold FinalVWAP.venue_outcome, response_table.
  destruct (draw_lt_hundredths (outcome_rand rs hour sl route))
    as (H5 & _ & _ & H15 & H17 & _).
  destruct (draw_lt_hundredths (reject_rand rs hour sl route))
    as (_ & _ & _ & _ & _ & Hhalf).
  rewrite H5, H15, H17, Hhalf.
  destruct (100 * _ <? 5 * _); [reflexivity|].
  destruct (100 * _ <? 15 * _); [reflexivity|].
  destruct (100 * _ <? 17 * _); [|reflexivity].
  destruct (2 * _ <? _); reflexivity.
Qed.

(** The table fills nothing on a fade, a reject or a lost connection,
    half the quantity on a partial fill and all of it otherwise. *)
Lemma response_table_filled (low high : VenueResult) (k k2 q : Z) :
  non_fatal low = true -> non_fatal high = true ->
  let '(result, filled) := response_table low high k k2 q in
  filled = (if non_fatal result then 0
            else match result with PARTIAL => q / 2 | _ => q end).
Proof.
  intros Hl Hh. unfold response_table.
  destruct (100 * k <? 5 * _); [reflexivity|].
  destruct (100 * k <? 15 * _); [reflexivity|].
  destruct (100 * k <? 17 * _); [|reflexivity].
  destruct (2 * k2 <? _); [rewrite Hl|rewrite Hh]; reflexivity.
Qed.

(** A route with an outcome that fills nothing passes the fixed
    generator's route loop without a cascade: the slice, its running
    fill and value, the totals, the algo parent and the client order stay
    as they are, and the log grows by the route's row at most. *)
Lemma fixed_route_without_fill (rs : random_source) (u : Urgency)
    (hour sl slice_size num_routes route_num : Z)
    (st : ProductionVWAPFixed.route_state) :
  let g := ProductionVWAPFixed.rt_gen st in
  let q :=
    Z.min ((slice_size - ProductionVWAPFixed.slice_filled st)
           / (num_routes - route_num))
          (slice_size - ProductionVWAPFixed.slice_filled st) in
  let result :=
    fst (response_table REJECT NO_CONN (outcome_rand rs hour sl route_num)
           (reject_rand rs hour sl route_num) q) in
  ProductionVWAPFixed.slice_filled st < slice_size ->
  0 < q ->
  non_fatal result = true ->
  exists st',
    ProductionVWAPFixed.route_body rs u hour sl slice_size num_routes
      route_num st = Next st'
    /\ ProductionVWAPFixed.rt_slice st' = ProductionVWAPFixed.rt_slice st
    /\ ProductionVWAPFixed.slice_filled st'
       = ProductionVWAPFixed.slice_filled st
    /\ ProductionVWAPFixed.slice_value st'
       = ProductionVWAPFixed.slice_value st
    /\ ProductionVWAPFixed.total_filled (ProductionVWAPFixed.rt_gen st')
       = ProductionVWAPFixed.total_filled g
    /\ ProductionVWAPFixed.algo_parent (ProductionVWAPFixed.rt_gen st')
       = ProductionVWAPFixed.algo_parent g
    /\ ProductionVWAPFixed.client_order (ProductionVWAPFixed.rt_gen st')
       = ProductionVWAPFixed.client_order g
    /\ ProductionVWAPFixed.snapshots (ProductionVWAPFixed.rt_gen st')
       = ProductionVWAPFixed.snapshots g
         ++ (if String.eqb (ProductionVWAPFixed.detail_level g) "full"
             then [Snapshot
                     (Order ("SOR_" +:+ Py.zfill 6
                               (ProductionVWAPFixed.rt_sor_counter st))
                            (Some (order_id (ProductionVWAPFixed.rt_slice st)))
                            3 "Buy" q 0 q 0%float (VenueResult_value result)
                            (Some (Urgency_value u))
                            (venues !! Z.to_nat (route_num mod 5)))
                     ("VENUE_" +:+ VenueResult_value result)
                     (Some (ProductionVWAPFixed.gen_record_id g))
                     (Some (ProductionVWAPFixed.gen_market_price g))]
             else []).
Proof.
  intros g q result Hlt Hq Hnf.
  unfold ProductionVWAPFixed.route_body.
  rewrite (proj2 (Z.leb_gt _ _) Hlt).
  fold q. rewrite (proj2 (Z.leb_gt _ _) Hq).
  fold g.
  pose proof (fixed_venue_outcome_table rs u
                (ProductionVWAPFixed.gen_market_price g) hour sl route_num q)
    as Htab.
  pose proof (response_table_filled REJECT NO_CONN
                (outcome_rand rs hour sl route_num)
                (reject_rand rs hour sl route_num) q eq_refl eq_refl) as Hfill.
  destruct (ProductionVWAPFixed.venue_outcome rs u
              (ProductionVWAPFixed.gen_market_price g) hour sl route_num q)
    as [[res filled] price].
  cbn [fst] in Htab. subst result. rewrite <- Htab in Hfill, Hnf.
  cbn [fst] in Hnf. rewrite Hnf in Hfill. subst filled. rewrite <- Htab.
  cbn [Z.ltb Z.compare].
  eexists. split; [reflexivity|].
  cbn. destruct (String.eqb (ProductionVWAPFixed.detail_level g) "full");
    cbn; rewrite ?app_nil_r; repeat split; try reflexivity.
  unfold ProductionVWAPFixed.sor_order. rewrite Z.sub_0_r. reflexivity.
Qed.

(** C7.  The outcome of a venue attempt for a quantity [q] is a function
    of the draw [outcome_rand] (and, inside the 2%, of a second draw): in
    the fixed generator and in [generate_final_vwap] at its default rates
    the result and the filled quantity are those of the table -- a draw
    below 0.05 is a fade with nothing filled, a draw from 0.05 and below
    0.15 a partial fill of [q // 2], a draw from 0.15 and below 0.17 a
    reject or a lost connection with nothing filled, halved by the second
    draw, and any other draw a fill of [q].  On a fade, a reject or a
    lost connection the route order is built with nothing filled, all of
    [q] remaining and the result's name as its state. *)
Theorem venue_outcome_follows_response_table
    (rs : random_source) (u : Urgency) (market : float)
    (hour sl route q sor_counter : Z) (slice_order : order) :
  0 < q ->
  let k := outcome_rand rs hour sl route in
  let k2 := reject_rand rs hour sl route in
  let '(result, filled, price) :=
    ProductionVWAPFixed.venue_outcome rs u market hour sl route q in
  let '(result', filled') :=
    FinalVWAP.venue_outcome rs 0.05 0.10 hour sl route q in
  (result, filled) = response_table REJECT NO_CONN k k2 q
  /\ (result', filled') = response_table NO_CONN REJECT k k2 q
  /\ (non_fatal result = true ->
      let o := ProductionVWAPFixed.sor_order sor_counter slice_order u route
                 q result filled price in
      filled = 0 /\ filled_quantity o = 0 /\ remaining_quantity o = q
      /\ state o = VenueResult_value result
      /\ In (state o) ["FADE"; "REJECT"; "NO_CONNECTION"])
  /\ (non_fatal result' = true ->
      let o := FinalVWAP.sor_order sor_counter slice_order route q result'
                 filled'
                 (FinalVWAP.fill_price rs u market hour sl route filled') in
      filled' = 0 /\ filled_quantity o = 0 /\ remaining_quantity o = q
      /\ state o = VenueResult_value result'
      /\ In (state o) ["FADE"; "REJECT"; "NO_CONNECTION"]).
Proof.
  intros _ k k2.
  pose proof (fixed_venue_outcome_table rs u market hour sl route q) as Hfix.
  pose proof (final_venue_outcome_table rs hour sl route q) as Hfin.
  pose proof (response_table_filled REJECT NO_CONN k k2 q eq_refl eq_refl)
    as Hfix0.
  pose proof (response_table_filled NO_CONN REJECT k k2 q eq_refl eq_refl)
    as Hfin0.
  fold k k2 in Hfix, Hfin.
  destruct (ProductionVWAPFixed.venue_outcome rs u market hour sl route q)
    as [[result filled] price].
  destruct (FinalVWAP.venue_outcome rs 0.05 0.10 hour sl route q)
    as [result' filled'].
  cbn [fst] in Hfix. rewrite <- Hfix in Hfix0. rewrite <- Hfin in Hfin0.
  split; [exact Hfix|]. split; [exact Hfin|]. split.
  - intros Hnf o. rewrite Hnf in Hfix0. subst filled o. cbn.
    rewrite Z.sub_0_r. repeat split.
    destruct result; try discriminate Hnf; cbn; auto.
  - intros Hnf o. rewrite Hnf in Hfin0. subst filled' o. cbn.
    rewrite Z.sub_0_r. repeat split.
    destruct result'; try discriminate Hnf; cbn; auto.
Qed.

Lemma venue_outcome_follows_response_table_witness :
  let rs :=
    RandomSource (fun _ _ _ b => b) (fun _ _ => 0%float)
                 (fun _ _ route => (15 + route) * 2 ^ 53 / 100)
                 (fun _ _ _ => 2 ^ 52) (fun _ _ _ a _ => a) in
  let slice_order :=
    new_order "SLICE_00001" (Some "ALGO_001") 2 300 "PENDING"
              (Some "NORMAL") None in
  0 < 100
  /\ ProductionVWAPFixed.venue_outcome rs NORMAL 650 0 0 1 100
     = (NO_CONN, 0, 0%float)
  /\ FinalVWAP.venue_outcome rs 0.05 0.10 0 0 1 100 = (REJECT, 0)
  /\ let '(result, filled, price) :=
       ProductionVWAPFixed.venue_outcome rs NORMAL 650 0 0 1 100 in
     let '(result', filled') :=
       FinalVWAP.venue_outcome rs 0.05 0.10 0 0 1 100 in
     (result, filled)
     = response_table REJECT NO_CONN (outcome_rand rs 0 0 1)
                      (reject_rand rs 0 0 1) 100
     /\ (result', filled')
        = response_table NO_CONN REJECT (outcome_rand rs 0 0 1)
                         (reject_rand rs 0 0 1) 100
     /\ (non_fatal result = true ->
         let o := ProductionVWAPFixed.sor_order 1 slice_order NORMAL 1 100
                    result filled price in
         filled = 0 /\ filled_quantity o = 0 /\ remaining_quantity o = 100
         /\ state o = VenueResult_value result
         /\ In (state o) ["FADE"; "REJECT"; "NO_CONNECTION"])
     /\ (non_fatal result' = true ->
         let o := FinalVWAP.sor_order 1 slice_order 1 100 result' filled'
                    (FinalVWAP.fill_price rs NORMAL 650 0 0 1 filled') in
         filled' = 0 /\ filled_quantity o = 0 /\ remaining_quantity o = 100
         /\ state o = VenueResult_value result'
         /\ In (state o) ["FADE"; "REJECT"; "NO_CONNECTION"]).
Proof.
  intros rs slice_order.
  split; [lia|]. split; [vm_compute; reflexivity|].
  split; [vm_compute; reflexivity|].
  apply (venue_outcome_follows_response_table rs NORMAL 650 0 0 1 100 1
           slice_order).
  lia.
Defined.

(** The four rows of the table at the edges of their bands, for a
    quantity of 101: the last draw below 5% and the first draw from 5%,
    the same at 15% and at 17%, with the second draw at and just below
    one half. *)
Example response_table_edges :
  let rs k k2 :=
    RandomSource (fun _ _ _ b => b) (fun _ _ => 0%float) (fun _ _ _ => k)
                 (fun _ _ _ => k2) (fun _ _ _ a _ => a) in
  let fixed k k2 :=
    fst (ProductionVWAPFixed.venue_outcome (rs k k2) NORMAL 650 0 0 0 101) in
  let final k k2 :=
    FinalVWAP.venue_outcome (rs k k2) 0.05 0.10 0 0 0 101 in
  let e5 := 5 * 2 ^ 53 / 100 in
  let e15 := 15 * 2 ^ 53 / 100 in
  let e17 := 17 * 2 ^ 53 / 100 in
  map (fun k => fixed k 0) [0; e5; e5 + 1; e15; e15 + 1; e17; e17 + 1;
                            2 ^ 53 - 1]
  = [(FADE, 0); (FADE, 0); (PARTIAL, 50); (PARTIAL, 50); (REJECT, 0);
     (REJECT, 0); (FILLED, 101); (FILLED, 101)]
  /\ map (fun k => final k 0) [0; e5; e5 + 1; e15; e15 + 1; e17; e17 + 1;
                               2 ^ 53 - 1]
     = [(FADE, 0); (FADE, 0); (PARTIAL, 50); (PARTIAL, 50); (NO_CONN, 0);
        (NO_CONN, 0); (FILLED, 101); (FILLED, 101)]
  /\ map (fun k2 => (fixed e17 k2, final e17 k2)) [2 ^ 52 - 1; 2 ^ 52]
     = [((REJECT, 0), (NO_CONN, 0)); ((NO_CONN, 0), (REJECT, 0))].
Proof. vm_compute. repeat split; reflexivity. Qed.

(** ** The retry loop of the enhanced router (C8) *)

Lemma recorded_fills_app (recs : list EnhancedSOR.execution_record)
    (e : EnhancedSOR.execution_record) :
  recorded_fills (recs ++ [e])
  = recorded_fills recs
    + (if 0 <? EnhancedSOR.filled_qty e then EnhancedSOR.filled_qty e else 0).
Proof.
  unfold recorded_fills. rewrite map_app, zsum_app. cbn [map].
  rewrite zsum_cons. change (Py.zsum []) with 0. lia.
Qed.

(** A venue answers with the router a market tick later, and never fills
    more than the route asks for. *)
Lemma execute_order_spec (fd : EnhancedSOR.feed) (name : string)
    (fade_probability : float) (o : order)
    (instruction : EnhancedSOR.OrderInstruction) (r : EnhancedSOR.router) :
  let '(_, qty, _, r') :=
    EnhancedSOR.execute_order fd name fade_probability o instruction r in
  r' = snd (EnhancedSOR.market_tick fd r)
  /\ (0 < qty -> qty <= quantity o).
Proof.
  unfold EnhancedSOR.execute_order. cbn [EnhancedSOR.market_tick snd].
  destruct (EnhancedSOR.prices fd (EnhancedSOR.ticks r)) as [[p bid] ask].
  generalize (EnhancedSOR.dict_get
                (map (fun v => (v, EnhancedSOR.liquidity_draw fd
                                     (EnhancedSOR.ticks r) v))
                     EnhancedSOR.venue_names) name 1000).
  intros available_liquidity.
  destruct (Py.draw_lt _ _); [cbn; split; [reflexivity|lia]|].
  destruct (_ =? 0); [cbn; split; [reflexivity|lia]|].
  destruct instruction.
  - destruct (_ <? quantity o) eqn:Hlt.
    + apply Z.ltb_lt in Hlt.
      destruct (Py.draw_lt _ _); cbn; split; try reflexivity; lia.
    + cbn. split; [reflexivity|lia].
  - cbn. split; [reflexivity|lia].
  - destruct (0 <? _); cbn; split; try reflexivity; lia.
  - cbn. split; [reflexivity|lia].
  - cbn. split; [reflexivity|lia].
Qed.

(** The quoted venues, ranked: the ranking invents no venue. *)
Lemma insert_desc_in (x y : string * Z) (l : list (string * Z)) :
  In y (EnhancedSOR.insert_desc x l) -> y = x \/ In y l.
Proof.
  induction l as [|z l IH]; cbn [EnhancedSOR.insert_desc].
  - intros [->|[]]. left. reflexivity.
  - destruct (snd z <? snd x).
    + intros [->|H]; [left; reflexivity|right; exact H].
    + intros [->|H]; [right; left; reflexivity|].
      destruct (IH H) as [->|H']; [left; reflexivity|right; right; exact H'].
Qed.

Lemma sorted_desc_in (y : string * Z) (l : list (string * Z)) :
  In y (EnhancedSOR.sorted_desc l) -> In y l.
Proof.
  unfold EnhancedSOR.sorted_desc.
  assert (H : forall acc, In y (fold_left
                (fun acc x => EnhancedSOR.insert_desc x acc) l acc)
              -> In y acc \/ In y l).
  { induction l as [|x l IH]; intros acc; cbn [fold_left].
    - intros H. left. exact H.
    - intros H. destruct (IH _ H) as [H'|H'].
      + destruct (insert_desc_in _ _ _ H') as [->|H''].
        * right. left. reflexivity.
        * left. exact H''.
      + right. right. exact H'. }
  intros Hy. destruct (H [] Hy) as [[]|Hl]. exact Hl.
Qed.

Lemma selected_venues_quoted (fd : EnhancedSOR.feed) (n : Z) (v : string) :
  In v (map fst (take 3 (EnhancedSOR.sorted_desc
          (map (fun v => (v, EnhancedSOR.liquidity_draw fd n v))
               EnhancedSOR.venue_names)))) ->
  In v EnhancedSOR.venue_names.
Proof.
  intros H. apply in_map_iff in H. destruct H as ([v' l] & <- & H).
  apply list_elem_of_In in H. apply (subseteq_take 3) in H.
  apply list_elem_of_In in H.
  apply sorted_desc_in in H. apply in_map_iff in H.
  destruct H as (v'' & Heq & Hin). injection Heq as -> _. exact Hin.
Qed.

Ltac routing_fields :=
  unfold routing_invariant, EnhancedSOR.capture_snapshot;
  cbn [EnhancedSOR.remaining_qty EnhancedSOR.total_filled
       EnhancedSOR.retry_count EnhancedSOR.rt_router
       EnhancedSOR.execution_records EnhancedSOR.failed
       EnhancedSOR.max_retries EnhancedSOR.venues EnhancedSOR.market_tick
       snd].

(** One venue of a pass keeps the invariant, and the pass number. *)
Lemma venue_body_invariant (fd : EnhancedSOR.feed) (algo_child : order)
    (liquidity : list (string * Z)) (price : float)
    (r : EnhancedSOR.router) (q c : Z) (venue_name : string)
    (st : EnhancedSOR.routing) :
  let instruction := if c =? 0 then EnhancedSOR.EOE else EnhancedSOR.IOC in
  0 <= c <= EnhancedSOR.max_retries r ->
  In venue_name EnhancedSOR.venue_names ->
  routing_invariant q r st /\ EnhancedSOR.retry_count st = c ->
  match EnhancedSOR.venue_body fd algo_child liquidity price instruction
          venue_name st with
  | Next st' | Break st' =>
      routing_invariant q r st' /\ EnhancedSOR.retry_count st' = c
  end.
Proof.
  intros instruction Hc Hv [Hinv Hrc].
  unfold EnhancedSOR.venue_body.
  destruct (EnhancedSOR.remaining_qty st <=? 0); [split; assumption|].
  destruct (_ <=? 0) eqn:Hslice; [split; assumption|].
  apply Z.leb_gt in Hslice.
  cbn [EnhancedSOR.create_sor_order].
  destruct Hinv as (Hrem & Htot & Hsum & Hretry & Hmax & Hven & Hrec & Hesc
                    & Hknown).
  cbn [EnhancedSOR.venues]. rewrite Hven.
  destruct (EnhancedSOR.venues r !! venue_name) as [fade_probability|] eqn:Hlook.
  2:{ split; [|exact Hrc]. unfold routing_invariant. cbn.
      repeat split; try assumption; try lia.
      intros Hk. destruct (Hk venue_name Hv) as [x Hx]. congruence. }
  match goal with
  | |- context [EnhancedSOR.execute_order fd venue_name fade_probability
                  ?o ?i ?r0] =>
      pose proof (execute_order_spec fd venue_name fade_probability o i r0)
        as Hexec;
      destruct (EnhancedSOR.execute_order fd venue_name fade_probability
                  o i r0) as [[[resp qty] fill_price] r']
  end.
  destruct Hexec as [-> Hqty]. cbn [quantity] in Hqty.
  assert (Hesc' : escalated (EnhancedSOR.max_retries r)
            (EnhancedSOR.ExecutionRecord
               ("SOR_" +:+ Py.zfill 5
                  (EnhancedSOR.order_counter (EnhancedSOR.rt_router st)))
               venue_name instruction
               (Z.min (EnhancedSOR.remaining_qty st)
                      (EnhancedSOR.dict_get liquidity venue_name 0))
               qty fill_price resp (EnhancedSOR.retry_count st))).
  { unfold escalated. cbn. rewrite Hrc. split; [lia|reflexivity]. }
  destruct (0 <? qty) eqn:Hpos.
  - apply Z.ltb_lt in Hpos. specialize (Hqty Hpos).
    split; [|exact Hrc]. routing_fields.
    rewrite recorded_fills_app. cbn [EnhancedSOR.filled_qty].
    rewrite (proj2 (Z.ltb_lt 0 qty) Hpos).
    repeat split; try assumption; try lia.
    apply Forall_app. split; [exact Hesc|]. constructor; [exact Hesc'|constructor].
  - apply Z.ltb_ge in Hpos.
    split; [|exact Hrc]. routing_fields.
    rewrite recorded_fills_app. cbn [EnhancedSOR.filled_qty].
    rewrite (proj2 (Z.ltb_ge 0 qty) Hpos).
    repeat split; try assumption; try lia.
    apply Forall_app. split; [exact Hesc|]. constructor; [exact Hesc'|constructor].
Qed.

(** So does the venue loop of a pass. *)
Lemma venue_loop_invariant (fd : EnhancedSOR.feed) (algo_child : order)
    (liquidity : list (string * Z)) (price : float)
    (r : EnhancedSOR.router) (q c : Z) (selected_venues : list string)
    (st : EnhancedSOR.routing) :
  let instruction := if c =? 0 then EnhancedSOR.EOE else EnhancedSOR.IOC in
  0 <= c <= EnhancedSOR.max_retries r ->
  (forall v, In v selected_venues -> In v EnhancedSOR.venue_names) ->
  routing_invariant q r st /\ EnhancedSOR.retry_count st = c ->
  let st' :=
    for_each (EnhancedSOR.venue_body fd algo_child liquidity price instruction)
             selected_venues st in
  routing_invariant q r st' /\ EnhancedSOR.retry_count st' = c.
Proof.
  intros instruction Hc. revert st.
  induction selected_venues as [|v vs IH]; intros st Hin Hst; cbn [for_each].
  - exact Hst.
  - pose proof (venue_body_invariant fd algo_child liquidity price r q c v st
                  Hc (Hin v (or_introl eq_refl)) Hst) as Hb.
    fold instruction in Hb.
    destruct (EnhancedSOR.venue_body fd algo_child liquidity price
                instruction v st) as [s1|s1].
    + apply IH; [|exact Hb]. intros v' Hv'. apply Hin. right. exact Hv'.
    + exact Hb.
Qed.

(** A pass of the loop, taken when the loop condition holds, keeps the
    invariant; it ends with the next pass number, or with a [KeyError]. *)
Lemma routing_pass_invariant (fd : EnhancedSOR.feed) (algo_child : order)
    (r : EnhancedSOR.router) (q : Z) (st : EnhancedSOR.routing) :
  routing_invariant q r st ->
  EnhancedSOR.continues st = true ->
  let st' := EnhancedSOR.routing_pass fd algo_child st in
  routing_invariant q r st'
  /\ (EnhancedSOR.failed st' = true
      \/ EnhancedSOR.retry_count st' = EnhancedSOR.retry_count st + 1).
Proof.
  intros Hinv Hcont st'. subst st'.
  unfold EnhancedSOR.continues in Hcont.
  apply andb_true_iff in Hcont. destruct Hcont as [Hcont Hnf].
  apply andb_true_iff in Hcont. destruct Hcont as [Hpos Hle].
  apply Z.leb_le in Hle. apply negb_true_iff in Hnf.
  destruct Hinv as (Hrem & Htot & Hsum & Hretry & Hmax & Hven & Hrec & Hesc
                    & Hknown).
  unfold EnhancedSOR.routing_pass. cbn [EnhancedSOR.market_tick].
  destruct (EnhancedSOR.prices fd (EnhancedSOR.ticks (EnhancedSOR.rt_router st)))
    as [[price bid] ask].
  match goal with
  | |- context [for_each (EnhancedSOR.venue_body _ _ ?liq _ _) ?idxs ?s0] =>
      pose proof (venue_loop_invariant fd algo_child liq price r q
                    (EnhancedSOR.retry_count st) idxs s0) as Hloop;
      cbv zeta in Hloop;
      destruct (for_each (EnhancedSOR.venue_body fd algo_child liq price
                            (if EnhancedSOR.retry_count st =? 0
                             then EnhancedSOR.EOE else EnhancedSOR.IOC))
                         idxs s0) as [r1 recs tf rem rc rf fl]
  end.
  destruct Hloop as [Hinv' Hrc'].
  - lia.
  - intros v Hv. exact (selected_venues_quoted fd _ v Hv).
  - split; [|reflexivity]. routing_fields.
    repeat split; try assumption; try lia.
  - destruct Hinv' as (Hrem' & Htot' & Hsum' & Hretry' & Hmax' & Hven' & Hrec'
                       & Hesc' & Hknown').
    cbn in Hrem', Htot', Hsum', Hretry', Hmax', Hven', Hrec', Hesc', Hknown',
           Hrc'.
    cbn [EnhancedSOR.failed]. destruct fl.
    + split; [|left; reflexivity]. routing_fields.
      repeat split; assumption || lia.
    + split; [|right; cbn; lia]. routing_fields.
      repeat split; try assumption; try lia.
Qed.

(** The loop does nothing once its condition is false. *)
Lemma route_loop_stops (fd : EnhancedSOR.feed) (algo_child : order)
    (fuel : nat) (st : EnhancedSOR.routing) :
  EnhancedSOR.continues st = false ->
  EnhancedSOR.route_loop fd algo_child fuel st = st.
Proof.
  intros H. destruct fuel; cbn [EnhancedSOR.route_loop];
    [|rewrite H]; reflexivity.
Qed.

(** The loop with enough unrollings for the passes that are left: it
    ends with its condition false, after at most that many passes, and
    more unrollings change nothing. *)
Lemma route_loop_exit (fd : EnhancedSOR.feed) (algo_child : order)
    (r : EnhancedSOR.router) (q : Z) (fuel : nat) (st : EnhancedSOR.routing) :
  routing_invariant q r st ->
  EnhancedSOR.max_retries r + 1 - EnhancedSOR.retry_count st
  <= Z.of_nat fuel ->
  let st' := EnhancedSOR.route_loop fd algo_child fuel st in
  routing_invariant q r st'
  /\ EnhancedSOR.continues st' = false
  /\ (exists passes : nat,
        (passes <= fuel)%nat
        /\ st' = Nat.iter passes (EnhancedSOR.routing_pass fd algo_child) st)
  /\ (forall extra : nat,
        EnhancedSOR.route_loop fd algo_child (fuel + extra) st = st').
Proof.
  revert st. induction fuel as [|fuel IH]; intros st Hinv Hfuel st'; subst st'.
  - assert (Hstop : EnhancedSOR.continues st = false).
    { unfold EnhancedSOR.continues.
      destruct Hinv as (_ & _ & _ & _ & Hmax & _). rewrite Hmax.
      rewrite (proj2 (Z.leb_gt _ _)) by lia.
      rewrite andb_false_r. reflexivity. }
    cbn [EnhancedSOR.route_loop]. split; [exact Hinv|]. split; [exact Hstop|].
    split.
    + exists 0%nat. split; [lia|reflexivity].
    + intros extra. apply route_loop_stops. exact Hstop.
  - cbn [EnhancedSOR.route_loop Nat.add].
    destruct (EnhancedSOR.continues st) eqn:Hcont.
    + destruct (routing_pass_invariant fd algo_child r q st Hinv Hcont)
        as [Hinv1 Hnext].
      destruct (EnhancedSOR.continues
                  (EnhancedSOR.routing_pass fd algo_child st)) eqn:Hcont1.
      * assert (Hrc : EnhancedSOR.retry_count
                        (EnhancedSOR.routing_pass fd algo_child st)
                      = EnhancedSOR.retry_count st + 1).
        { destruct Hnext as [Hf|Hrc]; [|exact Hrc].
          unfold EnhancedSOR.continues in Hcont1. rewrite Hf in Hcont1.
          rewrite andb_false_r in Hcont1. discriminate Hcont1. }
        destruct (IH _ Hinv1 ltac:(lia)) as (Hi & Hc & (n & Hn & Hiter) & Hx).
        split; [exact Hi|]. split; [exact Hc|]. split; [|exact Hx].
        exists (S n). split; [lia|]. rewrite Nat.iter_succ_r. exact Hiter.
      * rewrite !route_loop_stops by exact Hcont1.
        split; [exact Hinv1|]. split; [exact Hcont1|]. split.
        -- exists 1%nat. split; [lia|reflexivity].
        -- intros extra. apply route_loop_stops. exact Hcont1.
    + split; [exact Hinv|]. split; [exact Hcont|]. split.
      * exists 0%nat. split; [lia|reflexivity].
      * intros extra. reflexivity.
Qed.

(** C8.  [route_order] leaves its [while] loop after at most
    [max_retries + 1] routing passes (three for the router's
    [max_retries = 2]): the loop condition is false then, and further
    unrollings of the loop change nothing.  The records of the first pass
    carry EOE and the records of every later pass IOC.  For a child order
    of non-negative quantity the total filled lies between 0 and the
    quantity, it is the sum of the fills the records show, and what is
    left is the quantity less the total: when the passes are used up
    with a residual, the caller has it as [quantity - total_filled].
    [route_order] returns these records and this total, unless the
    market quotes a venue the router does not have. *)
Theorem route_order_retries_within_bound (fd : EnhancedSOR.feed)
    (algo_child : order) (r : EnhancedSOR.router) :
  0 <= quantity algo_child ->
  let start :=
    EnhancedSOR.Routing r [] 0 (quantity algo_child) 0 0 false in
  let st := EnhancedSOR.route_final fd algo_child r in
  (exists passes : nat,
     (passes <= Z.to_nat (EnhancedSOR.max_retries r + 1))%nat
     /\ st = Nat.iter passes (EnhancedSOR.routing_pass fd algo_child) start)
  /\ EnhancedSOR.continues st = false
  /\ (forall extra : nat,
        EnhancedSOR.route_loop fd algo_child
          (Z.to_nat (EnhancedSOR.max_retries r + 1) + extra) start = st)
  /\ Forall (escalated (EnhancedSOR.max_retries r))
            (EnhancedSOR.execution_records st)
  /\ 0 <= EnhancedSOR.total_filled st <= quantity algo_child
  /\ EnhancedSOR.remaining_qty st
     = quantity algo_child - EnhancedSOR.total_filled st
  /\ EnhancedSOR.total_filled st
     = recorded_fills (EnhancedSOR.execution_records st)
  /\ (EnhancedSOR.failed st = false -> 0 < EnhancedSOR.remaining_qty st ->
      EnhancedSOR.max_retries r < EnhancedSOR.retry_count st)
  /\ match EnhancedSOR.route_order fd algo_child r with
     | Some (recs, filled, _) =>
         recs = EnhancedSOR.execution_records st
         /\ filled = EnhancedSOR.total_filled st
     | None => ~ knows_venues r
     end.
Proof.
  intros Hq. cbv zeta.
  unfold EnhancedSOR.route_order, EnhancedSOR.route_final.
  set (start := EnhancedSOR.Routing r [] 0 (quantity algo_child) 0 0 false).
  assert (Hstart : routing_invariant (quantity algo_child) r start).
  { unfold routing_invariant, start. cbn.
    repeat split; try lia; try reflexivity. constructor. }
  destruct (route_loop_exit fd algo_child r (quantity algo_child)
              (Z.to_nat (EnhancedSOR.max_retries r + 1)) start Hstart)
    as (Hinv & Hcont & Hpasses & Hextra).
  { unfold start. cbn [EnhancedSOR.retry_count]. lia. }
  set (st := EnhancedSOR.route_loop fd algo_child
               (Z.to_nat (EnhancedSOR.max_retries r + 1)) start) in *.
  destruct Hinv as (Hrem & Htot & Hsum & Hretry & Hmax & Hven & Hrec & Hesc
                    & Hknown).
  split; [exact Hpasses|]. split; [exact Hcont|]. split; [exact Hextra|].
  split; [exact Hesc|]. split; [lia|]. split; [lia|]. split; [exact Hrec|].
  split.
  - intros Hnf Hpos. unfold EnhancedSOR.continues in Hcont.
    rewrite Hnf, Hmax, (proj2 (Z.ltb_lt _ _) Hpos) in Hcont.
    cbn [negb andb] in Hcont. rewrite andb_true_r in Hcont.
    apply Z.leb_gt in Hcont. exact Hcont.
  - destruct (EnhancedSOR.failed st) eqn:Hf.
    + intros Hk. specialize (Hknown Hk). congruence.
    + split; reflexivity.
Qed.

Lemma route_order_retries_within_bound_witness :
  let fd :=
    EnhancedSOR.Feed (fun _ => (650, 649.99, 650.01)%float)
      (fun _ v => if String.eqb v "NYSE" then 3000 else 500)
      (fun n => if n =? 2 then 0 else 2 ^ 53 - 1) (fun _ => 2 ^ 53 - 1) in
  let algo_child :=
    new_order "ALGO_001" None 2 5000 "PENDING" None None in
  let r := EnhancedSOR.simulation_router 0.5 in
  let start := EnhancedSOR.Routing r [] 0 5000 0 0 false in
  let st := EnhancedSOR.route_final fd algo_child r in
  0 <= quantity algo_child
  /\ (exists passes : nat,
        (passes <= 3)%nat
        /\ st = Nat.iter passes (EnhancedSOR.routing_pass fd algo_child) start)
  /\ EnhancedSOR.continues st = false
  /\ (forall extra : nat,
        EnhancedSOR.route_loop fd algo_child (3 + extra) start = st)
  /\ Forall (escalated 2) (EnhancedSOR.execution_records st)
  /\ 0 <= EnhancedSOR.total_filled st <= 5000
  /\ EnhancedSOR.remaining_qty st = 5000 - EnhancedSOR.total_filled st
  /\ EnhancedSOR.total_filled st
     = recorded_fills (EnhancedSOR.execution_records st)
  /\ (EnhancedSOR.failed st = false -> 0 < EnhancedSOR.remaining_qty st ->
      2 < EnhancedSOR.retry_count st)
  /\ match EnhancedSOR.route_order fd algo_child r with
     | Some (recs, filled, _) =>
         recs = EnhancedSOR.execution_records st
         /\ filled = EnhancedSOR.total_filled st
     | None => ~ knows_venues r
     end.
Proof.
  intros fd algo_child r start st.
  split; [cbn; lia|].
  apply (route_order_retries_within_bound fd algo_child r).
  cbn. lia.
Defined.

(** The router of the simulation has every venue the market quotes, so
    its [route_order] returns. *)
Lemma simulation_router_knows_venues (competition : float) :
  knows_venues (EnhancedSOR.simulation_router competition).
Proof.
  intros v Hv. cbn in Hv.
  destruct Hv as [<-|[<-|[<-|[<-|[<-|[<-|[]]]]]]]; vm_compute; eexists;
    reflexivity.
Qed.

(** Two runs of [route_order] on an order of 5000 shares.  In the first
    the venue NASDAQ fades on the first pass (the draw of the third
    market tick); the retry pass takes the rest with IOC.  In the second every venue fades every time: three
    passes, nothing filled, and the total 0 tells the caller that all
    5000 are left. *)
Example route_order_passes :
  let feed fade :=
    EnhancedSOR.Feed (fun _ => (650, 649.99, 650.01)%float)
      (fun _ v => if String.eqb v "NYSE" then 3000 else 500)
      fade (fun _ => 2 ^ 53 - 1) in
  let algo_child :=
    new_order "ALGO_001" None 2 5000 "PENDING" None None in
  let r := EnhancedSOR.simulation_router 0.5 in
  let summary fd :=
    option_map
      (fun '(recs, filled, _) =>
         (map (fun e => (EnhancedSOR.er_retry_count e,
                         EnhancedSOR.er_instruction e,
                         EnhancedSOR.er_venue e,
                         EnhancedSOR.requested_qty e,
                         EnhancedSOR.filled_qty e)) recs, filled))
      (EnhancedSOR.route_order fd algo_child r) in
  summary (feed (fun n => if n =? 2 then 0 else 2 ^ 53 - 1))
  = Some ([(0, EnhancedSOR.EOE, "NYSE", 3000, 3000);
           (0, EnhancedSOR.EOE, "NASDAQ", 500, 0);
           (0, EnhancedSOR.EOE, "ARCA", 500, 500);
           (1, EnhancedSOR.IOC, "NYSE", 1500, 1500)], 5000)
  /\ summary (feed (fun _ => 0))
     = Some ([(0, EnhancedSOR.EOE, "NYSE", 3000, 0);
              (0, EnhancedSOR.EOE, "NASDAQ", 500, 0);
              (0, EnhancedSOR.EOE, "ARCA", 500, 0);
              (1, EnhancedSOR.IOC, "NYSE", 3000, 0);
              (1, EnhancedSOR.IOC, "NASDAQ", 500, 0);
              (1, EnhancedSOR.IOC, "ARCA", 500, 0);
              (2, EnhancedSOR.IOC, "NYSE", 3000, 0);
              (2, EnhancedSOR.IOC, "NASDAQ", 500, 0);
              (2, EnhancedSOR.IOC, "ARCA", 500, 0)], 0).
Proof. vm_compute. split; reflexivity. Qed.

(** ** The client rows of the log (C9) *)

Lemma nondecreasing_snoc (l : list Z) (x : Z) :
  nondecreasing l -> Forall (fun y => y <= x) l -> nondecreasing (l ++ [x]).
Proof.
  induction l as [|a l IH]; intros Hn Hall.
  - cbn. auto.
  - cbn [nondecreasing app] in *. destruct Hn as [Ha Hn].
    apply Forall_cons_1 in Hall. destruct Hall as [Hax Hall].
    split; [|exact (IH Hn Hall)].
    destruct l as [|b l]; cbn [app]; [exact Hax|exact Ha].
Qed.

Lemma client_fills_snoc (log : list snapshot) (s : snapshot) :
  client_fills (log ++ [s])
  = client_fills log
    ++ (if order_level (snap_order s) =? 0
        then [filled_quantity (snap_order s)] else []).
Proof.
  unfold client_fills. rewrite filter_app, map_app. f_equal.
  destruct (order_level (snap_order s) =? 0) eqn:H.
  - apply Z.eqb_eq in H. rewrite filter_cons_True by exact H. reflexivity.
  - apply Z.eqb_neq in H. rewrite filter_cons_False by exact H. reflexivity.
Qed.

Lemma final_client_snoc (log : list snapshot) (s : snapshot) :
  order_level (snap_order s) = 0 -> final_client (log ++ [s]) = Some s.
Proof.
  intros H. unfold final_client. rewrite filter_app.
  rewrite filter_cons_True by exact H. rewrite filter_nil. apply last_snoc.
Qed.

Lemma Forall_le_trans (l : list Z) (x y : Z) :
  x <= y -> Forall (fun z => z <= x) l -> Forall (fun z => z <= y) l.
Proof.
  intros Hxy H. induction H as [|z l Hz _ IH]; constructor;
    [lia|exact IH].
Qed.

(** The table fills between nothing and the quantity asked for. *)
Lemma response_table_bounds (low high : VenueResult) (k k2 q : Z) :
  0 <= q -> 0 <= snd (response_table low high k k2 q) <= q.
Proof.
  intros Hq. unfold response_table.
  destruct (100 * k <? 5 * _); [cbn; lia|].
  destruct (100 * k <? 15 * _).
  - cbn [snd]. split; [apply Z.div_pos; lia|].
    apply Z.div_le_upper_bound; lia.
  - destruct (100 * k <? 17 * _); cbn; lia.
Qed.

(** A row of another order leaves the invariant alone. *)
Lemma fixed_invariant_add_other (size : Z) (o : order) (ev : string)
    (g : ProductionVWAPFixed.generator) :
  order_level o <> 0 ->
  fixed_invariant size g ->
  fixed_invariant size (ProductionVWAPFixed.add_snapshot o ev g).
Proof.
  intros Hl (Hs & Hc & Ha & Hf & Hn & Hall). unfold fixed_invariant.
  cbn [ProductionVWAPFixed.add_snapshot ProductionVWAPFixed.order_size
       ProductionVWAPFixed.client_order ProductionVWAPFixed.algo_parent
       ProductionVWAPFixed.total_filled ProductionVWAPFixed.snapshots].
  rewrite client_fills_snoc. cbn [snap_order].
  rewrite (proj2 (Z.eqb_neq _ _) Hl), app_nil_r.
  repeat split; assumption.
Qed.

(** The cascade of a fill keeps the invariant and adds the fill to the
    running total. *)
Lemma propagate_invariant (size slice_filled : Z) (slice_value : float)
    (slice_order : order) (u : Urgency) (g : ProductionVWAPFixed.generator) :
  0 < slice_filled ->
  order_level slice_order = 2 ->
  fixed_invariant size g ->
  let r := ProductionVWAPFixed.propagate_fill_up_chain slice_filled
             slice_value slice_order u g in
  fixed_invariant size (fst r)
  /\ ProductionVWAPFixed.total_filled (fst r)
     = ProductionVWAPFixed.total_filled g + slice_filled
  /\ order_level (snd r) = 2.
Proof.
  intros Hpos Hlevel (Hs & Hc & Ha & Hf & Hn & Hall) r. subst r.
  unfold ProductionVWAPFixed.propagate_fill_up_chain.
  rewrite (proj2 (Z.eqb_neq slice_filled 0)) by lia.
  cbn [fst snd]. unfold fixed_invariant.
  cbn [ProductionVWAPFixed.add_snapshot ProductionVWAPFixed.set_totals
       ProductionVWAPFixed.set_algo_parent
       ProductionVWAPFixed.set_client_order ProductionVWAPFixed.order_size
       ProductionVWAPFixed.client_order ProductionVWAPFixed.algo_parent
       ProductionVWAPFixed.total_filled ProductionVWAPFixed.snapshots].
  rewrite !client_fills_snoc. cbn [snap_order].
  assert (H2 : forall o : order,
             order_level
               (set_state (if quantity o <=? filled_quantity o
                           then "FILLED" else "PARTIAL") o)
             = order_level o) by reflexivity.
  assert (Hall' : Forall (fun x => x <= ProductionVWAPFixed.total_filled g
                                      + slice_filled)
                         (client_fills (ProductionVWAPFixed.snapshots g))).
  { apply (Forall_le_trans _ (ProductionVWAPFixed.total_filled g));
      [lia|exact Hall]. }
  destruct (0 <? filled_quantity _); destruct (0 <? _ + slice_filled);
    cbn [order_level filled_quantity set_state set_average_price
         set_remaining_quantity set_filled_quantity set_urgency];
    rewrite Hlevel, Ha, Hc; cbn [Z.eqb]; rewrite !app_nil_r;
    (repeat split; try assumption; try reflexivity;
     [apply nondecreasing_snoc; [exact Hn|exact Hall']
     |apply Forall_app; split;
      [exact Hall'|constructor; [lia|constructor]]]).
Qed.

(** One route of a slice keeps the invariant of the route loop. *)
Lemma fixed_route_body_invariant (rs : random_source) (u : Urgency)
    (hour sl size before slice_size num_routes route_num : Z)
    (st : ProductionVWAPFixed.route_state) :
  fixed_route_invariant size before slice_size st ->
  match ProductionVWAPFixed.route_body rs u hour sl slice_size num_routes
          route_num st with
  | Next st' | Break st' => fixed_route_invariant size before slice_size st'
  end.
Proof.
  intros Hinv. unfold ProductionVWAPFixed.route_body.
  destruct (slice_size <=? ProductionVWAPFixed.slice_filled st) eqn:Hfull;
    [exact Hinv|].
  apply Z.leb_gt in Hfull.
  set (q := Z.min _ _).
  assert (Hq : q <= slice_size - ProductionVWAPFixed.slice_filled st)
    by apply Z.le_min_r.
  destruct (q <=? 0) eqn:Hq0; [exact Hinv|].
  apply Z.leb_gt in Hq0.
  pose proof (fixed_venue_outcome_table rs u
                (ProductionVWAPFixed.gen_market_price
                   (ProductionVWAPFixed.rt_gen st)) hour sl route_num q)
    as Htab.
  pose proof (response_table_bounds REJECT NO_CONN
                (outcome_rand rs hour sl route_num)
                (reject_rand rs hour sl route_num) q ltac:(lia)) as Hb.
  rewrite <- Htab in Hb.
  destruct (ProductionVWAPFixed.venue_outcome rs u _ hour sl route_num q)
    as [[result filled_qty] fill_price].
  cbn [fst snd] in Hb. clear Htab.
  destruct Hinv as (Hg & Hlevel & Hsf & Htot).
  set (g1 := ProductionVWAPFixed.set_stats (bump_routes _) _).
  assert (Hg1 : fixed_invariant size g1
                /\ ProductionVWAPFixed.total_filled g1
                   = ProductionVWAPFixed.total_filled
                       (ProductionVWAPFixed.rt_gen st)
                /\ ProductionVWAPFixed.detail_level g1
                   = ProductionVWAPFixed.detail_level
                       (ProductionVWAPFixed.rt_gen st)).
  { subst g1.
    destruct (String.eqb (ProductionVWAPFixed.detail_level
                (ProductionVWAPFixed.set_stats _
                   (ProductionVWAPFixed.rt_gen st))) "full").
    - split; [|split; reflexivity].
      apply (fixed_invariant_add_other size _ _
               (ProductionVWAPFixed.set_stats
                  (bump_outcome result
                     (ProductionVWAPFixed.gen_stats
                        (ProductionVWAPFixed.rt_gen st)))
                  (ProductionVWAPFixed.rt_gen st))).
      + cbn. discriminate.
      + exact Hg.
    - split; [exact Hg|split; reflexivity]. }
  destruct Hg1 as (Hg1 & Htot1 & _).
  clearbody g1.
  destruct (0 <? filled_qty) eqn:Hpos.
  - apply Z.ltb_lt in Hpos.
    destruct (negb (String.eqb (ProductionVWAPFixed.detail_level g1) "none")).
    + pose proof (propagate_invariant size filled_qty
                    (Py.float_of_int filled_qty * fill_price)%float
                    (ProductionVWAPFixed.rt_slice st) u g1 Hpos Hlevel Hg1)
        as Hp.
      cbv zeta in Hp.
      destruct (ProductionVWAPFixed.propagate_fill_up_chain _ _ _ _ g1)
        as [g2 so].
      cbn [fst snd] in Hp. destruct Hp as (Hg2 & Htot2 & Hso).
      unfold fixed_route_invariant.
      cbn [ProductionVWAPFixed.rt_gen ProductionVWAPFixed.rt_slice
           ProductionVWAPFixed.slice_filled].
      split; [exact Hg2|]. split; [exact Hso|]. split; lia.
    + unfold fixed_route_invariant.
      cbn [ProductionVWAPFixed.rt_gen ProductionVWAPFixed.rt_slice
           ProductionVWAPFixed.slice_filled].
      split; [exact Hg1|]. split; [exact Hlevel|]. split; lia.
  - unfold fixed_route_invariant.
    cbn [ProductionVWAPFixed.rt_gen ProductionVWAPFixed.rt_slice
         ProductionVWAPFixed.slice_filled].
    split; [exact Hg1|]. split; [exact Hlevel|]. split; lia.
Qed.

(** One slice keeps the invariant of the slice loop: the slice is cut to
    what the order still lacks, so the total stays within the order. *)
Lemma fixed_slice_body_invariant (rs : random_source) (u : Urgency)
    (hour size sl : Z) (st : ProductionVWAPFixed.slice_state) :
  fixed_slice_invariant size st ->
  match ProductionVWAPFixed.slice_body rs u hour sl st with
  | Next st' | Break st' => fixed_slice_invariant size st'
  end.
Proof.
  intros [Hg Hle]. unfold ProductionVWAPFixed.slice_body.
  destruct (_ <=? _) eqn:Hdone; [split; assumption|].
  apply Z.leb_gt in Hdone.
  cbn [ProductionVWAPFixed.order_size ProductionVWAPFixed.total_filled
       ProductionVWAPFixed.set_market_price
       ProductionVWAPFixed.avg_slice_size] in *.
  set (slice_size := Z.min _ _).
  assert (Hslice : slice_size
                   <= ProductionVWAPFixed.order_size
                        (ProductionVWAPFixed.sl_gen st)
                      - ProductionVWAPFixed.total_filled
                          (ProductionVWAPFixed.sl_gen st))
    by apply Z.le_min_r.
  clearbody slice_size.
  match goal with
  | |- context [for_each ?body ?idxs
                  (ProductionVWAPFixed.RouteState ?g0 ?so 0 0%float ?c)] =>
      assert (Hloop : fixed_route_invariant size
                (ProductionVWAPFixed.total_filled
                   (ProductionVWAPFixed.sl_gen st)) slice_size
                (for_each body idxs
                   (ProductionVWAPFixed.RouteState g0 so 0 0%float c)))
  end.
  { apply for_each_invariant.
    - intros i s Hs. apply fixed_route_body_invariant. exact Hs.
    - unfold fixed_route_invariant.
      cbn [ProductionVWAPFixed.rt_gen ProductionVWAPFixed.rt_slice
           ProductionVWAPFixed.slice_filled].
      destruct (String.eqb _ "full" || String.eqb _ "summary");
        (split; [|split; [reflexivity|split; [lia|cbn; lia]]]).
      + apply (fixed_invariant_add_other size _ _
                 (ProductionVWAPFixed.set_market_price _
                    (ProductionVWAPFixed.sl_gen st))).
        * cbn. discriminate.
        * exact Hg.
      + exact Hg. }
  destruct Hloop as (Hg' & _ & Hsf & Htot).
  split; cbn [ProductionVWAPFixed.sl_gen]; [exact Hg'|].
  destruct Hg as (Hs & _). lia.
Qed.

(** One hour keeps it as well. *)
Lemma fixed_hour_body_invariant (rs : random_source) (hour size : Z)
    (st : ProductionVWAPFixed.slice_state) :
  fixed_slice_invariant size st ->
  match ProductionVWAPFixed.hour_body rs hour st with
  | Next st' | Break st' => fixed_slice_invariant size st'
  end.
Proof.
  intros Hinv. unfold ProductionVWAPFixed.hour_body.
  destruct (_ <=? _); [exact Hinv|].
  apply for_each_invariant; [|exact Hinv].
  intros i s Hs. apply fixed_slice_body_invariant. exact Hs.
Qed.

Lemma fixed_opened_invariant (order_size avg_slice_size : Z)
    (detail_level : string) :
  fixed_invariant order_size
    (ProductionVWAPFixed.opened order_size avg_slice_size detail_level).
Proof.
  assert (Hrows : client_fills
            (ProductionVWAPFixed.snapshots
               (ProductionVWAPFixed.opened order_size avg_slice_size
                  detail_level)) = [0; 0]).
  { unfold ProductionVWAPFixed.opened.
    cbn [ProductionVWAPFixed.add_snapshot ProductionVWAPFixed.set_algo_parent
         ProductionVWAPFixed.set_client_order ProductionVWAPFixed.snapshots
         ProductionVWAPFixed.client_order ProductionVWAPFixed.algo_parent].
    rewrite !client_fills_snoc. reflexivity. }
  unfold fixed_invariant. rewrite Hrows.
  split; [reflexivity|]. split; [reflexivity|]. split; [reflexivity|].
  split; [reflexivity|]. split.
  - cbn. lia.
  - repeat constructor; cbn; lia.
Qed.

(** The fixed generator: the client rows never decrease, and a run that
    fills the order ends with a client row that shows all of it
    filled. *)
Lemma fixed_generate_client_rows (rs : random_source)
    (order_size avg_slice_size : Z) (detail_level : string) :
  avg_slice_size <> 0 -> order_size <> 0 ->
  exists g,
    ProductionVWAPFixed.generate rs order_size avg_slice_size detail_level
    = Some g
    /\ nondecreasing (client_fills (ProductionVWAPFixed.snapshots g))
    /\ (0 < order_size ->
        order_size <= ProductionVWAPFixed.total_filled g ->
        exists s,
          final_client (ProductionVWAPFixed.snapshots g) = Some s
          /\ filled_quantity (snap_order s) = order_size
          /\ state (snap_order s) = "FILLED").
Proof.
  intros Havg Hsize. unfold ProductionVWAPFixed.generate.
  rewrite (proj2 (Z.eqb_neq _ _) Havg), (proj2 (Z.eqb_neq _ _) Hsize).
  cbn [orb]. eexists. split; [reflexivity|].
  match goal with
  | |- context [for_each ?body ?idxs ?s0] =>
      assert (Hloop : fixed_slice_invariant order_size
                        (for_each body idxs s0));
      [|destruct (for_each body idxs s0) as [g sc rc]]
  end.
  { apply for_each_invariant.
    - intros i s Hs. apply fixed_hour_body_invariant. exact Hs.
    - split; [apply fixed_opened_invariant|cbn; lia]. }
  unfold fixed_slice_invariant in Hloop.
  cbn [ProductionVWAPFixed.sl_gen] in *.
  destruct Hloop as [(Hs & Hc & Ha & Hf & Hn & Hall) Hle].
  unfold ProductionVWAPFixed.completed.
  destruct (_ <=? _) eqn:Hdone.
  - apply Z.leb_le in Hdone. rewrite Hs in Hdone.
    cbn [ProductionVWAPFixed.add_snapshot ProductionVWAPFixed.set_algo_parent
         ProductionVWAPFixed.set_client_order ProductionVWAPFixed.order_size
         ProductionVWAPFixed.client_order ProductionVWAPFixed.algo_parent
         ProductionVWAPFixed.total_filled ProductionVWAPFixed.snapshots].
    split.
    + rewrite !client_fills_snoc. cbn [snap_order].
      cbn [order_level filled_quantity set_state]. rewrite Ha, Hc.
      cbn [Z.eqb]. rewrite app_nil_r, Hf.
      apply nondecreasing_snoc; assumption.
    + intros Hpos _. eexists. split.
      * apply final_client_snoc. cbn. exact Hc.
      * cbn. split; [lia|reflexivity].
  - apply Z.leb_gt in Hdone. rewrite Hs in Hdone.
    split; [exact Hn|]. intros _ Hfull. lia.
Qed.

(** A loop over [range n] with an invariant that knows the index. *)
Lemma for_each_range {St : Type} (P : Z -> St -> Prop) (Q : St -> Prop)
    (body : Z -> St -> loop_step St) (n : Z) (s : St) :
  (forall i s, 0 <= i < n -> P i s ->
     match body i s with Next s' => P (i + 1) s' | Break s' => Q s' end) ->
  (forall s, P (Z.max 0 n) s -> Q s) ->
  P 0 s -> Q (for_each body (range n) s).
Proof.
  intros Hbody Hend. unfold range.
  assert (H : forall len start s,
             (start + len = Z.to_nat n)%nat -> P (Z.of_nat start) s ->
             Q (for_each body (map Z.of_nat (seq start len)) s)).
  { induction len as [|len IH]; intros start s0 Hlen Hs; cbn [seq map for_each].
    - apply Hend. replace (Z.max 0 n) with (Z.of_nat start) by lia. exact Hs.
    - specialize (Hbody (Z.of_nat start) s0 ltac:(lia) Hs).
      destruct (body (Z.of_nat start) s0) as [s'|s'].
      + apply IH; [lia|].
        replace (Z.of_nat (S start)) with (Z.of_nat start + 1) by lia.
        exact Hbody.
      + exact Hbody. }
  intros Hs. apply (H (Z.to_nat n) 0%nat s); [lia|exact Hs].
Qed.

(** A route of [generate_final_vwap] fills between nothing and its
    size, whatever the rates. *)
Lemma final_venue_outcome_bounds (rs : random_source)
    (fade_rate partial_rate : float) (hour sl route q : Z) :
  0 <= q ->
  0 <= snd (FinalVWAP.venue_outcome rs fade_rate partial_rate hour sl route q)
  <= q.
Proof.
  intros Hq. unfold FinalVWAP.venue_outcome.
  destruct (Py.draw_lt _ fade_rate); [cbn; lia|].
  destruct (Py.draw_lt _ _).
  - cbn [snd]. split; [apply Z.div_pos; lia|].
    apply Z.div_le_upper_bound; lia.
  - destruct (Py.draw_lt _ _); cbn; lia.
Qed.

Lemma final_invariant_append_other (size : Z) (o : order) (ev : string)
    (r : FinalVWAP.run) :
  order_level o <> 0 ->
  final_invariant size r -> final_invariant size (FinalVWAP.append o ev r).
Proof.
  intros Hl (Hs & Hc & Hn & Hall & Hle). unfold final_invariant.
  cbn [FinalVWAP.append FinalVWAP.order_size FinalVWAP.client_order
       FinalVWAP.total_filled FinalVWAP.snapshots].
  rewrite client_fills_snoc. cbn [snap_order].
  rewrite (proj2 (Z.eqb_neq _ _) Hl), app_nil_r.
  repeat split; assumption.
Qed.

(** One route of a slice: the invariant moves on to the next index. *)
Lemma final_route_body_invariant (rs : random_source) (u : Urgency)
    (hour sl : Z) (slice_order : order) (slice_size num_routes i : Z)
    (r0 : FinalVWAP.run) (st : FinalVWAP.route_state) :
  0 < num_routes -> 0 <= i ->
  final_route_invariant r0 slice_size (slice_size / num_routes) i st ->
  match FinalVWAP.route_body rs u hour sl slice_order slice_size num_routes
          i st with
  | Next st' =>
      final_route_invariant r0 slice_size (slice_size / num_routes) (i + 1) st'
  | Break st' =>
      final_route_invariant r0 slice_size (slice_size / num_routes) i st'
  end.
Proof.
  intros Hn Hi (Hs & Hc & Ht & Hrows & Hsf & Hpos & Hneg).
  unfold FinalVWAP.route_body.
  destruct (slice_size <=? FinalVWAP.slice_filled st) eqn:Hfull.
  { repeat split; assumption. }
  apply Z.leb_gt in Hfull.
  assert (Hss : 0 < slice_size) by lia.
  assert (Hq : 0 <= slice_size / num_routes) by (apply Z.div_pos; lia).
  pose proof (final_venue_outcome_bounds rs
                (FinalVWAP.fade_rate (FinalVWAP.rt_run st))
                (FinalVWAP.partial_rate (FinalVWAP.rt_run st)) hour sl i
                (slice_size / num_routes) Hq) as Hb.
  destruct (FinalVWAP.venue_outcome rs _ _ hour sl i _)
    as [result filled_qty].
  cbn [snd] in Hb.
  unfold final_route_invariant.
  cbn [FinalVWAP.rt_run FinalVWAP.slice_filled FinalVWAP.set_counters
       FinalVWAP.set_stats FinalVWAP.detail_level FinalVWAP.order_size
       FinalVWAP.client_order FinalVWAP.total_filled FinalVWAP.snapshots].
  destruct (String.eqb (FinalVWAP.detail_level (FinalVWAP.rt_run st)) "full").
  - cbn [FinalVWAP.append FinalVWAP.order_size FinalVWAP.client_order
         FinalVWAP.total_filled FinalVWAP.snapshots FinalVWAP.run_stats
         FinalVWAP.sor_counter FinalVWAP.slice_counter
         FinalVWAP.set_stats].
    rewrite client_fills_snoc. cbn [snap_order FinalVWAP.sor_order order_level].
    cbn [Z.eqb]. rewrite app_nil_r.
    repeat split; try assumption; lia.
  - repeat split; try assumption; lia.
Qed.

(** The route loop of a slice fills between nothing and the slice. *)
Lemma final_route_loop (rs : random_source) (u : Urgency) (hour sl : Z)
    (slice_order : order) (slice_size num_routes : Z) (r0 : FinalVWAP.run) :
  0 < num_routes ->
  let st :=
    for_each (FinalVWAP.route_body rs u hour sl slice_order slice_size
                num_routes)
             (range num_routes) (FinalVWAP.RouteState r0 0 0%float) in
  FinalVWAP.order_size (FinalVWAP.rt_run st) = FinalVWAP.order_size r0
  /\ FinalVWAP.client_order (FinalVWAP.rt_run st) = FinalVWAP.client_order r0
  /\ FinalVWAP.total_filled (FinalVWAP.rt_run st) = FinalVWAP.total_filled r0
  /\ client_fills (FinalVWAP.snapshots (FinalVWAP.rt_run st))
     = client_fills (FinalVWAP.snapshots r0)
  /\ 0 <= FinalVWAP.slice_filled st <= Z.max 0 slice_size.
Proof.
  intros Hn st. subst st.
  apply (for_each_range
           (final_route_invariant r0 slice_size (slice_size / num_routes))).
  - intros i s [Hi Hin] Hs.
    pose proof (final_route_body_invariant rs u hour sl slice_order
                  slice_size num_routes i r0 s Hn Hi Hs) as Hb.
    destruct (FinalVWAP.route_body rs u hour sl slice_order slice_size
                num_routes i s) as [s'|s']; [exact Hb|].
    destruct Hb as (Hs' & Hc & Ht & Hrows & Hsf & Hpos & Hneg).
    repeat split; try assumption.
    destruct (Z.le_gt_cases slice_size 0) as [Hle|Hgt]; [lia|].
    specialize (Hpos ltac:(lia)).
    pose proof (Z.mul_div_le slice_size num_routes Hn).
    assert (Hq : 0 <= slice_size / num_routes) by (apply Z.div_pos; lia).
    assert (i * (slice_size / num_routes)
            <= num_routes * (slice_size / num_routes))
      by (apply Z.mul_le_mono_nonneg_r; lia).
    lia.
  - intros s (Hs' & Hc & Ht & Hrows & Hsf & Hpos & Hneg).
    repeat split; try assumption.
    destruct (Z.le_gt_cases slice_size 0) as [Hle|Hgt]; [lia|].
    specialize (Hpos ltac:(lia)).
    pose proof (Z.mul_div_le slice_size num_routes Hn).
    replace (Z.max 0 num_routes) with num_routes in Hpos by lia. lia.
  - unfold final_route_invariant. cbn. repeat split; lia.
Qed.

(** One slice keeps the invariant. *)
Lemma final_slice_body_invariant (rs : random_source) (u : Urgency)
    (hour size sl : Z) (r : FinalVWAP.run) :
  final_invariant size r ->
  match FinalVWAP.slice_body rs u hour sl r with
  | Next r' | Break r' => final_invariant size r'
  end.
Proof.
  intros Hinv. unfold FinalVWAP.slice_body.
  destruct (_ <=? _) eqn:Hdone; [exact Hinv|].
  apply Z.leb_gt in Hdone.
  set (slice_size := Z.min _ _).
  assert (Hslice : slice_size
                   <= FinalVWAP.order_size r - FinalVWAP.total_filled r)
    by apply Z.le_min_r.
  clearbody slice_size.
  set (slice_order := new_order _ _ 2 slice_size _ _ _).
  set (r1 := FinalVWAP.set_counters _ _ _).
  assert (Hr1 : final_invariant size r1
                /\ FinalVWAP.total_filled r1 = FinalVWAP.total_filled r).
  { subst r1. destruct (String.eqb (FinalVWAP.detail_level r) "full").
    - split; [|reflexivity].
      apply (final_invariant_append_other size slice_order "NEW" r);
        [discriminate|exact Hinv].
    - split; [exact Hinv|reflexivity]. }
  destruct Hr1 as [(Hs & Hc & Hn & Hall & Hle) Ht1].
  assert (Hs0 : FinalVWAP.order_size r = size) by (destruct Hinv; assumption).
  set (num_routes := match u with CRITICAL | URGENT => 3 | _ => 2 end).
  assert (Hnum : 0 < num_routes) by (subst num_routes; destruct u; lia).
  pose proof (final_route_loop rs u hour sl slice_order slice_size num_routes
                r1 Hnum) as Hloop.
  cbv zeta in Hloop.
  destruct (for_each _ (range num_routes) (FinalVWAP.RouteState r1 0 0%float))
    as [r2 slice_filled slice_value].
  cbn [FinalVWAP.rt_run FinalVWAP.slice_filled FinalVWAP.slice_value] in *.
  destruct Hloop as (Hs2 & Hc2 & Ht2 & Hrows2 & Hsf).
  assert (Hr3 : final_invariant size
                  (FinalVWAP.set_totals
                     (FinalVWAP.total_filled r2 + slice_filled)
                     (FinalVWAP.total_value r2 + slice_value)%float r2)).
  { unfold final_invariant.
    cbn [FinalVWAP.set_totals FinalVWAP.order_size FinalVWAP.client_order
         FinalVWAP.total_filled FinalVWAP.snapshots].
    rewrite Hs2, Hc2, Ht2, Hrows2.
    split; [exact Hs|]. split; [exact Hc|]. split; [exact Hn|]. split.
    - apply (Forall_le_trans _ (FinalVWAP.total_filled r1)); [lia|exact Hall].
    - lia. }
  destruct (String.eqb _ "summary" && (0 <? slice_filled)).
  - apply final_invariant_append_other; [discriminate|exact Hr3].
  - exact Hr3.
Qed.

(** One hour: the slices, then the client row with the running total. *)
Lemma final_hour_body_invariant (rs : random_source) (hour size : Z)
    (r : FinalVWAP.run) :
  final_hour_invariant size r ->
  match FinalVWAP.hour_body rs hour r with
  | Next r' | Break r' => final_hour_invariant size r'
  end.
Proof.
  intros [Hinv Hlast]. unfold FinalVWAP.hour_body.
  destruct (_ <=? _); [split; assumption|].
  match goal with
  | |- context [for_each ?body ?idxs r] =>
      assert (Hloop : final_invariant size (for_each body idxs r));
      [|destruct (for_each body idxs r) as
          [os avg dl fr pr snaps rid tf tv co sc rc stt]]
  end.
  { apply for_each_invariant; [|exact Hinv].
    intros i s Hs. apply final_slice_body_invariant. exact Hs. }
  unfold final_invariant in Hloop.
  cbn [FinalVWAP.order_size FinalVWAP.client_order FinalVWAP.total_filled
       FinalVWAP.snapshots] in Hloop.
  destruct Hloop as (Hs & Hc & Hn & Hall & Hle).
  unfold final_hour_invariant, final_invariant.
  cbn [FinalVWAP.append FinalVWAP.set_client_order FinalVWAP.order_size
       FinalVWAP.client_order FinalVWAP.total_filled FinalVWAP.snapshots].
  rewrite client_fills_snoc. cbn [snap_order].
  cbn [order_level filled_quantity set_urgency set_state set_average_price
       set_remaining_quantity set_filled_quantity].
  rewrite Hc. cbn [Z.eqb].
  split.
  - split; [exact Hs|]. split; [reflexivity|]. split.
    + apply nondecreasing_snoc; assumption.
    + split; [|exact Hle].
      apply Forall_app. split; [exact Hall|].
      constructor; [lia|constructor].
  - intros Hpos Hfull. eexists. split.
    + apply final_client_snoc. cbn. exact Hc.
    + cbn. split; [reflexivity|].
      rewrite (proj2 (Z.ltb_ge _ _)) by lia. reflexivity.
Qed.

(** [generate_final_vwap]: the client rows never decrease, and a run
    that fills the order ends with a client row that shows all of it
    filled. *)
Lemma final_generate_client_rows (rs : random_source)
    (order_size avg_slice_size : Z) (detail_level : string)
    (fade_rate partial_rate : float) :
  avg_slice_size <> 0 -> order_size <> 0 ->
  exists r,
    FinalVWAP.generate_final_vwap rs order_size avg_slice_size detail_level
      fade_rate partial_rate = Some r
    /\ nondecreasing (client_fills (FinalVWAP.snapshots r))
    /\ (0 < order_size ->
        order_size <= FinalVWAP.total_filled r ->
        exists s,
          final_client (FinalVWAP.snapshots r) = Some s
          /\ filled_quantity (snap_order s) = order_size
          /\ state (snap_order s) = "FILLED").
Proof.
  intros Havg Hsize. unfold FinalVWAP.generate_final_vwap.
  rewrite (proj2 (Z.eqb_neq _ _) Havg), (proj2 (Z.eqb_neq _ _) Hsize).
  cbn [orb]. eexists. split; [reflexivity|].
  match goal with
  | |- context [for_each ?body ?idxs ?s0] =>
      assert (Hloop : final_hour_invariant order_size
                        (for_each body idxs s0));
      [|destruct (for_each body idxs s0) as
          [os avg dl fr pr snaps rid tf tv co sc rc stt]]
  end.
  { apply for_each_invariant.
    - intros i s Hs. apply final_hour_body_invariant. exact Hs.
    - assert (Hrows : client_fills
                (FinalVWAP.snapshots
                   (FinalVWAP.opened order_size avg_slice_size detail_level
                      fade_rate partial_rate)) = [0]).
      { unfold FinalVWAP.opened.
        destruct (negb (String.eqb detail_level "client_only"));
          cbn [FinalVWAP.append FinalVWAP.snapshots];
          rewrite !client_fills_snoc; reflexivity. }
      assert (Hopen :
                FinalVWAP.order_size
                  (FinalVWAP.opened order_size avg_slice_size detail_level
                     fade_rate partial_rate) = order_size
                /\ order_level (FinalVWAP.client_order
                     (FinalVWAP.opened order_size avg_slice_size detail_level
                        fade_rate partial_rate)) = 0
                /\ FinalVWAP.total_filled
                     (FinalVWAP.opened order_size avg_slice_size detail_level
                        fade_rate partial_rate) = 0).
      { unfold FinalVWAP.opened.
        destruct (negb (String.eqb detail_level "client_only"));
          repeat split; reflexivity. }
      destruct Hopen as (Ho1 & Ho2 & Ho3).
      unfold final_hour_invariant, final_invariant.
      rewrite Hrows, Ho1, Ho2, Ho3.
      split.
      + repeat split; try lia. repeat constructor; lia.
      + intros Hpos Hfull. lia. }
  unfold final_hour_invariant, final_invariant in Hloop.
  cbn [FinalVWAP.order_size FinalVWAP.client_order FinalVWAP.total_filled
       FinalVWAP.snapshots] in *.
  destruct Hloop as [(Hs & Hc & Hn & Hall & Hle) Hlast].
  split; [exact Hn|].
  intros Hpos Hfull. destruct (Hlast Hpos ltac:(lia)) as (s & Hs1 & Hs2 & Hs3).
  exists s. split; [exact Hs1|]. split; [lia|exact Hs3].
Qed.

(** C9.  In the log of the fixed generator and in the log of
    [generate_final_vwap] the rows with [order_level = 0], in the order
    of the log, never decrease in [filled_quantity]; and when the run
    has filled an order of positive size, the last of these rows shows
    [filled_quantity] equal to the order size and the state FILLED.
    Both generators return a log whenever the order size and the average
    slice size are not zero and the order size converts to a float
    exactly (every quantity they convert lies between 0 and the order
    size). *)
Theorem client_rows_never_decrease (rs : random_source)
    (order_size avg_slice_size : Z) (detail_level : string)
    (fade_rate partial_rate : float) :
  avg_slice_size <> 0 -> order_size <> 0 -> Py.exact_int order_size ->
  exists g r,
    ProductionVWAPFixed.generate rs order_size avg_slice_size detail_level
    = Some g
    /\ FinalVWAP.generate_final_vwap rs order_size avg_slice_size
         detail_level fade_rate partial_rate = Some r
    /\ nondecreasing (client_fills (ProductionVWAPFixed.snapshots g))
    /\ nondecreasing (client_fills (FinalVWAP.snapshots r))
    /\ (0 < order_size ->
        order_size <= ProductionVWAPFixed.total_filled g ->
        exists s,
          final_client (ProductionVWAPFixed.snapshots g) = Some s
          /\ filled_quantity (snap_order s) = order_size
          /\ state (snap_order s) = "FILLED")
    /\ (0 < order_size ->
        order_size <= FinalVWAP.total_filled r ->
        exists s,
          final_client (FinalVWAP.snapshots r) = Some s
          /\ filled_quantity (snap_order s) = order_size
          /\ state (snap_order s) = "FILLED").
Proof.
  intros Havg Hsize _.
  destruct (fixed_generate_client_rows rs order_size avg_slice_size
              detail_level Havg Hsize) as (g & Hg & Hgn & Hgf).
  destruct (final_generate_client_rows rs order_size avg_slice_size
              detail_level fade_rate partial_rate Havg Hsize)
    as (r & Hr & Hrn & Hrf).
  exists g, r. repeat split; assumption.
Qed.

Lemma client_rows_never_decrease_witness :
  let rs :=
    RandomSource (fun _ _ _ b => b) (fun _ _ => 0%float)
      (fun h _ r => if (h =? 1) && (r =? 0) then 2 ^ 53 / 10 else 2 ^ 53 - 1)
      (fun _ _ _ => 0) (fun _ _ _ a _ => a) in
  600 <> 0 /\ 4200 <> 0 /\ Py.exact_int 4200
  /\ exists g r,
       ProductionVWAPFixed.generate rs 4200 600 "summary" = Some g
       /\ FinalVWAP.generate_final_vwap rs 4200 600 "summary" 0.05 0.10
          = Some r
       /\ nondecreasing (client_fills (ProductionVWAPFixed.snapshots g))
       /\ nondecreasing (client_fills (FinalVWAP.snapshots r))
       /\ (0 < 4200 ->
           4200 <= ProductionVWAPFixed.total_filled g ->
           exists s,
             final_client (ProductionVWAPFixed.snapshots g) = Some s
             /\ filled_quantity (snap_order s) = 4200
             /\ state (snap_order s) = "FILLED")
       /\ (0 < 4200 ->
           4200 <= FinalVWAP.total_filled r ->
           exists s,
             final_client (FinalVWAP.snapshots r) = Some s
             /\ filled_quantity (snap_order s) = 4200
             /\ state (snap_order s) = "FILLED").
Proof.
  intros rs.
  assert (Hex : Py.exact_int 4200) by (unfold Py.exact_int; simpl; lia).
  split; [lia|]. split; [lia|]. split; [exact Hex|].
  apply (client_rows_never_decrease rs 4200 600 "summary" 0.05 0.10);
    [lia | lia | exact Hex].
Defined.

(** The runs of the witness fill the order: the client rows of the two
    logs, and the last of them with its state and event. *)
Example client_rows_of_a_full_run :
  let rs :=
    RandomSource (fun _ _ _ b => b) (fun _ _ => 0%float)
      (fun h _ r => if (h =? 1) && (r =? 0) then 2 ^ 53 / 10 else 2 ^ 53 - 1)
      (fun _ _ _ => 0) (fun _ _ _ a _ => a) in
  let last_row log :=
    option_map (fun s => (filled_quantity (snap_order s),
                          state (snap_order s), event_type s))
               (final_client log) in
  option_map
    (fun g => (ProductionVWAPFixed.total_filled g,
               client_fills (ProductionVWAPFixed.snapshots g),
               last_row (ProductionVWAPFixed.snapshots g)))
    (ProductionVWAPFixed.generate rs 4200 600 "summary")
  = Some (4200,
          [0; 0; 800; 1600; 2400; 2550; 3000; 3300; 3600; 3900; 4200; 4200],
          Some (4200, "FILLED", "COMPLETED"))
  /\ option_map
       (fun r => (FinalVWAP.total_filled r,
                  client_fills (FinalVWAP.snapshots r),
                  last_row (FinalVWAP.snapshots r)))
       (FinalVWAP.generate_final_vwap rs 4200 600 "summary" 0.05 0.10)
     = Some (4200, [0; 2400; 2850; 3450; 4050; 4200],
             Some (4200, "FILLED", "CLIENT_UPDATE")).
Proof. vm_compute. split; reflexivity. Qed.

(** * Further properties *)

(** ** Numbered, conserved logs *)

Lemma sequential_snoc (log : list snapshot) (s : snapshot) :
  sequential log ->
  record_id s = Some (Z.of_nat (length log)) ->
  sequential (log ++ [s]).
Proof.
  intros Hseq Hid i s' Hi.
  destruct (decide (i < length log)%nat) as [Hlt|Hge].
  - rewrite lookup_app_l in Hi by exact Hlt. exact (Hseq i s' Hi).
  - rewrite lookup_app_r in Hi by lia.
    destruct (i - length log)%nat as [|n] eqn:Hn; cbn in Hi; [|discriminate].
    injection Hi as <-. rewrite Hid. f_equal. lia.
Qed.

Lemma log_ok_nil (row_ok : snapshot -> Prop) : log_ok row_ok [] 0.
Proof.
  split; [reflexivity|]. split; [|constructor].
  intros i s H. discriminate H.
Qed.

Lemma log_ok_snoc (row_ok : snapshot -> Prop) (log : list snapshot)
    (next_id : Z) (o : order) (ev : string) (mp : option float) :
  log_ok row_ok log next_id ->
  row_ok (Snapshot o ev (Some next_id) mp) ->
  log_ok row_ok (log ++ [Snapshot o ev (Some next_id) mp]) (next_id + 1).
Proof.
  intros (Hid & Hseq & Hall) Hrow. split; [|split].
  - rewrite length_app. cbn. lia.
  - apply sequential_snoc; [exact Hseq|]. cbn. rewrite Hid. reflexivity.
  - apply Forall_app. split; [exact Hall|]. constructor; [exact Hrow|constructor].
Qed.

(** ** The log of the fixed generator *)

Ltac fixed_fields :=
  cbn [ProductionVWAPFixed.add_snapshot ProductionVWAPFixed.set_totals
       ProductionVWAPFixed.set_algo_parent ProductionVWAPFixed.set_stats
       ProductionVWAPFixed.set_client_order
       ProductionVWAPFixed.set_market_price
       ProductionVWAPFixed.order_size ProductionVWAPFixed.avg_slice_size
       ProductionVWAPFixed.detail_level ProductionVWAPFixed.gen_record_id
       ProductionVWAPFixed.client_order ProductionVWAPFixed.algo_parent
       ProductionVWAPFixed.total_filled ProductionVWAPFixed.snapshots
       ProductionVWAPFixed.gen_market_price ProductionVWAPFixed.gen_stats].

Ltac order_fields :=
  cbn [order_level quantity filled_quantity remaining_quantity state
       set_state set_average_price set_remaining_quantity
       set_filled_quantity set_urgency snap_order event_type].

(** A row of another order than the client's and the parent's. *)
Lemma fixed_log_add (bounded : Prop) (size avg : Z) (dl : string)
    (o : order) (ev : string) (g : ProductionVWAPFixed.generator) :
  fixed_log bounded size avg dl g ->
  fixed_row bounded dl
    (Snapshot o ev (Some (ProductionVWAPFixed.gen_record_id g))
              (Some (ProductionVWAPFixed.gen_market_price g))) ->
  fixed_log bounded size avg dl (ProductionVWAPFixed.add_snapshot o ev g).
Proof.
  intros (Hs & Ha & Hd & Hlog & Hord) Hrow. unfold fixed_log. fixed_fields.
  split; [exact Hs|]. split; [exact Ha|]. split; [exact Hd|].
  split; [|exact Hord].
  apply log_ok_snoc; assumption.
Qed.

(** The cascade of a fill keeps the log numbered and conserved. *)
Lemma propagate_log (bounded : Prop) (size avg : Z) (dl : string)
    (slice_filled : Z) (slice_value : float) (slice_order : order)
    (u : Urgency) (g : ProductionVWAPFixed.generator) :
  0 < slice_filled ->
  fixed_log bounded size avg dl g ->
  order_level slice_order = 2 ->
  0 <= filled_quantity slice_order ->
  (bounded -> filled_quantity slice_order + slice_filled
              <= quantity slice_order) ->
  (bounded -> ProductionVWAPFixed.total_filled g + slice_filled <= size) ->
  let r := ProductionVWAPFixed.propagate_fill_up_chain slice_filled
             slice_value slice_order u g in
  fixed_log bounded size avg dl (fst r)
  /\ order_level (snd r) = 2
  /\ quantity (snd r) = quantity slice_order
  /\ filled_quantity (snd r) = filled_quantity slice_order + slice_filled.
Proof.
  intros Hpos (Hs & Ha & Hd & Hlog & Hord) Hlevel Hsf Hbs Hbt r. subst r.
  destruct Hord as (Hc0 & Ha1 & Hcq & Haq & Hcf & Haf & Hcr & Har & Ht).
  unfold ProductionVWAPFixed.propagate_fill_up_chain.
  rewrite (proj2 (Z.eqb_neq slice_filled 0)) by lia.
  cbn [fst snd].
  split; [|split; [|split]].
  2:{ destruct (0 <? _); exact Hlevel. }
  2:{ destruct (0 <? _); reflexivity. }
  2:{ destruct (0 <? _); reflexivity. }
  unfold fixed_log. fixed_fields.
  split; [exact Hs|]. split; [exact Ha|]. split; [exact Hd|].
  rewrite Hs. split.
  - apply log_ok_snoc; [apply log_ok_snoc; [apply log_ok_snoc|]|].
    + exact Hlog.
    + unfold fixed_row, conserved, within_quantity.
      destruct (0 <? _); order_fields; rewrite Hlevel;
        (split; [lia|]); (split; [intros Hb; specialize (Hbs Hb); lia|]);
        (split; [discriminate|]); intros _ Hev; discriminate Hev.
    + unfold fixed_row, conserved, within_quantity.
      destruct (0 <? _ + slice_filled); order_fields; rewrite Ha1, Haq;
        (split; [lia|]); (split; [intros Hb; specialize (Hbt Hb); lia|]);
        (split; discriminate).
    + unfold fixed_row, conserved, within_quantity.
      destruct (0 <? _ + slice_filled); order_fields; rewrite Hc0, Hcq;
        (split; [lia|]); (split; [intros Hb; specialize (Hbt Hb); lia|]);
        (split; discriminate).
  - unfold fixed_orders. fixed_fields.
    destruct (0 <? _ + slice_filled); order_fields;
      repeat split; try assumption; try reflexivity; lia.
Qed.

(** One route of a slice keeps the log numbered and conserved. *)
Lemma fixed_route_body_log (bounded : Prop) (rs : random_source)
    (u : Urgency) (hour sl size avg : Z) (dl : string)
    (before slice_size num_routes route_num : Z)
    (st : ProductionVWAPFixed.route_state) :
  (bounded -> before + Z.max 0 slice_size <= size) ->
  fixed_route_invariant size before slice_size st ->
  fixed_route_log bounded size avg dl slice_size st ->
  match ProductionVWAPFixed.route_body rs u hour sl slice_size num_routes
          route_num st with
  | Next st' | Break st' => fixed_route_log bounded size avg dl slice_size st'
  end.
Proof.
  intros Hroom (_ & _ & Hsf & Htot) Hlog.
  unfold ProductionVWAPFixed.route_body.
  destruct (slice_size <=? ProductionVWAPFixed.slice_filled st) eqn:Hfull;
    [exact Hlog|].
  apply Z.leb_gt in Hfull.
  set (q := Z.min _ _).
  assert (Hq : q <= slice_size - ProductionVWAPFixed.slice_filled st)
    by apply Z.le_min_r.
  destruct (q <=? 0) eqn:Hq0; [exact Hlog|].
  apply Z.leb_gt in Hq0.
  pose proof (fixed_venue_outcome_table rs u
                (ProductionVWAPFixed.gen_market_price
                   (ProductionVWAPFixed.rt_gen st)) hour sl route_num q)
    as Htab.
  pose proof (response_table_bounds REJECT NO_CONN
                (outcome_rand rs hour sl route_num)
                (reject_rand rs hour sl route_num) q ltac:(lia)) as Hb.
  rewrite <- Htab in Hb.
  destruct (ProductionVWAPFixed.venue_outcome rs u _ hour sl route_num q)
    as [[result filled_qty] fill_price].
  cbn [fst snd] in Hb. clear Htab.
  destruct Hlog as (Hg & Hlevel & Hquant & Hfilled).
  set (g1 := ProductionVWAPFixed.set_stats (bump_routes _) _).
  assert (Hg1 : fixed_log bounded size avg dl g1
                /\ ProductionVWAPFixed.total_filled g1
                   = ProductionVWAPFixed.total_filled
                       (ProductionVWAPFixed.rt_gen st)).
  { subst g1. fixed_fields.
    destruct Hg as (Hs & Ha & Hd & Hl & Ho).
    destruct (String.eqb (ProductionVWAPFixed.detail_level
                            (ProductionVWAPFixed.rt_gen st)) "full")
      eqn:Hdl.
    - apply String.eqb_eq in Hdl. rewrite Hd in Hdl.
      split; [|reflexivity].
      unfold fixed_log. fixed_fields.
      split; [exact Hs|]. split; [exact Ha|]. split; [exact Hd|].
      split; [|exact Ho].
      apply log_ok_snoc; [exact Hl|].
      unfold fixed_row, conserved, within_quantity,
             ProductionVWAPFixed.sor_order.
      order_fields.
      split; [lia|]. split; [intros _; lia|]. split; [intros _; exact Hdl|].
      intros H. discriminate H.
    - split; [|reflexivity].
      unfold fixed_log. fixed_fields.
      split; [exact Hs|]. split; [exact Ha|]. split; [exact Hd|].
      split; [exact Hl|exact Ho]. }
  destruct Hg1 as (Hg1 & Htot1).
  clearbody g1.
  destruct (0 <? filled_qty) eqn:Hpos.
  - apply Z.ltb_lt in Hpos.
    destruct (negb (String.eqb (ProductionVWAPFixed.detail_level g1) "none")).
    + pose proof (propagate_log bounded size avg dl filled_qty
                    (Py.float_of_int filled_qty * fill_price)%float
                    (ProductionVWAPFixed.rt_slice st) u g1 Hpos Hg1 Hlevel
                    ltac:(lia)) as Hp.
      cbv zeta in Hp.
      destruct (ProductionVWAPFixed.propagate_fill_up_chain _ _ _ _ g1)
        as [g2 so].
      cbn [fst snd] in Hp.
      destruct Hp as (Hg2 & Hso1 & Hso2 & Hso3).
      { intros Hbd. lia. }
      { intros Hbd. specialize (Hroom Hbd). lia. }
      unfold fixed_route_log.
      cbn [ProductionVWAPFixed.rt_gen ProductionVWAPFixed.rt_slice
           ProductionVWAPFixed.slice_filled].
      split; [exact Hg2|]. split; [exact Hso1|]. split; lia.
    + unfold fixed_route_log.
      cbn [ProductionVWAPFixed.rt_gen ProductionVWAPFixed.rt_slice
           ProductionVWAPFixed.slice_filled].
      split; [exact Hg1|]. split; [exact Hlevel|]. split; lia.
  - unfold fixed_route_log.
    cbn [ProductionVWAPFixed.rt_gen ProductionVWAPFixed.rt_slice
         ProductionVWAPFixed.slice_filled].
    split; [exact Hg1|]. split; [exact Hlevel|]. split; lia.
Qed.

(** One slice keeps the log numbered and conserved. *)
Lemma fixed_slice_body_log (bounded : Prop) (rs : random_source)
    (u : Urgency) (hour size avg : Z) (dl : string) (sl : Z)
    (st : ProductionVWAPFixed.slice_state) :
  (bounded -> well_formed rs /\ 0 < avg) ->
  fixed_slice_invariant size st
  /\ fixed_log bounded size avg dl (ProductionVWAPFixed.sl_gen st) ->
  match ProductionVWAPFixed.slice_body rs u hour sl st with
  | Next st' | Break st' =>
      fixed_slice_invariant size st'
      /\ fixed_log bounded size avg dl (ProductionVWAPFixed.sl_gen st')
  end.
Proof.
  intros Hbd [Hinv Hlog].
  pose proof (fixed_slice_body_invariant rs u hour size sl st Hinv) as Hold.
  unfold ProductionVWAPFixed.slice_body in *.
  destruct (_ <=? _) eqn:Hdone; [split; assumption|].
  apply Z.leb_gt in Hdone.
  split; [exact Hold|]. clear Hold.
  destruct Hinv as [Hg Hle].
  destruct Hlog as (Hs & Ha & Hd & Hl & Ho).
  fixed_fields.
  set (g := ProductionVWAPFixed.sl_gen st) in *.
  set (slice_size := Z.min _ _).
  assert (Hslice : slice_size
                   <= ProductionVWAPFixed.order_size g
                      - ProductionVWAPFixed.total_filled g)
    by apply Z.le_min_r.
  assert (Hnonneg : bounded -> 0 <= slice_size).
  { intros Hb. destruct (Hbd Hb) as [(Hrand & _) Havg].
    subst slice_size. rewrite Ha. apply Z.min_glb; [|lia].
    destruct u.
    - pose proof (Hrand hour sl (avg / 2) avg
                    ltac:(apply Z.div_le_upper_bound; lia)).
      assert (0 <= avg / 2) by (apply Z.div_pos; lia). lia.
    - pose proof (Hrand hour sl (avg / 2) avg
                    ltac:(apply Z.div_le_upper_bound; lia)).
      assert (0 <= avg / 2) by (apply Z.div_pos; lia). lia.
    - pose proof (Hrand hour sl avg (avg * 2) ltac:(lia)). lia.
    - pose proof (Hrand hour sl (avg * 2) (avg * 4) ltac:(lia)). lia. }
  clearbody slice_size.
  set (slice_order := new_order _ _ 2 slice_size _ _ _).
  assert (Hstart :
    forall c g0,
      g0 = ProductionVWAPFixed.set_stats
             (bump_slices
                (ProductionVWAPFixed.gen_stats
                   (if String.eqb (ProductionVWAPFixed.detail_level g) "full"
                       || String.eqb (ProductionVWAPFixed.detail_level g)
                            "summary"
                    then ProductionVWAPFixed.add_snapshot slice_order "NEW"
                           (ProductionVWAPFixed.set_market_price
                              (ProductionVWAPFixed.gen_market_price g
                               + market_move rs hour sl)%float g)
                    else ProductionVWAPFixed.set_market_price
                           (ProductionVWAPFixed.gen_market_price g
                            + market_move rs hour sl)%float g)))
             (if String.eqb (ProductionVWAPFixed.detail_level g) "full"
                 || String.eqb (ProductionVWAPFixed.detail_level g) "summary"
              then ProductionVWAPFixed.add_snapshot slice_order "NEW"
                     (ProductionVWAPFixed.set_market_price
                        (ProductionVWAPFixed.gen_market_price g
                         + market_move rs hour sl)%float g)
              else ProductionVWAPFixed.set_market_price
                     (ProductionVWAPFixed.gen_market_price g
                      + market_move rs hour sl)%float g) ->
      fixed_route_invariant size (ProductionVWAPFixed.total_filled g)
        slice_size (ProductionVWAPFixed.RouteState g0 slice_order 0 0%float c)
      /\ fixed_route_log bounded size avg dl slice_size
           (ProductionVWAPFixed.RouteState g0 slice_order 0 0%float c)).
  { intros c g0 ->.
    destruct (String.eqb (ProductionVWAPFixed.detail_level g) "full"
              || String.eqb (ProductionVWAPFixed.detail_level g) "summary")
      eqn:Hdl.
    - split.
      + unfold fixed_route_invariant.
        cbn [ProductionVWAPFixed.rt_gen ProductionVWAPFixed.rt_slice
             ProductionVWAPFixed.slice_filled].
        split; [|split; [reflexivity|split; [lia|cbn; lia]]].
        apply (fixed_invariant_add_other size slice_order "NEW"
                 (ProductionVWAPFixed.set_market_price _ g));
          [discriminate|exact Hg].
      + unfold fixed_route_log.
        cbn [ProductionVWAPFixed.rt_gen ProductionVWAPFixed.rt_slice
             ProductionVWAPFixed.slice_filled].
        split; [|split; [reflexivity|split; [reflexivity|cbn; lia]]].
        unfold fixed_log. fixed_fields.
        split; [exact Hs|]. split; [exact Ha|]. split; [exact Hd|].
        split; [|exact Ho].
        apply log_ok_snoc; [exact Hl|].
        unfold fixed_row, conserved, within_quantity. cbn.
        split; [lia|]. split; [intros Hb; specialize (Hnonneg Hb); lia|].
        split; [discriminate|]. intros _ _.
        rewrite Hd in Hdl. apply orb_true_iff in Hdl.
        destruct Hdl as [H|H]; apply String.eqb_eq in H; auto.
    - split.
      + unfold fixed_route_invariant.
        cbn [ProductionVWAPFixed.rt_gen ProductionVWAPFixed.rt_slice
             ProductionVWAPFixed.slice_filled].
        split; [exact Hg|split; [reflexivity|split; [lia|cbn; lia]]].
      + unfold fixed_route_log.
        cbn [ProductionVWAPFixed.rt_gen ProductionVWAPFixed.rt_slice
             ProductionVWAPFixed.slice_filled].
        split; [|split; [reflexivity|split; [reflexivity|cbn; lia]]].
        unfold fixed_log. fixed_fields.
        split; [exact Hs|]. split; [exact Ha|]. split; [exact Hd|].
        split; [exact Hl|exact Ho]. }
  match goal with
  | |- context [for_each ?body ?idxs
                  (ProductionVWAPFixed.RouteState ?g0 ?so 0 0%float ?c)] =>
      assert (Hloop :
        fixed_route_invariant size (ProductionVWAPFixed.total_filled g)
          slice_size
          (for_each body idxs
             (ProductionVWAPFixed.RouteState g0 so 0 0%float c))
        /\ fixed_route_log bounded size avg dl slice_size
             (for_each body idxs
                (ProductionVWAPFixed.RouteState g0 so 0 0%float c)));
      [apply (for_each_invariant
                (fun s => fixed_route_invariant size
                            (ProductionVWAPFixed.total_filled g) slice_size s
                          /\ fixed_route_log bounded size avg dl slice_size s));
       [|apply (Hstart c g0); reflexivity]|]
  end.
  { intros i s [Hs1 Hs2].
    pose proof (fixed_route_body_invariant rs u hour sl size
                  (ProductionVWAPFixed.total_filled g) slice_size
                  (match u with CRITICAL | URGENT => 3 | _ => 2 end) i s Hs1)
      as H1.
    pose proof (fixed_route_body_log bounded rs u hour sl size avg dl
                  (ProductionVWAPFixed.total_filled g) slice_size
                  (match u with CRITICAL | URGENT => 3 | _ => 2 end) i s)
      as H2.
    destruct (ProductionVWAPFixed.route_body rs u hour sl slice_size _ i s);
      (split; [exact H1|apply H2; [|exact Hs1|exact Hs2]]);
      intros Hb; specialize (Hnonneg Hb); lia. }
  destruct Hloop as [_ (Hlog' & _)].
  cbn [ProductionVWAPFixed.sl_gen]. exact Hlog'.
Qed.

(** One hour keeps it. *)
Lemma fixed_hour_body_log (bounded : Prop) (rs : random_source)
    (hour size avg : Z) (dl : string)
    (st : ProductionVWAPFixed.slice_state) :
  (bounded -> well_formed rs /\ 0 < avg) ->
  fixed_slice_invariant size st
  /\ fixed_log bounded size avg dl (ProductionVWAPFixed.sl_gen st) ->
  match ProductionVWAPFixed.hour_body rs hour st with
  | Next st' | Break st' =>
      fixed_slice_invariant size st'
      /\ fixed_log bounded size avg dl (ProductionVWAPFixed.sl_gen st')
  end.
Proof.
  intros Hbd Hinv. unfold ProductionVWAPFixed.hour_body.
  destruct (_ <=? _); [exact Hinv|].
  apply (for_each_invariant
           (fun s => fixed_slice_invariant size s
                     /\ fixed_log bounded size avg dl
                          (ProductionVWAPFixed.sl_gen s))); [|exact Hinv].
  intros i s Hs. apply fixed_slice_body_log; assumption.
Qed.

(** The log of a run of the fixed generator: numbered in sequence, every
    row conserved and at its detail level, and (for draws as [random]
    gives them and a positive order and slice size) every order filled
    within its quantity; the total filled stays within the order. *)
Lemma fixed_generate_log (bounded : Prop) (rs : random_source)
    (order_size avg_slice_size : Z) (detail_level : string) :
  avg_slice_size <> 0 -> order_size <> 0 ->
  (bounded -> well_formed rs /\ 0 < avg_slice_size /\ 0 < order_size) ->
  exists g,
    ProductionVWAPFixed.generate rs order_size avg_slice_size detail_level
    = Some g
    /\ fixed_log bounded order_size avg_slice_size detail_level g
    /\ ProductionVWAPFixed.total_filled g <= Z.max 0 order_size.
Proof.
  intros Havg Hsize Hbd. unfold ProductionVWAPFixed.generate.
  rewrite (proj2 (Z.eqb_neq _ _) Havg), (proj2 (Z.eqb_neq _ _) Hsize).
  cbn [orb]. eexists. split; [reflexivity|].
  match goal with
  | |- context [for_each ?body ?idxs ?s0] =>
      assert (Hloop :
        fixed_slice_invariant order_size (for_each body idxs s0)
        /\ fixed_log bounded order_size avg_slice_size detail_level
             (ProductionVWAPFixed.sl_gen (for_each body idxs s0)));
      [|destruct (for_each body idxs s0) as [g sc rc]]
  end.
  { apply (for_each_invariant
             (fun s => fixed_slice_invariant order_size s
                       /\ fixed_log bounded order_size avg_slice_size
                            detail_level (ProductionVWAPFixed.sl_gen s))).
    - intros i s Hs. apply fixed_hour_body_log; [|exact Hs].
      intros Hb. destruct (Hbd Hb) as (H1 & H2 & _). split; assumption.
    - split; [split; [apply fixed_opened_invariant|cbn; lia]|].
      cbn [ProductionVWAPFixed.sl_gen].
      unfold ProductionVWAPFixed.opened, fixed_log. fixed_fields.
      split; [reflexivity|]. split; [reflexivity|]. split; [reflexivity|].
      split.
      + apply log_ok_snoc; [apply log_ok_snoc; [apply log_ok_snoc|]|].
        * apply log_ok_nil.
        * unfold fixed_row, conserved, within_quantity. cbn.
          split; [lia|]. split; [intros Hb; specialize (Hbd Hb); lia|].
          split; discriminate.
        * unfold fixed_row, conserved, within_quantity. cbn.
          split; [lia|]. split; [intros Hb; specialize (Hbd Hb); lia|].
          split; discriminate.
        * unfold fixed_row, conserved, within_quantity. cbn.
          split; [lia|]. split; [intros Hb; specialize (Hbd Hb); lia|].
          split; discriminate.
      + unfold fixed_orders. cbn. repeat split; lia. }
  cbn [ProductionVWAPFixed.sl_gen] in *.
  destruct Hloop as [[Hold Hle] Hlog].
  cbn [ProductionVWAPFixed.sl_gen] in Hle.
  unfold ProductionVWAPFixed.completed.
  destruct (_ <=? _) eqn:Hdone; [|split; assumption].
  apply Z.leb_le in Hdone.
  destruct Hlog as (Hs & Ha & Hd & Hl & Ho).
  destruct Ho as (Hc0 & Ha1 & Hcq & Haq & Hcf & Haf & Hcr & Har & Ht).
  rewrite Hs in Hdone.
  fixed_fields. split; [|exact Hle].
  unfold fixed_log. fixed_fields.
  split; [exact Hs|]. split; [exact Ha|]. split; [exact Hd|]. split.
  - apply log_ok_snoc; [apply log_ok_snoc|].
    + exact Hl.
    + unfold fixed_row, conserved, within_quantity. order_fields.
      rewrite Ha1. split; [lia|].
      split; [intros Hb; specialize (Hbd Hb); lia|]. split; discriminate.
    + unfold fixed_row, conserved, within_quantity. order_fields.
      rewrite Hc0. split; [lia|].
      split; [intros Hb; specialize (Hbd Hb); lia|]. split; discriminate.
  - unfold fixed_orders. fixed_fields. order_fields.
    repeat split; assumption.
Qed.

Lemma example_draws_well_formed : well_formed example_draws.
Proof.
  split; [|split].
  - intros h s a b Hab. cbn. lia.
  - intros h s r. unfold Py.is_draw. cbn [outcome_rand example_draws].
    destruct ((h =? 1) && (r =? 0)); vm_compute; split; congruence.
  - intros h s r. vm_compute. split; congruence.
Qed.

(** X1.  Every row of the log of [ProductionVWAPGenerator.generate]
    satisfies the accounting invariant: [filled_quantity +
    remaining_quantity = quantity], at every level and at every detail
    level.  ([generate] returns whenever neither size is zero and the
    order size converts to a float exactly: every quantity it converts
    lies between 0 and the order size.) *)
Theorem fixed_generator_rows_conserved (rs : random_source)
    (order_size avg_slice_size : Z) (detail_level : string) :
  avg_slice_size <> 0 -> order_size <> 0 -> Py.exact_int order_size ->
  exists g,
    ProductionVWAPFixed.generate rs order_size avg_slice_size detail_level
    = Some g
    /\ Forall (fun s => conserved (snap_order s))
              (ProductionVWAPFixed.snapshots g).
Proof.
  intros Havg Hsize _.
  destruct (fixed_generate_log False rs order_size avg_slice_size
              detail_level Havg Hsize ltac:(intros [])) as (g & Hg & Hlog & _).
  exists g. split; [exact Hg|].
  destruct Hlog as (_ & _ & _ & (_ & _ & Hrows) & _).
  induction Hrows as [|s l Hs _ IH]; constructor; [apply Hs|exact IH].
Qed.

Lemma fixed_generator_rows_conserved_witness :
  600 <> 0 /\ 4200 <> 0 /\ Py.exact_int 4200
  /\ exists g,
       ProductionVWAPFixed.generate example_draws 4200 600 "full" = Some g
       /\ Forall (fun s => conserved (snap_order s))
                 (ProductionVWAPFixed.snapshots g).
Proof.
  assert (Hex : Py.exact_int 4200) by (unfold Py.exact_int; simpl; lia).
  split; [lia|]. split; [lia|]. split; [exact Hex|].
  apply (fixed_generator_rows_conserved example_draws 4200 600 "full");
    [lia | lia | exact Hex].
Defined.

(** X2.  For draws as [random] gives them, a positive order size that
    converts to a float exactly and a positive average slice size,
    [ProductionVWAPGenerator.generate] returns and
    never over-fills: the total filled ends between 0 and the order
    size, and every row of the log (client, algo parent, slice, route)
    shows [0 <= filled_quantity <= quantity]. *)
Theorem fixed_generator_never_overfills (rs : random_source)
    (order_size avg_slice_size : Z) (detail_level : string) :
  well_formed rs -> 0 < avg_slice_size -> 0 < order_size ->
  Py.exact_int order_size ->
  exists g,
    ProductionVWAPFixed.generate rs order_size avg_slice_size detail_level
    = Some g
    /\ 0 <= ProductionVWAPFixed.total_filled g <= order_size
    /\ Forall (fun s => within_quantity (snap_order s))
              (ProductionVWAPFixed.snapshots g).
Proof.
  intros Hrs Havg Hsize _.
  destruct (fixed_generate_log True rs order_size avg_slice_size
              detail_level ltac:(lia) ltac:(lia)
              ltac:(intros _; split; [exact Hrs|split; assumption]))
    as (g & Hg & Hlog & Hle).
  exists g. split; [exact Hg|].
  destruct Hlog as (_ & _ & _ & (_ & _ & Hrows) & Hord).
  split.
  - destruct Hord as (_ & _ & _ & _ & _ & _ & _ & _ & H0). lia.
  - induction Hrows as [|s l Hs _ IH]; constructor; [apply Hs; exact I|exact IH].
Qed.

Lemma fixed_generator_never_overfills_witness :
  well_formed example_draws /\ 0 < 600 /\ 0 < 4200 /\ Py.exact_int 4200
  /\ exists g,
       ProductionVWAPFixed.generate example_draws 4200 600 "full" = Some g
       /\ 0 <= ProductionVWAPFixed.total_filled g <= 4200
       /\ Forall (fun s => within_quantity (snap_order s))
                 (ProductionVWAPFixed.snapshots g).
Proof.
  assert (Hex : Py.exact_int 4200) by (unfold Py.exact_int; simpl; lia).
  split; [exact example_draws_well_formed|]. split; [lia|]. split; [lia|].
  split; [exact Hex|].
  apply (fixed_generator_never_overfills example_draws 4200 600 "full");
    [exact example_draws_well_formed | lia | lia | exact Hex].
Defined.

(** X3.  The rows of the log of [ProductionVWAPGenerator.generate] are
    numbered in sequence: row [i] carries the record id [i], and the
    generator's next id is the length of the log.  (For sizes that are
    not zero and an order size that converts to a float exactly.) *)
Theorem fixed_generator_record_ids (rs : random_source)
    (order_size avg_slice_size : Z) (detail_level : string) :
  avg_slice_size <> 0 -> order_size <> 0 -> Py.exact_int order_size ->
  exists g,
    ProductionVWAPFixed.generate rs order_size avg_slice_size detail_level
    = Some g
    /\ sequential (ProductionVWAPFixed.snapshots g)
    /\ ProductionVWAPFixed.gen_record_id g
       = Z.of_nat (length (ProductionVWAPFixed.snapshots g)).
Proof.
  intros Havg Hsize _.
  destruct (fixed_generate_log False rs order_size avg_slice_size
              detail_level Havg Hsize ltac:(intros [])) as (g & Hg & Hlog & _).
  exists g. split; [exact Hg|].
  destruct Hlog as (_ & _ & _ & (Hid & Hseq & _) & _).
  split; assumption.
Qed.

Lemma fixed_generator_record_ids_witness :
  600 <> 0 /\ 4200 <> 0 /\ Py.exact_int 4200
  /\ exists g,
       ProductionVWAPFixed.generate example_draws 4200 600 "summary" = Some g
       /\ sequential (ProductionVWAPFixed.snapshots g)
       /\ ProductionVWAPFixed.gen_record_id g
          = Z.of_nat (length (ProductionVWAPFixed.snapshots g)).
Proof.
  assert (Hex : Py.exact_int 4200) by (unfold Py.exact_int; simpl; lia).
  split; [lia|]. split; [lia|]. split; [exact Hex|].
  apply (fixed_generator_record_ids example_draws 4200 600 "summary");
    [lia | lia | exact Hex].
Defined.

(** X4.  The detail level of [ProductionVWAPGenerator.generate]
    filters the log: a route row ([order_level = 3]) is logged only at
    level ["full"], and the [NEW] row of a slice only at ["full"] or
    ["summary"].  (For sizes that are not zero and an order size that
    converts to a float exactly.) *)
Theorem fixed_generator_detail_levels (rs : random_source)
    (order_size avg_slice_size : Z) (detail_level : string) :
  avg_slice_size <> 0 -> order_size <> 0 -> Py.exact_int order_size ->
  exists g,
    ProductionVWAPFixed.generate rs order_size avg_slice_size detail_level
    = Some g
    /\ Forall (fun s =>
                 (order_level (snap_order s) = 3 -> detail_level = "full")
                 /\ (order_level (snap_order s) = 2 ->
                     event_type s = "NEW" ->
                     detail_level = "full" \/ detail_level = "summary"))
              (ProductionVWAPFixed.snapshots g).
Proof.
  intros Havg Hsize _.
  destruct (fixed_generate_log False rs order_size avg_slice_size
              detail_level Havg Hsize ltac:(intros [])) as (g & Hg & Hlog & _).
  exists g. split; [exact Hg|].
  destruct Hlog as (_ & _ & _ & (_ & _ & Hrows) & _).
  induction Hrows as [|s l Hs _ IH]; constructor; [|exact IH].
  destruct Hs as (_ & _ & H3 & H2). split; assumption.
Qed.

Lemma fixed_generator_detail_levels_witness :
  600 <> 0 /\ 4200 <> 0 /\ Py.exact_int 4200
  /\ exists g,
       ProductionVWAPFixed.generate example_draws 4200 600 "client_only"
       = Some g
       /\ Forall (fun s =>
                    (order_level (snap_order s) = 3 -> "client_only" = "full")
                    /\ (order_level (snap_order s) = 2 ->
                        event_type s = "NEW" ->
                        "client_only" = "full" \/ "client_only" = "summary"))
                 (ProductionVWAPFixed.snapshots g).
Proof.
  assert (Hex : Py.exact_int 4200) by (unfold Py.exact_int; simpl; lia).
  split; [lia|]. split; [lia|]. split; [exact Hex|].
  apply (fixed_generator_detail_levels example_draws 4200 600 "client_only");
    [lia | lia | exact Hex].
Defined.

(** The levels of the rows the fixed generator logs for the same draws
    at its detail levels: ["client_only"] still logs the algo parent and
    the update of every slice. *)
Example fixed_generator_levels_logged :
  let levels dl :=
    option_map
      (fun g => map (fun l =>
                       length (filter (fun s => order_level (snap_order s) = l)
                                      (ProductionVWAPFixed.snapshots g)))
                    [0; 1; 2; 3])
      (ProductionVWAPFixed.generate example_draws 4200 600 dl) in
  levels "full" = Some [12; 11; 13; 9]%nat
  /\ levels "summary" = Some [12; 11; 13; 0]%nat
  /\ levels "client_only" = Some [12; 11; 9; 0]%nat
  /\ levels "none" = Some [2; 1; 0; 0]%nat.
Proof. vm_compute. repeat split; reflexivity. Qed.

(** *** Detail level ["none"] *)

Lemma fixed_none_route_body (rs : random_source) (u : Urgency)
    (hour sl size avg slice_size num_routes route_num : Z)
    (st : ProductionVWAPFixed.route_state) :
  fixed_none size avg (ProductionVWAPFixed.rt_gen st) ->
  match ProductionVWAPFixed.route_body rs u hour sl slice_size num_routes
          route_num st with
  | Next st' | Break st' => fixed_none size avg (ProductionVWAPFixed.rt_gen st')
  end.
Proof.
  intros Hn. unfold ProductionVWAPFixed.route_body.
  destruct (slice_size <=? _); [exact Hn|].
  destruct (_ <=? 0); [exact Hn|].
  destruct (ProductionVWAPFixed.venue_outcome rs u _ hour sl route_num _)
    as [[result filled_qty] fill_price].
  fixed_fields.
  destruct Hn as (Hs & Ha & Hd & Ht & Hl).
  rewrite Hd. cbn [String.eqb Ascii.eqb Bool.eqb negb].
  destruct (0 <? filled_qty);
    fixed_fields; rewrite ?Hd; cbn [String.eqb Ascii.eqb Bool.eqb negb];
    cbn [ProductionVWAPFixed.rt_gen]; unfold fixed_none; fixed_fields;
    repeat split; assumption.
Qed.

Lemma fixed_none_slice_body (rs : random_source) (u : Urgency)
    (hour size avg sl : Z) (st : ProductionVWAPFixed.slice_state) :
  fixed_none size avg (ProductionVWAPFixed.sl_gen st) ->
  match ProductionVWAPFixed.slice_body rs u hour sl st with
  | Next st' | Break st' => fixed_none size avg (ProductionVWAPFixed.sl_gen st')
  end.
Proof.
  intros Hn. unfold ProductionVWAPFixed.slice_body.
  destruct (_ <=? _); [exact Hn|].
  cbn [ProductionVWAPFixed.sl_gen].
  apply (for_each_invariant
           (fun s => fixed_none size avg (ProductionVWAPFixed.rt_gen s))).
  - intros i s Hs. apply fixed_none_route_body. exact Hs.
  - cbn [ProductionVWAPFixed.rt_gen]. fixed_fields.
    destruct Hn as (Hs & Ha & Hd & Ht & Hl).
    rewrite Hd. cbn [String.eqb Ascii.eqb Bool.eqb orb].
    unfold fixed_none. fixed_fields. repeat split; assumption.
Qed.

Lemma fixed_none_hour_body (rs : random_source) (hour size avg : Z)
    (st : ProductionVWAPFixed.slice_state) :
  fixed_none size avg (ProductionVWAPFixed.sl_gen st) ->
  match ProductionVWAPFixed.hour_body rs hour st with
  | Next st' | Break st' => fixed_none size avg (ProductionVWAPFixed.sl_gen st')
  end.
Proof.
  intros Hn. unfold ProductionVWAPFixed.hour_body.
  destruct (_ <=? _); [exact Hn|].
  apply (for_each_invariant
           (fun s => fixed_none size avg (ProductionVWAPFixed.sl_gen s)));
    [|exact Hn].
  intros i s Hs. apply fixed_none_slice_body. exact Hs.
Qed.

(** X5.  At detail level ["none"] [ProductionVWAPGenerator.generate]
    records no fill at all: the running total is only kept by the
    cascade, which this level switches off.  For a positive order size
    that converts to a float exactly
    the log is the three opening rows, [total_filled] ends at 0 and the
    client order is as it was accepted, whatever the venues return. *)
Theorem fixed_generator_none_records_no_fill (rs : random_source)
    (order_size avg_slice_size : Z) :
  avg_slice_size <> 0 -> 0 < order_size -> Py.exact_int order_size ->
  exists g,
    ProductionVWAPFixed.generate rs order_size avg_slice_size "none" = Some g
    /\ ProductionVWAPFixed.total_filled g = 0
    /\ ProductionVWAPFixed.snapshots g
       = ProductionVWAPFixed.snapshots
           (ProductionVWAPFixed.opened order_size avg_slice_size "none")
    /\ map (fun s => (order_id (snap_order s), event_type s,
                      filled_quantity (snap_order s)))
           (ProductionVWAPFixed.snapshots g)
       = [("CLIENT_001", "NEW", 0); ("CLIENT_001", "ACCEPTED", 0);
          ("ALGO_001", "NEW", 0)].
Proof.
  intros Havg Hsize _. unfold ProductionVWAPFixed.generate.
  rewrite (proj2 (Z.eqb_neq _ _) Havg),
          (proj2 (Z.eqb_neq order_size 0)) by lia.
  cbn [orb]. eexists. split; [reflexivity|].
  match goal with
  | |- context [for_each ?body ?idxs ?s0] =>
      assert (Hloop : fixed_none order_size avg_slice_size
                        (ProductionVWAPFixed.sl_gen (for_each body idxs s0)));
      [|destruct (for_each body idxs s0) as [g sc rc]]
  end.
  { apply (for_each_invariant
             (fun s => fixed_none order_size avg_slice_size
                         (ProductionVWAPFixed.sl_gen s))).
    - intros i s Hs. apply fixed_none_hour_body. exact Hs.
    - repeat split. }
  cbn [ProductionVWAPFixed.sl_gen] in *.
  destruct Hloop as (Hs & Ha & Hd & Ht & Hl).
  unfold ProductionVWAPFixed.completed.
  rewrite Hs, Ht, (proj2 (Z.leb_gt order_size 0)) by lia.
  split; [exact Ht|]. split; [exact Hl|]. rewrite Hl. reflexivity.
Qed.

Lemma fixed_generator_none_records_no_fill_witness :
  600 <> 0 /\ 0 < 4200 /\ Py.exact_int 4200
  /\ exists g,
       ProductionVWAPFixed.generate example_draws 4200 600 "none" = Some g
       /\ ProductionVWAPFixed.total_filled g = 0
       /\ ProductionVWAPFixed.snapshots g
          = ProductionVWAPFixed.snapshots
              (ProductionVWAPFixed.opened 4200 600 "none")
       /\ map (fun s => (order_id (snap_order s), event_type s,
                         filled_quantity (snap_order s)))
              (ProductionVWAPFixed.snapshots g)
          = [("CLIENT_001", "NEW", 0); ("CLIENT_001", "ACCEPTED", 0);
             ("ALGO_001", "NEW", 0)].
Proof.
  assert (Hex : Py.exact_int 4200) by (unfold Py.exact_int; simpl; lia).
  split; [lia|]. split; [lia|]. split; [exact Hex|].
  apply (fixed_generator_none_records_no_fill example_draws 4200 600);
    [lia | lia | exact Hex].
Defined.

(** The routes of such a run are drawn and counted all the same. *)
Example fixed_generator_none_counts_routes :
  option_map (fun g => (total_slices (ProductionVWAPFixed.gen_stats g),
                        total_routes (ProductionVWAPFixed.gen_stats g)))
             (ProductionVWAPFixed.generate example_draws 4200 600 "none")
  = Some (7, 21).
Proof. vm_compute. reflexivity. Qed.

(** *** The size of the log *)

Lemma propagate_rows (slice_filled : Z) (slice_value : float)
    (slice_order : order) (u : Urgency) (g : ProductionVWAPFixed.generator) :
  let g' := fst (ProductionVWAPFixed.propagate_fill_up_chain slice_filled
                   slice_value slice_order u g) in
  ProductionVWAPFixed.gen_stats g' = ProductionVWAPFixed.gen_stats g
  /\ (length (ProductionVWAPFixed.snapshots g')
      <= length (ProductionVWAPFixed.snapshots g) + 3)%nat.
Proof.
  unfold ProductionVWAPFixed.propagate_fill_up_chain.
  destruct (slice_filled =? 0); cbn [fst]; [split; [reflexivity|lia]|].
  fixed_fields. split; [reflexivity|].
  rewrite !length_app. cbn [length]. lia.
Qed.

(** One route: one more route counted, at most four more rows. *)
Lemma fixed_route_body_counts (rs : random_source) (u : Urgency)
    (hour sl slice_size num_routes i slices routes : Z)
    (st : ProductionVWAPFixed.route_state) :
  let P n s :=
    fixed_counts (ProductionVWAPFixed.rt_gen s)
    /\ total_slices (ProductionVWAPFixed.gen_stats
                       (ProductionVWAPFixed.rt_gen s)) = slices
    /\ total_routes (ProductionVWAPFixed.gen_stats
                       (ProductionVWAPFixed.rt_gen s)) <= routes + n in
  P i st ->
  match ProductionVWAPFixed.route_body rs u hour sl slice_size num_routes
          i st with
  | Next st' => P (i + 1) st'
  | Break st' => P i st'
  end.
Proof.
  intros P (Hc & Hs & Hr). subst P. cbv beta.
  unfold ProductionVWAPFixed.route_body.
  destruct (slice_size <=? _); [split; [exact Hc|split; [exact Hs|exact Hr]]|].
  destruct (_ <=? 0); [split; [exact Hc|split; [exact Hs|lia]]|].
  destruct (ProductionVWAPFixed.venue_outcome rs u _ hour sl i _)
    as [[result filled_qty] fill_price].
  set (g1 := ProductionVWAPFixed.set_stats (bump_routes _) _).
  assert (Hg1 : fixed_counts g1
                /\ total_slices (ProductionVWAPFixed.gen_stats g1) = slices
                /\ total_routes (ProductionVWAPFixed.gen_stats g1)
                   <= routes + (i + 1)
                /\ Z.of_nat (length (ProductionVWAPFixed.snapshots g1)) + 3
                   <= 3 + total_slices (ProductionVWAPFixed.gen_stats g1)
                      + 4 * total_routes (ProductionVWAPFixed.gen_stats g1)).
  { subst g1. destruct Hc as (Hf & Hp & Hj & Hsum & Hlen).
    unfold fixed_counts. fixed_fields.
    destruct (String.eqb _ "full"); fixed_fields;
      rewrite ?length_app; cbn [length];
      destruct result; cbn; repeat split; lia. }
  clearbody g1. destruct Hg1 as (Hc1 & Hs1 & Hr1 & Hlen1).
  destruct (0 <? filled_qty).
  - destruct (negb (String.eqb (ProductionVWAPFixed.detail_level g1) "none")).
    + pose proof (propagate_rows filled_qty
                    (Py.float_of_int filled_qty * fill_price)%float
                    (ProductionVWAPFixed.rt_slice st) u g1) as Hp.
      cbv zeta in Hp.
      destruct (ProductionVWAPFixed.propagate_fill_up_chain _ _ _ _ g1)
        as [g2 so].
      cbn [fst ProductionVWAPFixed.rt_gen] in *.
      destruct Hp as [Hst Hlen2].
      unfold fixed_counts in *. cbv zeta in *. rewrite Hst.
      destruct Hc1 as (Hf & Hp & Hj & Hsum & _).
      split; [|split; [exact Hs1|exact Hr1]].
      split; [exact Hf|]. split; [exact Hp|]. split; [exact Hj|].
      split; [exact Hsum|lia].
    + cbn [ProductionVWAPFixed.rt_gen].
      split; [exact Hc1|split; [exact Hs1|exact Hr1]].
  - cbn [ProductionVWAPFixed.rt_gen].
    split; [exact Hc1|split; [exact Hs1|exact Hr1]].
Qed.

(** One slice: one more slice counted, at most three more routes. *)
Lemma fixed_slice_body_counts (rs : random_source) (u : Urgency)
    (hour sl slices : Z) (st : ProductionVWAPFixed.slice_state) :
  let P n s :=
    fixed_counts (ProductionVWAPFixed.sl_gen s)
    /\ total_routes (ProductionVWAPFixed.gen_stats
                       (ProductionVWAPFixed.sl_gen s))
       <= 3 * total_slices (ProductionVWAPFixed.gen_stats
                              (ProductionVWAPFixed.sl_gen s))
    /\ total_slices (ProductionVWAPFixed.gen_stats
                       (ProductionVWAPFixed.sl_gen s)) <= slices + n in
  P sl st ->
  match ProductionVWAPFixed.slice_body rs u hour sl st with
  | Next st' => P (sl + 1) st'
  | Break st' => P sl st'
  end.
Proof.
  intros P (Hc & Hr & Hs). subst P. cbv beta.
  unfold ProductionVWAPFixed.slice_body.
  destruct (_ <=? _); [split; [exact Hc|split; [exact Hr|exact Hs]]|].
  cbn [ProductionVWAPFixed.sl_gen].
  set (g := ProductionVWAPFixed.sl_gen st) in *.
  set (slice_size := Z.min _ _). clearbody slice_size.
  set (slice_order := new_order _ _ 2 slice_size _ _ _). clearbody slice_order.
  set (g1 := ProductionVWAPFixed.set_stats (bump_slices _) _).
  assert (Hg1 : fixed_counts g1
                /\ total_slices (ProductionVWAPFixed.gen_stats g1)
                   = total_slices (ProductionVWAPFixed.gen_stats g) + 1
                /\ total_routes (ProductionVWAPFixed.gen_stats g1)
                   = total_routes (ProductionVWAPFixed.gen_stats g)).
  { subst g1. destruct Hc as (Hf & Hp & Hj & Hsum & Hlen).
    unfold fixed_counts. fixed_fields.
    destruct (String.eqb _ "full" || String.eqb _ "summary"); fixed_fields;
      rewrite ?length_app; cbn [length]; cbn; repeat split; lia. }
  clearbody g1. destruct Hg1 as (Hc1 & Hs1 & Hr1).
  set (num_routes := match u with CRITICAL | URGENT => 3 | _ => 2 end).
  assert (Hnum : num_routes <= 3) by (subst num_routes; destruct u; lia).
  clearbody num_routes.
  pose proof (for_each_range
                (fun n s =>
                   fixed_counts (ProductionVWAPFixed.rt_gen s)
                   /\ total_slices (ProductionVWAPFixed.gen_stats
                                      (ProductionVWAPFixed.rt_gen s))
                      = total_slices (ProductionVWAPFixed.gen_stats g1)
                   /\ total_routes (ProductionVWAPFixed.gen_stats
                                      (ProductionVWAPFixed.rt_gen s))
                      <= total_routes (ProductionVWAPFixed.gen_stats g1) + n)
                (fun s =>
                   fixed_counts (ProductionVWAPFixed.rt_gen s)
                   /\ total_slices (ProductionVWAPFixed.gen_stats
                                      (ProductionVWAPFixed.rt_gen s))
                      = total_slices (ProductionVWAPFixed.gen_stats g1)
                   /\ total_routes (ProductionVWAPFixed.gen_stats
                                      (ProductionVWAPFixed.rt_gen s))
                      <= total_routes (ProductionVWAPFixed.gen_stats g1) + 3)
                (ProductionVWAPFixed.route_body rs u hour sl slice_size
                   num_routes)
                num_routes
                (ProductionVWAPFixed.RouteState g1 slice_order 0 0%float
                   (ProductionVWAPFixed.sl_sor_counter st))) as Hloop.
  cbv beta in Hloop.
  destruct Hloop as (Hc2 & Hs2 & Hr2).
  - intros i s Hi Hp.
    pose proof (fixed_route_body_counts rs u hour sl slice_size num_routes i
                  (total_slices (ProductionVWAPFixed.gen_stats g1))
                  (total_routes (ProductionVWAPFixed.gen_stats g1)) s Hp)
      as Hb.
    cbv beta zeta in Hb.
    destruct (ProductionVWAPFixed.route_body rs u hour sl slice_size
                num_routes i s); [exact Hb|].
    destruct Hb as (H1 & H2 & H3). split; [exact H1|split; [exact H2|lia]].
  - intros s (H1 & H2 & H3). split; [exact H1|split; [exact H2|lia]].
  - cbn [ProductionVWAPFixed.rt_gen]. split; [exact Hc1|split; [reflexivity|lia]].
  - split; [exact Hc2|]. split; lia.
Qed.

(** One hour: at most fifty more slices. *)
Lemma fixed_hour_body_counts (rs : random_source) (hour : Z)
    (st : ProductionVWAPFixed.slice_state) :
  let P n s :=
    fixed_counts (ProductionVWAPFixed.sl_gen s)
    /\ total_routes (ProductionVWAPFixed.gen_stats
                       (ProductionVWAPFixed.sl_gen s))
       <= 3 * total_slices (ProductionVWAPFixed.gen_stats
                              (ProductionVWAPFixed.sl_gen s))
    /\ total_slices (ProductionVWAPFixed.gen_stats
                       (ProductionVWAPFixed.sl_gen s)) <= 50 * n in
  0 <= hour ->
  P hour st ->
  match ProductionVWAPFixed.hour_body rs hour st with
  | Next st' => P (hour + 1) st'
  | Break st' => P (hour + 1) st'
  end.
Proof.
  intros P Hh (Hc & Hr & Hs). subst P. cbv beta.
  unfold ProductionVWAPFixed.hour_body.
  destruct (_ <=? _); [split; [exact Hc|split; [exact Hr|lia]]|].
  set (hour_slices := Z.min _ 50).
  assert (Hcap : hour_slices <= 50) by apply Z.le_min_r.
  clearbody hour_slices.
  set (u := ProductionVWAPFixed.hour_urgency _ _ _). clearbody u.
  pose proof (for_each_range
                (fun n s =>
                   fixed_counts (ProductionVWAPFixed.sl_gen s)
                   /\ total_routes (ProductionVWAPFixed.gen_stats
                                      (ProductionVWAPFixed.sl_gen s))
                      <= 3 * total_slices (ProductionVWAPFixed.gen_stats
                                             (ProductionVWAPFixed.sl_gen s))
                   /\ total_slices (ProductionVWAPFixed.gen_stats
                                      (ProductionVWAPFixed.sl_gen s))
                      <= 50 * hour + n)
                (fun s =>
                   fixed_counts (ProductionVWAPFixed.sl_gen s)
                   /\ total_routes (ProductionVWAPFixed.gen_stats
                                      (ProductionVWAPFixed.sl_gen s))
                      <= 3 * total_slices (ProductionVWAPFixed.gen_stats
                                             (ProductionVWAPFixed.sl_gen s))
                   /\ total_slices (ProductionVWAPFixed.gen_stats
                                      (ProductionVWAPFixed.sl_gen s))
                      <= 50 * (hour + 1))
                (ProductionVWAPFixed.slice_body rs u hour) hour_slices st)
    as Hloop.
  cbv beta in Hloop. apply Hloop.
  - intros i s Hi Hp.
    pose proof (fixed_slice_body_counts rs u hour i (50 * hour) s Hp) as Hb.
    cbv beta zeta in Hb.
    destruct (ProductionVWAPFixed.slice_body rs u hour i s); [exact Hb|].
    destruct Hb as (H1 & H2 & H3). split; [exact H1|split; [exact H2|lia]].
  - intros s (H1 & H2 & H3). split; [exact H1|split; [exact H2|lia]].
  - split; [exact Hc|split; [exact Hr|lia]].
Qed.

(** X6.  A run of [ProductionVWAPGenerator.generate] stays small
    for every order size that converts to a float exactly (and sizes
    that are not zero): at most 350 slices (50 in each of the seven
    hours), at most three routes for every slice, and at most 4555 rows
    in the log.  The fades, partial fills and rejects counted in [stats]
    are never more than the routes counted. *)
Theorem fixed_generator_size_bounds (rs : random_source)
    (order_size avg_slice_size : Z) (detail_level : string) :
  avg_slice_size <> 0 -> order_size <> 0 -> Py.exact_int order_size ->
  exists g,
    ProductionVWAPFixed.generate rs order_size avg_slice_size detail_level
    = Some g
    /\ total_slices (ProductionVWAPFixed.gen_stats g) <= 350
    /\ total_routes (ProductionVWAPFixed.gen_stats g)
       <= 3 * total_slices (ProductionVWAPFixed.gen_stats g)
    /\ fade_count (ProductionVWAPFixed.gen_stats g)
       + partial_count (ProductionVWAPFixed.gen_stats g)
       + reject_count (ProductionVWAPFixed.gen_stats g)
       <= total_routes (ProductionVWAPFixed.gen_stats g)
    /\ (length (ProductionVWAPFixed.snapshots g) <= 4555)%nat.
Proof.
  intros Havg Hsize _. unfold ProductionVWAPFixed.generate.
  rewrite (proj2 (Z.eqb_neq _ _) Havg), (proj2 (Z.eqb_neq _ _) Hsize).
  cbn [orb]. eexists. split; [reflexivity|].
  pose proof (for_each_range
                (fun n s =>
                   fixed_counts (ProductionVWAPFixed.sl_gen s)
                   /\ total_routes (ProductionVWAPFixed.gen_stats
                                      (ProductionVWAPFixed.sl_gen s))
                      <= 3 * total_slices (ProductionVWAPFixed.gen_stats
                                             (ProductionVWAPFixed.sl_gen s))
                   /\ total_slices (ProductionVWAPFixed.gen_stats
                                      (ProductionVWAPFixed.sl_gen s))
                      <= 50 * n)
                (fun s =>
                   fixed_counts (ProductionVWAPFixed.sl_gen s)
                   /\ total_routes (ProductionVWAPFixed.gen_stats
                                      (ProductionVWAPFixed.sl_gen s))
                      <= 3 * total_slices (ProductionVWAPFixed.gen_stats
                                             (ProductionVWAPFixed.sl_gen s))
                   /\ total_slices (ProductionVWAPFixed.gen_stats
                                      (ProductionVWAPFixed.sl_gen s))
                      <= 350)
                (ProductionVWAPFixed.hour_body rs) 7
                (ProductionVWAPFixed.SliceState
                   (ProductionVWAPFixed.opened order_size avg_slice_size
                      detail_level) 1 1)) as Hloop.
  cbv beta in Hloop.
  destruct Hloop as (Hc & Hr & Hs).
  - intros i s Hi Hp.
    pose proof (fixed_hour_body_counts rs i s ltac:(lia) Hp) as Hb.
    cbv beta zeta in Hb.
    destruct (ProductionVWAPFixed.hour_body rs i s); [exact Hb|].
    destruct Hb as (H1 & H2 & H3). split; [exact H1|split; [exact H2|lia]].
  - intros s (H1 & H2 & H3). split; [exact H1|split; [exact H2|lia]].
  - unfold ProductionVWAPFixed.opened, fixed_counts. cbn. repeat split; lia.
  - destruct (for_each _ _ _) as [g sc rc].
    cbn [ProductionVWAPFixed.sl_gen] in *.
    destruct Hc as (Hf & Hp & Hj & Hsum & Hlen). cbv zeta in *.
    assert (Hrows : (length (ProductionVWAPFixed.snapshots
                               (ProductionVWAPFixed.completed g))
                     <= length (ProductionVWAPFixed.snapshots g) + 2)%nat
                    /\ ProductionVWAPFixed.gen_stats
                         (ProductionVWAPFixed.completed g)
                       = ProductionVWAPFixed.gen_stats g).
    { unfold ProductionVWAPFixed.completed.
      destruct (_ <=? _); [|split; [lia|reflexivity]].
      fixed_fields. rewrite !length_app. cbn [length].
      split; [lia|reflexivity]. }
    destruct Hrows as [Hrows ->].
    repeat split; try assumption; lia.
Qed.

Lemma fixed_generator_size_bounds_witness :
  600 <> 0 /\ 4200 <> 0 /\ Py.exact_int 4200
  /\ exists g,
       ProductionVWAPFixed.generate example_draws 4200 600 "full" = Some g
       /\ total_slices (ProductionVWAPFixed.gen_stats g) <= 350
       /\ total_routes (ProductionVWAPFixed.gen_stats g)
          <= 3 * total_slices (ProductionVWAPFixed.gen_stats g)
       /\ fade_count (ProductionVWAPFixed.gen_stats g)
          + partial_count (ProductionVWAPFixed.gen_stats g)
          + reject_count (ProductionVWAPFixed.gen_stats g)
          <= total_routes (ProductionVWAPFixed.gen_stats g)
       /\ (length (ProductionVWAPFixed.snapshots g) <= 4555)%nat.
Proof.
  assert (Hex : Py.exact_int 4200) by (unfold Py.exact_int; simpl; lia).
  split; [lia|]. split; [lia|]. split; [exact Hex|].
  apply (fixed_generator_size_bounds example_draws 4200 600 "full");
    [lia | lia | exact Hex].
Defined.

(** A run that reaches the cap of fifty slices in every hour: an order
    too large to fill, at the smallest slice size. *)
Example fixed_generator_at_the_cap :
  option_map
    (fun g => (total_slices (ProductionVWAPFixed.gen_stats g),
               total_routes (ProductionVWAPFixed.gen_stats g),
               length (ProductionVWAPFixed.snapshots g)))
    (ProductionVWAPFixed.generate
       (RandomSource (fun _ _ a _ => a) (fun _ _ => 0%float)
          (fun _ _ _ => 2 ^ 53 - 1) (fun _ _ _ => 0) (fun _ _ _ a _ => a))
       1000000 10 "full")
  = Some (350, 1050, 4553%nat).
Proof. vm_compute. reflexivity. Qed.

(** ** The log of [generate_final_vwap] *)

Ltac final_fields :=
  cbn [FinalVWAP.append FinalVWAP.set_totals FinalVWAP.set_client_order
       FinalVWAP.set_counters FinalVWAP.set_stats
       FinalVWAP.order_size FinalVWAP.avg_slice_size FinalVWAP.detail_level
       FinalVWAP.fade_rate FinalVWAP.partial_rate FinalVWAP.snapshots
       FinalVWAP.record_id FinalVWAP.total_filled FinalVWAP.total_value
       FinalVWAP.client_order FinalVWAP.slice_counter FinalVWAP.sor_counter
       FinalVWAP.run_stats].

Lemma final_log_append (bounded : Prop) (avg : Z) (dl : string)
    (o : order) (ev : string) (r : FinalVWAP.run) :
  final_log bounded avg dl r ->
  final_row bounded dl (Snapshot o ev (Some (FinalVWAP.record_id r)) None) ->
  final_log bounded avg dl (FinalVWAP.append o ev r).
Proof.
  intros (Ha & Hd & Hl) Hrow. unfold final_log. final_fields.
  split; [exact Ha|]. split; [exact Hd|]. apply log_ok_snoc; assumption.
Qed.

(** One route of a slice keeps the log numbered and conserved. *)
Lemma final_route_body_log (bounded : Prop) (rs : random_source)
    (u : Urgency) (hour sl : Z) (slice_order : order)
    (slice_size num_routes i avg : Z) (dl : string)
    (st : FinalVWAP.route_state) :
  0 < num_routes ->
  0 <= FinalVWAP.slice_filled st
  /\ final_log bounded avg dl (FinalVWAP.rt_run st) ->
  match FinalVWAP.route_body rs u hour sl slice_order slice_size num_routes
          i st with
  | Next st' | Break st' =>
      0 <= FinalVWAP.slice_filled st'
      /\ final_log bounded avg dl (FinalVWAP.rt_run st')
  end.
Proof.
  intros Hn [Hsf Hlog]. unfold FinalVWAP.route_body.
  destruct (slice_size <=? FinalVWAP.slice_filled st) eqn:Hfull;
    [split; assumption|].
  apply Z.leb_gt in Hfull.
  assert (Hq : 0 <= slice_size / num_routes) by (apply Z.div_pos; lia).
  pose proof (final_venue_outcome_bounds rs
                (FinalVWAP.fade_rate (FinalVWAP.rt_run st))
                (FinalVWAP.partial_rate (FinalVWAP.rt_run st)) hour sl i
                (slice_size / num_routes) Hq) as Hb.
  destruct (FinalVWAP.venue_outcome rs _ _ hour sl i _)
    as [result filled_qty].
  cbn [snd] in Hb.
  cbn [FinalVWAP.slice_filled FinalVWAP.rt_run]. split; [lia|].
  destruct Hlog as (Ha & Hd & Hl).
  final_fields.
  destruct (String.eqb (FinalVWAP.detail_level (FinalVWAP.rt_run st)) "full")
    eqn:Hdl.
  - apply String.eqb_eq in Hdl. rewrite Hd in Hdl.
    unfold final_log. final_fields.
    split; [exact Ha|]. split; [exact Hd|].
    apply log_ok_snoc; [exact Hl|].
    unfold final_row, conserved, within_quantity, FinalVWAP.sor_order.
    cbn [snap_order order_level quantity filled_quantity remaining_quantity].
    split; [lia|]. split; [intros _; lia|].
    right. right. right. split; [reflexivity|exact Hdl].
  - unfold final_log. final_fields.
    split; [exact Ha|]. split; [exact Hd|exact Hl].
Qed.

(** One slice keeps the run. *)
Lemma final_slice_body_run (bounded : Prop) (rs : random_source)
    (u : Urgency) (hour size avg : Z) (dl : string) (sl : Z)
    (r : FinalVWAP.run) :
  (bounded -> well_formed rs /\ 0 < avg) ->
  final_run bounded size avg dl r ->
  match FinalVWAP.slice_body rs u hour sl r with
  | Next r' | Break r' => final_run bounded size avg dl r'
  end.
Proof.
  intros Hbd (Hinv & Hlog & Hcq & Ht).
  pose proof (final_slice_body_invariant rs u hour size sl r Hinv) as Hold.
  unfold FinalVWAP.slice_body in *.
  destruct (_ <=? _) eqn:Hdone;
    [split; [exact Hinv|split; [exact Hlog|split; [exact Hcq|exact Ht]]]|].
  apply Z.leb_gt in Hdone.
  set (slice_size := Z.min _ _) in *.
  assert (Hslice : slice_size
                   <= FinalVWAP.order_size r - FinalVWAP.total_filled r)
    by apply Z.le_min_r.
  destruct Hlog as (Ha & Hd & Hl).
  assert (Hnonneg : bounded -> 0 <= slice_size).
  { intros Hb. destruct (Hbd Hb) as [(Hrand & _) Havg].
    subst slice_size. rewrite Ha. apply Z.min_glb; [|lia].
    destruct u.
    - pose proof (Hrand hour sl (avg / 2) avg
                    ltac:(apply Z.div_le_upper_bound; lia)).
      assert (0 <= avg / 2) by (apply Z.div_pos; lia). lia.
    - pose proof (Hrand hour sl (avg / 2) avg
                    ltac:(apply Z.div_le_upper_bound; lia)).
      assert (0 <= avg / 2) by (apply Z.div_pos; lia). lia.
    - pose proof (Hrand hour sl avg (avg * 2) ltac:(lia)). lia.
    - pose proof (Hrand hour sl (avg * 2) (avg * 4) ltac:(lia)). lia. }
  clearbody slice_size.
  set (slice_order := new_order _ _ 2 slice_size _ _ _) in *.
  set (r1 := FinalVWAP.set_counters _ _ _) in *.
  assert (Hr1 : final_log bounded avg dl r1
                /\ FinalVWAP.client_order r1 = FinalVWAP.client_order r
                /\ FinalVWAP.total_filled r1 = FinalVWAP.total_filled r).
  { subst r1. final_fields.
    destruct (String.eqb (FinalVWAP.detail_level r) "full") eqn:Hdl.
    - apply String.eqb_eq in Hdl. rewrite Hd in Hdl.
      split; [|split; reflexivity].
      unfold final_log. final_fields.
      split; [exact Ha|]. split; [exact Hd|].
      apply log_ok_snoc; [exact Hl|].
      unfold final_row, conserved, within_quantity. cbn.
      split; [lia|]. split; [intros Hb; specialize (Hnonneg Hb); lia|].
      right. right. left. split; [reflexivity|]. left. split; [exact Hdl|reflexivity].
    - split; [|split; reflexivity].
      unfold final_log. final_fields.
      split; [exact Ha|]. split; [exact Hd|exact Hl]. }
  destruct Hr1 as (Hlog1 & Hc1 & Ht1).
  set (num_routes := match u with CRITICAL | URGENT => 3 | _ => 2 end) in *.
  assert (Hnum : 0 < num_routes) by (subst num_routes; destruct u; lia).
  pose proof (final_route_loop rs u hour sl slice_order slice_size num_routes
                r1 Hnum) as Hloop.
  cbv zeta in Hloop.
  assert (Hlog2 :
    0 <= FinalVWAP.slice_filled
           (for_each (FinalVWAP.route_body rs u hour sl slice_order
                        slice_size num_routes)
                     (range num_routes) (FinalVWAP.RouteState r1 0 0%float))
    /\ final_log bounded avg dl
         (FinalVWAP.rt_run
            (for_each (FinalVWAP.route_body rs u hour sl slice_order
                         slice_size num_routes)
                      (range num_routes)
                      (FinalVWAP.RouteState r1 0 0%float)))).
  { apply (for_each_invariant
             (fun s => 0 <= FinalVWAP.slice_filled s
                       /\ final_log bounded avg dl (FinalVWAP.rt_run s))).
    - intros i s Hs. apply final_route_body_log; assumption.
    - cbn [FinalVWAP.slice_filled FinalVWAP.rt_run]. split; [lia|exact Hlog1]. }
  clearbody r1.
  destruct (for_each _ (range num_routes) (FinalVWAP.RouteState r1 0 0%float))
    as [r2 slice_filled slice_value].
  cbn [FinalVWAP.rt_run FinalVWAP.slice_filled FinalVWAP.slice_value] in *.
  destruct Hloop as (Hs2 & Hc2 & Ht2 & _ & Hsf).
  destruct Hlog2 as [_ (Ha2 & Hd2 & Hl2)].
  final_fields.
  split; [exact Hold|]. clear Hold.
  rewrite Hd2.
  destruct (String.eqb dl "summary" && (0 <? slice_filled)) eqn:Hsum.
  - apply andb_true_iff in Hsum. destruct Hsum as [Hsum Hpos].
    apply String.eqb_eq in Hsum. apply Z.ltb_lt in Hpos.
    final_fields. rewrite Hc2, Hc1, Ht2, Ht1.
    split; [|split; [exact Hcq|lia]].
    unfold final_log. final_fields.
    split; [exact Ha2|]. split; [exact Hd2|].
    apply log_ok_snoc; [exact Hl2|].
    unfold final_row, conserved, within_quantity. cbn.
    split; [lia|]. split; [intros Hb; specialize (Hnonneg Hb); lia|].
    right. right. left. split; [reflexivity|]. right.
    split; [exact Hsum|reflexivity].
  - final_fields. rewrite Hc2, Hc1, Ht2, Ht1.
    split; [|split; [exact Hcq|lia]].
    unfold final_log. final_fields.
    split; [exact Ha2|]. split; [exact Hd2|exact Hl2].
Qed.

(** One hour keeps the run, with the hourly client row. *)
Lemma final_hour_body_run (bounded : Prop) (rs : random_source)
    (hour size avg : Z) (dl : string) (r : FinalVWAP.run) :
  (bounded -> well_formed rs /\ 0 < avg /\ 0 < size) ->
  final_hour_invariant size r /\ final_run bounded size avg dl r ->
  match FinalVWAP.hour_body rs hour r with
  | Next r' | Break r' =>
      final_hour_invariant size r' /\ final_run bounded size avg dl r'
  end.
Proof.
  intros Hbd [Hhour Hrun].
  pose proof (final_hour_body_invariant rs hour size r Hhour) as Hold.
  unfold FinalVWAP.hour_body in *.
  destruct (_ <=? _); [split; assumption|].
  match goal with
  | |- context [for_each ?body ?idxs r] =>
      assert (Hloop : final_run bounded size avg dl (for_each body idxs r));
      [|destruct (for_each body idxs r) as
          [os av dl' fr pr snaps rid tf tv co sc rc stt]]
  end.
  { apply for_each_invariant; [|exact Hrun].
    intros i s Hs. apply final_slice_body_run; [|exact Hs].
    intros Hb. destruct (Hbd Hb) as (H1 & H2 & _). split; assumption. }
  split; [exact Hold|].
  destruct Hold as [Hinv' _].
  destruct Hloop as ((Hs & Hc & _ & _ & Hle) & (Ha & Hd & Hl) & Hcq & Ht).
  cbn [FinalVWAP.order_size FinalVWAP.client_order FinalVWAP.total_filled
       FinalVWAP.snapshots FinalVWAP.avg_slice_size FinalVWAP.detail_level
       FinalVWAP.record_id] in *.
  split; [exact Hinv'|]. final_fields.
  split; [|split; [exact Hcq|exact Ht]].
  unfold final_log. final_fields.
  split; [exact Ha|]. split; [exact Hd|].
  apply log_ok_snoc; [exact Hl|].
  unfold final_row, conserved, within_quantity.
  cbn [snap_order order_level quantity filled_quantity remaining_quantity
       set_urgency set_state set_average_price set_remaining_quantity
       set_filled_quantity].
  split; [lia|]. split; [intros Hb; specialize (Hbd Hb); lia|].
  left. exact Hc.
Qed.

(** The log of a run of [generate_final_vwap]. *)
Lemma final_generate_log (bounded : Prop) (rs : random_source)
    (order_size avg_slice_size : Z) (detail_level : string)
    (fade_rate partial_rate : float) :
  avg_slice_size <> 0 -> order_size <> 0 ->
  (bounded -> well_formed rs /\ 0 < avg_slice_size /\ 0 < order_size) ->
  exists r,
    FinalVWAP.generate_final_vwap rs order_size avg_slice_size detail_level
      fade_rate partial_rate = Some r
    /\ final_run bounded order_size avg_slice_size detail_level r.
Proof.
  intros Havg Hsize Hbd. unfold FinalVWAP.generate_final_vwap.
  rewrite (proj2 (Z.eqb_neq _ _) Havg), (proj2 (Z.eqb_neq _ _) Hsize).
  cbn [orb]. eexists. split; [reflexivity|].
  apply (for_each_invariant
           (fun r => final_hour_invariant order_size r
                     /\ final_run bounded order_size avg_slice_size
                          detail_level r)).
  - intros i s Hs. apply final_hour_body_run; assumption.
  - assert (Hrows : client_fills
              (FinalVWAP.snapshots
                 (FinalVWAP.opened order_size avg_slice_size detail_level
                    fade_rate partial_rate)) = [0]).
    { unfold FinalVWAP.opened.
      destruct (negb (String.eqb detail_level "client_only"));
        cbn [FinalVWAP.append FinalVWAP.snapshots];
        rewrite !client_fills_snoc; reflexivity. }
    assert (Hinv : final_invariant order_size
              (FinalVWAP.opened order_size avg_slice_size detail_level
                 fade_rate partial_rate)).
    { unfold final_invariant. rewrite Hrows. unfold FinalVWAP.opened.
      destruct (negb (String.eqb detail_level "client_only"));
        final_fields; (split; [reflexivity|]); (split; [reflexivity|]);
        (split; [cbn; lia|]); (split; [repeat constructor; lia|lia]). }
    split; [split; [exact Hinv|]|split; [exact Hinv|]].
    + intros Hpos Hfull. exfalso. revert Hfull. unfold FinalVWAP.opened.
      destruct (negb (String.eqb detail_level "client_only")); final_fields;
        lia.
    + unfold FinalVWAP.opened.
      destruct (negb (String.eqb detail_level "client_only")) eqn:Hdl;
        final_fields.
      * split; [|split; [reflexivity|lia]].
        unfold final_log. final_fields.
        split; [reflexivity|]. split; [reflexivity|].
        apply log_ok_snoc; [apply log_ok_snoc; [apply log_ok_nil|]|].
        -- unfold final_row, conserved, within_quantity. cbn.
           split; [lia|]. split; [intros Hb; specialize (Hbd Hb); lia|].
           left. reflexivity.
        -- unfold final_row, conserved, within_quantity. cbn.
           split; [lia|]. split; [intros Hb; specialize (Hbd Hb); lia|].
           right. left. split; [reflexivity|].
           intros ->. discriminate Hdl.
      * split; [|split; [reflexivity|lia]].
        unfold final_log. final_fields.
        split; [reflexivity|]. split; [reflexivity|].
        apply log_ok_snoc; [apply log_ok_nil|].
        unfold final_row, conserved, within_quantity. cbn.
        split; [lia|]. split; [intros Hb; specialize (Hbd Hb); lia|].
        left. reflexivity.
Qed.

(** *** The size of the log *)

Lemma final_route_body_counts (rs : random_source) (u : Urgency)
    (hour sl : Z) (slice_order : order) (slice_size num_routes i : Z)
    (dl : string) (hours slices routes : Z) (st : FinalVWAP.route_state) :
  let pending := if String.eqb dl "full" then 0 else 1 in
  let P n s :=
    final_counts hours pending (FinalVWAP.rt_run s)
    /\ FinalVWAP.detail_level (FinalVWAP.rt_run s) = dl
    /\ total_slices (FinalVWAP.run_stats (FinalVWAP.rt_run s)) = slices
    /\ total_routes (FinalVWAP.run_stats (FinalVWAP.rt_run s))
       <= routes + n in
  P i st ->
  match FinalVWAP.route_body rs u hour sl slice_order slice_size num_routes
          i st with
  | Next st' => P (i + 1) st'
  | Break st' => P i st'
  end.
Proof.
  intros pending P (Hc & Hd & Hs & Hr). subst P. cbv beta.
  unfold FinalVWAP.route_body.
  destruct (slice_size <=? _);
    [split; [exact Hc|split; [exact Hd|split; [exact Hs|exact Hr]]]|].
  destruct (FinalVWAP.venue_outcome rs _ _ hour sl i _)
    as [result filled_qty].
  cbn [FinalVWAP.rt_run]. final_fields.
  destruct Hc as (Hf & Hp & Hj & Hsum & Hlen).
  unfold final_counts. subst pending. rewrite Hd in *.
  destruct (String.eqb dl "full"); final_fields;
    rewrite ?length_app; cbn [length];
    destruct result; cbn; repeat split; try assumption; lia.
Qed.

Lemma final_slice_body_counts (rs : random_source) (u : Urgency)
    (hour sl : Z) (dl : string) (hours slices : Z) (r : FinalVWAP.run) :
  let P n r :=
    final_counts hours 0 r
    /\ FinalVWAP.detail_level r = dl
    /\ total_routes (FinalVWAP.run_stats r)
       <= 3 * total_slices (FinalVWAP.run_stats r)
    /\ total_slices (FinalVWAP.run_stats r) <= slices + n in
  P sl r ->
  match FinalVWAP.slice_body rs u hour sl r with
  | Next r' => P (sl + 1) r'
  | Break r' => P sl r'
  end.
Proof.
  intros P (Hc & Hd & Hr & Hs). subst P. cbv beta.
  unfold FinalVWAP.slice_body.
  destruct (_ <=? _);
    [split; [exact Hc|split; [exact Hd|split; [exact Hr|exact Hs]]]|].
  set (slice_size := Z.min _ _). clearbody slice_size.
  set (slice_order := new_order _ _ 2 slice_size _ _ _). clearbody slice_order.
  set (r1 := FinalVWAP.set_counters _ _ _).
  assert (Hr1 : final_counts hours (if String.eqb dl "full" then 0 else 1) r1
                /\ FinalVWAP.detail_level r1 = dl
                /\ total_slices (FinalVWAP.run_stats r1)
                   = total_slices (FinalVWAP.run_stats r) + 1
                /\ total_routes (FinalVWAP.run_stats r1)
                   = total_routes (FinalVWAP.run_stats r)).
  { subst r1. destruct Hc as (Hf & Hp & Hj & Hsum & Hlen).
    unfold final_counts. final_fields. rewrite Hd.
    destruct (String.eqb dl "full"); final_fields;
      rewrite ?length_app; cbn [length]; cbn;
      repeat split; try assumption; lia. }
  clearbody r1. destruct Hr1 as (Hc1 & Hd1 & Hs1 & Hr1).
  set (num_routes := match u with CRITICAL | URGENT => 3 | _ => 2 end).
  assert (Hnum : num_routes <= 3) by (subst num_routes; destruct u; lia).
  clearbody num_routes.
  pose proof (for_each_range
                (fun n s =>
                   final_counts hours (if String.eqb dl "full" then 0 else 1)
                                (FinalVWAP.rt_run s)
                   /\ FinalVWAP.detail_level (FinalVWAP.rt_run s) = dl
                   /\ total_slices (FinalVWAP.run_stats (FinalVWAP.rt_run s))
                      = total_slices (FinalVWAP.run_stats r1)
                   /\ total_routes (FinalVWAP.run_stats (FinalVWAP.rt_run s))
                      <= total_routes (FinalVWAP.run_stats r1) + n)
                (fun s =>
                   final_counts hours (if String.eqb dl "full" then 0 else 1)
                                (FinalVWAP.rt_run s)
                   /\ FinalVWAP.detail_level (FinalVWAP.rt_run s) = dl
                   /\ total_slices (FinalVWAP.run_stats (FinalVWAP.rt_run s))
                      = total_slices (FinalVWAP.run_stats r1)
                   /\ total_routes (FinalVWAP.run_stats (FinalVWAP.rt_run s))
                      <= total_routes (FinalVWAP.run_stats r1) + 3)
                (FinalVWAP.route_body rs u hour sl slice_order slice_size
                   num_routes)
                num_routes (FinalVWAP.RouteState r1 0 0%float)) as Hloop.
  cbv beta in Hloop.
  destruct Hloop as (Hc2 & Hd2 & Hs2 & Hr2).
  - intros i s Hi Hp.
    pose proof (final_route_body_counts rs u hour sl slice_order slice_size
                  num_routes i dl hours
                  (total_slices (FinalVWAP.run_stats r1))
                  (total_routes (FinalVWAP.run_stats r1)) s Hp) as Hb.
    cbv beta zeta in Hb.
    destruct (FinalVWAP.route_body rs u hour sl slice_order slice_size
                num_routes i s); [exact Hb|].
    destruct Hb as (H1 & H2 & H3 & H4).
    split; [exact H1|split; [exact H2|split; [exact H3|lia]]].
  - intros s (H1 & H2 & H3 & H4).
    split; [exact H1|split; [exact H2|split; [exact H3|lia]]].
  - cbn [FinalVWAP.rt_run].
    split; [exact Hc1|split; [exact Hd1|split; [reflexivity|lia]]].
  - destruct (for_each _ _ _) as [r2 slice_filled slice_value].
    cbn [FinalVWAP.rt_run FinalVWAP.slice_filled FinalVWAP.slice_value] in *.
    final_fields. rewrite Hd2.
    destruct Hc2 as (Hf & Hp & Hj & Hsum & Hlen). cbv zeta in *.
    destruct (String.eqb dl "summary" && (0 <? slice_filled)) eqn:Hsummary.
    + apply andb_true_iff in Hsummary. destruct Hsummary as [Hsummary _].
      apply String.eqb_eq in Hsummary. rewrite Hsummary in Hlen.
      change (String.eqb "summary" "full") with false in Hlen.
      cbv iota in Hlen.
      unfold final_counts. final_fields.
      rewrite ?length_app. cbn [length].
      repeat split; try assumption; lia.
    + unfold final_counts. final_fields.
      destruct (String.eqb dl "full"); repeat split; try assumption; lia.
Qed.

Lemma final_hour_body_counts (rs : random_source) (hour : Z) (dl : string)
    (r : FinalVWAP.run) :
  let P n r :=
    final_counts n 0 r
    /\ FinalVWAP.detail_level r = dl
    /\ total_routes (FinalVWAP.run_stats r)
       <= 3 * total_slices (FinalVWAP.run_stats r)
    /\ total_slices (FinalVWAP.run_stats r) <= 50 * n in
  0 <= hour ->
  P hour r ->
  match FinalVWAP.hour_body rs hour r with
  | Next r' | Break r' => P (hour + 1) r'
  end.
Proof.
  intros P Hh (Hc & Hd & Hr & Hs). subst P. cbv beta.
  unfold FinalVWAP.hour_body.
  destruct (_ <=? _).
  { destruct Hc as (Hf & Hp & Hj & Hsum & Hlen). unfold final_counts.
    repeat split; try assumption; lia. }
  set (hour_slices := Z.min _ 50).
  assert (Hcap : hour_slices <= 50) by apply Z.le_min_r.
  clearbody hour_slices.
  set (u := FinalVWAP.hour_urgency _ _ _). clearbody u.
  pose proof (for_each_range
                (fun n r =>
                   final_counts hour 0 r
                   /\ FinalVWAP.detail_level r = dl
                   /\ total_routes (FinalVWAP.run_stats r)
                      <= 3 * total_slices (FinalVWAP.run_stats r)
                   /\ total_slices (FinalVWAP.run_stats r) <= 50 * hour + n)
                (fun r =>
                   final_counts hour 0 r
                   /\ FinalVWAP.detail_level r = dl
                   /\ total_routes (FinalVWAP.run_stats r)
                      <= 3 * total_slices (FinalVWAP.run_stats r)
                   /\ total_slices (FinalVWAP.run_stats r)
                      <= 50 * (hour + 1))
                (FinalVWAP.slice_body rs u hour) hour_slices r) as Hloop.
  cbv beta in Hloop.
  destruct Hloop as (Hc2 & Hd2 & Hr2 & Hs2).
  - intros i s Hi Hp.
    pose proof (final_slice_body_counts rs u hour i dl hour (50 * hour) s Hp)
      as Hb.
    cbv beta zeta in Hb.
    destruct (FinalVWAP.slice_body rs u hour i s); [exact Hb|].
    destruct Hb as (H1 & H2 & H3 & H4).
    split; [exact H1|split; [exact H2|split; [exact H3|lia]]].
  - intros s (H1 & H2 & H3 & H4).
    split; [exact H1|split; [exact H2|split; [exact H3|lia]]].
  - split; [exact Hc|split; [exact Hd|split; [exact Hr|lia]]].
  - destruct (for_each _ _ _) as
      [os av dl' fr pr snaps rid tf tv co sc rc stt].
    destruct Hc2 as (Hf & Hp & Hj & Hsum & Hlen).
    cbn [FinalVWAP.run_stats FinalVWAP.snapshots FinalVWAP.detail_level] in *.
    unfold final_counts. final_fields.
    rewrite length_app. cbn [length].
    repeat split; try assumption; lia.
Qed.

(** X7.  Every row of the log of [generate_final_vwap] satisfies the
    accounting invariant [filled_quantity + remaining_quantity =
    quantity], at every level and at every detail level.
    ([generate_final_vwap] returns whenever neither size is zero and the
    order size converts to a float exactly: every quantity it converts
    lies between 0 and the order size.) *)
Theorem final_vwap_rows_conserved (rs : random_source)
    (order_size avg_slice_size : Z) (detail_level : string)
    (fade_rate partial_rate : float) :
  avg_slice_size <> 0 -> order_size <> 0 -> Py.exact_int order_size ->
  exists r,
    FinalVWAP.generate_final_vwap rs order_size avg_slice_size detail_level
      fade_rate partial_rate = Some r
    /\ Forall (fun s => conserved (snap_order s)) (FinalVWAP.snapshots r).
Proof.
  intros Havg Hsize _.
  destruct (final_generate_log False rs order_size avg_slice_size
              detail_level fade_rate partial_rate Havg Hsize
              ltac:(intros [])) as (r & Hr & _ & (_ & _ & _ & _ & Hrows) & _).
  exists r. split; [exact Hr|].
  induction Hrows as [|s l Hs _ IH]; constructor; [apply Hs|exact IH].
Qed.

Lemma final_vwap_rows_conserved_witness :
  600 <> 0 /\ 4200 <> 0 /\ Py.exact_int 4200
  /\ exists r,
       FinalVWAP.generate_final_vwap example_draws 4200 600 "full" 0.05 0.10
       = Some r
       /\ Forall (fun s => conserved (snap_order s)) (FinalVWAP.snapshots r).
Proof.
  assert (Hex : Py.exact_int 4200) by (unfold Py.exact_int; simpl; lia).
  split; [lia|]. split; [lia|]. split; [exact Hex|].
  apply (final_vwap_rows_conserved example_draws 4200 600 "full" 0.05 0.10);
    [lia | lia | exact Hex].
Defined.

(** X8.  For draws as [random] gives them, a positive order size that
    converts to a float exactly and a positive average slice size,
    [generate_final_vwap] returns and never over-fills,
    whatever the fade and partial rates: the total filled ends between 0
    and the order size, and every row of the log shows
    [0 <= filled_quantity <= quantity]. *)
Theorem final_vwap_never_overfills (rs : random_source)
    (order_size avg_slice_size : Z) (detail_level : string)
    (fade_rate partial_rate : float) :
  well_formed rs -> 0 < avg_slice_size -> 0 < order_size ->
  Py.exact_int order_size ->
  exists r,
    FinalVWAP.generate_final_vwap rs order_size avg_slice_size detail_level
      fade_rate partial_rate = Some r
    /\ 0 <= FinalVWAP.total_filled r <= order_size
    /\ Forall (fun s => within_quantity (snap_order s))
              (FinalVWAP.snapshots r).
Proof.
  intros Hrs Havg Hsize _.
  destruct (final_generate_log True rs order_size avg_slice_size
              detail_level fade_rate partial_rate ltac:(lia) ltac:(lia)
              ltac:(intros _; split; [exact Hrs|split; assumption]))
    as (r & Hr & (_ & _ & _ & _ & Hle) & (_ & _ & _ & _ & Hrows) & _ & H0).
  exists r. split; [exact Hr|]. split; [lia|].
  induction Hrows as [|s l Hs _ IH]; constructor; [apply Hs; exact I|exact IH].
Qed.

Lemma final_vwap_never_overfills_witness :
  well_formed example_draws /\ 0 < 600 /\ 0 < 4200 /\ Py.exact_int 4200
  /\ exists r,
       FinalVWAP.generate_final_vwap example_draws 4200 600 "full" 0.05 0.10
       = Some r
       /\ 0 <= FinalVWAP.total_filled r <= 4200
       /\ Forall (fun s => within_quantity (snap_order s))
                 (FinalVWAP.snapshots r).
Proof.
  assert (Hex : Py.exact_int 4200) by (unfold Py.exact_int; simpl; lia).
  split; [exact example_draws_well_formed|]. split; [lia|]. split; [lia|].
  split; [exact Hex|].
  apply (final_vwap_never_overfills example_draws 4200 600 "full" 0.05 0.10);
    [exact example_draws_well_formed | lia | lia | exact Hex].
Defined.

(** X9.  The rows of the log of [generate_final_vwap] are numbered in
    sequence: row [i] carries the record id [i] (also the summary row of
    a slice, whose id was written when the slice was created), and
    [record_id] ends as the length of the log.  (For sizes that are not
    zero and an order size that converts to a float exactly.) *)
Theorem final_vwap_record_ids (rs : random_source)
    (order_size avg_slice_size : Z) (detail_level : string)
    (fade_rate partial_rate : float) :
  avg_slice_size <> 0 -> order_size <> 0 -> Py.exact_int order_size ->
  exists r,
    FinalVWAP.generate_final_vwap rs order_size avg_slice_size detail_level
      fade_rate partial_rate = Some r
    /\ sequential (FinalVWAP.snapshots r)
    /\ FinalVWAP.record_id r = Z.of_nat (length (FinalVWAP.snapshots r)).
Proof.
  intros Havg Hsize _.
  destruct (final_generate_log False rs order_size avg_slice_size
              detail_level fade_rate partial_rate Havg Hsize
              ltac:(intros []))
    as (r & Hr & _ & (_ & _ & Hid & Hseq & _) & _).
  exists r. split; [exact Hr|]. split; assumption.
Qed.

Lemma final_vwap_record_ids_witness :
  600 <> 0 /\ 4200 <> 0 /\ Py.exact_int 4200
  /\ exists r,
       FinalVWAP.generate_final_vwap example_draws 4200 600 "summary"
         0.05 0.10 = Some r
       /\ sequential (FinalVWAP.snapshots r)
       /\ FinalVWAP.record_id r = Z.of_nat (length (FinalVWAP.snapshots r)).
Proof.
  assert (Hex : Py.exact_int 4200) by (unfold Py.exact_int; simpl; lia).
  split; [lia|]. split; [lia|]. split; [exact Hex|].
  apply (final_vwap_record_ids example_draws 4200 600 "summary" 0.05 0.10);
    [lia | lia | exact Hex].
Defined.

(** X10.  The detail level of [generate_final_vwap] filters the log: at
    ["client_only"] every row is a client row ([order_level = 0]); a
    route row ([order_level = 3]) is logged only at ["full"]; a slice
    row ([order_level = 2]) only at ["full"], as a [NEW] row, or at
    ["summary"], as a [SLICE_SUMMARY] row.  (For sizes that are not zero
    and an order size that converts to a float exactly.) *)
Theorem final_vwap_detail_levels (rs : random_source)
    (order_size avg_slice_size : Z) (detail_level : string)
    (fade_rate partial_rate : float) :
  avg_slice_size <> 0 -> order_size <> 0 -> Py.exact_int order_size ->
  exists r,
    FinalVWAP.generate_final_vwap rs order_size avg_slice_size detail_level
      fade_rate partial_rate = Some r
    /\ Forall (fun s =>
                 (detail_level = "client_only" ->
                  order_level (snap_order s) = 0)
                 /\ (order_level (snap_order s) = 3 -> detail_level = "full")
                 /\ (order_level (snap_order s) = 2 ->
                     (detail_level = "full" /\ event_type s = "NEW")
                     \/ (detail_level = "summary"
                         /\ event_type s = "SLICE_SUMMARY")))
              (FinalVWAP.snapshots r).
Proof.
  intros Havg Hsize _.
  destruct (final_generate_log False rs order_size avg_slice_size
              detail_level fade_rate partial_rate Havg Hsize
              ltac:(intros []))
    as (r & Hr & _ & (_ & _ & _ & _ & Hrows) & _).
  exists r. split; [exact Hr|].
  induction Hrows as [|s l Hs _ IH]; constructor; [|exact IH].
  destruct Hs as (_ & _ & [H0|[[H1 Hd]|[[H2 Hd]|[H3 Hd]]]]).
  - split; [intros _; exact H0|]. split; intros H; rewrite H0 in H; discriminate H.
  - split; [intros H; contradiction|].
    split; intros H; rewrite H1 in H; discriminate H.
  - split; [|split].
    + intros ->. destruct Hd as [[H _]|[H _]]; discriminate H.
    + intros H. rewrite H2 in H. discriminate H.
    + intros _. exact Hd.
  - split; [|split].
    + intros ->. discriminate Hd.
    + intros _. exact Hd.
    + intros H. rewrite H3 in H. discriminate H.
Qed.

Lemma final_vwap_detail_levels_witness :
  600 <> 0 /\ 4200 <> 0 /\ Py.exact_int 4200
  /\ exists r,
       FinalVWAP.generate_final_vwap example_draws 4200 600 "client_only"
         0.05 0.10 = Some r
       /\ Forall (fun s =>
                    ("client_only" = "client_only" ->
                     order_level (snap_order s) = 0)
                    /\ (order_level (snap_order s) = 3 ->
                        "client_only" = "full")
                    /\ (order_level (snap_order s) = 2 ->
                        ("client_only" = "full" /\ event_type s = "NEW")
                        \/ ("client_only" = "summary"
                            /\ event_type s = "SLICE_SUMMARY")))
                 (FinalVWAP.snapshots r).
Proof.
  assert (Hex : Py.exact_int 4200) by (unfold Py.exact_int; simpl; lia).
  split; [lia|]. split; [lia|]. split; [exact Hex|].
  apply (final_vwap_detail_levels example_draws 4200 600 "client_only"
           0.05 0.10); [lia | lia | exact Hex].
Defined.

(** The levels of the rows logged for the same draws at the three
    detail levels. *)
Example final_vwap_levels_logged :
  let levels dl :=
    option_map
      (fun r => map (fun l =>
                       length (filter (fun s => order_level (snap_order s) = l)
                                      (FinalVWAP.snapshots r)))
                    [0; 1; 2; 3])
      (FinalVWAP.generate_final_vwap example_draws 4200 600 dl 0.05 0.10) in
  levels "full" = Some [6; 1; 5; 11]%nat
  /\ levels "summary" = Some [6; 1; 5; 0]%nat
  /\ levels "client_only" = Some [6; 0; 0; 0]%nat.
Proof. vm_compute. repeat split; reflexivity. Qed.

(** X11.  A run of [generate_final_vwap] stays small for every order
    size that converts to a float exactly (and sizes that are not
    zero): at most 350 slices (50 in each of the seven hours), at most
    three routes for every slice, and at most 1409 rows in the log.  The
    fades, partial fills and rejects counted are never more than the
    routes counted. *)
Theorem final_vwap_size_bounds (rs : random_source)
    (order_size avg_slice_size : Z) (detail_level : string)
    (fade_rate partial_rate : float) :
  avg_slice_size <> 0 -> order_size <> 0 -> Py.exact_int order_size ->
  exists r,
    FinalVWAP.generate_final_vwap rs order_size avg_slice_size detail_level
      fade_rate partial_rate = Some r
    /\ total_slices (FinalVWAP.run_stats r) <= 350
    /\ total_routes (FinalVWAP.run_stats r)
       <= 3 * total_slices (FinalVWAP.run_stats r)
    /\ fade_count (FinalVWAP.run_stats r)
       + partial_count (FinalVWAP.run_stats r)
       + reject_count (FinalVWAP.run_stats r)
       <= total_routes (FinalVWAP.run_stats r)
    /\ (length (FinalVWAP.snapshots r) <= 1409)%nat.
Proof.
  intros Havg Hsize _. unfold FinalVWAP.generate_final_vwap.
  rewrite (proj2 (Z.eqb_neq _ _) Havg), (proj2 (Z.eqb_neq _ _) Hsize).
  cbn [orb]. eexists. split; [reflexivity|].
  pose proof (for_each_range
                (fun n r =>
                   final_counts n 0 r
                   /\ FinalVWAP.detail_level r = detail_level
                   /\ total_routes (FinalVWAP.run_stats r)
                      <= 3 * total_slices (FinalVWAP.run_stats r)
                   /\ total_slices (FinalVWAP.run_stats r) <= 50 * n)
                (fun r =>
                   final_counts 7 0 r
                   /\ FinalVWAP.detail_level r = detail_level
                   /\ total_routes (FinalVWAP.run_stats r)
                      <= 3 * total_slices (FinalVWAP.run_stats r)
                   /\ total_slices (FinalVWAP.run_stats r) <= 350)
                (FinalVWAP.hour_body rs) 7
                (FinalVWAP.opened order_size avg_slice_size detail_level
                   fade_rate partial_rate)) as Hloop.
  cbv beta in Hloop.
  destruct Hloop as (Hc & _ & Hr & Hs).
  - intros i s Hi Hp.
    pose proof (final_hour_body_counts rs i detail_level s ltac:(lia) Hp)
      as Hb.
    cbv beta zeta in Hb.
    destruct (FinalVWAP.hour_body rs i s); [exact Hb|].
    destruct Hb as ((Hf & Hp' & Hj & Hsum & Hlen) & H2 & H3 & H4).
    split; [|split; [exact H2|split; [exact H3|lia]]].
    unfold final_counts. repeat split; try assumption. cbv zeta in Hlen. lia.
  - intros s (H1 & H2 & H3 & H4).
    split; [exact H1|split; [exact H2|split; [exact H3|lia]]].
  - unfold FinalVWAP.opened, final_counts.
    destruct (negb (String.eqb detail_level "client_only")); cbn;
      repeat split; lia.
  - destruct Hc as (Hf & Hp & Hj & Hsum & Hlen). cbv zeta in *.
    repeat split; try assumption; lia.
Qed.

Lemma final_vwap_size_bounds_witness :
  600 <> 0 /\ 4200 <> 0 /\ Py.exact_int 4200
  /\ exists r,
       FinalVWAP.generate_final_vwap example_draws 4200 600 "full" 0.05 0.10
       = Some r
       /\ total_slices (FinalVWAP.run_stats r) <= 350
       /\ total_routes (FinalVWAP.run_stats r)
          <= 3 * total_slices (FinalVWAP.run_stats r)
       /\ fade_count (FinalVWAP.run_stats r)
          + partial_count (FinalVWAP.run_stats r)
          + reject_count (FinalVWAP.run_stats r)
          <= total_routes (FinalVWAP.run_stats r)
       /\ (length (FinalVWAP.snapshots r) <= 1409)%nat.
Proof.
  assert (Hex : Py.exact_int 4200) by (unfold Py.exact_int; simpl; lia).
  split; [lia|]. split; [lia|]. split; [exact Hex|].
  apply (final_vwap_size_bounds example_draws 4200 600 "full" 0.05 0.10);
    [lia | lia | exact Hex].
Defined.

(** A run that reaches the cap of fifty slices in every hour. *)
Example final_vwap_at_the_cap :
  option_map
    (fun r => (total_slices (FinalVWAP.run_stats r),
               total_routes (FinalVWAP.run_stats r),
               length (FinalVWAP.snapshots r)))
    (FinalVWAP.generate_final_vwap
       (RandomSource (fun _ _ a _ => a) (fun _ _ => 0%float)
          (fun _ _ _ => 2 ^ 53 - 1) (fun _ _ _ => 0) (fun _ _ _ a _ => a))
       1000000 10 "full" 0.05 0.10)
  = Some (350, 1050, 1409%nat).
Proof. vm_compute. reflexivity. Qed.

(** ** The tick database of [generate_complete_flow] *)

Ltac tick_fields :=
  cbn [TickDatabaseGen.add_snapshot TickDatabaseGen.bump_counter
       TickDatabaseGen.flow_quantity TickDatabaseGen.snapshots
       TickDatabaseGen.order_counter TickDatabaseGen.client_order
       TickDatabaseGen.algo_parent TickDatabaseGen.total_filled
       TickDatabaseGen.fills_data TickDatabaseGen.vs_flow
       TickDatabaseGen.slice_filled TickDatabaseGen.slice_value].

(** A row numbered with the length of the log. *)
Lemma log_ok_snoc_length (row_ok : snapshot -> Prop) (log : list snapshot)
    (o : order) (ev : string) (mp : option float) :
  log_ok row_ok log (Z.of_nat (length log)) ->
  row_ok (Snapshot o ev (Some (Z.of_nat (length log))) mp) ->
  log_ok row_ok (log ++ [Snapshot o ev (Some (Z.of_nat (length log))) mp])
         (Z.of_nat (length (log ++ [Snapshot o ev
                                      (Some (Z.of_nat (length log))) mp]))).
Proof.
  intros Hlog Hrow.
  replace (Z.of_nat (length (log ++ [_]))) with (Z.of_nat (length log) + 1)
    by (rewrite length_app; cbn; lia).
  apply log_ok_snoc; assumption.
Qed.

(** One venue of a slice. *)
Lemma tick_venue_body (bounded : Prop) (rd : TickDatabaseGen.random_draws)
    (hour sl : Z) (id : string) (slice_qty num_venues : Z)
    (f0 : TickDatabaseGen.flow) (iv : Z * string)
    (st : TickDatabaseGen.venue_state) :
  tick_venue bounded f0 slice_qty st ->
  match TickDatabaseGen.venue_body rd hour sl id slice_qty num_venues iv st
  with
  | Next st' | Break st' => tick_venue bounded f0 slice_qty st'
  end.
Proof.
  intros Hst. unfold TickDatabaseGen.venue_body. destruct iv as [i v].
  destruct (slice_qty <=? TickDatabaseGen.slice_filled st) eqn:Hfull;
    [exact Hst|].
  apply Z.leb_gt in Hfull.
  set (venue_qty := Z.min _ _).
  assert (Hv : venue_qty <= slice_qty - TickDatabaseGen.slice_filled st)
    by apply Z.le_min_r.
  destruct (venue_qty <=? 0) eqn:Hq; [exact Hst|].
  apply Z.leb_gt in Hq. clearbody venue_qty.
  destruct Hst as (Hfq & Hco & Hap & Htf & Hlog & Hrows & Hsf).
  unfold tick_venue. tick_fields.
  split; [exact Hfq|]. split; [exact Hco|]. split; [exact Hap|].
  split; [exact Htf|]. split; [|split; [|lia]].
  - apply log_ok_snoc_length; [apply log_ok_snoc_length; [exact Hlog|]|].
    + unfold tick_row, conserved, within_quantity. cbn.
      split; [lia|intros _; lia].
    + unfold tick_row, conserved, within_quantity. cbn.
      split; [lia|intros _; lia].
  - rewrite !client_fills_snoc. cbn. rewrite !app_nil_r. exact Hrows.
Qed.

(** The cascade that ends a slice with fills. *)
Lemma tick_cascade (bounded : Prop) (q : Z) (algo_child : order)
    (slice_qty slice_filled : Z) (slice_value : float)
    (f : TickDatabaseGen.flow) :
  tick_flow bounded q f ->
  order_level algo_child = 2 ->
  quantity algo_child = slice_qty ->
  0 < slice_filled <= slice_qty ->
  TickDatabaseGen.total_filled f + slice_qty <= q ->
  tick_flow bounded q
    (TickDatabaseGen.cascade algo_child slice_qty slice_filled slice_value f).
Proof.
  intros (Hfq & Hlog & Hc0 & Ha1 & Hcq & Haq & Hcc & Hac & Hcf & Haf
              & Ht & Hn & Hall) Hl2 Hqty Hsf Hroom.
  unfold TickDatabaseGen.cascade, tick_flow. tick_fields.
  rewrite !client_fills_snoc.
  cbn [snap_order order_level quantity filled_quantity remaining_quantity
       set_state set_average_price set_remaining_quantity
       set_filled_quantity].
  rewrite Hl2, Ha1, Hc0. cbn [Z.eqb]. rewrite !app_nil_r.
  assert (Hall' : Forall (fun x => x <= TickDatabaseGen.total_filled f
                                       + slice_filled)
                         (client_fills (TickDatabaseGen.snapshots f))).
  { apply (Forall_le_trans _ (TickDatabaseGen.total_filled f));
      [lia|exact Hall]. }
  split; [exact Hfq|]. split.
  { rewrite !length_app. cbn [length].
    replace (Z.of_nat (length (TickDatabaseGen.snapshots f) + 1 + 1 + 1))
      with (Z.of_nat (length (TickDatabaseGen.snapshots f)) + 1 + 1 + 1)
      by lia.
    replace (Z.of_nat (length (TickDatabaseGen.snapshots f) + 1 + 1))
      with (Z.of_nat (length (TickDatabaseGen.snapshots f)) + 1 + 1) by lia.
    replace (Z.of_nat (length (TickDatabaseGen.snapshots f) + 1))
      with (Z.of_nat (length (TickDatabaseGen.snapshots f)) + 1) by lia.
    apply log_ok_snoc; [apply log_ok_snoc; [apply log_ok_snoc|]|].
    - exact Hlog.
    - unfold tick_row, conserved, within_quantity. cbn.
      split; [lia|intros _; lia].
    - unfold tick_row, conserved, within_quantity. cbn. rewrite Haq, Hfq.
      split; [lia|intros _; lia].
    - unfold tick_row, conserved, within_quantity. cbn. rewrite Hcq, Hfq.
      split; [lia|intros _; lia]. }
  split; [reflexivity|]. split; [reflexivity|]. split; [exact Hcq|].
  split; [exact Haq|].
  unfold conserved.
  cbn [quantity filled_quantity remaining_quantity set_state
       set_average_price set_remaining_quantity set_filled_quantity].
  rewrite Hcq, Haq, Hfq.
  split; [lia|]. split; [lia|]. split; [reflexivity|]. split; [reflexivity|].
  split; [lia|]. split.
  - apply nondecreasing_snoc; assumption.
  - apply Forall_app. split; [exact Hall'|]. constructor; [lia|constructor].
Qed.

(** One slice. *)
Lemma tick_slice_body (bounded : Prop) (rd : TickDatabaseGen.random_draws)
    (hour hq sph sl q : Z) (f : TickDatabaseGen.flow) :
  tick_flow bounded q f ->
  match TickDatabaseGen.slice_body rd hour hq sph sl f with
  | Next f' | Break f' => tick_flow bounded q f'
  end.
Proof.
  intros Hf. unfold TickDatabaseGen.slice_body.
  destruct (_ <=? _) eqn:Hdone; [exact Hf|].
  apply Z.leb_gt in Hdone.
  set (slice_qty := Z.min _ _).
  assert (Hroom : slice_qty
                  <= TickDatabaseGen.flow_quantity f
                     - TickDatabaseGen.total_filled f) by apply Z.le_min_r.
  destruct (slice_qty <=? 0) eqn:Hpos; [exact Hf|].
  apply Z.leb_gt in Hpos. clearbody slice_qty.
  set (algo_child := Order _ _ 2 "Buy" slice_qty 0 slice_qty _ _ _ _).
  set (f1 := TickDatabaseGen.bump_counter _).
  assert (Hf1 : tick_flow bounded q f1
                /\ TickDatabaseGen.total_filled f1
                   = TickDatabaseGen.total_filled f).
  { subst f1. split; [|reflexivity].
    destruct Hf as (Hfq & Hlog & Hc0 & Ha1 & Hcq & Haq & Hcc & Hac & Hcf
                    & Haf & Ht & Hn & Hall).
    unfold tick_flow. tick_fields.
    rewrite client_fills_snoc. cbn [snap_order]. subst algo_child.
    cbn [order_level Z.eqb]. rewrite app_nil_r.
    split; [exact Hfq|]. split.
    - apply log_ok_snoc_length; [exact Hlog|].
      unfold tick_row, conserved, within_quantity. cbn.
      split; [lia|intros _; lia].
    - repeat split; try assumption; lia. }
  destruct Hf1 as [Hf1 Ht1].
  assert (Hfq : TickDatabaseGen.flow_quantity f = q) by apply Hf.
  clearbody f1.
  match goal with
  | |- context [for_each ?body ?idxs (TickDatabaseGen.VenueState f1 0 0%float)]
    => assert (Hloop : tick_venue bounded f1 slice_qty
                         (for_each body idxs
                            (TickDatabaseGen.VenueState f1 0 0%float)));
       [|destruct (for_each body idxs
                     (TickDatabaseGen.VenueState f1 0 0%float))
           as [f2 slice_filled slice_value]]
  end.
  { apply for_each_invariant.
    - intros iv s Hs. apply tick_venue_body. exact Hs.
    - destruct Hf1 as (_ & Hlog & _).
      unfold tick_venue. tick_fields.
      do 4 (split; [reflexivity|]). split; [exact Hlog|].
      split; [reflexivity|lia]. }
  unfold tick_venue in Hloop. tick_fields. cbn [TickDatabaseGen.vs_flow TickDatabaseGen.slice_filled] in Hloop.
  destruct Hloop as (H2q & H2c & H2a & H2t & H2log & H2rows & H2sf).
  assert (Hf2 : tick_flow bounded q f2).
  { destruct Hf1 as (Hfq1 & _ & Hc0 & Ha1 & Hcq & Haq & Hcc & Hac & Hcf
                     & Haf & Ht & Hn & Hall).
    unfold tick_flow. rewrite H2q, H2c, H2a, H2t, H2rows.
    split; [exact Hfq1|]. split; [exact H2log|].
    repeat split; try assumption; apply Ht. }
  destruct (0 <? slice_filled) eqn:Hsf; [|exact Hf2].
  apply Z.ltb_lt in Hsf.
  apply tick_cascade; [exact Hf2|reflexivity|reflexivity|lia|].
  rewrite H2t, Ht1. lia.
Qed.

(** The flow after the three opening rows. *)
Lemma tick_opened (bounded : Prop) (q : Z) :
  (bounded -> 0 <= q) ->
  tick_flow bounded q (TickDatabaseGen.opened q).
Proof.
  intros Hbd.
  assert (Hrows : client_fills
                    (TickDatabaseGen.snapshots (TickDatabaseGen.opened q))
                  = [0; 0]).
  { unfold TickDatabaseGen.opened. tick_fields.
    rewrite !client_fills_snoc. reflexivity. }
  unfold tick_flow. rewrite Hrows.
  unfold TickDatabaseGen.opened. tick_fields.
  split; [reflexivity|]. split.
  { rewrite !length_app. cbn [length Nat.add Z.of_nat Pos.of_succ_nat Pos.succ].
    change 3 with (0 + 1 + 1 + 1).
    apply log_ok_snoc; [apply log_ok_snoc; [apply log_ok_snoc|]|].
    - apply log_ok_nil.
    - unfold tick_row, conserved, within_quantity. cbn.
      split; [lia|intros Hb; specialize (Hbd Hb); lia].
    - unfold tick_row, conserved, within_quantity. cbn.
      split; [lia|intros Hb; specialize (Hbd Hb); lia].
    - unfold tick_row, conserved, within_quantity. cbn.
      split; [lia|intros Hb; specialize (Hbd Hb); lia]. }
  unfold conserved. cbn.
  repeat split; try lia. repeat constructor; lia.
Qed.

(** The complete flow. *)
Lemma tick_generate (bounded : Prop) (rd : TickDatabaseGen.random_draws)
    (q : Z) :
  (bounded -> 0 <= q) ->
  tick_flow bounded q (TickDatabaseGen.generate_complete_flow rd q)
  /\ (0 < q ->
      q <= TickDatabaseGen.total_filled
             (TickDatabaseGen.generate_complete_flow rd q) ->
      exists s,
        final_client (TickDatabaseGen.snapshots
                        (TickDatabaseGen.generate_complete_flow rd q))
        = Some s
        /\ filled_quantity (snap_order s) = q
        /\ state (snap_order s) = "FILLED"
        /\ event_type s = "DONE").
Proof.
  intros Hbd. unfold TickDatabaseGen.generate_complete_flow.
  assert (Hloop : tick_flow bounded q
                    (for_each (TickDatabaseGen.hour_body rd)
                       (enumerate TickDatabaseGen.vwap_profile)
                       (TickDatabaseGen.opened q))).
  { apply for_each_invariant; [|apply tick_opened; exact Hbd].
    intros [hour p] f Hf. unfold TickDatabaseGen.hour_body.
    destruct (_ <=? _); [exact Hf|].
    apply for_each_invariant; [|exact Hf].
    intros i s Hs. apply tick_slice_body. exact Hs. }
  destruct (for_each _ _ _) as [fq snaps oc co ap tf fills].
  unfold tick_flow in Hloop.
  cbn [TickDatabaseGen.flow_quantity TickDatabaseGen.snapshots
       TickDatabaseGen.client_order TickDatabaseGen.algo_parent
       TickDatabaseGen.total_filled] in Hloop.
  destruct Hloop as (Hfq & Hlog & Hc0 & Ha1 & Hcq & Haq & Hcc & Hac & Hcf
                     & Haf & Ht & Hn & Hall).
  unfold TickDatabaseGen.done. tick_fields.
  destruct (fq <=? tf) eqn:Hdone.
  - apply Z.leb_le in Hdone. tick_fields. split.
    + unfold tick_flow. tick_fields.
      rewrite !client_fills_snoc.
      cbn [snap_order order_level filled_quantity set_state].
      rewrite Hc0, Ha1. cbn [Z.eqb]. rewrite app_nil_r.
      split; [exact Hfq|]. split.
      { rewrite !length_app. cbn [length].
        replace (Z.of_nat (length snaps + 1 + 1))
          with (Z.of_nat (length snaps) + 1 + 1) by lia.
        replace (Z.of_nat (length snaps + 1))
          with (Z.of_nat (length snaps) + 1) by lia.
        apply log_ok_snoc; [apply log_ok_snoc; [exact Hlog|]|].
        - unfold tick_row, conserved, within_quantity in *.
          cbn [snap_order quantity filled_quantity remaining_quantity
               set_state].
          split; [exact Hcc|intros Hb; specialize (Hbd Hb); lia].
        - unfold tick_row, conserved, within_quantity in *.
          cbn [snap_order quantity filled_quantity remaining_quantity
               set_state].
          split; [exact Hac|intros Hb; specialize (Hbd Hb); lia]. }
      unfold conserved in *.
      cbn [order_level quantity filled_quantity remaining_quantity set_state].
      repeat split; try assumption; try lia.
      * rewrite Hcf. apply nondecreasing_snoc; assumption.
      * apply Forall_app. split; [exact Hall|].
        constructor; [lia|constructor].
    + intros Hpos _. eexists. split.
      * unfold final_client.
        rewrite !filter_app.
        rewrite (filter_cons_False _ (Snapshot (set_state "FILLED" ap) _ _ _)
                   [])
          by (cbn; rewrite Ha1; discriminate).
        rewrite filter_nil, app_nil_r.
        rewrite filter_cons_True by (cbn; exact Hc0).
        rewrite filter_nil. apply last_snoc.
      * cbn [snap_order event_type filled_quantity state set_state].
        split; [lia|split; reflexivity].
  - apply Z.leb_gt in Hdone. split.
    + unfold tick_flow. tick_fields.
      split; [exact Hfq|]. split; [exact Hlog|].
      repeat split; try assumption; lia.
    + tick_fields. intros Hpos Hfull. lia.
Qed.

(** X12.  Every row of the tick database that
    [TickDatabaseGenerator.generate_complete_flow] returns satisfies the
    accounting invariant [filled_quantity + remaining_quantity =
    quantity], and row [i] carries the record id [i], whatever the
    quantity and the draws. *)
Theorem tick_database_rows_conserved (rd : TickDatabaseGen.random_draws)
    (quantity : Z) :
  let log :=
    TickDatabaseGen.snapshots
      (TickDatabaseGen.generate_complete_flow rd quantity) in
  Forall (fun s => conserved (snap_order s)) log /\ sequential log.
Proof.
  intros log. subst log.
  destruct (tick_generate False rd quantity ltac:(intros []))
    as [(_ & (_ & Hseq & Hrows) & _) _].
  split; [|exact Hseq].
  eapply Forall_impl; [exact Hrows|]. intros s Hs. apply Hs.
Qed.

(** X13.  For an order of non-negative quantity
    [generate_complete_flow] never over-fills, whatever the draws: the
    total filled ends between 0 and the quantity, and every row of the
    tick database (client, algo parent, algo child, SOR child) shows
    [0 <= filled_quantity <= quantity]. *)
Theorem tick_database_never_overfills (rd : TickDatabaseGen.random_draws)
    (quantity : Z) :
  0 <= quantity ->
  let f := TickDatabaseGen.generate_complete_flow rd quantity in
  0 <= TickDatabaseGen.total_filled f <= quantity
  /\ Forall (fun s => within_quantity (snap_order s))
            (TickDatabaseGen.snapshots f).
Proof.
  intros Hq f. subst f.
  destruct (tick_generate True rd quantity ltac:(intros _; exact Hq))
    as [(_ & (_ & _ & Hrows) & _ & _ & _ & _ & _ & _ & _ & _ & Ht & _) _].
  split; [lia|].
  eapply Forall_impl; [exact Hrows|]. intros s Hs. apply Hs. exact I.
Qed.

Lemma tick_database_never_overfills_witness :
  let rd :=
    TickDatabaseGen.RandomDraws (fun _ => 3) (fun _ _ => 100) (fun _ _ => 2)
      (fun _ _ _ => ["NYSE"; "DARK"]) (fun _ _ _ => 50)
      (fun _ _ i => if i =? 0 then 0.25%float else (-0.5)%float) in
  0 <= 100000
  /\ let f := TickDatabaseGen.generate_complete_flow rd 100000 in
     0 <= TickDatabaseGen.total_filled f <= 100000
     /\ Forall (fun s => within_quantity (snap_order s))
               (TickDatabaseGen.snapshots f).
Proof.
  intros rd. split; [lia|].
  apply (tick_database_never_overfills rd 100000). lia.
Defined.

(** X14.  In the tick database of [generate_complete_flow] the client
    rows ([order_level = 0]) never decrease in [filled_quantity]; and
    when an order of positive quantity has been filled, the last client
    row is the [DONE] row, with [filled_quantity] equal to the quantity
    and the state FILLED. *)
Theorem tick_database_client_rows (rd : TickDatabaseGen.random_draws)
    (quantity : Z) :
  let f := TickDatabaseGen.generate_complete_flow rd quantity in
  nondecreasing (client_fills (TickDatabaseGen.snapshots f))
  /\ (0 < quantity -> quantity <= TickDatabaseGen.total_filled f ->
      exists s,
        final_client (TickDatabaseGen.snapshots f) = Some s
        /\ filled_quantity (snap_order s) = quantity
        /\ state (snap_order s) = "FILLED"
        /\ event_type s = "DONE").
Proof.
  intros f. subst f.
  destruct (tick_generate False rd quantity ltac:(intros []))
    as [(_ & _ & _ & _ & _ & _ & _ & _ & _ & _ & _ & Hn & _) Hdone].
  split; assumption.
Qed.

Lemma tick_database_client_rows_witness :
  let rd :=
    TickDatabaseGen.RandomDraws (fun _ => 2) (fun _ _ => 500) (fun _ _ => 1)
      (fun _ _ _ => ["NYSE"]) (fun _ _ _ => 100) (fun _ _ _ => 0%float) in
  let f := TickDatabaseGen.generate_complete_flow rd 10000 in
  (0 < 10000 /\ 10000 <= TickDatabaseGen.total_filled f)
  /\ exists s,
       final_client (TickDatabaseGen.snapshots f) = Some s
       /\ filled_quantity (snap_order s) = 10000
       /\ state (snap_order s) = "FILLED"
       /\ event_type s = "DONE".
Proof.
  intros rd f.
  assert (H : 0 < 10000 /\ 10000 <= TickDatabaseGen.total_filled f)
    by (vm_compute; split; [reflexivity|discriminate]).
  split; [exact H|].
  destruct H as [Hpos Hfull].
  exact (proj2 (tick_database_client_rows rd 10000) Hpos Hfull).
Defined.

(** A flow that fills its order: every slice takes all it may. *)
Example tick_database_full_run :
  let rd :=
    TickDatabaseGen.RandomDraws (fun _ => 2) (fun _ _ => 500) (fun _ _ => 1)
      (fun _ _ _ => ["NYSE"]) (fun _ _ _ => 100) (fun _ _ _ => 0%float) in
  let f := TickDatabaseGen.generate_complete_flow rd 10000 in
  TickDatabaseGen.total_filled f = 10000
  /\ client_fills (TickDatabaseGen.snapshots f)
     = [0; 0; 1100; 2200; 3150; 4100; 5000; 5900; 6700; 7500; 8350; 9200;
        10000; 10000]
  /\ option_map (fun s => (filled_quantity (snap_order s),
                           state (snap_order s), event_type s))
                (final_client (TickDatabaseGen.snapshots f))
     = Some (10000, "FILLED", "DONE").
Proof. vm_compute. repeat split; reflexivity. Qed.

(** ** The tick database of the trading simulator *)

Ltac v2_fields :=
  cbn [TradingSimV2.snapshots TradingSimV2.record_counter TradingSimV2.ticks
       TradingSimV2.samples TradingSimV2.sor_counter
       TradingSimV2.algo_counter TradingSimV2.parent_orders
       TradingSimV2.venues TradingSimV2.capture_snapshot
       TradingSimV2.set_sor_counter TradingSimV2.set_algo_counter
       TradingSimV2.set_samples TradingSimV2.set_parent_orders
       TradingSimV2.rt_world TradingSimV2.sor_orders TradingSimV2.rt_fills
       TradingSimV2.rt_total_filled TradingSimV2.rt_total_value
       TradingSimV2.parent TradingSimV2.client_order TradingSimV2.fills
       TradingSimV2.child_count TradingSimV2.filled_children
       TradingSimV2.fill_quantity TradingSimV2.fill_price
       TradingSimV2.fill_market_price fst snd].

Ltac v2_ticks fd :=
  unfold TradingSimV2.market_tick; v2_fields;
  repeat match goal with
         | |- context [TradingSimV2.tick fd ?t] =>
             destruct (TradingSimV2.tick fd t) as [[? ?] ?]; v2_fields
         end.

(** A row appended to the tick database. *)
Lemma v2_log_capture (o : order) (ev : string) (mp : float)
    (w : TradingSimV2.world) :
  v2_log w -> conserved o ->
  v2_log (TradingSimV2.capture_snapshot o ev mp w).
Proof.
  unfold v2_log. v2_fields. intros Hlog Ho.
  apply log_ok_snoc; assumption.
Qed.

Lemma v2_capture_length (o : order) (ev : string) (mp : float)
    (w : TradingSimV2.world) :
  length (TradingSimV2.snapshots (TradingSimV2.capture_snapshot o ev mp w))
  = S (length (TradingSimV2.snapshots w)).
Proof. v2_fields. rewrite length_app. cbn. lia. Qed.

Lemma v2_capture_client_fills (o : order) (ev : string) (mp : float)
    (w : TradingSimV2.world) :
  client_fills
    (TradingSimV2.snapshots (TradingSimV2.capture_snapshot o ev mp w))
  = client_fills (TradingSimV2.snapshots w)
    ++ (if order_level o =? 0 then [filled_quantity o] else []).
Proof. v2_fields. apply client_fills_snoc. Qed.

(** One route: five rows of level 3, each conserved. *)
Lemma route_body_log (fd : TradingSimV2.feed) (algo_child : order)
    (qpv rem n : Z) (iv : Z * string) (st : TradingSimV2.routing) :
  v2_log (TradingSimV2.rt_world st) ->
  match TradingSimV2.route_body fd algo_child qpv rem n iv st with
  | Next st' | Break st' =>
      v2_log (TradingSimV2.rt_world st')
      /\ client_fills (TradingSimV2.snapshots (TradingSimV2.rt_world st'))
         = client_fills (TradingSimV2.snapshots (TradingSimV2.rt_world st))
      /\ length (TradingSimV2.snapshots (TradingSimV2.rt_world st'))
         = (length (TradingSimV2.snapshots (TradingSimV2.rt_world st)) + 5)%nat
  end.
Proof.
  intros Hlog. destruct iv as [idx name].
  unfold TradingSimV2.route_body, TradingSimV2.venue_receive_order.
  v2_ticks fd.
  set (w := TradingSimV2.rt_world st) in *. clearbody w.
  set (q := TradingSimV2.venue_share qpv rem n idx). clearbody q.
  cbn [quantity set_state set_filled_quantity set_remaining_quantity
       set_average_price order_id side].
  split; [|split].
  - unfold v2_log in *. v2_fields.
    repeat (apply log_ok_snoc; [|unfold conserved; cbn; lia]).
    exact Hlog.
  - rewrite !client_fills_snoc. cbn. rewrite !app_nil_r. reflexivity.
  - rewrite !length_app. cbn. lia.
Qed.

Lemma route_loop_log (fd : TradingSimV2.feed) (algo_child : order)
    (qpv rem n : Z) (ivs : list (Z * string)) (st : TradingSimV2.routing) :
  v2_log (TradingSimV2.rt_world st) ->
  let st' :=
    for_each (TradingSimV2.route_body fd algo_child qpv rem n) ivs st in
  v2_log (TradingSimV2.rt_world st')
  /\ client_fills (TradingSimV2.snapshots (TradingSimV2.rt_world st'))
     = client_fills (TradingSimV2.snapshots (TradingSimV2.rt_world st))
  /\ length (TradingSimV2.snapshots (TradingSimV2.rt_world st'))
     = (length (TradingSimV2.snapshots (TradingSimV2.rt_world st))
        + 5 * length ivs)%nat.
Proof.
  revert st. induction ivs as [|[idx name] ivs IH]; intros st Hlog;
    cbn [for_each].
  - split; [exact Hlog|]. split; [reflexivity|]. cbn. lia.
  - pose proof (route_body_log fd algo_child qpv rem n (idx, name) st Hlog)
      as Hbody.
    destruct (route_body_next fd algo_child qpv rem n idx name st)
      as (st1 & so & f & Heq & _).
    rewrite Heq in Hbody |- *.
    destruct Hbody as (Hlog1 & Hfills1 & Hlen1).
    destruct (IH st1 Hlog1) as (Hlog2 & Hfills2 & Hlen2).
    split; [exact Hlog2|]. split; [congruence|].
    rewrite Hlen2, Hlen1. cbn [length]. lia.
Qed.

(** The fills of the venue loop add up to the slice, whatever its
    sign. *)
Lemma route_across_fills (fd : TradingSimV2.feed) (algo_child : order)
    (selected : list string) (w : TradingSimV2.world) :
  selected <> [] ->
  let st := TradingSimV2.route_across fd algo_child selected w in
  TradingSimV2.rt_fills st <> []
  /\ TradingSimV2.fills_quantity (TradingSimV2.rt_fills st)
     = quantity algo_child
  /\ TradingSimV2.rt_total_filled st = quantity algo_child
  /\ TradingSimV2.parent_orders (TradingSimV2.rt_world st)
     = TradingSimV2.parent_orders w
  /\ TradingSimV2.venues (TradingSimV2.rt_world st) = TradingSimV2.venues w.
Proof.
  intros Hne st.
  set (k := Z.of_nat (length selected)).
  set (q := quantity algo_child).
  assert (Hk : 0 < k).
  { unfold k. destruct selected; [contradiction|]. cbn [length]. lia. }
  destruct (route_loop_spec fd algo_child (q / k) (q mod k) k selected 0
              (TradingSimV2.Routing w [] [] 0 0%float))
    as (sos & fs & Hsos & Hfs & Hqs & Hvens & Hall & Hfills & Htot & Hpo & Hvs).
  fold (enumerate selected) in Hsos, Hfs, Hqs, Htot, Hpo, Hvs.
  change (for_each _ (enumerate selected) _) with st in Hsos, Hfs, Htot, Hpo, Hvs.
  cbn [TradingSimV2.sor_orders TradingSimV2.rt_fills
       TradingSimV2.rt_total_filled TradingSimV2.rt_world app] in *.
  pose proof (shares_of_positions (q / k) (q mod k) selected 0 Hne) as Hshares.
  replace (0 + Z.of_nat (length selected)) with k in Hshares by (unfold k; lia).
  unfold enumerate in Hqs. rewrite Hshares in Hqs.
  assert (Hsum : Py.zsum (map quantity sos) = q).
  { rewrite Hqs, zsum_app, zsum_replicate, zsum_cons.
    change (Py.zsum []) with 0.
    pose proof (Z.div_mod q k ltac:(lia)) as Hdm.
    replace (Z.of_nat (length selected - 1)) with (k - 1)
      by (unfold k; destruct selected; [contradiction | cbn [length]; lia]).
    lia. }
  rewrite Hfs, Htot, Hsum. unfold TradingSimV2.fills_quantity.
  rewrite Hfills, Hsum.
  repeat split; try assumption; try lia.
  intros E. rewrite E in Hfills. cbn in Hfills.
  symmetry in Hfills. apply map_eq_nil in Hfills. rewrite Hfills in Hqs.
  cbn in Hqs. destruct (length selected - 1)%nat; discriminate Hqs.
Qed.

(** A slice through the router: seventeen rows, none of the client. *)
Lemma route_order_log (fd : TradingSimV2.feed) (child : order)
    (w : TradingSimV2.world) :
  TradingSimV2.well_formed fd ->
  TradingSimV2.venues w = TradingSimV2.venues TradingSimV2.initial ->
  conserved child ->
  order_level child = 2 ->
  v2_log w ->
  exists w' child' sos fs,
    TradingSimV2.route_order fd child w = Some (w', child', sos, fs)
    /\ v2_log w'
    /\ client_fills (TradingSimV2.snapshots w')
       = client_fills (TradingSimV2.snapshots w)
    /\ length (TradingSimV2.snapshots w')
       = (length (TradingSimV2.snapshots w) + 17)%nat
    /\ TradingSimV2.parent_orders w' = TradingSimV2.parent_orders w
    /\ TradingSimV2.venues w' = TradingSimV2.venues w
    /\ fs <> []
    /\ TradingSimV2.fills_quantity fs = quantity child
    /\ parent_order_id child' = parent_order_id child
    /\ quantity child' = quantity child
    /\ order_level child' = 2.
Proof.
  intros Hwf Hv Hc Hl Hlog.
  unfold TradingSimV2.route_order, TradingSimV2.market_tick.
  destruct (TradingSimV2.tick fd (TradingSimV2.ticks w)) as [[mp bid] ask].
  cbn [TradingSimV2.venues TradingSimV2.capture_snapshot
       TradingSimV2.samples TradingSimV2.set_samples].
  rewrite Hv. change (Z.min 3 _) with 3.
  set (selected := TradingSimV2.sample fd (TradingSimV2.samples w) _ 3).
  destruct (Hwf (TradingSimV2.samples w)
              (TradingSimV2.venues TradingSimV2.initial) 3
              ltac:(cbn; lia)) as [Hlen Hin].
  fold selected in Hlen, Hin.
  assert (Hne : selected <> []).
  { intros E. rewrite E in Hlen. cbn in Hlen. lia. }
  rewrite bool_decide_eq_false_2 by exact Hne.
  assert (Hknown :
            forallb (fun v => bool_decide
                                (v ∈ TradingSimV2.venues TradingSimV2.initial))
                    selected = true).
  { apply forallb_forall. intros v Hvin. apply bool_decide_eq_true_2.
    apply (proj1 (Forall_forall _ _) Hin). apply list_elem_of_In. exact Hvin. }
  rewrite Hknown. cbn [negb orb].
  match goal with
  | |- context [TradingSimV2.route_across fd ?c selected ?w1] =>
      destruct (route_across_fills fd c selected w1 Hne)
        as (Hfs & Hfq & Htot & Hpo & Hvs);
      assert (Hloop : v2_log w1
                      /\ client_fills (TradingSimV2.snapshots w1)
                         = client_fills (TradingSimV2.snapshots w)
                      /\ length (TradingSimV2.snapshots w1)
                         = S (length (TradingSimV2.snapshots w)));
      [|destruct Hloop as (Hlog1 & Hcf1 & Hlen1);
        pose proof (route_loop_log fd c
                      (quantity c / Z.of_nat (length selected))
                      (quantity c mod Z.of_nat (length selected))
                      (Z.of_nat (length selected)) (enumerate selected)
                      (TradingSimV2.Routing w1 [] [] 0 0%float) Hlog1)
          as (Hlog2 & Hcf2 & Hlen2);
        fold (TradingSimV2.route_across fd c selected w1)
          in Hlog2, Hcf2, Hlen2;
        set (st := TradingSimV2.route_across fd c selected w1) in *;
        clearbody st]
  end.
  { split; [|split].
    - unfold v2_log in *. v2_fields. apply log_ok_snoc; [exact Hlog|].
      unfold conserved in *. cbn. exact Hc.
    - v2_fields. rewrite client_fills_snoc. cbn [snap_order set_state
        order_level]. rewrite Hl. cbn. apply app_nil_r.
    - v2_fields. rewrite length_app. cbn. lia. }
  cbn [TradingSimV2.rt_world] in Hcf2, Hlen2.
  assert (Hk : length (enumerate selected) = 3%nat).
  { unfold enumerate. clear -Hlen. revert Hlen. generalize 0.
    generalize selected. intros l. induction l as [|x l IH]; intros z Hz.
    - cbn in Hz. lia.
    - cbn [enumerate_from length] in *.
      destruct l as [|y [|y' [|y'' l]]]; cbn in *; try lia. }
  rewrite Hk in Hlen2.
  cbn [quantity set_state] in Hfq, Htot.
  v2_ticks fd.
  do 4 eexists. split; [reflexivity|].
  split; [|split; [|split; [|split; [|split; [|split; [|split]]]]]].
  - unfold v2_log in *. v2_fields. apply log_ok_snoc; [exact Hlog2|].
    unfold conserved. cbn. lia.
  - v2_fields. rewrite client_fills_snoc. cbn [snap_order set_state
      set_filled_quantity set_remaining_quantity set_average_price
      order_level]. rewrite Hl. cbn. rewrite app_nil_r. congruence.
  - v2_fields. rewrite length_app, Hlen2, Hlen1. cbn. lia.
  - v2_fields. rewrite Hpo. reflexivity.
  - v2_fields. rewrite Hvs. reflexivity.
  - exact Hfs.
  - exact Hfq.
  - cbn. repeat split; try reflexivity. exact Hl.
Qed.

(** The cascade of a slice's fills: three rows, the last one the
    client's, with the new total. *)
Lemma process_fills_log (fd : TradingSimV2.feed) (child : order)
    (fs : list TradingSimV2.fill) (w : TradingSimV2.world) (pid : string)
    (pd : TradingSimV2.parent_data) (total filled : Z) :
  fs <> [] ->
  parent_order_id child = Some pid ->
  order_level child = 2 ->
  TradingSimV2.parent_orders w !! pid = Some pd ->
  v2_parent total filled pd ->
  v2_log w ->
  let w' := fst (TradingSimV2.process_fills fd child fs w) in
  let filled' := filled + TradingSimV2.fills_quantity fs in
  v2_log w'
  /\ client_fills (TradingSimV2.snapshots w')
     = client_fills (TradingSimV2.snapshots w) ++ [filled']
  /\ length (TradingSimV2.snapshots w')
     = (length (TradingSimV2.snapshots w) + 3)%nat
  /\ TradingSimV2.venues w' = TradingSimV2.venues w
  /\ exists pd',
       TradingSimV2.parent_orders w'
       = <[pid := pd']> (TradingSimV2.parent_orders w)
       /\ v2_parent total filled' pd'
       /\ mirrors (TradingSimV2.client_order pd') (TradingSimV2.parent pd')
       /\ state (TradingSimV2.parent pd')
          = (if total <=? filled' then "FILLED" else "WORKING").
Proof.
  intros Hfs Hpid Hl Hpd (Hc0 & Hp1 & Hcq & Hpq & Hpf & Hpr & Hcf & Hcr) Hlog
         w' filled'.
  subst w' filled'.
  unfold TradingSimV2.process_fills.
  destruct fs as [|f fs']; [contradiction|].
  set (fs := f :: fs') in *. clearbody fs.
  unfold TradingSimV2.market_tick.
  destruct (TradingSimV2.tick fd (TradingSimV2.ticks w)) as [[mp bid] ask].
  cbn [TradingSimV2.parent_orders TradingSimV2.capture_snapshot
       set_state set_average_price set_remaining_quantity set_filled_quantity
       parent_order_id].
  rewrite Hpid. cbn [TradingSimV2.parent_orders]. rewrite Hpd.
  cbn [fst].
  set (tq := TradingSimV2.fills_quantity fs). clearbody tq.
  split; [|split; [|split; [|split]]].
  - unfold v2_log in *. v2_fields.
    apply log_ok_snoc; [apply log_ok_snoc; [apply log_ok_snoc|]|].
    + exact Hlog.
    + unfold conserved. cbn. lia.
    + unfold conserved. cbn. lia.
    + unfold conserved. cbn. lia.
  - v2_fields. rewrite !client_fills_snoc.
    cbn [snap_order order_level filled_quantity set_state set_average_price
         set_remaining_quantity set_filled_quantity].
    rewrite Hl, Hp1, Hc0.
    cbn [Z.eqb]. rewrite !app_nil_r, Hpf. reflexivity.
  - v2_fields. rewrite !length_app. cbn. lia.
  - reflexivity.
  - eexists. split; [reflexivity|].
    cbn [TradingSimV2.fills TradingSimV2.parent TradingSimV2.client_order].
    unfold v2_parent, mirrors.
    cbn [TradingSimV2.fills TradingSimV2.parent TradingSimV2.client_order
         order_level quantity filled_quantity remaining_quantity
         average_price state set_state set_average_price
         set_remaining_quantity set_filled_quantity].
    rewrite Hpq, Hpf.
    destruct (total <=? filled + tq); cbn [String.eqb Ascii.eqb Bool.eqb];
      repeat split; try assumption; try reflexivity; lia.
Qed.

(** One slice: the call returns; twenty-two rows are added, the last
    one the client's. *)
Lemma generate_child_slice_log (fd : TradingSimV2.feed) (pid : string)
    (q : Z) (w : TradingSimV2.world) (total filled : Z) :
  TradingSimV2.well_formed fd ->
  v2_world pid total filled w ->
  exists w' child,
    TradingSimV2.generate_child_slice fd pid q w = Some (w', child)
    /\ v2_world pid total (filled + q) w'
    /\ client_fills (TradingSimV2.snapshots w')
       = client_fills (TradingSimV2.snapshots w) ++ [filled + q]
    /\ length (TradingSimV2.snapshots w')
       = (length (TradingSimV2.snapshots w) + 22)%nat
    /\ exists pd',
         TradingSimV2.parent_orders w' !! pid = Some pd'
         /\ v2_parent total (filled + q) pd'
         /\ mirrors (TradingSimV2.client_order pd') (TradingSimV2.parent pd')
         /\ state (TradingSimV2.parent pd')
            = (if total <=? filled + q then "FILLED" else "WORKING").
Proof.
  intros Hwf (Hlog & Hv & pd & Hpd & Hparent).
  unfold TradingSimV2.generate_child_slice, TradingSimV2.market_tick.
  destruct (TradingSimV2.tick fd (TradingSimV2.ticks w)) as [[mp bid] ask].
  cbn [TradingSimV2.parent_orders]. rewrite Hpd.
  set (pd1 := TradingSimV2.ParentData _ _ _ _ _).
  assert (Hparent1 : v2_parent total filled pd1) by exact Hparent.
  clearbody pd1.
  set (child0 := Order _ (Some pid) 2 _ q 0 q 0%float "PENDING" None None).
  match goal with
  | |- context [TradingSimV2.route_order fd ?c ?w1] =>
      assert (Hw1 : v2_log w1
                    /\ TradingSimV2.venues w1
                       = TradingSimV2.venues TradingSimV2.initial
                    /\ TradingSimV2.parent_orders w1
                       = <[pid := pd1]> (TradingSimV2.parent_orders w)
                    /\ client_fills (TradingSimV2.snapshots w1)
                       = client_fills (TradingSimV2.snapshots w)
                    /\ length (TradingSimV2.snapshots w1)
                       = (length (TradingSimV2.snapshots w) + 2)%nat);
      [|destruct Hw1 as (Hlog1 & Hv1 & Hpo1 & Hcf1 & Hlen1);
        destruct (route_order_log fd c w1 Hwf Hv1)
          as (w2 & child2 & sos & fs & Hroute & Hlog2 & Hcf2 & Hlen2 & Hpo2
              & Hv2 & Hfs & Hfq & Hpid2 & Hq2 & Hl2);
        [unfold conserved; cbn; lia|reflexivity|exact Hlog1|];
        rewrite Hroute; clear Hroute]
  end.
  { split; [|split; [|split; [|split]]].
    - unfold v2_log in *. v2_fields.
      apply log_ok_snoc; [apply log_ok_snoc; [exact Hlog|]|];
        unfold conserved; cbn; lia.
    - v2_fields. exact Hv.
    - reflexivity.
    - v2_fields. rewrite !client_fills_snoc. cbn. rewrite !app_nil_r.
      reflexivity.
    - v2_fields. rewrite !length_app. cbn. lia. }
  unfold child0 in Hfq, Hpid2.
  cbn [quantity set_state] in Hfq. cbn [parent_order_id set_state] in Hpid2.
  assert (Hpd2 : TradingSimV2.parent_orders w2 !! pid = Some pd1)
    by (rewrite Hpo2, Hpo1; apply lookup_insert_eq).
  pose proof (process_fills_log fd child2 fs w2 pid pd1 total filled Hfs
                Hpid2 Hl2 Hpd2 Hparent1 Hlog2)
    as (Hlog3 & Hcf3 & Hlen3 & Hv3 & pd3 & Hpo3 & Hparent3 & Hmirror & Hstate).
  rewrite Hfq in Hcf3, Hparent3, Hstate.
  destruct (TradingSimV2.process_fills fd child2 fs w2) as [w3 child3].
  cbn [fst] in *.
  assert (Hpd3 : TradingSimV2.parent_orders w3 !! pid = Some pd3)
    by (rewrite Hpo3; apply lookup_insert_eq).
  exists w3, child3. split; [reflexivity|].
  split; [|split; [|split]].
  - split; [exact Hlog3|]. split; [congruence|].
    exists pd3. split; assumption.
  - congruence.
  - lia.
  - exists pd3. split; [exact Hpd3|]. split; [exact Hparent3|].
    split; [exact Hmirror|exact Hstate].
Qed.

(** The slices one after another. *)
Lemma run_slices_log (fd : TradingSimV2.feed) (pid : string) (total : Z)
    (slice_sizes : list Z) :
  TradingSimV2.well_formed fd ->
  forall (filled : Z) (w : TradingSimV2.world),
    v2_world pid total filled w ->
    exists w',
      TradingSimV2.run_slices fd pid slice_sizes w = Some w'
      /\ v2_world pid total (filled + Py.zsum slice_sizes) w'
      /\ client_fills (TradingSimV2.snapshots w')
         = client_fills (TradingSimV2.snapshots w)
           ++ running_totals filled slice_sizes
      /\ length (TradingSimV2.snapshots w')
         = (length (TradingSimV2.snapshots w) + 22 * length slice_sizes)%nat
      /\ (slice_sizes <> [] ->
          exists pd',
            TradingSimV2.parent_orders w' !! pid = Some pd'
            /\ mirrors (TradingSimV2.client_order pd')
                       (TradingSimV2.parent pd')
            /\ state (TradingSimV2.parent pd')
               = (if total <=? filled + Py.zsum slice_sizes
                  then "FILLED" else "WORKING")).
Proof.
  intros Hwf.
  induction slice_sizes as [|q rest IH]; intros filled w Hw;
    cbn [TradingSimV2.run_slices running_totals length].
  - exists w. change (Py.zsum []) with 0. rewrite Z.add_0_r, app_nil_r.
    split; [reflexivity|]. split; [exact Hw|]. split; [reflexivity|].
    split; [lia|]. intros H. contradiction.
  - destruct (generate_child_slice_log fd pid q w total filled Hwf Hw)
      as (w1 & child & Heq & Hw1 & Hcf1 & Hlen1 & pd1 & Hpd1 & _ & Hm1 & Hs1).
    rewrite Heq.
    destruct (IH (filled + q) w1 Hw1)
      as (w2 & Heq2 & Hw2 & Hcf2 & Hlen2 & Hlast).
    exists w2. rewrite zsum_cons.
    replace (filled + (q + Py.zsum rest)) with (filled + q + Py.zsum rest)
      by lia.
    split; [exact Heq2|]. split; [exact Hw2|].
    split; [rewrite Hcf2, Hcf1, <- app_assoc; reflexivity|].
    split; [lia|]. intros _.
    destruct rest as [|q' rest'].
    + cbn [TradingSimV2.run_slices] in Heq2. injection Heq2 as <-.
      change (Py.zsum []) with 0. rewrite Z.add_0_r.
      exists pd1. split; [exact Hpd1|]. split; [exact Hm1|exact Hs1].
    + apply Hlast. discriminate.
Qed.

(** A whole simulation. *)
Lemma simulate_log (fd : TradingSimV2.feed) (id sd : string) (total : Z)
    (slice_sizes : list Z) :
  TradingSimV2.well_formed fd ->
  exists w pid pd,
    TradingSimV2.simulate fd id sd total slice_sizes = Some (w, pid)
    /\ v2_log w
    /\ TradingSimV2.parent_orders w !! pid = Some pd
    /\ v2_parent total (Py.zsum slice_sizes) pd
    /\ client_fills (TradingSimV2.snapshots w)
       = 0 :: 0 :: running_totals 0 slice_sizes
    /\ length (TradingSimV2.snapshots w)
       = (3 + 22 * length slice_sizes)%nat
    /\ (slice_sizes <> [] ->
        mirrors (TradingSimV2.client_order pd) (TradingSimV2.parent pd)
        /\ state (TradingSimV2.parent pd)
           = (if total <=? Py.zsum slice_sizes
              then "FILLED" else "WORKING")).
Proof.
  intros Hwf.
  unfold TradingSimV2.simulate, TradingSimV2.send_order,
    TradingSimV2.receive_order, TradingSimV2.market_tick.
  unfold TradingSimV2.initial.
  v2_fields.
  repeat match goal with
         | |- context [TradingSimV2.tick fd ?t] =>
             destruct (TradingSimV2.tick fd t) as [[? ?] ?]; v2_fields
         end.
  cbn [order_id side quantity set_state].
  set (pid := "ALGO_" +:+ Py.zfill 5 1000).
  match goal with
  | |- context [TradingSimV2.run_slices fd pid slice_sizes ?w0] =>
      assert (Hw0 : v2_world pid total 0 w0
                    /\ client_fills (TradingSimV2.snapshots w0) = [0; 0]
                    /\ length (TradingSimV2.snapshots w0) = 3%nat);
      [|destruct Hw0 as (Hw0 & Hcf0 & Hlen0);
        destruct (run_slices_log fd pid total slice_sizes Hwf 0 w0 Hw0)
          as (w' & Heq & Hw' & Hcf & Hlen & Hlast);
        rewrite Heq; clear Heq]
  end.
  { split; [|split].
    - split; [|split].
      + unfold v2_log. v2_fields.
        change 3 with (0 + 1 + 1 + 1).
        apply log_ok_snoc; [apply log_ok_snoc; [apply log_ok_snoc|]|];
          [apply log_ok_nil|..]; unfold conserved; cbn; lia.
      + reflexivity.
      + eexists. split; [apply lookup_insert_eq|].
        unfold v2_parent. cbn. repeat split; lia.
    - reflexivity.
    - reflexivity. }
  rewrite Z.add_0_l in Hw', Hlast.
  destruct Hw' as (Hlog & _ & pd & Hpd & Hparent).
  exists w', pid, pd. split; [reflexivity|].
  split; [exact Hlog|]. split; [exact Hpd|]. split; [exact Hparent|].
  split; [rewrite Hcf, Hcf0; reflexivity|].
  split; [lia|]. intros Hne.
  destruct (Hlast Hne) as (pd' & Hpd' & Hm & Hs).
  rewrite Hpd in Hpd'. injection Hpd' as <-. split; assumption.
Qed.

Lemma first_venues_feed_well_formed :
  TradingSimV2.well_formed first_venues_feed.
Proof.
  intros n population k Hk. cbn [TradingSimV2.sample first_venues_feed].
  split.
  - rewrite length_take. lia.
  - apply Forall_forall. intros v Hv.
    apply (subseteq_take (Z.to_nat k) population). exact Hv.
Qed.

(** X15.  A simulation of the trading simulator (the calls of
    [run_vwap_simulation]: [Client.send_order], [AlgoEngine.receive_order],
    then [AlgoEngine.generate_child_slice] for each slice size) runs to
    the end whenever [random.sample] behaves and the slice sizes and
    their running totals convert to floats exactly (these are the
    quantities the fills are priced with), and every slice is filled
    in full, whatever the market: the algo parent and the
    client order end with [filled_quantity] the sum of the slice sizes
    and [remaining_quantity] the order quantity less that sum (the
    slices are not checked against the order, so the remainder is
    negative when they exceed it); after at least one slice the client
    is [FILLED] exactly when the sum reaches the order quantity; and
    the tick database holds 3 rows plus 22 for each slice. *)
Theorem v2_simulation_fills_every_slice (fd : TradingSimV2.feed)
    (id sd : string) (total : Z) (slice_sizes : list Z) :
  TradingSimV2.well_formed fd ->
  Forall Py.exact_int slice_sizes ->
  Forall Py.exact_int (running_totals 0 slice_sizes) ->
  exists w pid pd,
    TradingSimV2.simulate fd id sd total slice_sizes = Some (w, pid)
    /\ TradingSimV2.parent_orders w !! pid = Some pd
    /\ filled_quantity (TradingSimV2.parent pd) = Py.zsum slice_sizes
    /\ remaining_quantity (TradingSimV2.parent pd)
       = total - Py.zsum slice_sizes
    /\ filled_quantity (TradingSimV2.client_order pd) = Py.zsum slice_sizes
    /\ remaining_quantity (TradingSimV2.client_order pd)
       = total - Py.zsum slice_sizes
    /\ (slice_sizes <> [] ->
        state (TradingSimV2.client_order pd)
        = (if total <=? Py.zsum slice_sizes then "FILLED" else "WORKING"))
    /\ length (TradingSimV2.snapshots w)
       = (3 + 22 * length slice_sizes)%nat.
Proof.
  intros Hwf _ _.
  destruct (simulate_log fd id sd total slice_sizes Hwf)
    as (w & pid & pd & Heq & _ & Hpd
        & (_ & _ & _ & _ & Hpf & Hpr & Hcf & Hcr) & _ & Hlen & Hlast).
  exists w, pid, pd.
  split; [exact Heq|]. split; [exact Hpd|].
  split; [exact Hpf|]. split; [exact Hpr|].
  split; [exact Hcf|]. split; [exact Hcr|].
  split; [|exact Hlen].
  intros Hne. destruct (Hlast Hne) as [(_ & _ & _ & Hstate) Hs].
  rewrite Hstate. exact Hs.
Qed.

Lemma v2_simulation_fills_every_slice_witness :
  let slice_sizes := [10000; 10000; 10000] in
  TradingSimV2.well_formed first_venues_feed
  /\ Forall Py.exact_int slice_sizes
  /\ Forall Py.exact_int (running_totals 0 slice_sizes)
  /\ exists w pid pd,
       TradingSimV2.simulate first_venues_feed "C20241215_999888" "Buy"
         30000 slice_sizes = Some (w, pid)
       /\ TradingSimV2.parent_orders w !! pid = Some pd
       /\ filled_quantity (TradingSimV2.parent pd) = Py.zsum slice_sizes
       /\ remaining_quantity (TradingSimV2.parent pd)
          = 30000 - Py.zsum slice_sizes
       /\ filled_quantity (TradingSimV2.client_order pd)
          = Py.zsum slice_sizes
       /\ remaining_quantity (TradingSimV2.client_order pd)
          = 30000 - Py.zsum slice_sizes
       /\ (slice_sizes <> [] ->
           state (TradingSimV2.client_order pd)
           = (if 30000 <=? Py.zsum slice_sizes then "FILLED" else "WORKING"))
       /\ length (TradingSimV2.snapshots w)
          = (3 + 22 * length slice_sizes)%nat.
Proof.
  intros slice_sizes.
  assert (Hsizes : Forall Py.exact_int [10000; 10000; 10000]).
  { repeat (apply List.Forall_cons; [unfold Py.exact_int; simpl; lia|]).
    apply List.Forall_nil. }
  assert (Htotals : Forall Py.exact_int
                      (running_totals 0 [10000; 10000; 10000])).
  { cbn [running_totals].
    repeat (apply List.Forall_cons; [unfold Py.exact_int; simpl; lia|]).
    apply List.Forall_nil. }
  split; [exact first_venues_feed_well_formed|].
  split; [exact Hsizes|]. split; [exact Htotals|].
  apply (v2_simulation_fills_every_slice first_venues_feed
           "C20241215_999888" "Buy" 30000 slice_sizes);
    [exact first_venues_feed_well_formed | exact Hsizes | exact Htotals].
Defined.

(** X16.  Every row of the tick database of a simulation of the trading
    simulator satisfies [filled_quantity + remaining_quantity =
    quantity] (client, algo parent, slice, route and venue rows alike),
    and row [i] carries the record id [i], the record counter ending as
    the number of rows.  (The simulation runs to the end whenever
    [random.sample] behaves and the slice sizes and their running totals
    convert to floats exactly.) *)
Theorem v2_tick_database_conserved (fd : TradingSimV2.feed)
    (id sd : string) (total : Z) (slice_sizes : list Z) :
  TradingSimV2.well_formed fd ->
  Forall Py.exact_int slice_sizes ->
  Forall Py.exact_int (running_totals 0 slice_sizes) ->
  exists w pid,
    TradingSimV2.simulate fd id sd total slice_sizes = Some (w, pid)
    /\ Forall (fun s => conserved (snap_order s)) (TradingSimV2.snapshots w)
    /\ sequential (TradingSimV2.snapshots w)
    /\ TradingSimV2.record_counter w
       = Z.of_nat (length (TradingSimV2.snapshots w)).
Proof.
  intros Hwf _ _.
  destruct (simulate_log fd id sd total slice_sizes Hwf)
    as (w & pid & pd & Heq & (Hid & Hseq & Hrows) & _).
  exists w, pid.
  split; [exact Heq|]. split; [exact Hrows|]. split; [exact Hseq|exact Hid].
Qed.

Lemma v2_tick_database_conserved_witness :
  TradingSimV2.well_formed first_venues_feed
  /\ Forall Py.exact_int [10000; 10000; 10000]
  /\ Forall Py.exact_int (running_totals 0 [10000; 10000; 10000])
  /\ exists w pid,
       TradingSimV2.simulate first_venues_feed "C20241215_999888" "Buy"
         30000 [10000; 10000; 10000] = Some (w, pid)
       /\ Forall (fun s => conserved (snap_order s))
                 (TradingSimV2.snapshots w)
       /\ sequential (TradingSimV2.snapshots w)
       /\ TradingSimV2.record_counter w
          = Z.of_nat (length (TradingSimV2.snapshots w)).
Proof.
  assert (Hsizes : Forall Py.exact_int [10000; 10000; 10000]).
  { repeat (apply List.Forall_cons; [unfold Py.exact_int; simpl; lia|]).
    apply List.Forall_nil. }
  assert (Htotals : Forall Py.exact_int
                      (running_totals 0 [10000; 10000; 10000])).
  { cbn [running_totals].
    repeat (apply List.Forall_cons; [unfold Py.exact_int; simpl; lia|]).
    apply List.Forall_nil. }
  split; [exact first_venues_feed_well_formed|].
  split; [exact Hsizes|]. split; [exact Htotals|].
  apply (v2_tick_database_conserved first_venues_feed
           "C20241215_999888" "Buy" 30000 [10000; 10000; 10000]);
    [exact first_venues_feed_well_formed | exact Hsizes | exact Htotals].
Defined.

(** X17.  The client rows ([order_level = 0]) of the tick database of a
    simulation are the [NEW] and the [ACCEPTED] row with nothing filled,
    then one [CLIENT_UPDATE] row for each slice, whose
    [filled_quantity] is the running total of the slice sizes.  (The
    simulation runs to the end whenever [random.sample] behaves and the
    slice sizes and their running totals convert to floats exactly.) *)
Theorem v2_client_rows_are_running_totals (fd : TradingSimV2.feed)
    (id sd : string) (total : Z) (slice_sizes : list Z) :
  TradingSimV2.well_formed fd ->
  Forall Py.exact_int slice_sizes ->
  Forall Py.exact_int (running_totals 0 slice_sizes) ->
  exists w pid,
    TradingSimV2.simulate fd id sd total slice_sizes = Some (w, pid)
    /\ client_fills (TradingSimV2.snapshots w)
       = 0 :: 0 :: running_totals 0 slice_sizes.
Proof.
  intros Hwf _ _.
  destruct (simulate_log fd id sd total slice_sizes Hwf)
    as (w & pid & pd & Heq & _ & _ & _ & Hcf & _).
  exists w, pid. split; [exact Heq|exact Hcf].
Qed.

Lemma v2_client_rows_are_running_totals_witness :
  TradingSimV2.well_formed first_venues_feed
  /\ Forall Py.exact_int [10000; 10000; 10000]
  /\ Forall Py.exact_int (running_totals 0 [10000; 10000; 10000])
  /\ exists w pid,
       TradingSimV2.simulate first_venues_feed "C20241215_999888" "Buy"
         30000 [10000; 10000; 10000] = Some (w, pid)
       /\ client_fills (TradingSimV2.snapshots w)
          = 0 :: 0 :: running_totals 0 [10000; 10000; 10000].
Proof.
  assert (Hsizes : Forall Py.exact_int [10000; 10000; 10000]).
  { repeat (apply List.Forall_cons; [unfold Py.exact_int; simpl; lia|]).
    apply List.Forall_nil. }
  assert (Htotals : Forall Py.exact_int
                      (running_totals 0 [10000; 10000; 10000])).
  { cbn [running_totals].
    repeat (apply List.Forall_cons; [unfold Py.exact_int; simpl; lia|]).
    apply List.Forall_nil. }
  split; [exact first_venues_feed_well_formed|].
  split; [exact Hsizes|]. split; [exact Htotals|].
  apply (v2_client_rows_are_running_totals first_venues_feed
           "C20241215_999888" "Buy" 30000 [10000; 10000; 10000]);
    [exact first_venues_feed_well_formed | exact Hsizes | exact Htotals].
Defined.

(** The run of [run_vwap_simulation]: 30000 shares in three slices of
    10000. *)
Example run_vwap_simulation_log :
  option_map
    (fun '(w, pid) =>
       (length (TradingSimV2.snapshots w),
        client_fills (TradingSimV2.snapshots w),
        option_map (fun s => state (snap_order s))
                   (final_client (TradingSimV2.snapshots w))))
    (TradingSimV2.simulate first_venues_feed "C20241215_999888" "Buy"
       30000 [10000; 10000; 10000])
  = Some (69%nat, [0; 0; 10000; 20000; 30000], Some "FILLED").
Proof. vm_compute. reflexivity. Qed.

(** Slices beyond the order are filled all the same. *)
Example run_vwap_simulation_overfills :
  option_map
    (fun '(w, pid) =>
       option_map (fun s => (filled_quantity (snap_order s),
                             remaining_quantity (snap_order s),
                             state (snap_order s)))
                  (final_client (TradingSimV2.snapshots w)))
    (TradingSimV2.simulate first_venues_feed "C1" "Buy" 15000
       [10000; 10000])
  = Some (Some (20000, -5000, "FILLED")).
Proof. vm_compute. reflexivity. Qed.

(** ** The log of the enhanced router *)

Lemma dict_get_nonneg (f : string -> Z) (names : list string) (name : string)
    (default : Z) :
  (forall v, 0 <= f v) -> 0 <= default ->
  0 <= EnhancedSOR.dict_get (map (fun v => (v, f v)) names) name default.
Proof.
  intros Hf Hd. induction names as [|v names IH]; cbn; [exact Hd|].
  destruct (String.eqb v name); [apply Hf|exact IH].
Qed.

(** What a venue answers: the router a market tick later; nothing filled
    unless the response is a fill; and, for the instructions the router
    sends and a market that quotes no negative liquidity, a response
    that agrees with the fill. *)
Lemma execute_order_outcome (nonneg : Prop) (fd : EnhancedSOR.feed)
    (name : string) (fade_probability : float) (o : order) (c : Z)
    (r : EnhancedSOR.router) :
  (nonneg -> quotes_liquidity fd) ->
  0 < quantity o ->
  let instruction := if c =? 0 then EnhancedSOR.EOE else EnhancedSOR.IOC in
  let '(resp, qty, _, r') :=
    EnhancedSOR.execute_order fd name fade_probability o instruction r in
  r' = snd (EnhancedSOR.market_tick fd r)
  /\ match resp with
     | EnhancedSOR.R_FILLED | EnhancedSOR.R_PARTIAL => True
     | _ => qty = 0
     end
  /\ (nonneg ->
      match resp with
      | EnhancedSOR.R_FILLED => qty = quantity o
      | EnhancedSOR.R_PARTIAL => 0 < qty < quantity o
      | _ => qty = 0
      end).
Proof.
  intros Hliq Hq instruction. subst instruction.
  unfold EnhancedSOR.execute_order. cbn [EnhancedSOR.market_tick snd].
  destruct (EnhancedSOR.prices fd (EnhancedSOR.ticks r)) as [[p bid] ask].
  assert (Hav : nonneg ->
                0 <= EnhancedSOR.dict_get
                       (map (fun v => (v, EnhancedSOR.liquidity_draw fd
                                            (EnhancedSOR.ticks r) v))
                            EnhancedSOR.venue_names) name 1000).
  { intros Hn. apply dict_get_nonneg; [|lia]. intros v. apply (Hliq Hn). }
  revert Hav.
  generalize (EnhancedSOR.dict_get
                (map (fun v => (v, EnhancedSOR.liquidity_draw fd
                                     (EnhancedSOR.ticks r) v))
                     EnhancedSOR.venue_names) name 1000).
  intros available_liquidity Hav.
  destruct (Py.draw_lt _ _); [cbn; repeat split; reflexivity|].
  destruct (_ =? 0) eqn:Hz; [cbn; repeat split; reflexivity|].
  apply Z.eqb_neq in Hz.
  destruct (c =? 0).
  - destruct (_ <? quantity o) eqn:Hlt.
    + apply Z.ltb_lt in Hlt.
      destruct (Py.draw_lt _ _); cbn; repeat split; try reflexivity.
      all: specialize (Hav ltac:(assumption)); lia.
    + apply Z.ltb_ge in Hlt. cbn. repeat split.
  - destruct (0 <? _) eqn:Hpos; [|cbn; repeat split; reflexivity].
    apply Z.ltb_lt in Hpos.
    destruct (_ =? quantity o) eqn:Heq; cbn; repeat split.
    + intros _. apply Z.eqb_eq in Heq. exact Heq.
    + exact Hpos.
    + apply Z.eqb_neq in Heq. lia.
Qed.

Ltac sor_fields :=
  cbn [EnhancedSOR.remaining_qty EnhancedSOR.total_filled
       EnhancedSOR.retry_count EnhancedSOR.rt_router
       EnhancedSOR.execution_records EnhancedSOR.failed
       EnhancedSOR.round_fills
       EnhancedSOR.max_retries EnhancedSOR.venues EnhancedSOR.market_tick
       EnhancedSOR.snapshots EnhancedSOR.order_counter EnhancedSOR.ticks
       EnhancedSOR.competition_level EnhancedSOR.capture_snapshot
       EnhancedSOR.create_sor_order snd fst].

(** A record and its row appended. *)
Lemma sor_log_record (nonneg : Prop) (parent : order)
    (r0 r : EnhancedSOR.router) (recs : list EnhancedSOR.execution_record)
    (tf rem rc rf tf' rem' rc' rf' : Z) (e : EnhancedSOR.execution_record)
    (s : snapshot) :
  sor_log nonneg parent r0
    (EnhancedSOR.Routing r recs tf rem rc rf false) ->
  rem' <= quantity parent ->
  row_of_record parent s e ->
  0 < EnhancedSOR.requested_qty e <= quantity parent ->
  (nonneg -> record_coherent e) ->
  sor_log nonneg parent r0
    (EnhancedSOR.Routing
       (EnhancedSOR.Router (EnhancedSOR.snapshots r ++ [s])
          (EnhancedSOR.ticks r + 1) (EnhancedSOR.competition_level r)
          (EnhancedSOR.venues r) (EnhancedSOR.order_counter r + 1)
          (EnhancedSOR.max_retries r))
       (recs ++ [e]) tf' rem' rc' rf' false).
Proof.
  intros (Hv & Hrem & Hoc & (rows & Hrows & Hall2) & Hreq & Hcoh & Hk)
         Hrem' Hrow Hq He.
  unfold sor_log. sor_fields. cbn in Hv.
  split; [exact Hv|]. split; [exact Hrem'|]. split.
  { intros _. cbn in Hoc. rewrite (Hoc eq_refl), length_app. cbn. lia. }
  split.
  { exists (rows ++ [s]). cbn in Hrows. rewrite Hrows, <- app_assoc.
    split; [reflexivity|].
    apply Forall2_app; [exact Hall2|]. constructor; [exact Hrow|constructor]. }
  split.
  { apply Forall_app. split; [exact Hreq|]. constructor; [exact Hq|constructor]. }
  split.
  { intros Hn. apply Forall_app. split; [exact (Hcoh Hn)|].
    constructor; [exact (He Hn)|constructor]. }
  intros _. reflexivity.
Qed.

(** One venue of a pass. *)
Lemma sor_venue_body_log (nonneg : Prop) (fd : EnhancedSOR.feed) (parent : order)
    (liquidity : list (string * Z)) (price : float)
    (r0 : EnhancedSOR.router) (c : Z) (venue_name : string)
    (st : EnhancedSOR.routing) :
  (nonneg -> quotes_liquidity fd) ->
  In venue_name EnhancedSOR.venue_names ->
  sor_log nonneg parent r0 st ->
  EnhancedSOR.failed st = false ->
  match EnhancedSOR.venue_body fd parent liquidity price
          (if c =? 0 then EnhancedSOR.EOE else EnhancedSOR.IOC)
          venue_name st with
  | Next st' => sor_log nonneg parent r0 st' /\ EnhancedSOR.failed st' = false
  | Break st' => sor_log nonneg parent r0 st'
  end.
Proof.
  intros Hliq Hin Hlog Hnf.
  unfold EnhancedSOR.venue_body.
  destruct (EnhancedSOR.remaining_qty st <=? 0); [exact Hlog|].
  destruct (_ <=? 0) eqn:Hslice; [split; assumption|].
  apply Z.leb_gt in Hslice.
  destruct st as [r recs tf rem rc rf fl]. cbn in Hnf. subst fl.
  sor_fields.
  cbn [EnhancedSOR.remaining_qty] in Hslice.
  assert (Hrem : rem <= quantity parent) by apply Hlog.
  assert (Hv : EnhancedSOR.venues r = EnhancedSOR.venues r0) by apply Hlog.
  assert (Hreq : 0 < Z.min rem (EnhancedSOR.dict_get liquidity venue_name 0)
                 <= quantity parent) by lia.
  set (slice_qty := Z.min rem (EnhancedSOR.dict_get liquidity venue_name 0))
    in *.
  clearbody slice_qty.
  destruct (EnhancedSOR.venues r !! venue_name) as [fade_probability|]
    eqn:Hlook.
  2:{ destruct Hlog as (_ & _ & _ & Hrows & Hall & Hcoh & _).
      unfold sor_log. sor_fields.
      split; [exact Hv|]. split; [exact Hrem|].
      split; [intros H; discriminate H|].
      split; [exact Hrows|]. split; [exact Hall|]. split; [exact Hcoh|].
      intros Hk. destruct (Hk venue_name Hin) as [x Hx].
      rewrite <- Hv, Hlook in Hx. discriminate Hx. }
  set (so := Order _ (Some (order_id parent)) 3 (side parent) slice_qty 0
                   slice_qty 0%float "PENDING" None (Some venue_name)).
  match goal with
  | |- context [EnhancedSOR.execute_order fd venue_name fade_probability so
                  ?i ?r1] =>
      pose proof (execute_order_outcome nonneg fd venue_name
                    fade_probability so c r1 Hliq ltac:(cbn; lia)) as Hout;
      cbv zeta in Hout;
      destruct (EnhancedSOR.execute_order fd venue_name fade_probability so
                  i r1) as [[[resp qty] fill_price] r']
  end.
  destruct Hout as (-> & Hzero & Hcoh).
  sor_fields.
  assert (Hnew : forall tf' rem' rc' rf',
             rem' <= quantity parent ->
             sor_log nonneg parent r0
               (EnhancedSOR.Routing
                  (EnhancedSOR.Router
                     (EnhancedSOR.snapshots r
                      ++ [Snapshot
                            (EnhancedSOR.apply_response resp qty fill_price so)
                            ("SOR_" +:+ EnhancedSOR.VenueResponse_value resp)
                            None (Some price)])
                     (EnhancedSOR.ticks r + 1)
                     (EnhancedSOR.competition_level r)
                     (EnhancedSOR.venues r) (EnhancedSOR.order_counter r + 1)
                     (EnhancedSOR.max_retries r))
                  (recs
                   ++ [EnhancedSOR.ExecutionRecord (order_id so) venue_name
                         (if c =? 0 then EnhancedSOR.EOE else EnhancedSOR.IOC)
                         slice_qty qty fill_price resp rc])
                  tf' rem' rc' rf' false)).
  { intros tf' rem' rc' rf' Hrem'.
    eapply sor_log_record; [exact Hlog|exact Hrem'| |exact Hreq|].
    - unfold row_of_record.
      cbn [snap_order event_type EnhancedSOR.er_order_id
           EnhancedSOR.er_venue EnhancedSOR.requested_qty
           EnhancedSOR.filled_qty EnhancedSOR.response].
      destruct resp; cbn; repeat split; try reflexivity;
        symmetry; exact Hzero.
    - intros Hn. specialize (Hcoh Hn). unfold record_coherent.
      cbn [EnhancedSOR.requested_qty EnhancedSOR.filled_qty
           EnhancedSOR.response].
      cbn [quantity so] in Hcoh. exact Hcoh. }
  destruct (0 <? qty) eqn:Hpos.
  - apply Z.ltb_lt in Hpos. split; [|reflexivity]. apply Hnew. lia.
  - split; [|reflexivity]. apply Hnew. exact Hrem.
Qed.

(** The venue loop of a pass. *)
Lemma sor_venue_loop_log (nonneg : Prop) (fd : EnhancedSOR.feed) (parent : order)
    (liquidity : list (string * Z)) (price : float)
    (r0 : EnhancedSOR.router) (c : Z) (selected_venues : list string)
    (st : EnhancedSOR.routing) :
  (nonneg -> quotes_liquidity fd) ->
  (forall v, In v selected_venues -> In v EnhancedSOR.venue_names) ->
  sor_log nonneg parent r0 st ->
  EnhancedSOR.failed st = false ->
  sor_log nonneg parent r0
    (for_each (EnhancedSOR.venue_body fd parent liquidity price
                 (if c =? 0 then EnhancedSOR.EOE else EnhancedSOR.IOC))
              selected_venues st).
Proof.
  intros Hliq. revert st.
  induction selected_venues as [|v vs IH]; intros st Hin Hlog Hnf;
    cbn [for_each].
  - exact Hlog.
  - pose proof (sor_venue_body_log nonneg fd parent liquidity price r0 c v st
                  Hliq (Hin v (or_introl eq_refl)) Hlog Hnf) as Hb.
    destruct (EnhancedSOR.venue_body fd parent liquidity price _ v st)
      as [s1|s1].
    + destruct Hb as [Hlog1 Hnf1]. apply IH; [|exact Hlog1|exact Hnf1].
      intros v' Hv'. apply Hin. right. exact Hv'.
    + exact Hb.
Qed.

(** A pass of the loop. *)
Lemma sor_routing_pass_log (nonneg : Prop) (fd : EnhancedSOR.feed)
    (parent : order) (r0 : EnhancedSOR.router) (st : EnhancedSOR.routing) :
  (nonneg -> quotes_liquidity fd) ->
  sor_log nonneg parent r0 st ->
  EnhancedSOR.failed st = false ->
  sor_log nonneg parent r0 (EnhancedSOR.routing_pass fd parent st).
Proof.
  intros Hliq Hlog Hnf.
  unfold EnhancedSOR.routing_pass. cbn [EnhancedSOR.market_tick].
  destruct (EnhancedSOR.prices fd
              (EnhancedSOR.ticks (EnhancedSOR.rt_router st)))
    as [[price bid] ask].
  match goal with
  | |- context [for_each (EnhancedSOR.venue_body _ _ ?liq _ _) ?idxs ?s0] =>
      pose proof (sor_venue_loop_log nonneg fd parent liq price r0
                    (EnhancedSOR.retry_count st) idxs s0 Hliq) as Hloop;
      destruct (for_each (EnhancedSOR.venue_body fd parent liq price
                            (if EnhancedSOR.retry_count st =? 0
                             then EnhancedSOR.EOE else EnhancedSOR.IOC))
                         idxs s0) as [r1 recs tf rem rc rf fl]
  end.
  assert (Hlog1 : sor_log nonneg parent r0
                    (EnhancedSOR.Routing r1 recs tf rem rc rf fl)).
  { apply Hloop.
    - intros v Hv. exact (selected_venues_quoted fd _ v Hv).
    - destruct st as [r recs0 tf0 rem0 rc0 rf0 fl0]. cbn in Hnf. subst fl0.
      exact Hlog.
    - exact Hnf. }
  cbn [EnhancedSOR.failed]. destruct fl; [exact Hlog1|].
  exact Hlog1.
Qed.

(** The whole loop. *)
Lemma sor_route_loop_log (nonneg : Prop) (fd : EnhancedSOR.feed) (parent : order)
    (r0 : EnhancedSOR.router) (fuel : nat) (st : EnhancedSOR.routing) :
  (nonneg -> quotes_liquidity fd) ->
  sor_log nonneg parent r0 st ->
  sor_log nonneg parent r0 (EnhancedSOR.route_loop fd parent fuel st).
Proof.
  intros Hliq. revert st.
  induction fuel as [|fuel IH]; intros st Hlog; cbn [EnhancedSOR.route_loop].
  - exact Hlog.
  - destruct (EnhancedSOR.continues st) eqn:Hcont; [|exact Hlog].
    apply IH. apply sor_routing_pass_log; [exact Hliq|exact Hlog|].
    unfold EnhancedSOR.continues in Hcont.
    apply andb_true_iff in Hcont. destruct Hcont as [_ Hnf].
    apply negb_true_iff in Hnf. exact Hnf.
Qed.

Lemma sor_route_final_log (nonneg : Prop) (fd : EnhancedSOR.feed) (parent : order)
    (r : EnhancedSOR.router) :
  (nonneg -> quotes_liquidity fd) ->
  sor_log nonneg parent r (EnhancedSOR.route_final fd parent r).
Proof.
  intros Hliq. unfold EnhancedSOR.route_final.
  apply sor_route_loop_log; [exact Hliq|].
  unfold sor_log. cbn.
  split; [reflexivity|]. split; [lia|]. split; [intros _; lia|].
  split; [exists []; rewrite app_nil_r; split; [reflexivity|constructor]|].
  split; [constructor|]. split; [intros _; constructor|].
  intros _. reflexivity.
Qed.

Lemma thin_market_quotes_liquidity : quotes_liquidity thin_market.
Proof.
  intros n v. cbn [thin_market EnhancedSOR.liquidity_draw].
  destruct (String.eqb v "NYSE"); lia.
Qed.

(** A row that still shows the whole quantity as remaining satisfies the
    accounting invariant only when nothing is filled. *)
Lemma row_of_record_conserved (parent : order) (s : snapshot)
    (e : EnhancedSOR.execution_record) :
  row_of_record parent s e ->
  conserved (snap_order s) <-> EnhancedSOR.filled_qty e = 0.
Proof.
  intros (_ & _ & _ & _ & Hq & Hf & Hr & _). unfold conserved.
  rewrite Hq, Hf, Hr. lia.
Qed.

(** X18.  [EnhancedSmartOrderRouter.route_order], on a router that has
    every venue the market quotes, returns, and its tick database and
    its execution records go together: it has appended exactly one
    snapshot per execution record, in order, a route row
    ([order_level = 3]) of the slice with the record's order id, venue,
    requested quantity as [quantity], fill as [filled_quantity], the
    state and the event of the response, and [remaining_quantity] still
    the whole quantity; the order counter has advanced by the number of
    records; and every route asks for a positive quantity, at most the
    slice's. *)
Theorem enhanced_router_logs_each_execution (fd : EnhancedSOR.feed)
    (algo_child : order) (r : EnhancedSOR.router) :
  knows_venues r ->
  exists recs filled r' rows,
    EnhancedSOR.route_order fd algo_child r = Some (recs, filled, r')
    /\ EnhancedSOR.snapshots r' = EnhancedSOR.snapshots r ++ rows
    /\ Forall2 (row_of_record algo_child) rows recs
    /\ EnhancedSOR.order_counter r'
       = EnhancedSOR.order_counter r + Z.of_nat (length recs)
    /\ Forall (fun e => 0 < EnhancedSOR.requested_qty e
                        <= quantity algo_child) recs.
Proof.
  intros Hk.
  destruct (sor_route_final_log False fd algo_child r ltac:(intros []))
    as (_ & _ & Hoc & (rows & Hrows & Hall2) & Hreq & _ & Hnf).
  specialize (Hnf Hk). specialize (Hoc Hnf).
  unfold EnhancedSOR.route_order. rewrite Hnf.
  do 3 eexists. exists rows. split; [reflexivity|].
  split; [exact Hrows|]. split; [exact Hall2|]. split; [exact Hoc|exact Hreq].
Qed.

Lemma enhanced_router_logs_each_execution_witness :
  let algo_child := new_order "ALGO_001" None 2 5000 "PENDING" None None in
  let r := EnhancedSOR.simulation_router 0.5 in
  knows_venues r
  /\ exists recs filled r' rows,
       EnhancedSOR.route_order thin_market algo_child r
       = Some (recs, filled, r')
       /\ EnhancedSOR.snapshots r' = EnhancedSOR.snapshots r ++ rows
       /\ Forall2 (row_of_record algo_child) rows recs
       /\ EnhancedSOR.order_counter r'
          = EnhancedSOR.order_counter r + Z.of_nat (length recs)
       /\ Forall (fun e => 0 < EnhancedSOR.requested_qty e
                           <= quantity algo_child) recs.
Proof.
  intros algo_child r.
  split; [apply simulation_router_knows_venues|].
  apply (enhanced_router_logs_each_execution thin_market algo_child r).
  apply simulation_router_knows_venues.
Defined.

(** X19.  When the market quotes no negative liquidity, the response of
    every execution record of [route_order] agrees with its fill:
    [FILLED] with the whole requested quantity, [PARTIAL] with a
    positive part of it, [FADE], [NO_LIQUIDITY] and [REJECTED] with
    nothing.  And since the router never updates [remaining_quantity],
    the snapshot of a route satisfies [filled_quantity +
    remaining_quantity = quantity] exactly when the venue filled
    nothing: every [FILLED] or [PARTIAL] route row breaks it. *)
Theorem enhanced_router_fills_break_conservation (fd : EnhancedSOR.feed)
    (algo_child : order) (r : EnhancedSOR.router) :
  knows_venues r ->
  quotes_liquidity fd ->
  exists recs filled r' rows,
    EnhancedSOR.route_order fd algo_child r = Some (recs, filled, r')
    /\ EnhancedSOR.snapshots r' = EnhancedSOR.snapshots r ++ rows
    /\ Forall record_coherent recs
    /\ Forall2 (fun s e =>
                  conserved (snap_order s)
                  <-> (EnhancedSOR.response e <> EnhancedSOR.R_FILLED
                       /\ EnhancedSOR.response e <> EnhancedSOR.R_PARTIAL))
               rows recs.
Proof.
  intros Hk Hliq.
  destruct (sor_route_final_log True fd algo_child r ltac:(intros _; exact Hliq))
    as (_ & _ & _ & (rows & Hrows & Hall2) & Hreq & Hcoh & Hnf).
  specialize (Hnf Hk). specialize (Hcoh I).
  unfold EnhancedSOR.route_order. rewrite Hnf.
  do 3 eexists. exists rows. split; [reflexivity|].
  split; [exact Hrows|]. split; [exact Hcoh|].
  clear Hrows Hnf.
  induction Hall2 as [|s e rows recs Hrow _ IH]; [constructor|].
  apply Forall_cons_1 in Hreq, Hcoh.
  destruct Hreq as [Hq Hreq], Hcoh as [He Hcoh].
  constructor; [|exact (IH Hreq Hcoh)].
  rewrite (row_of_record_conserved _ _ _ Hrow).
  unfold record_coherent in He.
  destruct (EnhancedSOR.response e); split.
  - intros H. lia.
  - intros [H _]. contradiction.
  - intros H. lia.
  - intros [_ H]. contradiction.
  - intros _. split; discriminate.
  - intros _. exact He.
  - intros _. split; discriminate.
  - intros _. exact He.
  - intros _. split; discriminate.
  - intros _. exact He.
Qed.

Lemma enhanced_router_fills_break_conservation_witness :
  let algo_child := new_order "ALGO_001" None 2 5000 "PENDING" None None in
  let r := EnhancedSOR.simulation_router 0.5 in
  (knows_venues r /\ quotes_liquidity thin_market)
  /\ exists recs filled r' rows,
       EnhancedSOR.route_order thin_market algo_child r
       = Some (recs, filled, r')
       /\ EnhancedSOR.snapshots r' = EnhancedSOR.snapshots r ++ rows
       /\ Forall record_coherent recs
       /\ Forall2 (fun s e =>
                     conserved (snap_order s)
                     <-> (EnhancedSOR.response e <> EnhancedSOR.R_FILLED
                          /\ EnhancedSOR.response e <> EnhancedSOR.R_PARTIAL))
                  rows recs.
Proof.
  intros algo_child r.
  split;
    [split; [apply simulation_router_knows_venues
            |exact thin_market_quotes_liquidity]|].
  apply (enhanced_router_fills_break_conservation thin_market algo_child r).
  - apply simulation_router_knows_venues.
  - exact thin_market_quotes_liquidity.
Defined.

(** The run in the thin market: the responses, the fills, and the
    remainders the snapshots show. *)
Example enhanced_router_thin_market_log :
  let algo_child := new_order "ALGO_001" None 2 5000 "PENDING" None None in
  option_map
    (fun '(recs, filled, r') =>
       (map (fun e => (EnhancedSOR.er_venue e,
                       EnhancedSOR.VenueResponse_value
                         (EnhancedSOR.response e),
                       EnhancedSOR.requested_qty e, EnhancedSOR.filled_qty e))
            recs,
        map (fun s => (event_type s, filled_quantity (snap_order s),
                       remaining_quantity (snap_order s)))
            (EnhancedSOR.snapshots r')))
    (EnhancedSOR.route_order thin_market algo_child
       (EnhancedSOR.simulation_router 0.5))
  = Some
      ([("NYSE", "FILLED", 3000, 3000); ("NASDAQ", "FADE", 500, 0);
        ("ARCA", "FILLED", 500, 500); ("NYSE", "FILLED", 1500, 1500)],
       [("SOR_FILLED", 3000, 3000); ("SOR_FADE", 0, 500);
        ("SOR_FILLED", 500, 500); ("SOR_FILLED", 1500, 1500)]).
Proof. vm_compute. reflexivity. Qed.

(** ** The log of the production simulator *)

Ltac prod_fields :=
  cbn [ProductionVWAP.add_snapshot ProductionVWAP.sim_quantity
       ProductionVWAP.schedule ProductionVWAP.snapshots
       ProductionVWAP.sim_record_id ProductionVWAP.total_filled
       ProductionVWAP.total_value ProductionVWAP.sim_market_price
       ProductionRun.set_market_price ProductionRun.add_fill
       ProductionRun.ss_sim ProductionRun.ss_drawn ProductionRun.ss_counter
       ProductionRun.ss_filled ProductionRun.ss_value
       ProductionRun.sim ProductionRun.drawn ProductionRun.client_order
       ProductionRun.algo_parent ProductionRun.slice_counter
       ProductionRun.sor_counter ProductionRun.hs_run
       ProductionRun.hs_urgency ProductionRun.hour_filled
       ProductionRun.hs_failed ProductionRun.ex_run ProductionRun.failed
       fst snd].

(** The escalation [Urgency(min(urgency.value, 'CRITICAL'))] compares
    the names as strings, and ["CRITICAL"] is the least of the four: it
    never raises and always gives [CRITICAL]. *)
Lemma escalate_critical (u : Urgency) :
  ProductionRun.escalate u = Some CRITICAL.
Proof. destruct u; vm_compute; reflexivity. Qed.

(** The copy [add_snapshot] takes has the numbers of the order. *)
Lemma add_snapshot_row (o : order) (ev : string) (u : option Urgency)
    (s : ProductionVWAP.simulator) :
  exists copy,
    ProductionVWAP.snapshots (ProductionVWAP.add_snapshot o ev u s)
    = ProductionVWAP.snapshots s
      ++ [Snapshot copy ev (Some (ProductionVWAP.sim_record_id s))
            (Some (ProductionVWAP.sim_market_price s))]
    /\ order_level copy = order_level o
    /\ quantity copy = quantity o
    /\ filled_quantity copy = filled_quantity o
    /\ remaining_quantity copy = remaining_quantity o.
Proof.
  destruct u as [u|]; eexists; (split; [reflexivity|]);
    repeat split; reflexivity.
Qed.

(** A row that is not the client's. *)
Lemma prod_sim_add (q : Z) (o : order) (ev : string) (u : option Urgency)
    (s : ProductionVWAP.simulator) :
  prod_sim q s ->
  order_level o <> 0 ->
  (order_level o = 3 -> remaining_quantity o = quantity o) ->
  (order_level o <> 3 -> conserved o) ->
  0 <= filled_quantity o <= Z.max 0 (quantity o) ->
  prod_sim q (ProductionVWAP.add_snapshot o ev u s)
  /\ ProductionVWAP.total_filled (ProductionVWAP.add_snapshot o ev u s)
     = ProductionVWAP.total_filled s
  /\ ProductionVWAP.sim_market_price (ProductionVWAP.add_snapshot o ev u s)
     = ProductionVWAP.sim_market_price s.
Proof.
  intros (Hq & Hlog & Ht & Hn & Hlast) Hl H3 Hc Hf.
  destruct (add_snapshot_row o ev u s) as (copy & Hrows & Hcl & Hcq & Hcf & Hcr).
  split; [|split; reflexivity].
  unfold prod_sim. rewrite Hrows. prod_fields.
  rewrite client_fills_snoc. cbn [snap_order]. rewrite Hcl.
  rewrite (proj2 (Z.eqb_neq _ _) Hl), app_nil_r.
  split; [exact Hq|]. split; [|split; [exact Ht|split; assumption]].
  apply log_ok_snoc; [exact Hlog|].
  unfold prod_row, conserved. cbn [snap_order].
  rewrite Hcl, Hcq, Hcf, Hcr. split; [exact H3|]. split; [exact Hc|exact Hf].
Qed.

(** One venue of [execute_sor]. *)
Lemma sor_body_log (q : Z) (ds : ProductionRun.draws) (slice_order : order)
    (instruction : ProductionRun.OrderInstruction) (target n : Z)
    (venue : string) (st : ProductionRun.sor_state) :
  0 < n ->
  prod_sim q (ProductionRun.ss_sim st) ->
  0 <= ProductionRun.ss_filled st ->
  match ProductionRun.sor_body ds slice_order instruction target n venue st
  with
  | Next st' | Break st' =>
      prod_sim q (ProductionRun.ss_sim st')
      /\ ProductionVWAP.total_filled (ProductionRun.ss_sim st')
         = ProductionVWAP.total_filled (ProductionRun.ss_sim st)
      /\ ProductionRun.ss_filled st <= ProductionRun.ss_filled st'
      /\ (ProductionRun.ss_filled st' = ProductionRun.ss_filled st
          \/ (0 < target
              /\ ProductionRun.ss_filled st'
                 <= ProductionRun.ss_filled st + target / n))
  end.
Proof.
  intros Hn Hsim Hf. unfold ProductionRun.sor_body.
  destruct (target <=? ProductionRun.ss_filled st) eqn:Hdone.
  { split; [exact Hsim|]. split; [reflexivity|]. split; [lia|left; lia]. }
  apply Z.leb_gt in Hdone.
  assert (Hv : 0 <= target / n) by (apply Z.div_pos; lia).
  assert (Hh : 0 <= target / n / 2 <= target / n).
  { split; [apply Z.div_pos; lia|].
    apply Z.div_le_upper_bound; lia. }
  set (venue_qty := target / n) in *. clearbody venue_qty.
  set (so := Order _ (Some (order_id slice_order)) 3 "Buy" venue_qty 0
                   venue_qty 0%float "PENDING" None (Some venue)).
  destruct (prod_sim_add q so "NEW" None (ProductionRun.ss_sim st) Hsim)
    as (Hsim1 & Ht1 & Hm1);
    [discriminate|reflexivity|intros H; contradiction|cbn; lia|].
  set (s1 := ProductionVWAP.add_snapshot so "NEW" None
               (ProductionRun.ss_sim st)) in *.
  clearbody s1.
  assert (Hrow : forall got price state ev,
             0 <= got <= venue_qty ->
             let s2 :=
               ProductionVWAP.add_snapshot
                 (ProductionRun.fill_route got price state so) ev None s1 in
             prod_sim q s2
             /\ ProductionVWAP.total_filled s2
                = ProductionVWAP.total_filled (ProductionRun.ss_sim st)).
  { intros got price state ev Hgot s2. subst s2.
    destruct (prod_sim_add q (ProductionRun.fill_route got price state so)
                ev None s1 Hsim1)
      as (Hsim2 & Ht2 & _);
      [discriminate|reflexivity|intros H; contradiction|cbn; lia|].
    split; [exact Hsim2|congruence]. }
  assert (Hidle : forall state ev,
             let s2 :=
               ProductionVWAP.add_snapshot (set_state state so) ev None s1 in
             prod_sim q s2
             /\ ProductionVWAP.total_filled s2
                = ProductionVWAP.total_filled (ProductionRun.ss_sim st)
             /\ (forall ev',
                   let s3 :=
                     ProductionVWAP.add_snapshot (set_state state so) ev'
                                                 None s2 in
                   prod_sim q s3
                   /\ ProductionVWAP.total_filled s3
                      = ProductionVWAP.total_filled
                          (ProductionRun.ss_sim st))).
  { intros state ev s2. subst s2.
    destruct (prod_sim_add q (set_state state so) ev None s1 Hsim1)
      as (Hsim2 & Ht2 & _);
      [discriminate|reflexivity|intros H; contradiction|cbn; lia|].
    split; [exact Hsim2|]. split; [congruence|].
    intros ev' s3. subst s3.
    destruct (prod_sim_add q (set_state state so) ev' None _ Hsim2)
      as (Hsim3 & Ht3 & _);
      [discriminate|reflexivity|intros H; contradiction|cbn; lia|].
    split; [exact Hsim3|congruence]. }
  assert (Hpending : so = set_state "PENDING" so) by reflexivity.
  destruct instruction.
  - (* POST_ONLY *)
    destruct (Py.draw_lt _ _); prod_fields.
    + destruct (Hrow venue_qty
                  (ProductionVWAP.sim_market_price s1 - 0.01)%float
                  "FILLED" "VENUE_FILLED" ltac:(lia)) as [H1 H2].
      split; [exact H1|]. split; [exact H2|]. split; [lia|right; lia].
    + destruct (Hidle "PENDING" "VENUE_PENDING") as (H1 & H2 & _).
      rewrite <- Hpending in H1, H2.
      split; [exact H1|]. split; [exact H2|]. split; [lia|left; lia].
  - (* LIMIT_IOC *)
    destruct (Py.draw_lt _ _); prod_fields.
    + destruct (Py.draw_lt _ _); prod_fields.
      * destruct (Hrow (venue_qty / 2)
                    (ProductionVWAP.sim_market_price s1
                     + ProductionRun.uniform ds
                         (ProductionRun.ss_drawn st + 1) (-0.01) 0.01)%float
                    "PARTIAL" "VENUE_PARTIAL" ltac:(lia)) as [H1 H2].
        split; [exact H1|]. split; [exact H2|]. split; [lia|right; lia].
      * destruct (Hrow venue_qty
                    (ProductionVWAP.sim_market_price s1
                     + ProductionRun.uniform ds
                         (ProductionRun.ss_drawn st + 1) (-0.01) 0.01)%float
                    "FILLED" "VENUE_FILLED" ltac:(lia)) as [H1 H2].
        split; [exact H1|]. split; [exact H2|]. split; [lia|right; lia].
    + destruct (Hidle "PENDING" "VENUE_PENDING") as (H1 & H2 & _).
      rewrite <- Hpending in H1, H2.
      split; [exact H1|]. split; [exact H2|]. split; [lia|left; lia].
  - (* MARKET_IOC *)
    destruct (Py.draw_lt _ _); prod_fields.
    + destruct (Hrow venue_qty
                  (ProductionVWAP.sim_market_price s1
                   + ProductionRun.uniform ds
                       (ProductionRun.ss_drawn st + 1) 0.01 0.03)%float
                  "FILLED" "VENUE_FILLED" ltac:(lia)) as [H1 H2].
      split; [exact H1|]. split; [exact H2|]. split; [lia|right; lia].
    + destruct (Hidle "FADE" "VENUE_FADE") as (_ & _ & H3).
      destruct (H3 "VENUE_FADE") as [H1 H2].
      split; [exact H1|]. split; [exact H2|]. split; [lia|left; lia].
  - (* SWEEP *)
    prod_fields.
    destruct (Hrow venue_qty
                (ProductionVWAP.sim_market_price s1
                 + ProductionRun.uniform ds (ProductionRun.ss_drawn st)
                     0.02 0.05)%float
                "FILLED" "VENUE_FILLED" ltac:(lia)) as [H1 H2].
    split; [exact H1|]. split; [exact H2|]. split; [lia|right; lia].
Qed.

(** The venue loop of [execute_sor]: what is filled stays within the
    shares of the venues visited. *)
Lemma sor_loop_log (q : Z) (ds : ProductionRun.draws) (slice_order : order)
    (instruction : ProductionRun.OrderInstruction) (target n : Z)
    (vs : list string) (st : ProductionRun.sor_state) :
  0 < n ->
  prod_sim q (ProductionRun.ss_sim st) ->
  0 <= ProductionRun.ss_filled st ->
  let st' :=
    for_each (ProductionRun.sor_body ds slice_order instruction target n)
             vs st in
  prod_sim q (ProductionRun.ss_sim st')
  /\ ProductionVWAP.total_filled (ProductionRun.ss_sim st')
     = ProductionVWAP.total_filled (ProductionRun.ss_sim st)
  /\ ProductionRun.ss_filled st <= ProductionRun.ss_filled st'
  /\ (ProductionRun.ss_filled st' = ProductionRun.ss_filled st
      \/ (0 < target
          /\ ProductionRun.ss_filled st'
             <= ProductionRun.ss_filled st
                + Z.of_nat (length vs) * (target / n))).
Proof.
  intros Hn. revert st.
  induction vs as [|v vs IH]; intros st Hsim Hf; cbn [for_each].
  - split; [exact Hsim|]. split; [reflexivity|]. split; [lia|left; lia].
  - pose proof (sor_body_log q ds slice_order instruction target n v st
                  Hn Hsim Hf) as Hb.
    assert (Hstep : forall st1,
               prod_sim q (ProductionRun.ss_sim st1)
               /\ ProductionVWAP.total_filled (ProductionRun.ss_sim st1)
                  = ProductionVWAP.total_filled (ProductionRun.ss_sim st)
               /\ ProductionRun.ss_filled st <= ProductionRun.ss_filled st1
               /\ (ProductionRun.ss_filled st1 = ProductionRun.ss_filled st
                   \/ (0 < target
                       /\ ProductionRun.ss_filled st1
                          <= ProductionRun.ss_filled st + target / n)) ->
               prod_sim q (ProductionRun.ss_sim st1)
               /\ ProductionVWAP.total_filled (ProductionRun.ss_sim st1)
                  = ProductionVWAP.total_filled (ProductionRun.ss_sim st)
               /\ ProductionRun.ss_filled st <= ProductionRun.ss_filled st1
               /\ (ProductionRun.ss_filled st1 = ProductionRun.ss_filled st
                   \/ (0 < target
                       /\ ProductionRun.ss_filled st1
                          <= ProductionRun.ss_filled st
                             + Z.of_nat (length (v :: vs)) * (target / n)))).
    { intros st1 (H1 & H2 & H3 & H4).
      split; [exact H1|]. split; [exact H2|]. split; [exact H3|].
      destruct H4 as [H4|[Hpos H4]]; [left; exact H4|right].
      split; [exact Hpos|].
      assert (0 <= target / n) by (apply Z.div_pos; lia).
      cbn [length]. nia. }
    destruct (ProductionRun.sor_body ds slice_order instruction target n v st)
      as [st1|st1]; [|apply Hstep; exact Hb].
    destruct Hb as (H1 & H2 & H3 & H4).
    destruct (IH st1 H1 ltac:(lia)) as (I1 & I2 & I3 & I4).
    split; [exact I1|]. split; [congruence|]. split; [lia|].
    assert (Hv : 0 < target -> 0 <= target / n)
      by (intros; apply Z.div_pos; lia).
    cbn [length].
    destruct I4 as [I4|[Hpos I4]].
    + destruct H4 as [H4|[Hpos H4]]; [left; lia|right].
      split; [exact Hpos|]. specialize (Hv Hpos). nia.
    + right. split; [exact Hpos|]. specialize (Hv Hpos).
      destruct H4 as [H4|[_ H4]]; nia.
Qed.

(** [execute_sor] fills at most the slice. *)
Lemma execute_sor_log (q : Z) (ds : ProductionRun.draws) (slice_order : order)
    (instruction : ProductionRun.OrderInstruction) (counter : Z)
    (s : ProductionVWAP.simulator) (n : Z) :
  prod_sim q s ->
  let '(s', _, filled, _) :=
    ProductionRun.execute_sor ds slice_order instruction counter s n in
  prod_sim q s'
  /\ ProductionVWAP.total_filled s' = ProductionVWAP.total_filled s
  /\ 0 <= filled <= Z.max 0 (quantity slice_order).
Proof.
  intros Hsim. unfold ProductionRun.execute_sor.
  set (vs := ProductionRun.venues_of instruction).
  assert (Hlen : 0 < Z.of_nat (length vs)) by (destruct instruction; cbn; lia).
  destruct (sor_loop_log q ds slice_order instruction (quantity slice_order)
              (Z.of_nat (length vs)) vs
              (ProductionRun.SorState s n counter 0 0%float) Hlen Hsim
              ltac:(cbn; lia))
    as (H1 & H2 & H3 & H4).
  cbn [ProductionRun.ss_sim] in H2.
  split; [exact H1|]. split; [exact H2|].
  cbn [ProductionRun.ss_filled] in H3, H4.
  destruct H4 as [H4|[Hpos H4]]; [lia|].
  pose proof (Z.mul_div_le (quantity slice_order) (Z.of_nat (length vs)) Hlen).
  lia.
Qed.

(** In a sequence that never decreases the last element bounds the
    others. *)
Lemma nondecreasing_last_bound (l : list Z) (x : Z) :
  nondecreasing l -> last l = Some x -> Forall (fun y => y <= x) l.
Proof.
  induction l as [|a l IH]; intros Hn Hlast; [constructor|].
  destruct l as [|b l].
  - cbn in Hlast. injection Hlast as <-. repeat constructor. lia.
  - cbn [nondecreasing] in Hn. destruct Hn as [Hab Hn].
    change (last (a :: b :: l)) with (last (b :: l)) in Hlast.
    specialize (IH Hn Hlast).
    constructor; [|exact IH].
    apply Forall_cons_1 in IH. lia.
Qed.

(** The cascade to the algo parent and to the client order. *)
Lemma update_parent_orders_log (q : Z) (ap0 co0 : order) (u : Urgency)
    (filled : Z) (value : float) (s : ProductionVWAP.simulator) :
  prod_sim q s ->
  0 <= filled ->
  ProductionVWAP.total_filled s + filled <= Z.max 0 q ->
  order_level co0 = 0 -> order_level ap0 = 1 ->
  quantity co0 = q -> quantity ap0 = q ->
  let '(s', ap, co) :=
    ProductionVWAP.update_parent_orders ap0 co0 u
      (ProductionRun.add_fill filled value s) in
  prod_sim q s'
  /\ ProductionVWAP.total_filled s' = ProductionVWAP.total_filled s + filled
  /\ order_level co = 0 /\ order_level ap = 1
  /\ quantity co = q /\ quantity ap = q.
Proof.
  intros (Hq & Hlog & Ht & Hn & Hlast) Hf Hroom Hc0 Ha1 Hcq Haq.
  unfold ProductionVWAP.update_parent_orders.
  prod_fields.
  cbn [set_state set_average_price set_remaining_quantity
       set_filled_quantity set_urgency order_level quantity].
  split; [|repeat split; assumption].
  unfold prod_sim. prod_fields.
  rewrite !client_fills_snoc.
  cbn [snap_order order_level filled_quantity set_urgency set_state
       set_average_price set_remaining_quantity set_filled_quantity].
  rewrite Ha1, Hc0. cbn [Z.eqb]. rewrite app_nil_r.
  split; [exact Hq|]. split; [|split; [lia|split]].
  - apply log_ok_snoc; [apply log_ok_snoc; [exact Hlog|]|];
      unfold prod_row, conserved;
      cbn [snap_order order_level quantity filled_quantity
           remaining_quantity set_urgency set_state
           set_average_price set_remaining_quantity set_filled_quantity];
      rewrite ?Ha1, ?Hc0, ?Haq, ?Hcq, Hq;
      (split; [intros H; discriminate H|]); (split; [intros _; lia|lia]).
  - apply nondecreasing_snoc; [exact Hn|].
    eapply Forall_impl; [exact (nondecreasing_last_bound _ _ Hn Hlast)|].
    intros y Hy. cbn in Hy. lia.
  - apply last_snoc.
Qed.

(** One slice of an hour. *)
Lemma prod_slice_body (q : Z) (ds : ProductionRun.draws)
    (hour_target slice_size num_slices : Z)
    (instruction : ProductionRun.OrderInstruction) (slice_num : Z)
    (st : ProductionRun.hour_state) :
  prod_run q (ProductionRun.hs_run st)
  /\ ProductionRun.hs_failed st = false ->
  match ProductionRun.slice_body ds hour_target slice_size num_slices
          instruction slice_num st with
  | Next st' | Break st' =>
      prod_run q (ProductionRun.hs_run st')
      /\ ProductionRun.hs_failed st' = false
  end.
Proof.
  intros [Hrun Hnf]. unfold ProductionRun.slice_body.
  destruct (_ || _) eqn:Hstop; [split; assumption|].
  apply orb_false_iff in Hstop. destruct Hstop as [Hopen _].
  apply Z.leb_gt in Hopen.
  destruct Hrun as (Hsim & Hc0 & Ha1 & Hcq & Haq).
  set (r := ProductionRun.hs_run st) in *. clearbody r.
  set (u := ProductionRun.hs_urgency st). clearbody u.
  set (s0 := ProductionRun.sim r) in *.
  assert (Hq : ProductionVWAP.sim_quantity s0 = q) by apply Hsim.
  assert (Ht : 0 <= ProductionVWAP.total_filled s0) by apply Hsim.
  prod_fields.
  set (actual := Z.min slice_size _).
  assert (Hactual : actual <= q - ProductionVWAP.total_filled s0)
    by (unfold actual; rewrite Hq; apply Z.le_min_r).
  clearbody actual.
  set (mp := (ProductionVWAP.sim_market_price s0 + _)%float). clearbody mp.
  assert (Hsim0 : prod_sim q (ProductionRun.set_market_price mp s0)
                  /\ ProductionVWAP.total_filled
                       (ProductionRun.set_market_price mp s0)
                     = ProductionVWAP.total_filled s0).
  { split; [|reflexivity]. exact Hsim. }
  destruct Hsim0 as [Hsim0 Ht0].
  set (s0' := ProductionRun.set_market_price mp s0) in *. clearbody s0'.
  set (slice_order := Order _ (Some "ALGO_100001") 2 "Buy" actual 0 actual
                            0%float "PENDING" (Some (Urgency_value u)) None).
  destruct (prod_sim_add q slice_order "NEW" (Some u) s0' Hsim0)
    as (Hsim1 & Ht1 & _);
    [discriminate|intros H; discriminate H|intros _; unfold conserved; cbn; lia
    |cbn; lia|].
  set (s1 := ProductionVWAP.add_snapshot slice_order "NEW" (Some u) s0') in *.
  clearbody s1.
  pose proof (execute_sor_log q ds slice_order instruction
                (ProductionRun.sor_counter r) s1
                (ProductionRun.drawn r + 1) Hsim1) as Hsor.
  destruct (ProductionRun.execute_sor ds slice_order instruction
              (ProductionRun.sor_counter r) s1 (ProductionRun.drawn r + 1))
    as [[[s2 n] slice_filled] slice_value].
  destruct Hsor as (Hsim2 & Ht2 & Hsf). cbn [quantity slice_order] in Hsf.
  set (done_order := set_state _ (set_average_price _
                       (set_remaining_quantity _
                          (set_filled_quantity slice_filled slice_order)))).
  destruct (prod_sim_add q done_order "SLICE_COMPLETE" (Some u) s2 Hsim2)
    as (Hsim3 & Ht3 & _);
    [discriminate|intros H; discriminate H|intros _; unfold conserved; cbn; lia
    |cbn; lia|].
  set (s3 := ProductionVWAP.add_snapshot done_order "SLICE_COMPLETE" (Some u)
               s2) in *.
  clearbody s3.
  pose proof (update_parent_orders_log q (ProductionRun.algo_parent r)
                (ProductionRun.client_order r) u slice_filled slice_value s3
                Hsim3 ltac:(lia) ltac:(lia) Hc0 Ha1 Hcq Haq) as Hup.
  destruct (ProductionVWAP.update_parent_orders _ _ u
              (ProductionRun.add_fill slice_filled slice_value s3))
    as [[s4 ap] co].
  destruct Hup as (Hsim4 & _ & Hc0' & Ha1' & Hcq' & Haq').
  assert (Hrun' : forall c1 c2,
             prod_run q (ProductionRun.Run s4 n co ap c1 c2)).
  { intros c1 c2. unfold prod_run. prod_fields.
    split; [exact Hsim4|]. repeat split; assumption. }
  destruct (_ && _).
  - rewrite escalate_critical. prod_fields.
    split; [apply Hrun'|reflexivity].
  - prod_fields. split; [apply Hrun'|reflexivity].
Qed.

(** One hour. *)
Lemma prod_hour_body (q : Z) (ds : ProductionRun.draws) (hour : Z)
    (e : ProductionRun.execution) :
  prod_run q (ProductionRun.ex_run e) /\ ProductionRun.failed e = false ->
  match ProductionRun.hour_body ds hour e with
  | Next e' | Break e' =>
      prod_run q (ProductionRun.ex_run e') /\ ProductionRun.failed e' = false
  end.
Proof.
  intros [Hrun Hnf]. unfold ProductionRun.hour_body.
  destruct (_ <=? _); [split; assumption|].
  destruct (ProductionVWAP.calculate_urgency _ _ _) as [urgency shortfall].
  set (params := match urgency with
                 | PASSIVE => _ | NORMAL => _ | URGENT => _ | CRITICAL => _
                 end).
  destruct params as [[slice_size instruction] num_slices].
  match goal with
  | |- context [for_each ?body ?idxs ?s0] =>
      assert (Hloop : prod_run q (ProductionRun.hs_run (for_each body idxs s0))
                      /\ ProductionRun.hs_failed (for_each body idxs s0)
                         = false);
      [apply (for_each_invariant
                (fun st => prod_run q (ProductionRun.hs_run st)
                           /\ ProductionRun.hs_failed st = false))
      |destruct Hloop as [Hrun' Hnf']; rewrite Hnf'; prod_fields;
       split; [exact Hrun'|reflexivity]]
  end.
  - intros i st Hst. apply prod_slice_body. exact Hst.
  - prod_fields. split; [exact Hrun|reflexivity].
Qed.

(** The opened run. *)
Lemma prod_opened (id : string) (q : Z) (schedule : list Z) :
  prod_run q
    (ProductionRun.opened id
       (ProductionVWAP.Simulator q schedule [] 0 0 0%float 650%float)).
Proof.
  unfold ProductionRun.opened, prod_run, prod_sim. prod_fields.
  cbn [set_state order_level quantity order_id].
  split; [|repeat split; reflexivity].
  split; [reflexivity|]. split; [|split; [lia|split]].
  - change 3 with (0 + 1 + 1 + 1).
    apply log_ok_snoc; [apply log_ok_snoc; [apply log_ok_snoc|]|];
      [apply log_ok_nil|..]; unfold prod_row, conserved; cbn;
      (split; [intros H; discriminate H|]); (split; [intros _; lia|lia]).
  - rewrite !client_fills_snoc. cbn. split; [lia|split; exact I].
  - rewrite !client_fills_snoc. cbn. reflexivity.
Qed.

(** The simulator is built for every quantity. *)
Lemma prod_init (q : Z) :
  exists schedule,
    ProductionRun.init q
    = Some (ProductionVWAP.Simulator q schedule [] 0 0 0%float 650%float)
    /\ length schedule = 7%nat.
Proof.
  unfold ProductionRun.init, ProductionVWAP.calculate_vwap_schedule.
  cbn [ProductionVWAP.slice_to ProductionVWAP.participation Z.leb
       Z.compare Z.to_nat Pos.to_nat Pos.iter_op Nat.add take map removelast
       app].
  eexists. split; [reflexivity|]. reflexivity.
Qed.

(** A whole execution: it returns unless the quantity is zero. *)
Lemma prod_simulate (ds : ProductionRun.draws) (id : string) (q : Z) :
  match ProductionRun.simulate ds id q with
  | Some r => q <> 0 /\ prod_run q r
  | None => q = 0
  end.
Proof.
  unfold ProductionRun.simulate.
  destruct (prod_init q) as (schedule & -> & _).
  unfold ProductionRun.generate_execution.
  match goal with
  | |- context [for_each ?body ?idxs ?s0] =>
      assert (Hloop : prod_run q (ProductionRun.ex_run (for_each body idxs s0))
                      /\ ProductionRun.failed (for_each body idxs s0) = false);
      [apply (for_each_invariant
                (fun e => prod_run q (ProductionRun.ex_run e)
                          /\ ProductionRun.failed e = false))
      |destruct Hloop as [Hrun Hnf]; rewrite Hnf]
  end.
  - intros i e He. apply prod_hour_body. exact He.
  - prod_fields. split; [apply prod_opened|reflexivity].
  - prod_fields. destruct (q =? 0) eqn:Hz.
    + apply Z.eqb_eq in Hz. exact Hz.
    + apply Z.eqb_neq in Hz. split; assumption.
Qed.

(** X20.  [ProductionVWAPSimulator(id, quantity).generate_execution()]
    returns for every quantity that converts to a float exactly, zero
    apart, where the final report divides by the quantity and raises
    (the quantities it converts are the order quantity, in the schedule,
    and fills between 0 and the order quantity).  In the log it returns,
    row [i] carries
    the record id [i]; every client, algo and slice row satisfies
    [filled_quantity + remaining_quantity = quantity]; and every route
    row ([order_level = 3]) still shows the whole quantity as
    [remaining_quantity], because [execute_sor] never updates it: a
    route that filled anything breaks the accounting invariant. *)
Theorem production_execution_accounting (ds : ProductionRun.draws)
    (id : string) (order_quantity : Z) :
  Py.exact_int order_quantity ->
  match ProductionRun.simulate ds id order_quantity with
  | Some r =>
      let log := ProductionVWAP.snapshots (ProductionRun.sim r) in
      order_quantity <> 0
      /\ sequential log
      /\ ProductionVWAP.sim_record_id (ProductionRun.sim r)
         = Z.of_nat (length log)
      /\ Forall (fun s =>
                   (order_level (snap_order s) <> 3 ->
                    conserved (snap_order s))
                   /\ (order_level (snap_order s) = 3 ->
                       remaining_quantity (snap_order s)
                       = quantity (snap_order s)
                       /\ (conserved (snap_order s)
                           <-> filled_quantity (snap_order s) = 0)))
                log
  | None => order_quantity = 0
  end.
Proof.
  intros _.
  pose proof (prod_simulate ds id order_quantity) as H.
  destruct (ProductionRun.simulate ds id order_quantity) as [r|]; [|exact H].
  destruct H as (Hq & (_ & (Hid & Hseq & Hrows) & _) & _).
  cbv zeta. split; [exact Hq|]. split; [exact Hseq|]. split; [exact Hid|].
  eapply Forall_impl; [exact Hrows|].
  intros s (H3 & Hc & _). cbn zeta in H3, Hc.
  split; [exact Hc|]. intros Hl. specialize (H3 Hl).
  split; [exact H3|]. unfold conserved. lia.
Qed.

Lemma production_execution_accounting_witness :
  Py.exact_int 100000
  /\ match ProductionRun.simulate even_draws "PROD_20241216_001" 100000 with
     | Some r =>
         let log := ProductionVWAP.snapshots (ProductionRun.sim r) in
         100000 <> 0
         /\ sequential log
         /\ ProductionVWAP.sim_record_id (ProductionRun.sim r)
            = Z.of_nat (length log)
         /\ Forall (fun s =>
                      (order_level (snap_order s) <> 3 ->
                       conserved (snap_order s))
                      /\ (order_level (snap_order s) = 3 ->
                          remaining_quantity (snap_order s)
                          = quantity (snap_order s)
                          /\ (conserved (snap_order s)
                              <-> filled_quantity (snap_order s) = 0)))
                   log
     | None => 100000 = 0
     end.
Proof.
  assert (Hex : Py.exact_int 100000) by (unfold Py.exact_int; simpl; lia).
  split; [exact Hex|].
  apply (production_execution_accounting even_draws "PROD_20241216_001"
           100000).
  exact Hex.
Defined.

(** X21.  For a positive order quantity that converts to a float
    exactly, [generate_execution] returns and never over-fills, whatever
    the draws: the
    total filled ends between 0 and the order quantity, and no row of
    the log (client, algo parent, slice or route) shows a negative fill
    or a fill beyond its quantity. *)
Theorem production_execution_never_overfills (ds : ProductionRun.draws)
    (id : string) (order_quantity : Z) :
  0 < order_quantity -> Py.exact_int order_quantity ->
  exists r,
    ProductionRun.simulate ds id order_quantity = Some r
    /\ 0 <= ProductionVWAP.total_filled (ProductionRun.sim r) <= order_quantity
    /\ Forall (fun s => 0 <= filled_quantity (snap_order s)
                        <= Z.max 0 (quantity (snap_order s)))
              (ProductionVWAP.snapshots (ProductionRun.sim r)).
Proof.
  intros Hpos _.
  pose proof (prod_simulate ds id order_quantity) as H.
  destruct (ProductionRun.simulate ds id order_quantity) as [r|]; [|lia].
  destruct H as (_ & (_ & (_ & _ & Hrows) & Ht & _) & _).
  exists r. split; [reflexivity|]. split; [lia|].
  eapply Forall_impl; [exact Hrows|].
  intros s (_ & _ & Hf). exact Hf.
Qed.

Lemma production_execution_never_overfills_witness :
  0 < 100000 /\ Py.exact_int 100000
  /\ exists r,
       ProductionRun.simulate even_draws "PROD_20241216_001" 100000 = Some r
       /\ 0 <= ProductionVWAP.total_filled (ProductionRun.sim r) <= 100000
       /\ Forall (fun s => 0 <= filled_quantity (snap_order s)
                           <= Z.max 0 (quantity (snap_order s)))
                 (ProductionVWAP.snapshots (ProductionRun.sim r)).
Proof.
  assert (Hex : Py.exact_int 100000) by (unfold Py.exact_int; simpl; lia).
  split; [lia|]. split; [exact Hex|].
  apply (production_execution_never_overfills even_draws
           "PROD_20241216_001" 100000); [lia | exact Hex].
Defined.

(** X22.  In the log of [generate_execution] the client rows
    ([order_level = 0]) never decrease in [filled_quantity], each lies
    between 0 and the total filled, and the last of them shows the
    total filled.  (The execution returns for every order quantity but
    zero that converts to a float exactly.) *)
Theorem production_execution_client_rows (ds : ProductionRun.draws)
    (id : string) (order_quantity : Z) :
  order_quantity <> 0 -> Py.exact_int order_quantity ->
  exists r,
    ProductionRun.simulate ds id order_quantity = Some r
    /\ let log := ProductionVWAP.snapshots (ProductionRun.sim r) in
       let total := ProductionVWAP.total_filled (ProductionRun.sim r) in
       nondecreasing (client_fills log)
       /\ last (client_fills log) = Some total
       /\ Forall (fun x => 0 <= x <= total) (client_fills log).
Proof.
  intros Hq _.
  pose proof (prod_simulate ds id order_quantity) as H.
  destruct (ProductionRun.simulate ds id order_quantity) as [r|]; [|contradiction].
  destruct H as (_ & (_ & (_ & _ & Hrows) & Ht & Hn & Hlast) & _).
  exists r. split; [reflexivity|]. cbv zeta.
  split; [exact Hn|]. split; [exact Hlast|].
  pose proof (nondecreasing_last_bound _ _ Hn Hlast) as Hle.
  unfold client_fills in *.
  set (log := ProductionVWAP.snapshots (ProductionRun.sim r)) in *.
  clearbody log. clear Hn Hlast.
  induction log as [|s log IH]; [constructor|].
  apply Forall_cons_1 in Hrows. destruct Hrows as [(_ & _ & Hs) Hrows].
  cbn zeta in Hs.
  destruct (decide (order_level (snap_order s) = 0)) as [Hl|Hl].
  - rewrite filter_cons_True in Hle |- * by exact Hl.
    cbn [map] in Hle |- *.
    apply Forall_cons_1 in Hle. destruct Hle as [Hx Hle].
    constructor; [lia|exact (IH Hrows Hle)].
  - rewrite filter_cons_False in Hle |- * by exact Hl.
    exact (IH Hrows Hle).
Qed.

Lemma production_execution_client_rows_witness :
  100000 <> 0 /\ Py.exact_int 100000
  /\ exists r,
       ProductionRun.simulate even_draws "PROD_20241216_001" 100000 = Some r
       /\ let log := ProductionVWAP.snapshots (ProductionRun.sim r) in
          let total := ProductionVWAP.total_filled (ProductionRun.sim r) in
          nondecreasing (client_fills log)
          /\ last (client_fills log) = Some total
          /\ Forall (fun x => 0 <= x <= total) (client_fills log).
Proof.
  assert (Hex : Py.exact_int 100000) by (unfold Py.exact_int; simpl; lia).
  split; [lia|]. split; [exact Hex|].
  apply (production_execution_client_rows even_draws
           "PROD_20241216_001" 100000); [lia | exact Hex].
Defined.

(** The run of [main]: 100000 shares, every draw in the middle. *)
Example production_execution_100000 :
  option_map
    (fun r =>
       (length (ProductionVWAP.snapshots (ProductionRun.sim r)),
        ProductionVWAP.total_filled (ProductionRun.sim r),
        client_fills (ProductionVWAP.snapshots (ProductionRun.sim r))))
    (ProductionRun.simulate even_draws "PROD_20241216_001" 100000)
  = Some (171%nat, 99997,
          [0; 0; 15000; 25000; 28999; 32998; 36997; 38747; 40497; 42247;
           43997; 45997; 47997; 49997; 51997; 54497; 56997; 59497; 61997;
           99997]).
Proof. vm_compute. reflexivity. Qed.

(** An order of no shares: the three opening rows, then the report
    raises. *)
Example production_execution_of_nothing :
  ProductionRun.simulate even_draws "PROD_20241216_001" 0 = None.
Proof. vm_compute. reflexivity. Qed.

(** ** The flow of [generate_realistic_vwap_flow] *)

(** A log whose record ids are [0, 1, 2, ...] is numbered in
    sequence. *)
Lemma sequential_from_ids (log : list snapshot) :
  map record_id log
  = map (fun i => Some (Z.of_nat i)) (seq 0 (length log)) ->
  sequential log.
Proof.
  intros Hids i s Hi.
  assert (Hlt : (i < length log)%nat) by (eapply lookup_lt_Some; exact Hi).
  assert (H1 : map record_id log !! i = Some (record_id s))
    by (rewrite list_lookup_fmap, Hi; reflexivity).
  rewrite Hids, list_lookup_fmap, lookup_seq_lt in H1 by exact Hlt.
  cbn in H1. injection H1 as H1. symmetry. exact H1.
Qed.

(** The numbers of the rows do not depend on the prices drawn. *)
Lemma realistic_flow_rows (ds : RealisticRun.draws) :
  let f :=
    for_each (RealisticRun.slice_body ds)
             (enumerate_from 1 RealisticRun.slices) RealisticRun.opened in
  RealisticFlow.total_filled f = 35000
  /\ map record_id (RealisticFlow.snapshots f)
     = map (fun i => Some (Z.of_nat i)) (seq 0 35)
  /\ map row_numbers (RealisticFlow.snapshots f)
     = [(0, "NEW", "PENDING", (50000, 0, 50000));
        (0, "ACCEPTED", "ACCEPTED", (50000, 0, 50000));
        (1, "NEW", "WORKING", (50000, 0, 50000));
        (2, "NEW", "PENDING", (15000, 0, 15000));
        (2, "ACCEPTED", "ACCEPTED", (15000, 0, 15000));
        (3, "NEW", "PENDING", (5000, 0, 5000));
        (3, "VENUE_ACCEPTED", "ACCEPTED", (5000, 0, 5000));
        (3, "VENUE_FILLED", "FILLED", (5000, 5000, 0));
        (3, "NEW", "PENDING", (5000, 0, 5000));
        (3, "VENUE_ACCEPTED", "ACCEPTED", (5000, 0, 5000));
        (3, "VENUE_FILLED", "FILLED", (5000, 5000, 0));
        (3, "NEW", "PENDING", (5000, 0, 5000));
        (3, "VENUE_ACCEPTED", "ACCEPTED", (5000, 0, 5000));
        (3, "VENUE_FILLED", "FILLED", (5000, 5000, 0));
        (2, "SLICE_COMPLETE", "FILLED", (15000, 15000, 0));
        (1, "ALGO_UPDATE", "WORKING", (50000, 15000, 35000));
        (0, "CLIENT_UPDATE", "WORKING", (50000, 15000, 35000));
        (2, "NEW", "PENDING", (20000, 0, 20000));
        (2, "ACCEPTED", "ACCEPTED", (20000, 0, 20000));
        (3, "NEW", "PENDING", (8000, 0, 8000));
        (3, "VENUE_FILLED", "FILLED", (8000, 8000, 0));
        (3, "NEW", "PENDING", (8000, 0, 8000));
        (3, "VENUE_FADE", "FADE", (8000, 0, 8000));
        (3, "NEW", "PENDING", (4000, 0, 4000));
        (3, "VENUE_PARTIAL", "PARTIAL", (4000, 1500, 2500));
        (3, "NEW_RETRY", "PENDING", (10500, 0, 10500));
        (3, "VENUE_FILLED", "FILLED", (10500, 10500, 0));
        (2, "SLICE_COMPLETE", "FILLED", (20000, 20000, 0));
        (1, "ALGO_UPDATE", "WORKING", (50000, 35000, 15000));
        (0, "CLIENT_UPDATE", "WORKING", (50000, 35000, 15000));
        (2, "NEW", "PENDING", (15000, 0, 15000));
        (2, "ACCEPTED", "ACCEPTED", (15000, 0, 15000));
        (2, "SLICE_COMPLETE", "PARTIAL", (15000, 0, 15000));
        (1, "ALGO_UPDATE", "WORKING", (50000, 35000, 15000));
        (0, "CLIENT_UPDATE", "WORKING", (50000, 35000, 15000))].
Proof.
  intros f. subst f. split; [|split]; vm_compute; reflexivity.
Qed.

(** A property of the numbers of the rows holds of the rows. *)
Lemma Forall_row_numbers (P : Z * string * string * (Z * Z * Z) -> Prop)
    (log : list snapshot) :
  Forall P (map row_numbers log) -> Forall (fun s => P (row_numbers s)) log.
Proof.
  induction log as [|s log IH]; intros H; [constructor|].
  cbn [map] in H. apply Forall_cons_1 in H. destruct H as [Hs H].
  constructor; [exact Hs|exact (IH H)].
Qed.

Lemma filter_row_numbers (P : Z * string * string * (Z * Z * Z) -> Prop)
    `{!forall x, Decision (P x)} (log : list snapshot) :
  map row_numbers (filter (fun s => P (row_numbers s)) log)
  = filter P (map row_numbers log).
Proof.
  induction log as [|s log IH]; [reflexivity|].
  cbn [map]. destruct (decide (P (row_numbers s))) as [Hs|Hs].
  - rewrite !filter_cons_True by exact Hs. cbn [map]. f_equal. exact IH.
  - rewrite !filter_cons_False by exact Hs. exact IH.
Qed.

Lemma filter_event_numbers (ev : string) (log : list snapshot) :
  map row_numbers (filter (fun s => event_type s = ev) log)
  = filter (fun x : Z * string * string * (Z * Z * Z) => x.1.1.2 = ev)
           (map row_numbers log).
Proof.
  exact (filter_row_numbers
           (fun x : Z * string * string * (Z * Z * Z) => x.1.1.2 = ev) log).
Qed.

Lemma filter_client_numbers (log : list snapshot) :
  map row_numbers (filter (fun s => order_level (snap_order s) = 0) log)
  = filter (fun x : Z * string * string * (Z * Z * Z) => x.1.1.1 = 0)
           (map row_numbers log).
Proof.
  exact (filter_row_numbers
           (fun x : Z * string * string * (Z * Z * Z) => x.1.1.1 = 0) log).
Qed.

Lemma final_client_numbers (log : list snapshot) :
  option_map row_numbers (final_client log)
  = last (filter (fun x : Z * string * string * (Z * Z * Z) => x.1.1.1 = 0)
                 (map row_numbers log)).
Proof.
  unfold final_client. rewrite <- filter_client_numbers.
  generalize (filter (fun s => order_level (snap_order s) = 0) log).
  intros l. induction l as [|a l IH]; [reflexivity|].
  destruct l as [|b l]; [reflexivity|]. exact IH.
Qed.

(** X23.  Whatever prices are drawn, [generate_realistic_vwap_flow]
    leaves its order of 50000 shares open: the first two slices fill
    15000 and 20000 shares, but the scenario ['partial_fills'] of the
    third has no branch, so that slice routes nothing and is closed as
    [PARTIAL] with 0 of 15000 filled.  The flow ends with 35000 shares
    filled; every client row is [PENDING], [ACCEPTED] or [WORKING], and
    the last one shows 35000 filled and 15000 remaining. *)
Theorem realistic_flow_leaves_order_open (ds : RealisticRun.draws) :
  exists f,
    RealisticRun.generate_realistic_vwap_flow ds = Some f
    /\ RealisticFlow.total_filled f = 35000
    /\ map row_numbers
           (filter (fun s => event_type s = "SLICE_COMPLETE")
                   (RealisticFlow.snapshots f))
       = [(2, "SLICE_COMPLETE", "FILLED", (15000, 15000, 0));
          (2, "SLICE_COMPLETE", "FILLED", (20000, 20000, 0));
          (2, "SLICE_COMPLETE", "PARTIAL", (15000, 0, 15000))]
    /\ Forall (fun s => order_level (snap_order s) = 0 ->
                        state (snap_order s) <> "FILLED")
              (RealisticFlow.snapshots f)
    /\ option_map row_numbers (final_client (RealisticFlow.snapshots f))
       = Some (0, "CLIENT_UPDATE", "WORKING", (50000, 35000, 15000)).
Proof.
  destruct (realistic_flow_rows ds) as (Ht & _ & Hrows).
  unfold RealisticRun.generate_realistic_vwap_flow.
  set (f := for_each _ _ _) in *. clearbody f.
  rewrite Ht. cbn [Z.eqb]. exists f.
  split; [reflexivity|]. split; [exact Ht|]. split; [|split].
  - rewrite filter_event_numbers, Hrows. vm_compute. reflexivity.
  - apply (Forall_row_numbers
             (fun x => x.1.1.1 = 0 -> x.1.2 <> "FILLED")).
    rewrite Hrows.
    repeat (constructor; [cbn; intros H; try discriminate H;
                          discriminate|]).
    constructor.
  - rewrite final_client_numbers, Hrows. vm_compute. reflexivity.
Qed.

(** X24.  Whatever prices are drawn, the log of
    [generate_realistic_vwap_flow] has 35 rows, row [i] with the record
    id [i], and every row (client, algo parent, slice and route)
    satisfies [filled_quantity + remaining_quantity = quantity]; it
    shows one fade, one partial fill and one retry, and the retry asks
    for the 10500 shares the first attempt of the second slice left
    over. *)
Theorem realistic_flow_log_accounting (ds : RealisticRun.draws) :
  exists f,
    RealisticRun.generate_realistic_vwap_flow ds = Some f
    /\ length (RealisticFlow.snapshots f) = 35%nat
    /\ sequential (RealisticFlow.snapshots f)
    /\ Forall (fun s => conserved (snap_order s)) (RealisticFlow.snapshots f)
    /\ count_event "VENUE_FADE" (RealisticFlow.snapshots f) = 1%nat
    /\ count_event "VENUE_PARTIAL" (RealisticFlow.snapshots f) = 1%nat
    /\ map row_numbers
           (filter (fun s => event_type s = "NEW_RETRY")
                   (RealisticFlow.snapshots f))
       = [(3, "NEW_RETRY", "PENDING", (10500, 0, 10500))].
Proof.
  destruct (realistic_flow_rows ds) as (Ht & Hids & Hrows).
  unfold RealisticRun.generate_realistic_vwap_flow.
  set (f := for_each _ _ _) in *. clearbody f.
  rewrite Ht. cbn [Z.eqb]. exists f.
  assert (Hlen : length (RealisticFlow.snapshots f) = 35%nat).
  { rewrite <- (length_map row_numbers), Hrows. reflexivity. }
  assert (Hcount : forall ev,
             count_event ev (RealisticFlow.snapshots f)
             = length (filter (fun x : Z * string * string * (Z * Z * Z) =>
                                 x.1.1.2 = ev)
                              (map row_numbers (RealisticFlow.snapshots f)))).
  { intros ev. unfold count_event.
    rewrite <- filter_event_numbers, length_map. reflexivity. }
  split; [reflexivity|]. split; [exact Hlen|]. split; [|split; [|split; [|split]]].
  - apply sequential_from_ids. rewrite Hlen. exact Hids.
  - apply (Forall_row_numbers
             (fun x => x.2.1.2 + x.2.2 = x.2.1.1)).
    rewrite Hrows. repeat (constructor; [cbn; lia|]). constructor.
  - rewrite Hcount, Hrows. vm_compute. reflexivity.
  - rewrite Hcount, Hrows. vm_compute. reflexivity.
  - rewrite filter_event_numbers, Hrows. vm_compute. reflexivity.
Qed.

(** ** The schedule outside the trading day *)

Lemma slice_to_length {A} (n : Z) (l : list A) :
  Z.of_nat (length (ProductionVWAP.slice_to n l))
  = (if 0 <=? n then Z.min n (Z.of_nat (length l))
     else Z.max 0 (Z.of_nat (length l) + n)).
Proof.
  unfold ProductionVWAP.slice_to.
  destruct (0 <=? n) eqn:Hn; rewrite length_take.
  - apply Z.leb_le in Hn. lia.
  - apply Z.leb_gt in Hn. lia.
Qed.

(** X25.  [calculate_vwap_schedule] for any total quantity that
    converts to a float exactly, of either sign, and any
    number of hours: the schedule has as many periods as
    [participation[:hours]] (at most the eight of the curve; a negative
    number of hours drops periods from the end), it raises the
    [IndexError] of [schedule[-1]] exactly when that is none ([hours]
    is zero, or -8 and below), and otherwise the periods sum to the
    total quantity, also for a negative one. *)
Theorem calculate_vwap_schedule_any_hours (total_quantity hours : Z) :
  Py.exact_int total_quantity ->
  match ProductionVWAP.calculate_vwap_schedule total_quantity hours with
  | Some schedule =>
      0 < periods hours
      /\ Z.of_nat (length schedule) = periods hours
      /\ Py.zsum schedule = total_quantity
  | None => periods hours = 0 /\ (hours = 0 \/ hours <= -8)
  end.
Proof.
  intros _.
  unfold ProductionVWAP.calculate_vwap_schedule.
  pose proof (slice_to_length hours ProductionVWAP.participation) as Hlen.
  change (Z.of_nat (length ProductionVWAP.participation)) with 8 in Hlen.
  fold (periods hours) in Hlen.
  rewrite <- (length_map (fun pct => Py.int_mul total_quantity pct)) in Hlen.
  destruct (map _ (ProductionVWAP.slice_to hours ProductionVWAP.participation))
    as [|x schedule] eqn:Hs.
  - cbn [length] in Hlen. split; [lia|]. unfold periods in *.
    destruct (0 <=? hours) eqn:Hh;
      [apply Z.leb_le in Hh|apply Z.leb_gt in Hh]; lia.
  - split; [cbn [length] in Hlen; lia|]. split.
    + rewrite <- Hlen, length_app, removelast_firstn_len.
      change firstn with (@take Z). rewrite length_take. cbn [length]. lia.
    + rewrite zsum_app, zsum_cons. change (Py.zsum []) with 0. lia.
Qed.

Lemma calculate_vwap_schedule_any_hours_witness :
  Py.exact_int (-1000)
  /\ match ProductionVWAP.calculate_vwap_schedule (-1000) 2 with
     | Some schedule =>
         0 < periods 2
         /\ Z.of_nat (length schedule) = periods 2
         /\ Py.zsum schedule = -1000
     | None => periods 2 = 0 /\ (2 = 0 \/ 2 <= -8)
     end.
Proof.
  assert (Hex : Py.exact_int (-1000)) by (unfold Py.exact_int; simpl; lia).
  split; [exact Hex|].
  apply (calculate_vwap_schedule_any_hours (-1000) 2). exact Hex.
Defined.

(** Nine hours give the eight periods of the curve; minus two hours
    give six. *)
Example schedule_outside_the_day :
  ProductionVWAP.calculate_vwap_schedule 1000 9
  = Some [150; 100; 80; 70; 80; 100; 120; 300]
  /\ ProductionVWAP.calculate_vwap_schedule 1000 (-2)
     = Some [150; 100; 80; 70; 80; 520]
  /\ ProductionVWAP.calculate_vwap_schedule (-1000) 2 = Some [-150; -850]
  /\ ProductionVWAP.calculate_vwap_schedule 1000 (-8) = None.
Proof. vm_compute. repeat split; reflexivity. Qed.

(** ** The number of routes of the enhanced router *)

(** One venue of a pass sends at most one route. *)
Lemma sor_venue_body_count (fd : EnhancedSOR.feed) (algo_child : order)
    (liquidity : list (string * Z)) (price : float)
    (instruction : EnhancedSOR.OrderInstruction) (venue_name : string)
    (st : EnhancedSOR.routing) :
  match EnhancedSOR.venue_body fd algo_child liquidity price instruction
          venue_name st with
  | Next st' | Break st' =>
      EnhancedSOR.max_retries (EnhancedSOR.rt_router st')
      = EnhancedSOR.max_retries (EnhancedSOR.rt_router st)
      /\ EnhancedSOR.retry_count st' = EnhancedSOR.retry_count st
      /\ (length (EnhancedSOR.execution_records st')
          <= S (length (EnhancedSOR.execution_records st)))%nat
  end.
Proof.
  unfold EnhancedSOR.venue_body.
  destruct (EnhancedSOR.remaining_qty st <=? 0);
    [repeat split; lia|].
  destruct (_ <=? 0); [repeat split; lia|].
  cbn [EnhancedSOR.create_sor_order].
  destruct (EnhancedSOR.venues _ !! venue_name) as [fade_probability|];
    [|cbn; repeat split; lia].
  match goal with
  | |- context [EnhancedSOR.execute_order fd venue_name fade_probability ?so
                  instruction ?r1] =>
      pose proof (execute_order_spec fd venue_name fade_probability so
                    instruction r1) as Hex;
      destruct (EnhancedSOR.execute_order fd venue_name fade_probability so
                  instruction r1) as [[[resp qty] fill_price] r']
  end.
  destruct Hex as [-> _].
  destruct (0 <? qty); cbn; rewrite length_app; cbn; repeat split; lia.
Qed.

Lemma sor_venue_loop_count (fd : EnhancedSOR.feed) (algo_child : order)
    (liquidity : list (string * Z)) (price : float)
    (instruction : EnhancedSOR.OrderInstruction)
    (selected_venues : list string) (st : EnhancedSOR.routing) :
  let st' :=
    for_each (EnhancedSOR.venue_body fd algo_child liquidity price
                instruction) selected_venues st in
  EnhancedSOR.max_retries (EnhancedSOR.rt_router st')
  = EnhancedSOR.max_retries (EnhancedSOR.rt_router st)
  /\ EnhancedSOR.retry_count st' = EnhancedSOR.retry_count st
  /\ (length (EnhancedSOR.execution_records st')
      <= length (EnhancedSOR.execution_records st)
         + length selected_venues)%nat.
Proof.
  revert st. induction selected_venues as [|v vs IH]; intros st;
    cbn [for_each length].
  - repeat split; lia.
  - pose proof (sor_venue_body_count fd algo_child liquidity price
                  instruction v st) as Hb.
    destruct (EnhancedSOR.venue_body fd algo_child liquidity price
                instruction v st) as [s1|s1].
    + destruct Hb as (H1 & H2 & H3).
      destruct (IH s1) as (I1 & I2 & I3).
      split; [congruence|]. split; [congruence|lia].
    + destruct Hb as (H1 & H2 & H3).
      split; [exact H1|]. split; [exact H2|lia].
Qed.

(** A pass begun while the loop condition holds. *)
Lemma sor_routing_pass_count (fd : EnhancedSOR.feed) (algo_child : order)
    (r0 : EnhancedSOR.router) (st : EnhancedSOR.routing) :
  sor_count r0 st ->
  EnhancedSOR.continues st = true ->
  sor_count r0 (EnhancedSOR.routing_pass fd algo_child st).
Proof.
  intros (Hmax & Hretry & Hpasses & Hlen) Hcont.
  unfold EnhancedSOR.continues in Hcont.
  apply andb_true_iff in Hcont. destruct Hcont as [Hcont Hnf].
  apply andb_true_iff in Hcont. destruct Hcont as [_ Hle].
  apply Z.leb_le in Hle. apply negb_true_iff in Hnf.
  unfold passes_begun in Hpasses, Hlen. rewrite Hnf in Hpasses, Hlen.
  unfold EnhancedSOR.routing_pass. cbn [EnhancedSOR.market_tick].
  destruct (EnhancedSOR.prices fd
              (EnhancedSOR.ticks (EnhancedSOR.rt_router st)))
    as [[price bid] ask].
  set (sel := map fst (take 3 (EnhancedSOR.sorted_desc _))).
  assert (Hsel : (length sel <= 3)%nat)
    by (unfold sel; rewrite length_map, length_take; lia).
  clearbody sel.
  match goal with
  | |- context [for_each (EnhancedSOR.venue_body _ _ ?liq _ ?i) ?idxs ?s0] =>
      pose proof (sor_venue_loop_count fd algo_child liq price i idxs s0)
        as Hloop;
      cbv zeta in Hloop;
      destruct (for_each (EnhancedSOR.venue_body fd algo_child liq price i)
                         idxs s0) as [r1 recs tf rem rc rf fl]
  end.
  cbn in Hloop. destruct Hloop as (H1 & H2 & H3).
  unfold sor_count, passes_begun. destruct fl; cbn.
  - split; [congruence|]. split; [lia|]. split; lia.
  - split; [congruence|]. split; [lia|]. split; lia.
Qed.

Lemma sor_route_loop_count (fd : EnhancedSOR.feed) (algo_child : order)
    (r0 : EnhancedSOR.router) (fuel : nat) (st : EnhancedSOR.routing) :
  sor_count r0 st ->
  sor_count r0 (EnhancedSOR.route_loop fd algo_child fuel st).
Proof.
  revert st. induction fuel as [|fuel IH]; intros st Hst;
    cbn [EnhancedSOR.route_loop]; [exact Hst|].
  destruct (EnhancedSOR.continues st) eqn:Hcont; [|exact Hst].
  apply IH. apply sor_routing_pass_count; assumption.
Qed.

(** X26.  [EnhancedSmartOrderRouter.route_order] sends at most three
    routes in each pass and makes at most [max_retries + 1] passes: on
    a router that has every venue the market quotes it returns at most
    [3 * (max_retries + 1)] execution records (nine for the router of
    the simulation), whatever the liquidity, the fades and the size of
    the slice. *)
Theorem enhanced_router_bounds_its_routes (fd : EnhancedSOR.feed)
    (algo_child : order) (r : EnhancedSOR.router) :
  knows_venues r ->
  exists recs filled r',
    EnhancedSOR.route_order fd algo_child r = Some (recs, filled, r')
    /\ Z.of_nat (length recs) <= 3 * Z.max 0 (EnhancedSOR.max_retries r + 1).
Proof.
  intros Hk.
  destruct (sor_route_final_log False fd algo_child r ltac:(intros []))
    as (_ & _ & _ & _ & _ & _ & Hnf).
  specialize (Hnf Hk).
  assert (Hcount : sor_count r (EnhancedSOR.route_final fd algo_child r)).
  { unfold EnhancedSOR.route_final. apply sor_route_loop_count.
    unfold sor_count, passes_begun. cbn. repeat split; lia. }
  unfold EnhancedSOR.route_order. rewrite Hnf.
  do 3 eexists. split; [reflexivity|].
  destruct Hcount as (_ & _ & Hpasses & Hlen).
  unfold passes_begun in *. rewrite Hnf in *. lia.
Qed.

Lemma enhanced_router_bounds_its_routes_witness :
  let algo_child := new_order "ALGO_001" None 2 5000 "PENDING" None None in
  let r := EnhancedSOR.simulation_router 0.5 in
  knows_venues r
  /\ exists recs filled r',
       EnhancedSOR.route_order thin_market algo_child r
       = Some (recs, filled, r')
       /\ Z.of_nat (length recs) <= 3 * Z.max 0 (2 + 1).
Proof.
  intros algo_child r.
  split; [apply simulation_router_knows_venues|].
  apply (enhanced_router_bounds_its_routes thin_market algo_child r).
  apply simulation_router_knows_venues.
Defined.

(** A market whose liquidity comes and goes: three passes of three
    routes each. *)
Example enhanced_router_nine_routes :
  let fd :=
    EnhancedSOR.Feed (fun _ => (650, 649.99, 650.01)%float)
      (fun n _ => if n <? 1 then 500 else if Z.even n then 500 else 0)
      (fun _ => 2 ^ 53 - 1) (fun _ => 2 ^ 53 - 1) in
  let algo_child := new_order "ALGO_001" None 2 5000 "PENDING" None None in
  option_map (fun '(recs, filled, _) => (length recs, filled))
             (EnhancedSOR.route_order fd algo_child
                (EnhancedSOR.simulation_router 0.5))
  = Some (9%nat, 1500).
Proof. vm_compute. reflexivity. Qed.

(** ** The venue statistics of [run_sor_simulation] *)

Lemma total_of_cons (p : EnhancedSOR.execution_record -> bool)
    (weight : EnhancedSOR.execution_record -> Z)
    (e : EnhancedSOR.execution_record)
    (recs : list EnhancedSOR.execution_record) :
  total_of p weight (e :: recs)
  = (if p e then weight e else 0) + total_of p weight recs.
Proof. unfold total_of. cbn [map]. apply zsum_cons. Qed.

Lemma total_of_nil (p : EnhancedSOR.execution_record -> bool)
    (weight : EnhancedSOR.execution_record -> Z) :
  total_of p weight [] = 0.
Proof. reflexivity. Qed.

(** Nothing is counted for a venue without executions. *)
Lemma total_of_elsewhere (v : string)
    (q : EnhancedSOR.execution_record -> bool)
    (weight : EnhancedSOR.execution_record -> Z)
    (recs : list EnhancedSOR.execution_record) :
  existsb (at_venue v) recs = false ->
  total_of (fun e => at_venue v e && q e) weight recs = 0.
Proof.
  induction recs as [|e recs IH]; intros Hnone; [reflexivity|].
  cbn [existsb] in Hnone. apply orb_false_iff in Hnone.
  destruct Hnone as [He Hnone].
  rewrite total_of_cons, He, (IH Hnone). reflexivity.
Qed.

Lemma stat_of_elsewhere (v : string)
    (recs : list EnhancedSOR.execution_record) :
  existsb (at_venue v) recs = false ->
  stat_of v recs = SorAnalysis.VenueStat 0 0 0 0.
Proof.
  intros Hnone. unfold stat_of.
  rewrite !(total_of_elsewhere v _ _ recs Hnone).
  replace (total_of (at_venue v) (fun _ => 1) recs)
    with (total_of (fun e => at_venue v e && true) (fun _ => 1) recs).
  - rewrite (total_of_elsewhere v (fun _ => true) _ recs Hnone). reflexivity.
  - unfold total_of. f_equal. apply map_ext. intros e.
    rewrite andb_true_r. reflexivity.
Qed.

(** One execution tallied. *)
Lemma tally_lookup (m : gmap string SorAnalysis.venue_stat)
    (e : EnhancedSOR.execution_record) (v : string) :
  SorAnalysis.tally m e !! v
  = (if at_venue v e
     then Some (add_stat
                  (match m !! v with
                   | Some s => s
                   | None => SorAnalysis.VenueStat 0 0 0 0
                   end)
                  (stat_of v [e]))
     else m !! v).
Proof.
  unfold SorAnalysis.tally, at_venue.
  destruct (String.eqb (EnhancedSOR.er_venue e) v) eqn:Hv.
  - apply String.eqb_eq in Hv. subst v. rewrite lookup_insert_eq.
    f_equal. unfold add_stat, stat_of, total_of, at_venue, answered.
    cbn [map]. rewrite String.eqb_refl. cbn [andb].
    rewrite !zsum_cons. change (Py.zsum []) with 0.
    destruct (m !! EnhancedSOR.er_venue e) as [s|];
      destruct (EnhancedSOR.response e); cbn; f_equal; lia.
  - apply String.eqb_neq in Hv. rewrite lookup_insert_ne by exact Hv.
    reflexivity.
Qed.

Lemma stat_of_cons (v : string) (e : EnhancedSOR.execution_record)
    (recs : list EnhancedSOR.execution_record) :
  stat_of v (e :: recs) = add_stat (stat_of v [e]) (stat_of v recs).
Proof.
  unfold stat_of, add_stat. cbn [SorAnalysis.attempts SorAnalysis.fills
    SorAnalysis.fades SorAnalysis.volume].
  rewrite !(total_of_cons _ _ e recs), !(total_of_cons _ _ e []).
  rewrite !total_of_nil. f_equal; lia.
Qed.

Lemma add_stat_assoc (a b c : SorAnalysis.venue_stat) :
  add_stat (add_stat a b) c = add_stat a (add_stat b c).
Proof. unfold add_stat. cbn. f_equal; lia. Qed.

Lemma add_stat_zero (a : SorAnalysis.venue_stat) :
  add_stat a (SorAnalysis.VenueStat 0 0 0 0) = a.
Proof. destruct a. unfold add_stat. cbn. f_equal; lia. Qed.

(** The loop over the executions, from any statistics. *)
Lemma tally_fold (recs : list EnhancedSOR.execution_record) :
  forall (m : gmap string SorAnalysis.venue_stat) (v : string),
    fold_left SorAnalysis.tally recs m !! v
    = (if existsb (at_venue v) recs
       then Some (add_stat
                    (match m !! v with
                     | Some s => s
                     | None => SorAnalysis.VenueStat 0 0 0 0
                     end)
                    (stat_of v recs))
       else m !! v).
Proof.
  induction recs as [|e recs IH]; intros m v; cbn [fold_left existsb];
    [reflexivity|].
  rewrite IH, stat_of_cons, tally_lookup.
  destruct (at_venue v e) eqn:Hv; cbn [orb].
  - destruct (existsb (at_venue v) recs) eqn:Hex.
    + rewrite add_stat_assoc. reflexivity.
    + rewrite (stat_of_elsewhere v recs Hex), !add_stat_zero. reflexivity.
  - rewrite (stat_of_elsewhere v [e]) by (cbn; rewrite Hv; reflexivity).
    destruct (existsb (at_venue v) recs); [|reflexivity].
    reflexivity.
Qed.

(** X27.  The venue statistics of [run_sor_simulation] are these, for
    any execution records: a venue has an entry exactly when an
    execution went to it; [attempts] counts its executions, [fills]
    the [FILLED] and [fades] the [FADE] ones among them, and [volume]
    adds up the fills of the [FILLED] ones only: the shares of a
    [PARTIAL] execution are in no venue's volume. *)
Theorem venue_stats_count_filled_only
    (all_executions : list EnhancedSOR.execution_record) (v : string) :
  SorAnalysis.venue_stats all_executions !! v
  = (if existsb (at_venue v) all_executions
     then Some (stat_of v all_executions) else None).
Proof.
  unfold SorAnalysis.venue_stats. rewrite tally_fold, lookup_empty.
  destruct (existsb _ _); reflexivity.
Qed.

(** The executions of the thin market: the partial fill at ARCA is an
    attempt without volume. *)
Example venue_stats_of_a_partial_fill :
  let recs :=
    [EnhancedSOR.ExecutionRecord "SOR_05000" "NYSE" EnhancedSOR.EOE 3000 3000
       650.01 EnhancedSOR.R_FILLED 0;
     EnhancedSOR.ExecutionRecord "SOR_05001" "ARCA" EnhancedSOR.EOE 2000 500
       650.01 EnhancedSOR.R_PARTIAL 0;
     EnhancedSOR.ExecutionRecord "SOR_05002" "NYSE" EnhancedSOR.IOC 1500 0
       0 EnhancedSOR.R_FADE 1] in
  SorAnalysis.venue_stats recs !! "NYSE"
  = Some (SorAnalysis.VenueStat 2 1 1 3000)
  /\ SorAnalysis.venue_stats recs !! "ARCA"
     = Some (SorAnalysis.VenueStat 1 0 0 0)
  /\ SorAnalysis.venue_stats recs !! "DARK" = None.
Proof. vm_compute. repeat split; reflexivity. Qed.
